(** * PyMca5.PyMcaPhysics.xrf.McaStackView: slice algebra, chunk planners
      and chunked views, embedded in Rocq.

    Python integers are unbounded, so they are modelled by [Z]; Python's
    floor division [//] and modulo [%] coincide with [Z.div] and [Z.modulo]
    (the remainder takes the sign of the divisor).  Exceptions are modelled
    by an error monad. *)

From Stdlib Require Import ZArith List Bool Lia String Permutation Sorted.
From Stdlib Require Import QArith Qround.
Import ListNotations.
Open Scope Z_scope.

(** ** Exceptions and the error monad *)

Inductive exn : Type :=
| ValueError (msg : string)
| TypeError
| IndexError
| AttributeError
| ZeroDivisionError
| OverflowError.

Inductive result (A : Type) : Type :=
| Ok (a : A)
| Err (e : exn).
Arguments Ok {A} a.
Arguments Err {A} e.

Definition bind {A B} (m : result A) (k : A -> result B) : result B :=
  match m with
  | Ok a => k a
  | Err e => Err e
  end.

Notation "x <- m ;; k" := (bind m (fun x => k))
  (at level 61, m at next level, right associativity).
Notation "' pat <- m ;; k" := (bind m (fun x => match x with pat => k end))
  (at level 61, pat pattern, m at next level, right associativity).

Fixpoint mapM {A B} (f : A -> result B) (l : list A) : result (list B) :=
  match l with
  | [] => Ok []
  | x :: xs => y <- f x ;; ys <- mapM f xs ;; Ok (y :: ys)
  end.

Definition is_ok {A} (r : result A) : bool :=
  match r with Ok _ => true | Err _ => false end.

(** ** Python built-ins used by the module *)

(** A [slice] object: each field is an integer or [None]. *)
Record slice : Type := mkSlice {
  slice_start : option Z;
  slice_stop : option Z;
  slice_step : option Z
}.

(** [slice(None)] *)
Definition slice_all : slice := mkSlice None None None.

(** [slice.indices(length)], after CPython's [_PySlice_GetLongIndices]. *)
Definition slice_indices (slc : slice) (length : Z) : result (Z * Z * Z) :=
  let step := match slice_step slc with None => 1 | Some s => s end in
  if step =? 0 then Err (ValueError "slice step cannot be zero")
  else if length <? 0 then Err (ValueError "length should not be negative")
  else
    let lower := if step <? 0 then -1 else 0 in
    let upper := if step <? 0 then length - 1 else length in
    let clip (v : Z) :=
      if v <? 0 then Z.max (v + length) lower else Z.min v upper in
    let start :=
      match slice_start slc with
      | None => if step <? 0 then upper else lower
      | Some v => clip v
      end in
    let stop :=
      match slice_stop slc with
      | None => if step <? 0 then lower else upper
      | Some v => clip v
      end in
    Ok (start, stop, step).

(** [range(start, stop, step)] materialised as a list: the loop
    [a = start; while a is before stop: emit a; a += step]. *)
Fixpoint range_loop (fuel : nat) (a stop step : Z) : list Z :=
  match fuel with
  | O => []
  | S fuel' =>
      if (if step <? 0 then stop <? a else a <? stop)
      then a :: range_loop fuel' (a + step) stop step
      else []
  end.

Definition py_range (start stop step : Z) : list Z :=
  range_loop (Z.to_nat (Z.abs (stop - start))) start stop step.

(** [seq[i]] for an integer [i]: negative indices count from the end. *)
Definition py_index {A} (l : list A) (i : Z) : result A :=
  let n := Z.of_nat (List.length l) in
  let j := if i <? 0 then i + n else i in
  if (0 <=? j) && (j <? n) then
    match nth_error l (Z.to_nat j) with
    | Some x => Ok x
    | None => Err IndexError
    end
  else Err IndexError.

(** [seq[slc]] for a slice: the items at the range of [slc.indices(len(seq))]. *)
Definition py_getslice {A} (l : list A) (slc : slice) : result (list A) :=
  '(start, stop, step) <- slice_indices slc (Z.of_nat (List.length l)) ;;
  mapM (py_index l) (py_range start stop step).

(** ** Slice algebra *)

Definition sliceNormalize (slc : slice) (n : Z) : result slice :=
  '(start, stop, step) <- slice_indices slc n ;;
  let stop' :=
    match slice_stop slc with
    | None => if step <? 0 then None else Some stop
    | Some _ => Some stop
    end in
  Ok (mkSlice (Some start) stop' (Some step)).

Definition sliceLen (slc : slice) (n : Z) : result Z :=
  '(start, stop, step) <- slice_indices slc n ;;
  let one := if step <? 0 then -1 else 1 in
  Ok (Z.max 0 ((stop - start + step - one) / step)).

Definition sliceReverse (slc : slice) (n : Z) : result slice :=
  '(start, stop, step) <- slice_indices slc n ;;
  let one := if step <? 0 then 1 else -1 in
  let stop := (stop - start + one) / step * step + start in
  let start := start + one in
  let start := if start =? -1 then None else Some start in
  Ok (mkSlice (Some stop) start (Some (- step))).

(** [list(range(n))[slc]] *)
Definition expand (slc : slice) (n : Z) : result (list Z) :=
  py_getslice (py_range 0 n 1) slc.

(** Length of the materialised index list
    [len(list(range( *slc.indices(n) )))]. *)
Definition materializedLen (slc : slice) (n : Z) : result Z :=
  '(start, stop, step) <- slice_indices slc n ;;
  Ok (Z.of_nat (List.length (py_range start stop step))).

(** [list(range(n))[sliceReverse(slc, n)]] *)
Definition expandReverse (slc : slice) (n : Z) : result (list Z) :=
  r <- sliceReverse slc n ;; expand r n.

(** [list(reversed(list(range(n))[slc]))] *)
Definition reversedExpand (slc : slice) (n : Z) : result (list Z) :=
  l <- expand slc n ;; Ok (rev l).

(** ** More built-ins: loops with exceptions, item assignment, sorting *)

(** A [for] loop threading a state, stopped by the first exception. *)
Fixpoint foldM {S A} (f : S -> A -> result S) (l : list A) (s : S) : result S :=
  match l with
  | [] => Ok s
  | x :: xs => s' <- f s x ;; foldM f xs s'
  end.

(** [a // b] and [a % b]. *)
Definition py_floordiv (a b : Z) : result Z :=
  if b =? 0 then Err ZeroDivisionError else Ok (a / b).

Definition py_mod (a b : Z) : result Z :=
  if b =? 0 then Err ZeroDivisionError else Ok (a mod b).

(** [int(bool(x))] on an integer. *)
Definition int_bool (x : Z) : Z := if x =? 0 then 0 else 1.

(** [x in seq] for integers. *)
Definition py_in (x : Z) (l : list Z) : bool := existsb (Z.eqb x) l.

Fixpoint set_nth {A} (l : list A) (k : nat) (v : A) : list A :=
  match l, k with
  | [], _ => []
  | _ :: xs, O => v :: xs
  | x :: xs, S k' => x :: set_nth xs k' v
  end.

(** [seq[i] = v]: negative indices count from the end, an index out of
    range raises [IndexError]. *)
Definition py_setitem {A} (l : list A) (i : Z) (v : A) : result (list A) :=
  let n := Z.of_nat (List.length l) in
  let j := if i <? 0 then i + n else i in
  if (0 <=? j) && (j <? n) then Ok (set_nth l (Z.to_nat j) v)
  else Err IndexError.

(** [seq.insert(i, v)]: the position is clipped to the list. *)
Definition py_insert {A} (l : list A) (i : Z) (v : A) : list A :=
  let n := Z.of_nat (List.length l) in
  let j := if i <? 0 then Z.max (i + n) 0 else Z.min i n in
  firstn (Z.to_nat j) l ++ v :: skipn (Z.to_nat j) l.

(** [sorted(seq)] on integers. *)
Fixpoint insert_sorted (x : Z) (l : list Z) : list Z :=
  match l with
  | [] => [x]
  | y :: ys => if x <=? y then x :: l else y :: insert_sorted x ys
  end.

Definition sorted (l : list Z) : list Z := fold_right insert_sorted [] l.

Fixpoint list_eqb (l1 l2 : list Z) : bool :=
  match l1, l2 with
  | [], [] => true
  | x :: xs, y :: ys => (x =? y) && list_eqb xs ys
  | _, _ => false
  end.

(** [itertools.product( *iterables )]: the last iterable varies fastest. *)
Fixpoint product {A} (ls : list (list A)) : list (list A) :=
  match ls with
  | [] => [[]]
  | l :: rest => flat_map (fun x => map (cons x) (product rest)) l
  end.

(** ** Chunk planners *)

(** An entry of an index tuple: [None], a slice or a list of integers. *)
Inductive index : Type :=
| INone
| ISlice (s : slice)
| IList (l : list Z).

(** A chunk descriptor [(index, shape, count)]. *)
Definition Chunk : Type := (list index * list (option Z) * Z)%type.

Definition chunkIndexGen (start stop : Z) (step : option Z)
  : result (list (slice * Z)) :=
  let step := match step with None => 1 | Some s => s end in
  if step =? 0 then Err (ValueError "range() arg 3 must not be zero")
  else
    let func := if step <? 0 then Z.max else Z.min in
    let one := if step <? 0 then -1 else 1 in
    Ok (map (fun a =>
               let b := func (a + step) stop in
               let n := Z.abs (b - a) in
               let b' := if b =? -1 then None else Some b in
               (mkSlice (Some a) b' (Some one), n))
            (py_range start stop step)).

Definition possitive_index (i n : Z) : result Z :=
  if i <? 0 then
    q <- py_floordiv (- i) n ;;
    Ok (i + Z.max q 1 * n)
  else Ok i.

(** Keyword arguments of [chunkIndexParameters]. *)
Record kwargs : Type := mkKwargs {
  kw_chunkAxes : option (list Z);
  kw_axesOrder : option (list Z);
  kw_chunkAxesSlice : option (list slice);
  kw_defaultOrder : string
}.

Definition chunkIndexParameters (shape : list Z) (nChunksMax : Z) (kw : kwargs)
  : result (Z * list Z * list Z * list slice) :=
  let ndim := Z.of_nat (List.length shape) in
  let chunkAxes := match kw_chunkAxes kw with None => [] | Some l => l end in
  chunkAxes <- mapM (fun i => possitive_index i ndim) chunkAxes ;;
  chunkAxesSlice <-
    match kw_chunkAxesSlice kw with
    | None => Ok (repeat slice_all (List.length chunkAxes))
    | Some l =>
        if negb (List.length chunkAxes =? List.length l)%nat
        then Err (ValueError
                    "Chunk slicing does not correspond with chunk dimensions")
        else Ok l
    end ;;
  let aAxesOrder := py_range 0 ndim 1 in
  let aAxesOrder :=
    if String.eqb (kw_defaultOrder kw) "C" then rev aAxesOrder
    else aAxesOrder in
  let aAxesOrder := filter (fun i => negb (py_in i chunkAxes)) aAxesOrder in
  axesOrder <-
    match kw_axesOrder kw with
    | None => Ok aAxesOrder
    | Some l =>
        axesOrder <- mapM (fun i => possitive_index i ndim) l ;;
        if negb (list_eqb (sorted axesOrder) (sorted aAxesOrder))
        then Err (ValueError "axesOrder and chunkAxes do not correspond")
        else Ok axesOrder
    end ;;
  let nChunksMax := Z.max nChunksMax 1 in
  Ok (nChunksMax, chunkAxes, axesOrder, chunkAxesSlice).

(** Body of the loop of [fullChunkIndex] over [axesOrder]; the state is
    [(nItems, nBuffer, chunkIndex2)]. *)
Definition fullChunkIndex_axis (shape : list Z) (nChunksMax : Z)
    (st : Z * Z * list (list (slice * Z))) (axis : Z)
  : result (Z * Z * list (list (slice * Z))) :=
  let '(nItems, nBuffer, chunkIndex2) := st in
  nAxis <- py_index shape axis ;;
  let nItemsNew := nItems * nAxis in
  '(idxAxis, nBuffer) <-
    (if nItemsNew <=? nChunksMax then
       Ok ([(slice_all, nAxis)], nBuffer * nAxis)
     else if nChunksMax <? nItems then
       idxAxis <- chunkIndexGen 0 nAxis (Some 1) ;;
       Ok (idxAxis, nBuffer)
     else
       step <- py_floordiv nChunksMax nItems ;;
       q <- py_floordiv nAxis step ;;
       r <- py_mod nAxis step ;;
       let n := q + int_bool r in
       q <- py_floordiv nAxis n ;;
       r <- py_mod nAxis n ;;
       let step := q + int_bool r in
       idxAxis <- chunkIndexGen 0 nAxis (Some step) ;;
       Ok (idxAxis, nBuffer * step)) ;;
  Ok (nItemsNew, nBuffer, chunkIndex2 ++ [idxAxis]).

Definition fullChunkIndex (shape : list Z) (nChunksMax : Z) (kw : kwargs)
  : result (list (list (slice * Z)) * list Z * list Z * Z) :=
  '(nChunksMax, chunkAxes, axesOrder, chunkAxesSlice) <-
    chunkIndexParameters shape nChunksMax kw ;;
  chunkIndex1 <-
    mapM (fun '(axis, idx) =>
            nAxis <- py_index shape axis ;;
            len <- sliceLen idx nAxis ;;
            Ok [(idx, len)])
         (combine chunkAxes chunkAxesSlice) ;;
  '(_, nBuffer, chunkIndex2) <-
    foldM (fullChunkIndex_axis shape nChunksMax) axesOrder (1, 1, []) ;;
  let chunkIndex := chunkIndex1 ++ rev chunkIndex2 in
  Ok (chunkIndex, chunkAxes, axesOrder, nBuffer).

(** Inner loop of [chunkIndexProduct]; the state is
    [(idxData, chunkShape, nChunks)]. *)
Definition chunkIndexProduct_set (axesOrder : list Z)
    (st : list index * list (option Z) * Z) (e : Z * (slice * Z))
  : result (list index * list (option Z) * Z) :=
  let '(idxData, chunkShape, nChunks) := st in
  let '(axis, (idx, n)) := e in
  idxData <- py_setitem idxData axis (ISlice idx) ;;
  chunkShape <- py_setitem chunkShape axis (Some n) ;;
  let nChunks := if py_in axis axesOrder then nChunks * n else nChunks in
  Ok (idxData, chunkShape, nChunks).

(** Outer loop of [chunkIndexProduct]: [idxData] and [chunkShape] are the
    same two lists through all iterations, each yield copies them into
    tuples.  The state carries the two lists and the chunks yielded so
    far. *)
Definition chunkIndexProduct_step (axes axesOrder : list Z)
    (st : list index * list (option Z) * list Chunk) (idxChunk : list (slice * Z))
  : result (list index * list (option Z) * list Chunk) :=
  let '(idxData, chunkShape, yielded) := st in
  '(idxData, chunkShape, nChunks) <-
    foldM (chunkIndexProduct_set axesOrder) (combine axes idxChunk)
          (idxData, chunkShape, 1) ;;
  Ok (idxData, chunkShape, yielded ++ [(idxData, chunkShape, nChunks)]).

Definition chunkIndexProduct (chunkIndex : list (list (slice * Z)))
    (chunkAxes axesOrder : list Z) : result (list Chunk) :=
  let axes := chunkAxes ++ rev axesOrder in
  let ndim := List.length axes in
  let idxData := repeat INone ndim in
  let chunkShape := repeat None ndim in
  '(_, _, yielded) <-
    foldM (chunkIndexProduct_step axes axesOrder) (product chunkIndex)
          (idxData, chunkShape, []) ;;
  Ok yielded.

(** ** Specification vocabulary for the planners *)

(** A valid axis [i] of an [ndim]-dimensional array and the dimension it
    denotes. *)
Definition axis_in_range (ndim i : Z) : Prop := - ndim <= i < ndim.

Definition norm_axis (ndim i : Z) : Z := if i <? 0 then i + ndim else i.

(** The non-chunk dimensions in increasing order. *)
Definition other_axes (ndim : Z) (chunkAxes : list Z) : list Z :=
  filter (fun i => negb (py_in i chunkAxes)) (py_range 0 ndim 1).

(** A valid assignment of axis roles: the chunk axes are distinct
    dimensions, there is one slice with a non-zero step per chunk axis when
    slices are given, and an explicit traversal order lists every other
    dimension once. *)
Record valid_axes (shape : list Z) (kw : kwargs) : Prop := mkValidAxes {
  va_chunk_range :
    Forall (axis_in_range (Z.of_nat (List.length shape)))
           (match kw_chunkAxes kw with None => [] | Some l => l end);
  va_chunk_nodup :
    NoDup (map (norm_axis (Z.of_nat (List.length shape)))
               (match kw_chunkAxes kw with None => [] | Some l => l end));
  va_slices :
    match kw_chunkAxesSlice kw with
    | None => True
    | Some l =>
        List.length l =
          List.length (match kw_chunkAxes kw with None => [] | Some l => l end)
        /\ Forall (fun s => slice_step s <> Some 0) l
    end;
  va_order :
    match kw_axesOrder kw with
    | None => True
    | Some l =>
        Forall (axis_in_range (Z.of_nat (List.length shape))) l /\
        Permutation
          (map (norm_axis (Z.of_nat (List.length shape))) l)
          (other_axes (Z.of_nat (List.length shape))
             (map (norm_axis (Z.of_nat (List.length shape)))
                  (match kw_chunkAxes kw with None => [] | Some l => l end)))
    end
}.

(** The positions an index entry selects on an axis of length [n]. *)
Definition index_select (i : index) (n : Z) : result (list Z) :=
  match i with
  | INone => Err IndexError
  | ISlice s => expand s n
  | IList l =>
      mapM (fun k =>
              let j := if k <? 0 then k + n else k in
              if (0 <=? j) && (j <? n) then Ok j else Err IndexError) l
  end.

Definition chunk_selects (shape : list Z) (idx : list index) (axis x : Z)
  : bool :=
  match py_index idx axis, py_index shape axis with
  | Ok i, Ok n =>
      match index_select i n with
      | Ok l => py_in x l
      | Err _ => false
      end
  | _, _ => false
  end.

(** A coordinate of the order-axes space is a list aligned with
    [axesOrder]; a dense chunk covers it when every order axis of the
    chunk's index selects the corresponding component. *)
Definition dense_chunk_covers (shape axesOrder : list Z) (c : list Z)
    (ch : Chunk) : bool :=
  (List.length c =? List.length axesOrder)%nat &&
  forallb (fun '(axis, x) => chunk_selects shape (fst (fst ch)) axis x)
          (combine axesOrder c).

Definition in_order_space (shape axesOrder : list Z) (c : list Z) : Prop :=
  Forall2 (fun axis x => exists n, py_index shape axis = Ok n /\ 0 <= x < n)
          axesOrder c.

Definition Zsum (l : list Z) : Z := fold_right Z.add 0 l.
Definition Zprod (l : list Z) : Z := fold_right Z.mul 1 l.

Definition chunk_count (ch : Chunk) : Z := snd ch.

(** Sizes of the order axes. *)
Definition order_sizes (shape axesOrder : list Z) : result (list Z) :=
  mapM (py_index shape) axesOrder.

(** What [chunkIndexParameters] establishes about the axes it returns. *)
Record planned_axes (shape : list Z) (chunkAxes axesOrder : list Z)
    (chunkAxesSlice : list slice) : Prop := mkPlannedAxes {
  pa_chunk_range :
    Forall (fun a => 0 <= a < Z.of_nat (List.length shape)) chunkAxes;
  pa_order_range :
    Forall (fun a => 0 <= a < Z.of_nat (List.length shape)) axesOrder;
  pa_nodup : NoDup (chunkAxes ++ axesOrder);
  pa_all :
    (List.length chunkAxes + List.length axesOrder)%nat = List.length shape;
  pa_slices_len : List.length chunkAxesSlice = List.length chunkAxes;
  pa_slices_step : Forall (fun s => slice_step s <> Some 0) chunkAxesSlice
}.

(** A candidate [(slice, length)] of an axis of length [n] selects [x]. *)
Definition piece_selects (n x : Z) (p : slice * Z) : bool :=
  match expand (fst p) n with
  | Ok l => py_in x l
  | Err _ => false
  end.

(** The candidates of one axis partition it: every position lies in exactly
    one candidate, each candidate carries the length of its slice, no
    candidate is longer than [bound], and the lengths add up to [n]. *)
Record axis_partition (n bound : Z) (pieces : list (slice * Z)) : Prop :=
  mkAxisPartition {
  ap_once : forall x, 0 <= x < n ->
            List.length (filter (piece_selects n x) pieces) = 1%nat;
  ap_len : Forall (fun p => exists l, expand (fst p) n = Ok l /\
                                      snd p = Z.of_nat (List.length l)) pieces;
  ap_bound : Forall (fun p => 0 <= snd p <= bound) pieces;
  ap_sum : Zsum (map snd pieces) = n
}.

(** Invariant of the loop of [fullChunkIndex]: the buffer size stays within
    the capacity, and it is the number of items as long as whole axes fit. *)
Definition buffer_inv (nChunksMax nItems nBuffer : Z) : Prop :=
  0 <= nBuffer <= nChunksMax /\ (nItems = nBuffer \/ nChunksMax < nItems).

(** Closed form of a range: [count] items [start + k * step]. *)
Definition range_count (start stop step : Z) : nat :=
  Z.to_nat (Z.max 0 ((stop - start + step - (if step <? 0 then -1 else 1)) / step)).

Ltac zbool :=
  repeat match goal with
         | H : (_ <? _) = true |- _ => apply Z.ltb_lt in H
         | H : (_ <? _) = false |- _ => apply Z.ltb_ge in H
         | H : (_ <=? _) = true |- _ => apply Z.leb_le in H
         | H : (_ <=? _) = false |- _ => apply Z.leb_gt in H
         | H : (_ =? _) = true |- _ => apply Z.eqb_eq in H
         | H : (_ =? _) = false |- _ => apply Z.eqb_neq in H
         end.

(** The pieces of [chunkIndexGen(0, n, step)], for a positive step. *)
Definition gen_piece (n step : Z) (k : nat) : slice * Z :=
  let a := Z.of_nat k * step in
  let b := Z.min (a + step) n in
  (mkSlice (Some a) (Some b) (Some 1), b - a).

Definition gen_count (n step : Z) : nat := Z.to_nat ((n + step - 1) / step).

(** The candidates of the chunk axes: one slice each. *)
Definition chunk_axis_candidates (shape : list Z) (e : Z * slice)
    (l : list (slice * Z)) : Prop :=
  exists n len,
    py_index shape (fst e) = Ok n /\ sliceLen (snd e) n = Ok len /\
    0 <= len /\ l = [(snd e, len)].

(** The count accumulated by the inner loop of [chunkIndexProduct]. *)
Definition order_count (axesOrder : list Z) (es : list (Z * (slice * Z)))
    (n0 : Z) : Z :=
  fold_left (fun acc e => if py_in (fst e) axesOrder then acc * snd (snd e)
                          else acc) es n0.

(** The chunk yielded for the tuple [t] of candidates, one per axis. *)
Definition chunk_of (axes axesOrder : list Z) (t : list (slice * Z))
    (ch : Chunk) : Prop :=
  List.length (fst (fst ch)) = List.length axes /\
  List.length (snd (fst ch)) = List.length axes /\
  (forall a p, In (a, p) (combine axes t) ->
     py_index (fst (fst ch)) a = Ok (ISlice (fst p)) /\
     py_index (snd (fst ch)) a = Ok (Some (snd p))) /\
  snd ch = order_count axesOrder (combine axes t) 1.

(** ** The masked planner *)

Fixpoint all_diff_one (l : list Z) : bool :=
  match l with
  | x :: (y :: _) as rest => (y - x =? 1) && all_diff_one rest
  | _ => true
  end.

Definition py_min (l : list Z) : Z :=
  match l with
  | [] => 0
  | x :: xs => fold_left Z.min xs x
  end.

Definition intListIndexAxis (shape : list Z) (axes : list Z) : option Z :=
  match axes with
  | [] => None
  | [a] => Some a
  | _ => if all_diff_one (sorted axes) then Some (py_min axes) else Some 0
  end.

(** A boolean [numpy] array: its shape and its items in row-major order. *)
Record BoolArray : Type := mkBoolArray {
  ba_shape : list Z;
  ba_data : list bool
}.

(** Coordinates of the flat position [p] of an array of shape [shape]. *)
Fixpoint unravel (shape : list Z) (p : Z) : list Z :=
  match shape with
  | [] => []
  | _ :: rest => (p / Zprod rest) :: unravel rest (p mod Zprod rest)
  end.

(** Flat positions of the true items, in increasing order. *)
Fixpoint true_positions (data : list bool) (p : Z) : list Z :=
  match data with
  | [] => []
  | b :: rest =>
      if b then p :: true_positions rest (p + 1)
      else true_positions rest (p + 1)
  end.

(** [a.nonzero()]: one list of coordinates per dimension, the selected
    items in row-major order. *)
Definition nonzero (a : BoolArray) : list (list Z) :=
  let ps := true_positions (ba_data a) 0 in
  map (fun k => map (fun p => nth k (unravel (ba_shape a) p) 0) ps)
      (seq 0 (List.length (ba_shape a))).

(** A mask: a boolean array, or a list or tuple of one index list per
    order axis.  A plain list or tuple has no [ndim] attribute; [ms_ndim]
    is [Some d] for a sequence type that provides one. *)
Inductive Mask : Type :=
| MaskArray (a : BoolArray)
| MaskSeq (ms_ndim : option Z) (ind : list (list Z)).

(** [mask.ndim] *)
Definition mask_ndim (mask : Mask) : result Z :=
  match mask with
  | MaskArray a => Ok (Z.of_nat (List.length (ba_shape a)))
  | MaskSeq (Some d) _ => Ok d
  | MaskSeq None _ => Err AttributeError
  end.

(** [mask if isinstance(mask, (list, tuple)) else mask.nonzero()] *)
Definition mask_index (mask : Mask) : list (list Z) :=
  match mask with
  | MaskArray a => nonzero a
  | MaskSeq _ ind => ind
  end.

(** Loop of [maskedChunkIndex] over the chunk axes; the state is
    [(idxAxis, chunkShape)]. *)
Definition maskedChunkIndex_chunkAxis (shape : list Z)
    (st : list index * list (option Z)) (e : Z * slice)
  : result (list index * list (option Z)) :=
  let '(idxAxis, chunkShape) := st in
  let '(axis, idx) := e in
  nAxis <- py_index shape axis ;;
  idxAxis <- py_setitem idxAxis axis (ISlice idx) ;;
  len <- sliceLen idx nAxis ;;
  chunkShape <- py_setitem chunkShape axis (Some len) ;;
  Ok (idxAxis, chunkShape).

(** [[s for i, s in enumerate(l) if i not in axesOrder]] *)
Fixpoint drop_axes {A} (axesOrder : list Z) (i : Z) (l : list A) : list A :=
  match l with
  | [] => []
  | s :: rest =>
      if py_in i axesOrder then drop_axes axesOrder (i + 1) rest
      else s :: drop_axes axesOrder (i + 1) rest
  end.

(** Inner loop over [zip(axesOrder, maskIndex)]. *)
Definition maskedChunkIndex_setAxis (idx : slice)
    (idxAxis : list index) (e : Z * list Z) : result (list index) :=
  let '(axis, ind) := e in
  sub <- py_getslice ind idx ;;
  py_setitem idxAxis axis (IList sub).

(** Body of the loop over [enumerate(chunkIndexGen(0, nAxis, nChunksMax))];
    the state is [(i, idxAxis, chunkShape, chunkIndex)]. *)
Definition maskedChunkIndex_chunk (axesOrder : list Z)
    (maskIndex : list (list Z)) (lstAxis : option Z)
    (st : Z * list index * list (option Z) * list (option Chunk))
    (e : slice * Z)
  : result (Z * list index * list (option Z) * list (option Chunk)) :=
  let '(i, idxAxis, chunkShape, chunkIndex) := st in
  let '(idx, nidx) := e in
  idxAxis <- foldM (maskedChunkIndex_setAxis idx)
                   (combine axesOrder maskIndex) idxAxis ;;
  chunkShape <-
    match lstAxis with
    | None => Err TypeError
    | Some a => py_setitem chunkShape a (Some nidx)
    end ;;
  chunkIndex <- py_setitem chunkIndex i (Some (idxAxis, chunkShape, nidx)) ;;
  Ok (i + 1, idxAxis, chunkShape, chunkIndex).

Definition maskedChunkIndex (shape : list Z) (nChunksMax : Z)
    (mask : option Mask) (kw : kwargs)
  : result (list (option Chunk) * list Z * list Z * Z) :=
  match mask with
  | None =>
      '(chunkIndex, chunkAxes, axesOrder, nBuffer) <-
        fullChunkIndex shape nChunksMax kw ;;
      chunkIndex <- chunkIndexProduct chunkIndex chunkAxes axesOrder ;;
      Ok (map Some chunkIndex, chunkAxes, axesOrder, nBuffer)
  | Some mask =>
      let kw := mkKwargs (kw_chunkAxes kw) (kw_axesOrder kw)
                         (kw_chunkAxesSlice kw) "F" in
      '(nChunksMax, chunkAxes, axesOrder, chunkAxesSlice) <-
        chunkIndexParameters shape nChunksMax kw ;;
      ndim_mask <- mask_ndim mask ;;
      if negb (Z.of_nat (List.length axesOrder) =? ndim_mask)
      then Err (ValueError "Mask does not have the correct dimensions")
      else
        let ndim := List.length shape in
        let idxAxis := repeat (ISlice slice_all) ndim in
        let chunkShape := map Some shape in
        '(idxAxis, chunkShape) <-
          foldM (maskedChunkIndex_chunkAxis shape)
                (combine chunkAxes chunkAxesSlice) (idxAxis, chunkShape) ;;
        let chunkShape := drop_axes axesOrder 0 chunkShape in
        let lstAxis := intListIndexAxis shape axesOrder in
        let chunkShape :=
          match lstAxis with
          | Some a => py_insert chunkShape a None
          | None => chunkShape
          end in
        let maskIndex := mask_index mask in
        first <- py_index maskIndex 0 ;;
        let nAxis := Z.of_nat (List.length first) in
        q <- py_floordiv nAxis nChunksMax ;;
        r <- py_mod nAxis nChunksMax ;;
        let nChunks := q + int_bool r in
        let chunkIndex := repeat None (Z.to_nat nChunks) in
        gen <- chunkIndexGen 0 nAxis (Some nChunksMax) ;;
        '(_, _, _, chunkIndex) <-
          foldM (maskedChunkIndex_chunk axesOrder maskIndex lstAxis) gen
                (0, idxAxis, chunkShape, chunkIndex) ;;
        Ok (chunkIndex, chunkAxes, axesOrder, nChunksMax)
  end.

(** The rows a masked chunk addresses along an order axis. *)
Definition chunk_rows (ch : Chunk) (axis : Z) : list Z :=
  match py_index (fst (fst ch)) axis with
  | Ok (IList l) => l
  | _ => []
  end.

(** The chunk built by [maskedChunkIndex] for one batch [p]: the index
    carries, on every order axis, the batch's slice of that axis' index
    list; the other entries are those of [idxAxis0]. *)
Definition masked_chunk_of (idxAxis0 : list index)
    (chunkShape0 : list (option Z)) (axesOrder : list Z)
    (maskIndex : list (list Z)) (lstAxis : Z) (p : slice * Z) (ch : Chunk)
  : Prop :=
  snd ch = snd p /\
  List.length (fst (fst ch)) = List.length idxAxis0 /\
  (forall axis ind, In (axis, ind) (combine axesOrder maskIndex) ->
     exists sub, py_getslice ind (fst p) = Ok sub /\
                 py_index (fst (fst ch)) axis = Ok (IList sub)) /\
  (forall a, 0 <= a -> ~ In a axesOrder ->
     py_index (fst (fst ch)) a = py_index idxAxis0 a) /\
  snd (fst ch) = set_nth chunkShape0 (Z.to_nat lstAxis) (Some (snd p)).

(** The keyword arguments as [maskedChunkIndex] passes them on:
    [kwargs['defaultOrder'] = 'F']. *)
Definition kwargs_F (kw : kwargs) : kwargs :=
  mkKwargs (kw_chunkAxes kw) (kw_axesOrder kw) (kw_chunkAxesSlice kw) "F".

(** Number of order axes of a valid assignment. *)
Definition n_order_axes (shape : list Z) (kw : kwargs) : nat :=
  List.length shape
  - List.length (match kw_chunkAxes kw with None => [] | Some l => l end).

(** ** Concrete inputs used in examples *)

(** [chunkAxes=(-1,), chunkAxesSlice=(slice(None),)], default order. *)
Definition kwargs_last_axis : kwargs :=
  mkKwargs (Some [-1]) None (Some [slice_all]) "C".

(** [chunkAxes=(1,)] with the explicit traversal order [(0, 2)]. *)
Definition kwargs_middle_axis : kwargs :=
  mkKwargs (Some [1]) (Some [0; 2]) None "C".

(** A boolean mask selecting 7 of 20 rows. *)
Definition mask_7_of_20 : Mask :=
  MaskArray (mkBoolArray [20]
    [true; false; false; true; true; false; false; false; true; false;
     false; true; false; false; false; true; false; false; false; true]).

(** The row counts of the chunks of the dense planner. *)
Definition dense_counts (shape : list Z) (nChunksMax : Z) (kw : kwargs)
  : result (list Z) :=
  '(chunkIndex, chunkAxes, axesOrder, _) <- fullChunkIndex shape nChunksMax kw ;;
  chunks <- chunkIndexProduct chunkIndex chunkAxes axesOrder ;;
  Ok (map chunk_count chunks).

(** The row counts of the chunks of the masked planner. *)
Definition masked_counts (shape : list Z) (nChunksMax : Z)
    (mask : option Mask) (kw : kwargs) : result (list (option Z)) :=
  '(chunkIndex, _, _, _) <- maskedChunkIndex shape nChunksMax mask kw ;;
  Ok (map (option_map chunk_count) chunkIndex).

(** [chunkAxes=(1,), chunkAxesSlice=(slice(None),)], default order. *)
Definition kwargs_axis1 : kwargs :=
  mkKwargs (Some [1]) None (Some [slice_all]) "C".

(** The rows each chunk of the dense planner selects along [axis]. *)
Definition dense_rows (shape : list Z) (nChunksMax : Z) (kw : kwargs)
    (axis : Z) : result (list (list Z)) :=
  '(chunkIndex, chunkAxes, axesOrder, _) <- fullChunkIndex shape nChunksMax kw ;;
  chunks <- chunkIndexProduct chunkIndex chunkAxes axesOrder ;;
  n <- py_index shape axis ;;
  mapM (fun ch : Chunk => i <- py_index (fst (fst ch)) axis ;; index_select i n)
       chunks.

(** A mask the masked planner accepts: its dimensionality is the number of
    order axes, of which there is at least one, and it resolves to at least
    one index list.  No mask ([None]) is always accepted. *)
Definition mask_accepted (shape : list Z) (kw : kwargs) (mask : option Mask)
  : Prop :=
  match mask with
  | None => True
  | Some mk =>
      mask_ndim mk = Ok (Z.of_nat (n_order_axes shape kw)) /\
      (0 < n_order_axes shape kw)%nat /\
      mask_index mk <> []
  end.

(** A failure reporting inconsistent data: the planners raise
    [ValueError] for that. *)
Definition data_inconsistency_error {A} (r : result A) : Prop :=
  exists msg, r = Err (ValueError msg).

(** [chunkAxes=(1,)], everything else by default. *)
Definition kwargs_axis1_default : kwargs := mkKwargs (Some [1]) None None "C".

(** A plain tuple of two index lists of lengths 2 and 1. *)
Definition mismatched_tuple : Mask := MaskSeq None [[0; 1]; [0]].

(** The same kind of lists in a sequence type that has [ndim = 2]. *)
Definition mismatched_seq_with_ndim : Mask := MaskSeq (Some 2) [[0; 1; 1]; [0]].

(** ** Memory budgeting *)

(** [seq.pop(i)]: the list without item [i]; negative indices count from the
    end, an index out of range raises [IndexError]. *)
Definition py_pop {A} (l : list A) (i : Z) : result (list A) :=
  let n := Z.of_nat (List.length l) in
  let j := if i <? 0 then i + n else i in
  if (0 <=? j) && (j <? n)
  then Ok (firstn (Z.to_nat j) l ++ skipn (S (Z.to_nat j)) l)
  else Err IndexError.

(** The [axis] argument: one integer, or a tuple or list of integers. *)
Inductive AxisSpec : Type :=
| AxisInt (a : Z)
| AxisSeq (l : list Z).

(** [int(x)] on a float: truncation towards zero. *)
Definition Qtrunc (x : Q) : Z :=
  if Qle_bool 0 x then Qfloor x else Qceiling x.

(** [chunks_in_memory]; [nbytes_mem] is what the memory query returned
    ([None] when the available memory is unknown) and [itemsize] the item
    size of [dtype].  Python floats are modelled by exact rationals: the
    rounding of [nbytes_mem*margin] and of the quotient is not modelled.
    Dividing by a chunk of zero bytes gives [inf] or [nan], which [int]
    refuses. *)
Definition chunks_in_memory (nbytes_mem : option Z) (shape : list Z)
    (itemsize : Z) (axis : AxisSpec) (margin : Q) (maximal : option Z)
  : result (option Z) :=
  match nbytes_mem with
  | None => Ok maximal
  | Some nbytes_mem =>
      shape_slice <-
        match axis with
        | AxisSeq l => foldM py_pop l shape
        | AxisInt a => py_pop shape a
        end ;;
      match shape_slice with
      | [] => Err (ValueError "Required: len(axis)<len(shape)")
      | _ =>
          let n_items := Zprod shape_slice in
          let nbytes_chunk := n_items * itemsize in
          if nbytes_chunk =? 0 then
            (if Qeq_bool (inject_Z nbytes_mem * margin) 0
             then Err (ValueError "cannot convert float NaN to integer")
             else Err OverflowError)
          else
            let n_chunks :=
              Qtrunc ((inject_Z nbytes_mem * margin) / inject_Z nbytes_chunk) in
            match maximal with
            | Some mx => if mx =? 0 then Ok (Some n_chunks)
                         else Ok (Some (Z.max n_chunks mx))
            | None => Ok (Some n_chunks)
            end
      end
  end.

(** The dimensions left after removing [axis], as [chunks_in_memory]
    computes them. *)
Definition chunk_row_shape (shape : list Z) (axis : AxisSpec)
  : result (list Z) :=
  match axis with
  | AxisSeq l => foldM py_pop l shape
  | AxisInt a => py_pop shape a
  end.

(** ** A model of [numpy] arrays *)

(** An n-dimensional array: its shape and its items in row-major order. *)
Record ndarray (A : Type) : Type := mkArray {
  arr_shape : list Z;
  arr_data : list A
}.
Arguments mkArray {A} arr_shape arr_data.
Arguments arr_shape {A} n.
Arguments arr_data {A} n.

(** Flat position of the item at coordinates [c]. *)
Fixpoint ravel (shape c : list Z) : Z :=
  match shape, c with
  | _ :: s, i :: c' => i * Zprod s + ravel s c'
  | _, _ => 0
  end.

(** All coordinates of an array of shape [shape], in row-major order. *)
Definition indices (shape : list Z) : list (list Z) :=
  product (map (fun n => py_range 0 n 1) shape).

Fixpoint insert_pair (x : Z * Z) (l : list (Z * Z)) : list (Z * Z) :=
  match l with
  | [] => [x]
  | y :: ys => if fst x <=? fst y then x :: l else y :: insert_pair x ys
  end.

(** [numpy.argsort(l).tolist()] *)
Definition argsort (l : list Z) : list Z :=
  map snd (fold_right insert_pair []
             (combine l (py_range 0 (Z.of_nat (List.length l)) 1))).

(** [numpy.transpose(a, axes)] *)
Definition transpose {A} (a : ndarray A) (axes : list Z) : result (ndarray A) :=
  let ndim := Z.of_nat (List.length (arr_shape a)) in
  axes <- mapM (fun i =>
                  let j := if i <? 0 then i + ndim else i in
                  if (0 <=? j) && (j <? ndim) then Ok j
                  else Err (ValueError "axis is out of bounds")) axes ;;
  if negb (list_eqb (sorted axes) (py_range 0 ndim 1))
  then Err (ValueError "axes don't match array")
  else
    shape <- mapM (py_index (arr_shape a)) axes ;;
    let inv := argsort axes in
    data <- mapM (fun j =>
                    c <- mapM (py_index j) inv ;;
                    py_index (arr_data a) (ravel (arr_shape a) c))
                 (indices shape) ;;
    Ok (mkArray shape data).

(** [a.reshape(shape)] for a shape without [-1]. *)
Definition reshape {A} (a : ndarray A) (shape : list Z) : result (ndarray A) :=
  if forallb (fun n => 0 <=? n) shape &&
     (Zprod shape =? Z.of_nat (List.length (arr_data a)))
  then Ok (mkArray shape (arr_data a))
  else Err (ValueError "cannot reshape array").

(** What an index tuple selects along one axis. *)
Inductive axis_sel : Type :=
| SelSlice (positions : list Z)
| SelList (positions : list Z).

Definition is_sel_list (s : Z * axis_sel) : bool :=
  match snd s with SelList _ => true | SelSlice _ => false end.

Definition sel_positions (s : axis_sel) : list Z :=
  match s with SelSlice p => p | SelList p => p end.

(** The selection of every axis; an index tuple shorter than the shape is
    completed with full slices.  [None] entries ([numpy.newaxis]) are not
    modelled: the planners never leave one in an index. *)
Definition resolve_index (shape : list Z) (idx : list index)
  : result (list (Z * axis_sel)) :=
  if (List.length shape <? List.length idx)%nat then Err IndexError
  else
    sels <-
      mapM (fun '(n, e) =>
              match e with
              | ISlice s => p <- expand s n ;; Ok (SelSlice p)
              | IList l => p <- index_select (IList l) n ;; Ok (SelList p)
              | INone => Err TypeError
              end)
           (combine shape
              (idx ++ repeat (ISlice slice_all)
                             (List.length shape - List.length idx))) ;;
    Ok (combine (py_range 0 (Z.of_nat (List.length shape)) 1) sels).

Fixpoint lookup_axis (a : Z) (asg : list (Z * Z)) : Z :=
  match asg with
  | [] => 0
  | (b, x) :: rest => if a =? b then x else lookup_axis a rest
  end.

(** The dimensions of the result of indexing: each one lists, item by
    item, the coordinates it fixes on the axes of the source.  Integer
    lists are broadcast together into one dimension, which stands where the
    first of them stood when they are adjacent, and first otherwise. *)
Definition result_dims (sels : list (Z * axis_sel))
  : result (list (list (list (Z * Z)))) :=
  let sliced_dim (s : Z * axis_sel) :=
    map (fun x => [(fst s, x)]) (sel_positions (snd s)) in
  let adv := filter is_sel_list sels in
  match adv with
  | [] => Ok (map sliced_dim sels)
  | (a0, _) :: _ =>
      let L := fold_right Nat.max 0%nat
                 (map (fun s => List.length (sel_positions (snd s))) adv) in
      if negb (forallb (fun s =>
                          let n := List.length (sel_positions (snd s)) in
                          (n =? L)%nat || (n =? 1)%nat) adv)
      then Err IndexError
      else
        let adv_dim :=
          map (fun r =>
                 map (fun s =>
                        let l := sel_positions (snd s) in
                        (fst s,
                         nth (if (List.length l =? L)%nat then r else 0%nat)
                             l 0))
                     adv)
              (seq 0 L) in
        let sliced := filter (fun s => negb (is_sel_list s)) sels in
        let before := filter (fun s => fst s <? a0) sliced in
        let after := filter (fun s => a0 <? fst s) sliced in
        if all_diff_one (map fst adv)
        then Ok (map sliced_dim before ++ adv_dim :: map sliced_dim after)
        else Ok (adv_dim :: map sliced_dim sliced)
  end.

(** Shape of [a[idx]] and, in row-major order of the result, the flat
    positions of the selected items in [a]. *)
Definition selection (shape : list Z) (idx : list index)
  : result (list Z * list Z) :=
  sels <- resolve_index shape idx ;;
  dims <- result_dims sels ;;
  let ndim := Z.of_nat (List.length shape) in
  Ok (map (fun d => Z.of_nat (List.length d)) dims,
      map (fun t =>
             ravel shape (map (fun a => lookup_axis a (List.concat t))
                              (py_range 0 ndim 1)))
          (product dims)).

(** [a[idx]] *)
Definition getitem {A} (a : ndarray A) (idx : list index)
  : result (ndarray A) :=
  '(shape, sel) <- selection (arr_shape a) idx ;;
  data <- mapM (py_index (arr_data a)) sel ;;
  Ok (mkArray shape data).

(** [a[idx] = v], for a value of the shape of [a[idx]]; broadcasting a
    value of another shape is not modelled.  [cast] converts the items to
    the item type of [a]. *)
Definition setitem {A B} (cast : B -> A) (a : ndarray A) (idx : list index)
    (v : ndarray B) : result (ndarray A) :=
  '(shape, sel) <- selection (arr_shape a) idx ;;
  if negb (list_eqb shape (arr_shape v))
  then Err (ValueError "could not broadcast input array")
  else
    data <- foldM (fun d '(p, x) => py_setitem d p (cast x))
                  (combine sel (arr_data v)) (arr_data a) ;;
    Ok (mkArray (arr_shape a) data).

(** ** Views *)

(** The chunk index a view keeps: the candidate lists of
    [fullChunkIndex], or the chunks of [maskedChunkIndex]. *)
Inductive ChunkPlan : Type :=
| DenseIndex (chunkIndex : list (list (slice * Z)))
| MaskedIndex (chunkIndex : list (option Chunk)).

(** A key yielded by [items]: an index and a shape. *)
Definition Key : Type := (list index * list (option Z))%type.

(** [keyType]: ['select'] or anything else (['all']). *)
Inductive KeyType : Type := KeyAll | KeySelect.

(** The keyword arguments [MaskedView] passes to the planners. *)
Definition view_kwargs (mcaAxis : option Z) (mcaSlice : option slice)
    (axesOrder : option (list Z)) : kwargs :=
  mkKwargs (Some [match mcaAxis with None => -1 | Some a => a end])
           axesOrder
           (Some [match mcaSlice with None => slice_all | Some s => s end])
           "C".

Section Views.

Context {A B : Type}.

(** Conversion of the items to the buffer's [dtype] and back; both are the
    identity when [dtype] is [None]. *)
Variable cast_in : A -> B.
Variable cast_out : B -> A.

(** What [numpy.empty] leaves in a new buffer. *)
Variable garbage : B.

(** [MaskedView] over an in-memory array. *)
Record View : Type := mkView {
  v_data : ndarray A;
  v_chunkIndex : ChunkPlan;
  v_chunkAxes : list Z;
  v_axesOrder : list Z;
  v_mask : option Mask;
  v_masked : bool;
  v_mcaSlice : slice;
  v_mcaAxis : Z;
  v_bufferShape : Z * Z;
  v_buffer : option (ndarray B);
  v_readonly : bool
}.

(** [MaskedView.__init__] followed by [ChunkedView.__init__]. *)
Definition MaskedView_init (data : ndarray A) (mask : option Mask)
    (nMca : option Z) (mcaAxis : option Z) (mcaSlice : option slice)
    (axesOrder : option (list Z)) (readonly : bool) : result View :=
  let mcaAxis := match mcaAxis with None => -1 | Some a => a end in
  let mcaSlice := match mcaSlice with None => slice_all | Some s => s end in
  let masked := match mask with None => false | Some _ => true end in
  nMca <- match nMca with None => Err TypeError | Some n => Ok n end ;;
  let kw := view_kwargs (Some mcaAxis) (Some mcaSlice) axesOrder in
  '(chunkIndex, chunkAxes, axesOrder, nMca) <-
    match mask with
    | None =>
        '(chunkIndex, chunkAxes, axesOrder, nBuffer) <-
          fullChunkIndex (arr_shape data) nMca kw ;;
        Ok (DenseIndex chunkIndex, chunkAxes, axesOrder, nBuffer)
    | Some _ =>
        '(chunkIndex, chunkAxes, axesOrder, nChunksMax) <-
          maskedChunkIndex (arr_shape data) nMca mask kw ;;
        Ok (MaskedIndex chunkIndex, chunkAxes, axesOrder, nChunksMax)
    end ;;
  n2 <- py_index (arr_shape data) mcaAxis ;;
  nChan <- sliceLen mcaSlice n2 ;;
  Ok (mkView data chunkIndex chunkAxes axesOrder mask masked mcaSlice mcaAxis
             (nMca, nChan) None readonly).

(** [numpy.empty(shape, dtype)] for a two-dimensional shape. *)
Definition numpy_empty (shape : Z * Z) : result (ndarray B) :=
  let '(rows, cols) := shape in
  if (rows <? 0) || (cols <? 0)
  then Err (ValueError "negative dimensions are not allowed")
  else Ok (mkArray [rows; cols] (repeat garbage (Z.to_nat (rows * cols)))).

(** Number of rows of [buffer[:nMca, :]]. *)
Definition buffer_rows (buffer : ndarray B) (nMca : Z) : result Z :=
  rows <- py_index (arr_shape buffer) 0 ;;
  '(start, stop, _) <- slice_indices (mkSlice None (Some nMca) None) rows ;;
  Ok (Z.max 0 (stop - start)).

(** The key of a chunk. *)
Definition items_key (keyType : KeyType) (masked : bool)
    (axesOrderSorted : list Z) (ch : Chunk) : result Key :=
  let '(idxChunk, idxShape, nMca) := ch in
  match keyType with
  | KeySelect =>
      idx <- mapM (py_index idxChunk) axesOrderSorted ;;
      if masked then Ok (idx, [Some nMca])
      else shp <- mapM (py_index idxShape) axesOrderSorted ;; Ok (idx, shp)
  | KeyAll => Ok (idxChunk, idxShape)
  end.

(** One iteration of the loop of [items].  The state is the data, the
    buffer and the pairs yielded so far.  [consumer] is what the caller does
    with a yielded pair before asking for the next one: it receives the key
    and the yielded view of the buffer and returns the items it leaves in
    that view. *)
Definition items_step (keyType : KeyType) (masked : bool) (post_copy : bool)
    (nChan : Z) (axesOrderSorted transposeAxes itransposeAxes : list Z)
    (consumer : Key -> ndarray B -> list B)
    (st : ndarray A * ndarray B * list (Key * ndarray B))
    (entry : option Chunk)
  : result (ndarray A * ndarray B * list (Key * ndarray B)) :=
  let '(data, buffer, yielded) := st in
  match entry with
  | None => Err TypeError
  | Some (idxChunk, idxShape, nMca) =>
      rows <- buffer_rows buffer nMca ;;
      cols <- py_index (arr_shape buffer) 1 ;;
      chunk <- getitem data idxChunk ;;
      chunk <- transpose chunk transposeAxes ;;
      chunk <- reshape chunk [nMca; nChan] ;;
      if negb (list_eqb (arr_shape chunk) [rows; cols])
      then Err (ValueError "could not broadcast input array")
      else
        let used := List.length (arr_data chunk) in
        let value := mkArray [rows; cols] (map cast_in (arr_data chunk)) in
        key <- items_key keyType masked axesOrderSorted
                         (idxChunk, idxShape, nMca) ;;
        let items' := consumer key value in
        if negb (List.length items' =? used)%nat then Err TypeError
        else
          let value := mkArray [rows; cols] items' in
          let buffer :=
            mkArray (arr_shape buffer)
                    (items' ++ skipn used (arr_data buffer)) in
          data <-
            (if post_copy then
               shp <- mapM (fun i =>
                              n <- py_index idxShape i ;;
                              match n with
                              | Some n => Ok n
                              | None => Err TypeError
                              end) transposeAxes ;;
               back <- reshape value shp ;;
               back <- transpose back itransposeAxes ;;
               setitem cast_out data idxChunk back
             else Ok data) ;;
          Ok (data, buffer,
              yielded ++ [(key, mkArray [rows; cols] (map cast_in (arr_data chunk)))])
  end.

(** The chunk generator of [items] and the axes of its transposition. *)
Definition items_generator (v : View)
  : result (list (option Chunk) * list Z) :=
  let data := v_data v in
  let chunkAxes := v_chunkAxes v in
  let axesOrder := v_axesOrder v in
  let axesOrderSorted := sorted axesOrder in
  if v_masked v then
    match v_chunkIndex v with
    | MaskedIndex chunkIndex =>
        let lstAxis := intListIndexAxis (arr_shape data) axesOrder in
        Ok (chunkIndex,
            match lstAxis with
            | Some 0 => [0; 1]
            | _ => [1; 0]
            end)
    | DenseIndex _ => Err TypeError
    end
  else
    match v_chunkIndex v with
    | DenseIndex chunkIndex =>
        chunks <- chunkIndexProduct chunkIndex chunkAxes axesOrder ;;
        Ok (map Some chunks, axesOrderSorted ++ chunkAxes)
    | MaskedIndex _ => Err TypeError
    end.

(** [_prepareAccess]: the buffer is allocated on first use. *)
Definition prepareAccess (v : View) : result (ndarray B) :=
  match v_buffer v with
  | None => numpy_empty (v_bufferShape v)
  | Some b => Ok b
  end.

(** [items(keyType)] iterated to exhaustion: the view afterwards and the
    pairs yielded. *)
Definition items_run (keyType : KeyType)
    (consumer : Key -> ndarray B -> list B) (v : View)
  : result (View * list (Key * ndarray B)) :=
  let nChan := snd (v_bufferShape v) in
  let data := v_data v in
  let axesOrderSorted := sorted (v_axesOrder v) in
  let masked := v_masked v in
  '(chunkGenerator, transposeAxes) <- items_generator v ;;
  let itransposeAxes := argsort transposeAxes in
  let post_copy := negb (v_readonly v) in
  buffer <- prepareAccess v ;;
  '(data, buffer, yielded) <-
    foldM (items_step keyType masked post_copy nChan axesOrderSorted
                      transposeAxes itransposeAxes consumer)
          chunkGenerator (data, buffer, []) ;;
  Ok (mkView data (v_chunkIndex v) (v_chunkAxes v) (v_axesOrder v) (v_mask v)
             masked (v_mcaSlice v) (v_mcaAxis v) (v_bufferShape v)
             (Some buffer) (v_readonly v),
      yielded).

(** A consumer that leaves the yielded buffer view as it is. *)
Definition keep_buffer (_ : Key) (value : ndarray B) : list B :=
  arr_data value.

End Views.

(** ** Specification vocabulary for arrays *)

(** Coordinates within the bounds of a shape. *)
Definition valid_coord (shape c : list Z) : Prop :=
  Forall2 (fun n x => 0 <= x < n) shape c.

(** An array whose items fill its shape. *)
Definition wf_array {A} (a : ndarray A) : Prop :=
  Forall (fun n => 0 <= n) (arr_shape a) /\
  List.length (arr_data a) = Z.to_nat (Zprod (arr_shape a)).

(** [axes] lists every dimension of a [d]-dimensional array once. *)
Definition is_axes_perm (d : nat) (axes : list Z) : Prop :=
  Permutation axes (py_range 0 (Z.of_nat d) 1).

(** The array with every item converted. *)
Definition array_map {A B} (f : A -> B) (a : ndarray A) : ndarray B :=
  mkArray (arr_shape a) (map f (arr_data a)).

(** The items of [j] at the positions [axes]: the shape of a transposed
    array, or the coordinates of an item in it. *)
Definition perm_coords (axes j : list Z) : list Z :=
  map (fun i => nth (Z.to_nat i) j 0) axes.

(** What one iteration of [items] needs of a chunk: its index selects an
    array of the chunk's shape, with [count * nChan] items, whose dimensions
    [transposeAxes] permutes; the count fits in the buffer; and the key can
    be built. *)
Record chunk_ok {A} (data : ndarray A) (masked : bool)
    (axesOrderSorted transposeAxes : list Z) (nChan rows : Z) (ch : Chunk)
  : Prop := mkChunkOk {
  co_get :
    exists g,
      getitem data (fst (fst ch)) = Ok g /\
      snd (fst ch) = map Some (arr_shape g) /\
      Zprod (arr_shape g) = snd ch * nChan /\
      is_axes_perm (List.length (arr_shape g)) transposeAxes;
  co_rows : 0 <= snd ch <= rows;
  co_key :
    forall keyType,
      exists key, items_key keyType masked axesOrderSorted ch = Ok key
}.

(** The coordinates fixed by the items of the dimensions [dims] stay inside
    an array of shape [shape]. *)
Definition dims_valid (shape : list Z) (dims : list (list (list (Z * Z))))
  : Prop :=
  forall d asg a x, In d dims -> In asg d -> In (a, x) asg ->
    exists n, nth_error shape (Z.to_nat a) = Some n /\ 0 <= a /\ 0 <= x < n.

(** Every axis of the source is fixed by the items of one dimension. *)
Definition dims_cover (ndim : Z) (dims : list (list (list (Z * Z)))) : Prop :=
  forall a, 0 <= a < ndim ->
    exists d, In d dims /\ forall asg, In asg d -> In a (map fst asg).

(** The selections of an index tuple: one per axis, inside the axis. *)
Definition sels_ok (shape : list Z) (sels : list (Z * axis_sel)) : Prop :=
  map fst sels = py_range 0 (Z.of_nat (List.length shape)) 1 /\
  forall a s, In (a, s) sels ->
    exists n, nth_error shape (Z.to_nat a) = Some n /\ 0 <= a /\
              Forall (fun x => 0 <= x < n) (sel_positions s).

(** A candidate [(slice, length)] of the axis [a]: the slice selects
    [length] positions of the axis. *)
Definition axis_candidate (shape : list Z) (a : Z) (p : slice * Z) : Prop :=
  exists n l,
    py_index shape a = Ok n /\ expand (fst p) n = Ok l /\
    snd p = Z.of_nat (List.length l).

(** The index lists of a mask fit the array: there is one per order axis,
    they all have one length, and every entry is a valid (possibly
    negative) position of its axis. *)
Definition mask_fits (shape : list Z) (cap : Z) (kw : kwargs) (mk : Mask)
  : Prop :=
  exists c ca ao sl (m : nat),
    chunkIndexParameters shape cap (kwargs_F kw) = Ok (c, ca, ao, sl) /\
    Forall2 (fun a ind =>
               exists n, py_index shape a = Ok n /\
                         Forall (fun x => - n <= x < n) ind)
            ao (mask_index mk) /\
    Forall (fun ind => List.length ind = m) (mask_index mk).

(** Conversion to [numpy.int8], which wraps around. *)
Definition int8_cast (x : Z) : Z := (x + 128) mod 256 - 128.

(** A 1 x 1 array of wider integers holding 300. *)
Definition data_300 : ndarray Z := mkArray [1; 1] [300].

(** A 20 x 10 array holding 0 .. 199. *)
Definition data_20_10 : ndarray Z := mkArray [20; 10] (py_range 0 200 1).

(** ** More of the slice algebra *)

(** [sliceComplement]: the items of [range(n)] the slice does not select. *)
Definition sliceComplement (slc : slice) (n : Z) : result (list Z) :=
  let lst1 := py_range 0 n 1 in
  lst2 <- py_getslice lst1 slc ;;
  Ok (filter (fun i => negb (py_in i lst2)) lst1).

(** ** Zipping chunk iterators *)

(** [tuple(_next(it) for it in iterables)] when no iterator is exhausted:
    the next item of each one.  [None] when at least one is exhausted
    ([bloop[0]] has been set to [False]). *)
Fixpoint heads {A} (its : list (list A)) : option (list A) :=
  match its with
  | [] => Some []
  | it :: rest =>
      match it, heads rest with
      | x :: _, Some r => Some (x :: r)
      | _, _ => None
      end
  end.

(** [izipChunkItems]: an iterator is the list of the items it has yet to
    produce.  In every round [next] is called on all the iterators, also
    when one of them is exhausted; the round's tuple is yielded when none
    was.  The result is the tuples yielded and the iterators as they are
    left; [None] when [fuel] rounds do not end the loop. *)
Fixpoint izipChunkItems {A} (fuel : nat) (its : list (list A))
    (yielded : list (list A)) : option (list (list A) * list (list A)) :=
  match fuel with
  | O => None
  | S fuel' =>
      let its' := map (@tl A) its in
      match heads its with
      | Some ret => izipChunkItems fuel' its' (yielded ++ [ret])
      | None => Some (yielded, its')
      end
  end.

(** The coordinates [c] lie on the spectrum that entry [r] of the index
    lists [maskIndex] addresses: on every order axis, [c] has the position
    the list of that axis holds at [r], a negative entry counting from the
    end of the axis. *)
Definition mask_row (shape axesOrder : list Z) (maskIndex : list (list Z))
    (r : nat) (c : list Z) : Prop :=
  forall a ind, In (a, ind) (combine axesOrder maskIndex) ->
    exists x n,
      nth_error ind r = Some x /\ py_index shape a = Ok n /\
      nth (Z.to_nat a) c 0 = norm_axis n x.

(** [ChunkedView.idxFull]: the whole array, the MCA axis cut by the
    channel slice. *)
Definition ChunkedView_idxFull {A B} (v : @View A B) : result (list index) :=
  py_setitem (repeat (ISlice slice_all)
                     (List.length (arr_shape (v_data v))))
             (v_mcaAxis v) (ISlice (v_mcaSlice v)).

(** [MaskedView._idxFullMask]: the index lists of the mask on the order
    axes. *)
Definition idxFullMask (axesOrder : list Z) (idx : list index) (mask : Mask)
  : result (list index) :=
  foldM (fun idx '(axis, ind) => py_setitem idx axis (IList ind))
        (combine axesOrder (mask_index mask)) idx.

(** [MaskedView.idxFull] *)
Definition MaskedView_idxFull {A B} (v : @View A B) : result (list index) :=
  idx <- ChunkedView_idxFull v ;;
  if v_masked v then
    match v_mask v with
    | Some mask => idxFullMask (v_axesOrder v) idx mask
    | None => Err AttributeError
    end
  else Ok idx.

(** [ChunkedView.idxFullComplement]: the whole array, the MCA axis
    restricted to the channels the channel slice leaves out. *)
Definition ChunkedView_idxFullComplement {A B} (v : @View A B)
  : result (list index) :=
  nChanOrg <- py_index (arr_shape (v_data v)) (v_mcaAxis v) ;;
  comp <- sliceComplement (v_mcaSlice v) nChanOrg ;;
  py_setitem (repeat (ISlice slice_all)
                     (List.length (arr_shape (v_data v))))
             (v_mcaAxis v) (IList comp).

(* ================================================================== *)
(** * Properties *)

(** ** The [range] model *)

Lemma map_seq_shift {A} (f : nat -> A) (n : nat) :
  map f (seq 1 n) = map (fun k => f (S k)) (seq 0 n).
Proof.
  rewrite <- seq_shift, map_map. reflexivity.
Qed.

Lemma range_loop_pos (step stop : Z) :
  0 < step ->
  forall fuel a, stop - a <= Z.of_nat fuel ->
    range_loop fuel a stop step =
    map (fun k => a + Z.of_nat k * step) (seq 0 (range_count a stop step)).
Proof.
  intros Hs. unfold range_count.
  assert (Hneg : (step <? 0) = false) by (apply Z.ltb_ge; lia).
  rewrite Hneg.
  induction fuel as [|fuel IH]; intros a Hf.
  - simpl. replace (Z.max 0 _) with 0; [reflexivity|].
    assert ((stop - a + step - 1) / step <= 0); [|lia].
    assert ((stop - a + step - 1) / step < 1); [|lia].
    apply Z.div_lt_upper_bound; lia.
  - simpl. rewrite Hneg. destruct (a <? stop) eqn:Hlt.
    + apply Z.ltb_lt in Hlt.
      rewrite IH by lia.
      replace (stop - (a + step) + step - 1) with ((stop - a + step - 1) + (-1) * step) by lia.
      rewrite Z.div_add by lia.
      assert (Hq : 1 <= (stop - a + step - 1) / step)
        by (apply Z.div_le_lower_bound; lia).
      set (q := (stop - a + step - 1) / step) in *.
      replace (Z.to_nat (Z.max 0 q)) with (S (Z.to_nat (Z.max 0 (q + -1)))) by lia.
      cbn [seq map]. f_equal; [lia|].
      rewrite map_seq_shift. apply map_ext. intros k. lia.
    + apply Z.ltb_ge in Hlt.
      replace (Z.max 0 _) with 0; [reflexivity|].
      assert ((stop - a + step - 1) / step < 1); [|lia].
      apply Z.div_lt_upper_bound; lia.
Qed.

Lemma range_loop_opp (fuel : nat) (a stop step : Z) :
  step < 0 ->
  range_loop fuel a stop step = map Z.opp (range_loop fuel (- a) (- stop) (- step)).
Proof.
  intros Hs. revert a. induction fuel as [|fuel IH]; intros a; [reflexivity|].
  simpl.
  assert (H1 : (step <? 0) = true) by (apply Z.ltb_lt; lia).
  assert (H2 : (- step <? 0) = false) by (apply Z.ltb_ge; lia).
  rewrite H1, H2.
  replace (- a <? - stop) with (stop <? a)
    by (destruct (stop <? a) eqn:E1, (- a <? - stop) eqn:E2; try reflexivity;
        rewrite ?Z.ltb_lt, ?Z.ltb_ge in *; lia).
  destruct (stop <? a); [|reflexivity].
  simpl. f_equal; [lia|].
  rewrite IH. f_equal. f_equal. lia.
Qed.

Lemma range_count_opp (a stop step : Z) :
  step < 0 -> range_count a stop step = range_count (- a) (- stop) (- step).
Proof.
  intros Hs. unfold range_count.
  assert (H1 : (step <? 0) = true) by (apply Z.ltb_lt; lia).
  assert (H2 : (- step <? 0) = false) by (apply Z.ltb_ge; lia).
  rewrite H1, H2.
  replace (- stop - - a + - step - 1) with (- (stop - a + step - -1)) by lia.
  rewrite Z.div_opp_opp by lia. reflexivity.
Qed.

(** The materialised range is its closed form. *)
Lemma py_range_closed (start stop step : Z) :
  step <> 0 ->
  py_range start stop step =
  map (fun k => start + Z.of_nat k * step) (seq 0 (range_count start stop step)).
Proof.
  intros Hs. unfold py_range.
  destruct (Z.lt_trichotomy step 0) as [Hneg|[H0|Hpos]]; [|lia|].
  - rewrite range_loop_opp by assumption.
    rewrite range_loop_pos by lia.
    rewrite <- range_count_opp by assumption.
    rewrite map_map. apply map_ext. intros k. lia.
  - apply range_loop_pos; lia.
Qed.

Lemma py_range_length (start stop step : Z) :
  step <> 0 ->
  List.length (py_range start stop step) = range_count start stop step.
Proof.
  intros Hs. rewrite py_range_closed by assumption.
  rewrite length_map, length_seq. reflexivity.
Qed.

(** ** Slice algebra *)

(** [slice.indices] succeeds on a non-zero step and a non-negative length,
    and its bounds lie in the window CPython clips them to. *)
Lemma slice_indices_ok (slc : slice) (n : Z) :
  slice_step slc <> Some 0 -> 0 <= n ->
  exists start stop step,
    slice_indices slc n = Ok (start, stop, step) /\
    step = match slice_step slc with None => 1 | Some s => s end /\
    step <> 0 /\
    (0 < step -> 0 <= start <= n /\ 0 <= stop <= n) /\
    (step < 0 -> -1 <= start <= n - 1 /\ -1 <= stop <= n - 1).
Proof.
  intros Hstep Hn. unfold slice_indices.
  set (step := match slice_step slc with None => 1 | Some s => s end).
  assert (Hs0 : step <> 0).
  { subst step. destruct (slice_step slc) as [s|]; [|lia].
    intros ->. now apply Hstep. }
  destruct (step =? 0) eqn:E0; [apply Z.eqb_eq in E0; lia|].
  destruct (n <? 0) eqn:En; [apply Z.ltb_lt in En; lia|].
  eexists _, _, _. split; [reflexivity|].
  split; [reflexivity|]. split; [assumption|].
  split; intros Hsgn.
  - assert (Hlt : (step <? 0) = false) by (apply Z.ltb_ge; lia).
    rewrite Hlt.
    destruct (slice_start slc) as [v|], (slice_stop slc) as [w|];
      repeat match goal with
             | |- context [?x <? 0] => destruct (x <? 0) eqn:?
             end; rewrite ?Z.ltb_lt, ?Z.ltb_ge in *; lia.
  - assert (Hlt : (step <? 0) = true) by (apply Z.ltb_lt; lia).
    rewrite Hlt.
    destruct (slice_start slc) as [v|], (slice_stop slc) as [w|];
      repeat match goal with
             | |- context [?x <? 0] => destruct (x <? 0) eqn:?
             end; rewrite ?Z.ltb_lt, ?Z.ltb_ge in *; lia.
Qed.

Lemma sliceLen_ok (slc : slice) (n : Z) :
  slice_step slc <> Some 0 -> 0 <= n ->
  exists len,
    sliceLen slc n = Ok len /\ materializedLen slc n = Ok len /\ 0 <= len.
Proof.
  intros Hstep Hn.
  destruct (slice_indices_ok slc n Hstep Hn)
    as (start & stop & step & Hidx & _ & Hs0 & _).
  unfold sliceLen, materializedLen. rewrite Hidx. cbn [bind].
  eexists. split; [reflexivity|]. split; [|lia].
  rewrite py_range_length by assumption.
  unfold range_count. f_equal. lia.
Qed.

(** C5: for every slice with a non-zero step and every axis length
    [n >= 0], [sliceLen slc n] returns the length of the materialised index
    list [len(list(range( *slc.indices(n) )))], and that length is never
    negative. *)
Theorem sliceLen_materialized (slc : slice) (n : Z)
    (Hstep : slice_step slc <> Some 0) (Hn : 0 <= n) :
  exists len,
    sliceLen slc n = Ok len /\ materializedLen slc n = Ok len /\ 0 <= len.
Proof.
  exact (sliceLen_ok slc n Hstep Hn).
Qed.

Lemma sliceLen_materialized_witness :
  exists len,
    sliceLen (mkSlice None (Some 1) (Some (-2))) 7 = Ok len /\
    materializedLen (mkSlice None (Some 1) (Some (-2))) 7 = Ok len /\
    0 <= len.
Proof.
  apply sliceLen_materialized; [discriminate | lia].
Defined.

(** Both functions fail alike on a zero step or a negative length, so the
    equation holds with no side condition. *)
Lemma sliceLen_eq_materializedLen (slc : slice) (n : Z) :
  sliceLen slc n = materializedLen slc n.
Proof.
  unfold sliceLen, materializedLen, slice_indices.
  set (step := match slice_step slc with None => 1 | Some s => s end).
  destruct (step =? 0) eqn:E0; [reflexivity|].
  destruct (n <? 0); [reflexivity|].
  cbn [bind]. apply Z.eqb_neq in E0.
  rewrite py_range_length by assumption.
  unfold range_count. f_equal. lia.
Qed.

Example sliceLen_reversed_5 :
  sliceLen (mkSlice None None (Some (-1))) 5 = Ok 5.
Proof. reflexivity. Qed.

Lemma range_loop_bounds_pos (step stop : Z) :
  0 < step ->
  forall fuel a x, In x (range_loop fuel a stop step) -> a <= x < stop.
Proof.
  intros Hs.
  assert (Hneg : (step <? 0) = false) by (apply Z.ltb_ge; lia).
  induction fuel as [|fuel IH]; intros a x Hin; [contradiction|].
  simpl in Hin. rewrite Hneg in Hin.
  destruct (a <? stop) eqn:Hlt; [|contradiction].
  apply Z.ltb_lt in Hlt.
  destruct Hin as [<-|Hin]; [lia|].
  apply IH in Hin. lia.
Qed.

Lemma py_range_bounds (start stop step x : Z) :
  In x (py_range start stop step) ->
  (0 < step -> start <= x < stop) /\ (step < 0 -> stop < x <= start).
Proof.
  unfold py_range. intros Hin. split; intros Hs.
  - eapply range_loop_bounds_pos; eassumption.
  - rewrite range_loop_opp in Hin by assumption.
    apply in_map_iff in Hin. destruct Hin as (y & <- & Hin).
    apply range_loop_bounds_pos in Hin; lia.
Qed.

Lemma py_range_0_n (n : Z) :
  py_range 0 n 1 = map Z.of_nat (seq 0 (Z.to_nat n)).
Proof.
  rewrite py_range_closed by lia.
  unfold range_count. cbn [Z.ltb Z.compare].
  replace ((n - 0 + 1 - 1) / 1) with n by (rewrite Z.div_1_r; lia).
  replace (Z.to_nat (Z.max 0 n)) with (Z.to_nat n) by lia.
  apply map_ext. intros k. lia.
Qed.

Lemma py_index_range_0_n (n i : Z) :
  0 <= i < n -> py_index (py_range 0 n 1) i = Ok i.
Proof.
  intros Hi. unfold py_index.
  rewrite py_range_0_n, length_map, length_seq.
  replace (i <? 0) with false by (symmetry; apply Z.ltb_ge; lia).
  replace ((0 <=? i) && (i <? Z.of_nat (Z.to_nat n))) with true
    by (symmetry; apply andb_true_iff; split;
        [apply Z.leb_le | apply Z.ltb_lt]; lia).
  rewrite nth_error_map, nth_error_seq.
  replace (Z.to_nat i <? Z.to_nat n)%nat with true
    by (symmetry; apply Nat.ltb_lt; lia).
  cbn. f_equal. lia.
Qed.

Lemma mapM_ok_id {A} (f : A -> result A) (l : list A) :
  (forall x, In x l -> f x = Ok x) -> mapM f l = Ok l.
Proof.
  induction l as [|x xs IH]; intros H; [reflexivity|].
  cbn. rewrite H by (left; reflexivity). cbn.
  rewrite IH by (intros y Hy; apply H; right; assumption). reflexivity.
Qed.

(** Slicing [list(range(n))] yields the range of the resolved indices. *)
Lemma expand_indices (slc : slice) (n start stop step : Z) :
  0 <= n -> step <> 0 ->
  (0 < step -> 0 <= start /\ stop <= n) ->
  (step < 0 -> start <= n - 1 /\ -1 <= stop) ->
  slice_indices slc n = Ok (start, stop, step) ->
  expand slc n = Ok (py_range start stop step).
Proof.
  intros Hn Hs Hpos Hneg Hidx. unfold expand, py_getslice.
  replace (Z.of_nat (List.length (py_range 0 n 1))) with n
    by (rewrite py_range_0_n, length_map, length_seq; lia).
  rewrite Hidx. cbn [bind].
  apply mapM_ok_id. intros x Hin.
  apply py_index_range_0_n.
  apply py_range_bounds in Hin. destruct Hin as [Hp Hm].
  destruct (Z.lt_trichotomy step 0) as [H|[H|H]]; [|lia|].
  - specialize (Hm H). specialize (Hneg H). lia.
  - specialize (Hp H). specialize (Hpos H). lia.
Qed.

Lemma expand_ok (slc : slice) (n : Z) :
  slice_step slc <> Some 0 -> 0 <= n ->
  exists start stop step,
    slice_indices slc n = Ok (start, stop, step) /\
    expand slc n = Ok (py_range start stop step).
Proof.
  intros Hstep Hn.
  destruct (slice_indices_ok slc n Hstep Hn)
    as (start & stop & step & Hidx & _ & Hs0 & Hp & Hm).
  exists start, stop, step. split; [assumption|].
  apply expand_indices; try assumption.
  - intros H. specialize (Hp H). lia.
  - intros H. specialize (Hm H). lia.
Qed.

Lemma rev_map_seq {A} (f : nat -> A) (n : nat) :
  rev (map f (seq 0 n)) = map (fun k => f (n - 1 - k)%nat) (seq 0 n).
Proof.
  induction n as [|n IH]; [reflexivity|].
  rewrite seq_S at 1. rewrite map_app, rev_app_distr. cbn [map rev app plus].
  rewrite IH. cbn [seq map]. f_equal.
  - f_equal. lia.
  - rewrite map_seq_shift. apply map_ext. intros k. f_equal. lia.
Qed.

Lemma py_range_rev_pos (a b s : Z) :
  0 < s -> a < b ->
  py_range ((b - a - 1) / s * s + a) (a - 1) (- s) = rev (py_range a b s).
Proof.
  intros Hs Hab.
  rewrite !py_range_closed by lia. rewrite rev_map_seq.
  assert (Hq : 0 <= (b - a - 1) / s) by (apply Z.div_pos; lia).
  set (q := (b - a - 1) / s) in *.
  assert (Hc1 : range_count a b s = S (Z.to_nat q)).
  { unfold range_count.
    replace (s <? 0) with false by (symmetry; apply Z.ltb_ge; lia).
    replace (b - a + s - 1) with ((b - a - 1) + 1 * s) by lia.
    rewrite Z.div_add by lia. fold q. lia. }
  assert (Hc2 : range_count (q * s + a) (a - 1) (- s) = S (Z.to_nat q)).
  { unfold range_count.
    replace (- s <? 0) with true by (symmetry; apply Z.ltb_lt; lia).
    replace (a - 1 - (q * s + a) + - s - -1) with ((q + 1) * - s) by lia.
    rewrite Z.div_mul by lia. lia. }
  rewrite Hc1, Hc2.
  apply map_ext_in. intros k Hk. apply in_seq in Hk.
  replace (Z.of_nat (S (Z.to_nat q) - 1 - k)) with (q - Z.of_nat k) by lia.
  lia.
Qed.

Lemma py_range_rev_neg (a b s : Z) :
  s < 0 -> b < a ->
  py_range ((b - a + 1) / s * s + a) (a + 1) (- s) = rev (py_range a b s).
Proof.
  intros Hs Hab.
  rewrite !py_range_closed by lia. rewrite rev_map_seq.
  assert (Hq : 0 <= (b - a + 1) / s).
  { replace (b - a + 1) with (- (a - b - 1)) by lia.
    replace s with (- - s) by lia.
    rewrite Z.div_opp_opp by lia. apply Z.div_pos; lia. }
  set (q := (b - a + 1) / s) in *.
  assert (Hc1 : range_count a b s = S (Z.to_nat q)).
  { unfold range_count.
    replace (s <? 0) with true by (symmetry; apply Z.ltb_lt; lia).
    replace (b - a + s - -1) with ((b - a + 1) + 1 * s) by lia.
    rewrite Z.div_add by lia. fold q. lia. }
  assert (Hc2 : range_count (q * s + a) (a + 1) (- s) = S (Z.to_nat q)).
  { unfold range_count.
    replace (- s <? 0) with false by (symmetry; apply Z.ltb_ge; lia).
    replace (a + 1 - (q * s + a) + - s - 1) with ((q + 1) * - s) by lia.
    rewrite Z.div_mul by lia. lia. }
  rewrite Hc1, Hc2.
  apply map_ext_in. intros k Hk. apply in_seq in Hk.
  replace (Z.of_nat (S (Z.to_nat q) - 1 - k)) with (q - Z.of_nat k) by lia.
  lia.
Qed.

Lemma py_range_nonempty (a b s : Z) :
  s <> 0 -> py_range a b s <> [] ->
  (0 < s -> a < b) /\ (s < 0 -> b < a).
Proof.
  intros Hs Hne.
  destruct (py_range a b s) as [|x xs] eqn:E; [contradiction|].
  assert (Hin : In x (py_range a b s)) by (rewrite E; left; reflexivity).
  apply py_range_bounds in Hin. destruct Hin as [Hp Hm].
  split; intros H; [specialize (Hp H) | specialize (Hm H)]; lia.
Qed.

Lemma slice_indices_some_pos (x y s n : Z) :
  0 < s -> 0 <= x <= n -> 0 <= y <= n ->
  slice_indices (mkSlice (Some x) (Some y) (Some s)) n = Ok (x, y, s).
Proof.
  intros Hs Hx Hy. unfold slice_indices. cbn [slice_start slice_stop slice_step].
  destruct (s =? 0) eqn:E0; zbool; [lia|].
  destruct (n <? 0) eqn:E1; zbool; [lia|].
  destruct (s <? 0) eqn:E2; zbool; [lia|].
  destruct (x <? 0) eqn:E3; zbool; [lia|].
  destruct (y <? 0) eqn:E4; zbool; [lia|].
  repeat f_equal; lia.
Qed.

Lemma slice_indices_some_neg (x y s n : Z) (stop : option Z) :
  s < 0 -> 0 <= x <= n - 1 ->
  (stop = None /\ y = -1) \/ (stop = Some y /\ 0 <= y <= n - 1) ->
  slice_indices (mkSlice (Some x) stop (Some s)) n = Ok (x, y, s).
Proof.
  intros Hs Hx Hy. unfold slice_indices. cbn [slice_start slice_stop slice_step].
  destruct (s =? 0) eqn:E0; zbool; [lia|].
  destruct (n <? 0) eqn:E1; zbool; [lia|].
  destruct (s <? 0) eqn:E2; zbool; [|lia].
  destruct (x <? 0) eqn:E3; zbool; [lia|].
  destruct Hy as [[-> ->]|[-> Hy]].
  - repeat f_equal; lia.
  - destruct (y <? 0) eqn:E4; zbool; [lia|].
    repeat f_equal; lia.
Qed.

(** On a non-empty selection [sliceReverse] does what its docstring says:
    the returned slice yields the same items in reversed order. *)
Lemma sliceReverse_nonempty (slc : slice) (n : Z) (l : list Z) :
  slice_step slc <> Some 0 -> 0 <= n ->
  expand slc n = Ok l -> l <> [] ->
  expandReverse slc n = Ok (rev l).
Proof.
  intros Hstep Hn Hexp Hne.
  destruct (slice_indices_ok slc n Hstep Hn)
    as (a & b & s & Hidx & _ & Hs0 & Hp & Hm).
  assert (Hl : expand slc n = Ok (py_range a b s)).
  { apply expand_indices; try assumption.
    - intros H. specialize (Hp H). lia.
    - intros H. specialize (Hm H). lia. }
  rewrite Hl in Hexp. injection Hexp as <-.
  apply py_range_nonempty in Hne; [|assumption]. destruct Hne as [Hnp Hnm].
  unfold expandReverse, sliceReverse. rewrite Hidx. cbn [bind].
  destruct (s <? 0) eqn:Esgn; zbool.
  - specialize (Hm Esgn). specialize (Hnm Esgn). clear Hp Hnp.
    assert (Hq : 0 <= (b - a + 1) / s).
    { replace (b - a + 1) with (- (a - b - 1)) by lia.
      replace s with (- - s) at 1 by lia.
      rewrite Z.div_opp_opp by lia. apply Z.div_pos; lia. }
    assert (Hq' : b - a + 1 <= (b - a + 1) / s * s).
    { pose proof (Z.mul_div_le (a - b - 1) (- s) ltac:(lia)) as Hd.
      replace ((b - a + 1) / s) with ((a - b - 1) / - s).
      - lia.
      - replace (b - a + 1) with (- (a - b - 1)) by lia.
        replace s with (- - s) at 2 by lia.
        rewrite Z.div_opp_opp by lia. reflexivity. }
    set (q := (b - a + 1) / s) in *.
    assert (Hq'' : q * s <= 0) by nia.
    destruct (a + 1 =? -1) eqn:E; zbool; [lia|].
    rewrite (expand_indices _ n (q * s + a) (a + 1) (- s)); try lia.
    + subst q. rewrite py_range_rev_neg by lia. reflexivity.
    + apply slice_indices_some_pos; lia.
  - assert (Hs : 0 < s) by lia.
    specialize (Hp Hs). specialize (Hnp Hs). clear Hm Hnm.
    assert (Hq : 0 <= (b - a - 1) / s) by (apply Z.div_pos; lia).
    pose proof (Z.mul_div_le (b - a - 1) s Hs) as Hq'.
    replace (b - a + -1) with (b - a - 1) by lia.
    set (q := (b - a - 1) / s) in *.
    assert (Hq'' : 0 <= q * s) by nia.
    rewrite (expand_indices _ n (q * s + a) (a - 1) (- s)); try lia.
    + subst q. rewrite py_range_rev_pos by lia. reflexivity.
    + apply slice_indices_some_neg; try lia.
      destruct (a + -1 =? -1) eqn:E; zbool.
      * left. split; [reflexivity|lia].
      * right. split; [f_equal; lia|lia].
Qed.

(** C6 (code defect): on the empty selection [slice(0, 0)] of [range(1)],
    [sliceReverse] returns [slice(-1, None, -1)], which selects [[0]],
    although the reversed selection is empty. *)
Theorem sliceReverse_empty_selection_diverges :
  sliceReverse (mkSlice (Some 0) (Some 0) None) 1
    = Ok (mkSlice (Some (-1)) None (Some (-1))) /\
  expandReverse (mkSlice (Some 0) (Some 0) None) 1 = Ok [0] /\
  reversedExpand (mkSlice (Some 0) (Some 0) None) 1 = Ok [].
Proof.
  repeat split; reflexivity.
Qed.

Example sliceReverse_scenario :
  sliceReverse (mkSlice None None (Some (-1))) 5
    = Ok (mkSlice (Some 0) (Some 5) (Some 1)) /\
  expandReverse (mkSlice None None (Some (-1))) 5 = Ok [0; 1; 2; 3; 4].
Proof.
  split; reflexivity.
Qed.

(** ** Built-in helpers *)

Lemma py_in_In (x : Z) (l : list Z) : py_in x l = true <-> In x l.
Proof.
  unfold py_in. rewrite existsb_exists. split.
  - intros (y & Hy & E). apply Z.eqb_eq in E. subst. assumption.
  - intros H. exists x. split; [assumption|apply Z.eqb_refl].
Qed.

Lemma py_in_false (x : Z) (l : list Z) : py_in x l = false <-> ~ In x l.
Proof.
  rewrite <- py_in_In. destruct (py_in x l); split; congruence.
Qed.

Lemma list_eqb_eq (l1 l2 : list Z) : list_eqb l1 l2 = true <-> l1 = l2.
Proof.
  revert l2. induction l1 as [|x xs IH]; intros [|y ys]; cbn;
    try (split; congruence).
  rewrite andb_true_iff, Z.eqb_eq, IH. split.
  - intros [-> ->]. reflexivity.
  - intros [= -> ->]. split; reflexivity.
Qed.

Lemma insert_sorted_perm (x : Z) (l : list Z) :
  Permutation (x :: l) (insert_sorted x l).
Proof.
  induction l as [|y ys IH]; cbn; [reflexivity|].
  destruct (x <=? y); [reflexivity|].
  rewrite perm_swap. apply perm_skip. exact IH.
Qed.

Lemma sorted_perm (l : list Z) : Permutation l (sorted l).
Proof.
  induction l as [|x xs IH]; unfold sorted in *; cbn [fold_right];
    [reflexivity|].
  rewrite <- insert_sorted_perm. apply perm_skip. exact IH.
Qed.

Lemma insert_sorted_comm (x y : Z) (l : list Z) :
  insert_sorted x (insert_sorted y l) = insert_sorted y (insert_sorted x l).
Proof.
  induction l as [|z zs IH]; cbn.
  - destruct (x <=? y) eqn:E1, (y <=? x) eqn:E2; zbool;
      try reflexivity; try lia.
    assert (x = y) by lia. subst. reflexivity.
  - destruct (y <=? z) eqn:E1, (x <=? z) eqn:E2; cbn;
      rewrite ?E1, ?E2;
      destruct (x <=? y) eqn:E3, (y <=? x) eqn:E4; zbool;
      try reflexivity; try lia.
    + assert (x = y) by lia. subst. reflexivity.
    + rewrite IH. reflexivity.
    + rewrite IH. reflexivity.
    + rewrite IH. reflexivity.
Qed.

(** [sorted] depends on the items only, whatever their order. *)
Lemma sorted_Permutation (l1 l2 : list Z) :
  Permutation l1 l2 -> sorted l1 = sorted l2.
Proof.
  induction 1 as [|x l l' _ IH|x y l|l l' l'' _ IH1 _ IH2];
    unfold sorted in *; cbn [fold_right].
  - reflexivity.
  - rewrite IH. reflexivity.
  - apply insert_sorted_comm.
  - congruence.
Qed.

Lemma mapM_ok_map {A B} (f : A -> result B) (g : A -> B) (l : list A) :
  (forall x, In x l -> f x = Ok (g x)) -> mapM f l = Ok (map g l).
Proof.
  induction l as [|x xs IH]; intros H; [reflexivity|].
  cbn. rewrite H by (left; reflexivity). cbn.
  rewrite IH by (intros y Hy; apply H; right; assumption). reflexivity.
Qed.

Lemma mapM_length {A B} (f : A -> result B) (l : list A) (r : list B) :
  mapM f l = Ok r -> List.length r = List.length l.
Proof.
  revert r. induction l as [|x xs IH]; intros r H; cbn in H.
  - injection H as <-. reflexivity.
  - destruct (f x); [|discriminate]. cbn in H.
    destruct (mapM f xs) as [ys|]; [|discriminate]. cbn in H.
    injection H as <-. cbn. f_equal. apply IH. reflexivity.
Qed.

Lemma possitive_index_valid (i n : Z) :
  axis_in_range n i ->
  possitive_index i n = Ok (norm_axis n i) /\ 0 <= norm_axis n i < n.
Proof.
  unfold axis_in_range, possitive_index, norm_axis, py_floordiv.
  intros Hi. destruct (i <? 0) eqn:E; zbool; [|split; [reflexivity|lia]].
  destruct (n =? 0) eqn:E0; zbool; [lia|]. cbn [bind].
  assert (Hq : Z.max (- i / n) 1 = 1).
  { assert (- i / n <= 1); [|lia].
    destruct (Z.eq_dec (- i) n) as [->|Hne].
    - rewrite Z.div_same by lia. lia.
    - rewrite Z.div_small by lia. lia. }
  rewrite Hq. split; [f_equal; lia|lia].
Qed.

Lemma py_range_0_n_In (n x : Z) : In x (py_range 0 n 1) <-> 0 <= x < n.
Proof.
  rewrite py_range_0_n, in_map_iff. split.
  - intros (k & <- & Hk). apply in_seq in Hk. lia.
  - intros Hx. exists (Z.to_nat x). split; [lia|]. apply in_seq. lia.
Qed.

Lemma py_range_0_n_NoDup (n : Z) : NoDup (py_range 0 n 1).
Proof.
  rewrite py_range_0_n.
  apply Finite.Injective_map_NoDup; [|apply seq_NoDup].
  intros a b H. lia.
Qed.

Lemma other_axes_In (ndim : Z) (chunkAxes : list Z) (x : Z) :
  In x (other_axes ndim chunkAxes) <-> 0 <= x < ndim /\ ~ In x chunkAxes.
Proof.
  unfold other_axes. rewrite filter_In, py_range_0_n_In, negb_true_iff,
    py_in_false. reflexivity.
Qed.

Lemma other_axes_length (ndim : Z) (chunkAxes : list Z) :
  0 <= ndim -> NoDup chunkAxes ->
  Forall (fun a => 0 <= a < ndim) chunkAxes ->
  (List.length chunkAxes + List.length (other_axes ndim chunkAxes))%nat
  = Z.to_nat ndim.
Proof.
  intros Hn Hnd Hr.
  assert (HP : Permutation (chunkAxes ++ other_axes ndim chunkAxes)
                           (py_range 0 ndim 1)).
  { apply NoDup_Permutation.
    - apply NoDup_app; [assumption| |].
      + apply NoDup_filter, py_range_0_n_NoDup.
      + intros a Ha Hb. apply other_axes_In in Hb. tauto.
    - apply py_range_0_n_NoDup.
    - intros x. rewrite in_app_iff, other_axes_In, py_range_0_n_In.
      rewrite Forall_forall in Hr. split.
      + intros [H|[H _]]; [apply Hr|]; assumption.
      + intros H. destruct (in_dec Z.eq_dec x chunkAxes); [left|right]; tauto. }
  apply Permutation_length in HP. rewrite length_app in HP. rewrite HP.
  rewrite py_range_0_n, length_map, length_seq. reflexivity.
Qed.

(** ** [chunkIndexParameters] *)

Lemma planned_axes_of_perm (shape ca ao : list Z) (sl : list slice) :
  NoDup ca ->
  Forall (fun a => 0 <= a < Z.of_nat (List.length shape)) ca ->
  Permutation ao (other_axes (Z.of_nat (List.length shape)) ca) ->
  List.length sl = List.length ca ->
  Forall (fun s => slice_step s <> Some 0) sl ->
  planned_axes shape ca ao sl.
Proof.
  intros Hnd Hr HP Hl Hs.
  pose proof (other_axes_length _ ca (Nat2Z.is_nonneg _) Hnd Hr) as Hlen.
  split; try assumption.
  - apply Forall_forall. intros a Ha.
    apply (Permutation_in _ HP), other_axes_In in Ha. tauto.
  - apply NoDup_app; [assumption| |].
    + apply (Permutation_NoDup (Permutation_sym HP)).
      apply NoDup_filter, py_range_0_n_NoDup.
    + intros a Ha Hb.
      apply (Permutation_in _ HP), other_axes_In in Hb. tauto.
  - rewrite (Permutation_length HP). lia.
Qed.

Lemma chunkIndexParameters_ok (shape : list Z) (nChunksMax : Z) (kw : kwargs) :
  valid_axes shape kw ->
  exists chunkAxes axesOrder chunkAxesSlice,
    chunkIndexParameters shape nChunksMax kw
      = Ok (Z.max nChunksMax 1, chunkAxes, axesOrder, chunkAxesSlice) /\
    chunkAxes = map (norm_axis (Z.of_nat (List.length shape)))
                    (match kw_chunkAxes kw with None => [] | Some l => l end) /\
    chunkAxesSlice = match kw_chunkAxesSlice kw with
                     | None => repeat slice_all (List.length chunkAxes)
                     | Some l => l
                     end /\
    Permutation axesOrder (other_axes (Z.of_nat (List.length shape)) chunkAxes) /\
    planned_axes shape chunkAxes axesOrder chunkAxesSlice.
Proof.
  intros [Hcr Hcn Hsl Hord].
  unfold chunkIndexParameters.
  set (ndim := Z.of_nat (List.length shape)) in *.
  set (cin := match kw_chunkAxes kw with None => [] | Some l => l end) in *.
  assert (Hca : mapM (fun i => possitive_index i ndim) cin
                = Ok (map (norm_axis ndim) cin)).
  { apply mapM_ok_map. intros x Hx. rewrite Forall_forall in Hcr.
    apply possitive_index_valid, Hcr, Hx. }
  rewrite Hca. cbn [bind].
  set (ca := map (norm_axis ndim) cin) in *.
  assert (Hcar : Forall (fun a => 0 <= a < ndim) ca).
  { apply Forall_forall. intros a Ha. apply in_map_iff in Ha.
    destruct Ha as (i & <- & Hi). rewrite Forall_forall in Hcr.
    apply possitive_index_valid, Hcr, Hi. }
  set (sl := match kw_chunkAxesSlice kw with
             | None => repeat slice_all (List.length ca)
             | Some l => l
             end).
  assert (Hsl' : List.length sl = List.length ca /\
                 Forall (fun s => slice_step s <> Some 0) sl).
  { subst sl. destruct (kw_chunkAxesSlice kw) as [l|].
    - destruct Hsl as [Hl Hs]. split; [|assumption].
      subst ca. rewrite length_map. assumption.
    - split; [apply repeat_length|].
      apply Forall_forall. intros s Hs. apply repeat_spec in Hs.
      subst s. discriminate. }
  destruct Hsl' as [Hsl1 Hsl2].
  assert (Hslice :
    match kw_chunkAxesSlice kw with
    | None => Ok (repeat slice_all (List.length ca))
    | Some l =>
        if negb (List.length ca =? List.length l)%nat
        then Err (ValueError
                    "Chunk slicing does not correspond with chunk dimensions")
        else Ok l
    end = Ok sl).
  { subst sl. destruct (kw_chunkAxesSlice kw) as [l|]; [|reflexivity].
    rewrite <- Hsl1, Nat.eqb_refl. reflexivity. }
  rewrite Hslice. cbn [bind].
  set (aAxesOrder :=
         filter (fun i => negb (py_in i ca))
                (if String.eqb (kw_defaultOrder kw) "C"
                 then rev (py_range 0 ndim 1) else py_range 0 ndim 1)).
  assert (HaP : Permutation aAxesOrder (other_axes ndim ca)).
  { subst aAxesOrder. unfold other_axes.
    destruct (String.eqb (kw_defaultOrder kw) "C"); [|reflexivity].
    rewrite filter_rev. symmetry. apply Permutation_rev. }
  destruct (kw_axesOrder kw) as [l|].
  - destruct Hord as [Hlr HlP].
    assert (Hao : mapM (fun i => possitive_index i ndim) l
                  = Ok (map (norm_axis ndim) l)).
    { apply mapM_ok_map. intros x Hx. rewrite Forall_forall in Hlr.
      apply possitive_index_valid, Hlr, Hx. }
    rewrite Hao. cbn [bind].
    assert (Heq : list_eqb (sorted (map (norm_axis ndim) l)) (sorted aAxesOrder)
                  = true).
    { apply list_eqb_eq, sorted_Permutation.
      rewrite HlP. symmetry. exact HaP. }
    rewrite Heq. cbn [negb bind].
    eexists _, _, _. split; [reflexivity|].
    split; [reflexivity|]. split; [reflexivity|].
    split; [exact HlP|].
    apply planned_axes_of_perm; assumption.
  - cbn [bind].
    eexists _, _, _. split; [reflexivity|].
    split; [reflexivity|]. split; [reflexivity|].
    split; [exact HaP|].
    apply planned_axes_of_perm; assumption.
Qed.

(** ** [chunkIndexGen] *)

Lemma py_range_1_In (a b x : Z) : In x (py_range a b 1) <-> a <= x < b.
Proof.
  split.
  - intros H. apply py_range_bounds in H. destruct H as [H _]. apply H. lia.
  - intros H. rewrite py_range_closed by lia. apply in_map_iff.
    exists (Z.to_nat (x - a)). split; [lia|]. apply in_seq.
    unfold range_count. cbn [Z.ltb Z.compare].
    rewrite Z.div_1_r. lia.
Qed.

Lemma py_range_1_length (a b : Z) :
  a <= b -> Z.of_nat (List.length (py_range a b 1)) = b - a.
Proof.
  intros H. rewrite py_range_length by lia.
  unfold range_count. cbn [Z.ltb Z.compare]. rewrite Z.div_1_r. lia.
Qed.

Lemma expand_unit_step (a b n : Z) :
  0 <= a <= b -> b <= n ->
  expand (mkSlice (Some a) (Some b) (Some 1)) n = Ok (py_range a b 1).
Proof.
  intros Ha Hb. apply expand_indices; try lia.
  apply slice_indices_some_pos; lia.
Qed.

Lemma expand_slice_all (n : Z) :
  0 <= n -> expand slice_all n = Ok (py_range 0 n 1).
Proof.
  intros Hn. apply expand_indices; try lia.
  unfold slice_indices, slice_all. cbn.
  destruct (n <? 0) eqn:E; zbool; [lia|]. reflexivity.
Qed.

Lemma chunkIndexGen_closed (n step : Z) :
  0 <= n -> 0 < step ->
  chunkIndexGen 0 n (Some step)
  = Ok (map (gen_piece n step) (seq 0 (gen_count n step))).
Proof.
  intros Hn Hs. unfold chunkIndexGen.
  destruct (step =? 0) eqn:E0; zbool; [lia|].
  destruct (step <? 0) eqn:E1; zbool; [lia|].
  f_equal. rewrite py_range_closed by lia. rewrite map_map.
  assert (Hc : range_count 0 n step = gen_count n step).
  { unfold range_count, gen_count.
    replace (step <? 0) with false by (symmetry; apply Z.ltb_ge; lia).
    replace (n - 0 + step - 1) with (n + step - 1) by lia.
    assert (0 <= (n + step - 1) / step) by (apply Z.div_pos; lia). lia. }
  rewrite Hc. apply map_ext_in. intros k Hk. apply in_seq in Hk.
  unfold gen_piece. cbn zeta.
  assert (Hlt : Z.of_nat k * step < n).
  { unfold gen_count in Hk.
    assert (Z.of_nat k < (n + step - 1) / step) by lia.
    assert (Z.of_nat k + 1 <= (n + step - 1) / step) by lia.
    pose proof (Z.mul_div_le (n + step - 1) step Hs). nia. }
  replace (0 + Z.of_nat k * step) with (Z.of_nat k * step) by lia.
  destruct (Z.min (Z.of_nat k * step + step) n =? -1) eqn:E; zbool; [lia|].
  f_equal. lia.
Qed.

Lemma gen_piece_selects (n step x : Z) (k : nat) :
  0 < step -> 0 <= x < n -> Z.of_nat k * step < n ->
  piece_selects n x (gen_piece n step k) = (k =? Z.to_nat (x / step))%nat.
Proof.
  intros Hs Hx Hk. unfold piece_selects, gen_piece. cbn [fst].
  rewrite expand_unit_step by lia.
  pose proof (Z.mul_div_le x step Hs) as H1.
  pose proof (Z.mul_succ_div_gt x step Hs) as H2.
  assert (0 <= x / step) by (apply Z.div_pos; lia).
  destruct (k =? Z.to_nat (x / step))%nat eqn:E.
  - apply Nat.eqb_eq in E. apply py_in_In, py_range_1_In. subst k.
    rewrite Z2Nat.id by assumption. lia.
  - apply Nat.eqb_neq in E. apply py_in_false. rewrite py_range_1_In.
    intros [Ha Hb]. apply E.
    assert (Z.of_nat k = x / step); [|lia].
    assert (Z.of_nat k * step <= x < (Z.of_nat k + 1) * step) by lia.
    apply (Z.div_unique x step (Z.of_nat k) (x - Z.of_nat k * step)); lia.
Qed.

Lemma count_eqb_seq (k0 a len : nat) :
  (a <= k0 < a + len)%nat ->
  List.length (filter (fun k => (k =? k0)%nat) (seq a len)) = 1%nat.
Proof.
  revert a. induction len as [|len IH]; intros a H; [lia|].
  cbn [seq filter]. destruct (a =? k0)%nat eqn:E.
  - apply Nat.eqb_eq in E. subst. cbn [List.length]. f_equal.
    rewrite (filter_ext_in _ (fun _ => false)).
    + clear. generalize (seq (S k0) len). induction l; cbn; auto.
    + intros k Hk. apply in_seq in Hk. apply Nat.eqb_neq. lia.
  - apply Nat.eqb_neq in E. apply IH. lia.
Qed.

Lemma Zsum_app (l1 l2 : list Z) : Zsum (l1 ++ l2) = Zsum l1 + Zsum l2.
Proof.
  unfold Zsum. induction l1 as [|x xs IH]; cbn; [reflexivity|].
  rewrite IH. lia.
Qed.

Lemma gen_piece_sum (n step : Z) (cnt : nat) :
  0 <= n -> 0 < step -> Z.of_nat cnt * step < n + step ->
  Zsum (map snd (map (gen_piece n step) (seq 0 cnt)))
  = Z.min (Z.of_nat cnt * step) n.
Proof.
  intros Hn Hs. induction cnt as [|cnt IH]; intros Hc.
  - cbn. lia.
  - rewrite seq_S, !map_app, Zsum_app, IH by lia.
    cbn [plus seq map Zsum fold_right gen_piece snd]. lia.
Qed.

Lemma gen_count_lt (n step : Z) (k : nat) :
  0 < step -> (k < gen_count n step)%nat -> Z.of_nat k * step < n.
Proof.
  intros Hs Hk. unfold gen_count in Hk.
  assert (Z.of_nat k + 1 <= (n + step - 1) / step) by lia.
  pose proof (Z.mul_div_le (n + step - 1) step Hs). nia.
Qed.

Lemma gen_count_ge (n step : Z) :
  0 <= n -> 0 < step ->
  n <= Z.of_nat (gen_count n step) * step < n + step.
Proof.
  intros Hn Hs. unfold gen_count.
  assert (0 <= (n + step - 1) / step) by (apply Z.div_pos; lia).
  rewrite Z2Nat.id by assumption.
  pose proof (Z.mul_div_le (n + step - 1) step Hs).
  pose proof (Z.mul_succ_div_gt (n + step - 1) step Hs). lia.
Qed.

Lemma axis_partition_whole (n : Z) :
  0 <= n -> axis_partition n n [(slice_all, n)].
Proof.
  intros Hn. split.
  - intros x Hx. cbn [filter]. unfold piece_selects. cbn [fst].
    rewrite expand_slice_all by assumption.
    replace (py_in x (py_range 0 n 1)) with true; [reflexivity|].
    symmetry. apply py_in_In, py_range_0_n_In. assumption.
  - constructor; [|constructor]. exists (py_range 0 n 1).
    split; [apply expand_slice_all; assumption|].
    cbn [snd]. rewrite py_range_1_length; lia.
  - constructor; [|constructor]. cbn [snd]. lia.
  - cbn. lia.
Qed.

Lemma axis_partition_gen (n step : Z) :
  0 <= n -> 0 < step ->
  axis_partition n step (map (gen_piece n step) (seq 0 (gen_count n step))).
Proof.
  intros Hn Hs. split.
  - intros x Hx. rewrite filter_map_swap, length_map.
    rewrite (filter_ext_in _ (fun k => (k =? Z.to_nat (x / step))%nat)).
    + apply count_eqb_seq. split; [lia|]. cbn [plus].
      assert (0 <= x / step) by (apply Z.div_pos; lia).
      assert (x / step < Z.of_nat (gen_count n step)); [|lia].
      apply Z.div_lt_upper_bound; [lia|].
      pose proof (gen_count_ge n step Hn Hs). lia.
    + intros k Hk. apply in_seq in Hk.
      apply gen_piece_selects; try assumption.
      apply gen_count_lt; [assumption|lia].
  - apply Forall_forall. intros p Hp. apply in_map_iff in Hp.
    destruct Hp as (k & <- & Hk). apply in_seq in Hk.
    assert (Z.of_nat k * step < n) by (apply gen_count_lt; [assumption|lia]).
    unfold gen_piece. cbn [fst snd].
    eexists. split; [apply expand_unit_step; lia|].
    rewrite py_range_1_length; lia.
  - apply Forall_forall. intros p Hp. apply in_map_iff in Hp.
    destruct Hp as (k & <- & Hk). apply in_seq in Hk.
    assert (Z.of_nat k * step < n) by (apply gen_count_lt; [assumption|lia]).
    unfold gen_piece. cbn [snd]. lia.
  - pose proof (gen_count_ge n step Hn Hs).
    rewrite gen_piece_sum by lia. lia.
Qed.

(** ** The dense planner [fullChunkIndex] *)

Lemma ceil_spec (a b : Z) :
  0 < b -> a <= (a / b + int_bool (a mod b)) * b < a + b.
Proof.
  intros Hb. pose proof (Z.div_mod a b ltac:(lia)) as Hd.
  pose proof (Z.mod_pos_bound a b Hb) as Hm.
  unfold int_bool. destruct (a mod b =? 0) eqn:E; zbool; nia.
Qed.

Lemma fullChunkIndex_axis_ok (shape : list Z) (cap nItems nBuffer : Z)
    (acc : list (list (slice * Z))) (axis n : Z) :
  1 <= cap -> py_index shape axis = Ok n -> 0 <= n ->
  buffer_inv cap nItems nBuffer ->
  exists pieces m,
    fullChunkIndex_axis shape cap (nItems, nBuffer, acc) axis
      = Ok (nItems * n, nBuffer * m, acc ++ [pieces]) /\
    axis_partition n m pieces /\ 0 <= m /\
    buffer_inv cap (nItems * n) (nBuffer * m).
Proof.
  intros Hcap Hidx Hn [Hb Hinv].
  unfold fullChunkIndex_axis. rewrite Hidx. cbn [bind].
  destruct (nItems * n <=? cap) eqn:E1; zbool.
  - exists [(slice_all, n)], n. cbn [bind].
    split; [reflexivity|]. split; [apply axis_partition_whole; assumption|].
    split; [assumption|]. unfold buffer_inv.
    destruct Hinv as [->|Hgt].
    + split; [nia|left; reflexivity].
    + assert (n = 0) by nia. subst n.
      rewrite !Z.mul_0_r. split; [lia|left; reflexivity].
  - destruct (cap <? nItems) eqn:E2; zbool.
    + rewrite chunkIndexGen_closed by lia. cbn [bind].
      exists (map (gen_piece n 1) (seq 0 (gen_count n 1))), 1.
      rewrite Z.mul_1_r.
      split; [reflexivity|]. split; [apply axis_partition_gen; lia|].
      split; [lia|]. unfold buffer_inv. split; [lia|right; lia].
    + destruct Hinv as [->|Hgt]; [|lia].
      assert (Hpos : 1 <= nBuffer) by nia.
      assert (Hn1 : 1 <= n) by nia.
      unfold py_floordiv, py_mod.
      destruct (nBuffer =? 0) eqn:E3; zbool; [lia|]. cbn [bind].
      assert (Hs0 : 1 <= cap / nBuffer)
        by (apply Z.div_le_lower_bound; lia).
      pose proof (Z.mul_div_le cap nBuffer ltac:(lia)) as Hs0'.
      set (step0 := cap / nBuffer) in *.
      destruct (step0 =? 0) eqn:E4; zbool; [lia|]. cbn [bind].
      pose proof (ceil_spec n step0 ltac:(lia)) as Hc.
      set (cnt := n / step0 + int_bool (n mod step0)) in *.
      assert (Hcnt : 1 <= cnt) by nia.
      destruct (cnt =? 0) eqn:E5; zbool; [lia|]. cbn [bind].
      pose proof (ceil_spec n cnt ltac:(lia)) as Hc'.
      set (step := n / cnt + int_bool (n mod cnt)) in *.
      assert (Hstep : 1 <= step <= step0) by nia.
      rewrite chunkIndexGen_closed by lia. cbn [bind].
      exists (map (gen_piece n step) (seq 0 (gen_count n step))), step.
      split; [reflexivity|]. split; [apply axis_partition_gen; lia|].
      split; [lia|]. unfold buffer_inv. split; [nia|right; lia].
Qed.

Lemma py_index_ok {A} (l : list A) (i : Z) :
  0 <= i < Z.of_nat (List.length l) ->
  exists x, py_index l i = Ok x /\ nth_error l (Z.to_nat i) = Some x.
Proof.
  intros Hi. unfold py_index.
  destruct (i <? 0) eqn:E; zbool; [lia|].
  replace ((0 <=? i) && (i <? Z.of_nat (List.length l))) with true
    by (symmetry; apply andb_true_iff; split;
        [apply Z.leb_le | apply Z.ltb_lt]; lia).
  destruct (nth_error l (Z.to_nat i)) as [x|] eqn:En.
  - exists x. split; reflexivity.
  - apply nth_error_None in En. lia.
Qed.

Lemma py_index_In {A} (l : list A) (i : Z) (x : A) :
  py_index l i = Ok x -> In x l.
Proof.
  unfold py_index. destruct (_ && _); [|discriminate].
  destruct (nth_error l _) as [y|] eqn:En; [|discriminate].
  intros [= <-]. eapply nth_error_In; eassumption.
Qed.

Lemma fullChunkIndex_loop_ok (shape : list Z) (cap : Z) :
  1 <= cap -> Forall (fun n => 0 <= n) shape ->
  forall (axesOrder : list Z) (nItems nBuffer : Z) acc,
    Forall (fun a => 0 <= a < Z.of_nat (List.length shape)) axesOrder ->
    buffer_inv cap nItems nBuffer ->
    exists nItems' (nm : list (Z * Z)) piecesL,
      foldM (fullChunkIndex_axis shape cap) axesOrder (nItems, nBuffer, acc)
        = Ok (nItems', nBuffer * Zprod (map snd nm), acc ++ piecesL) /\
      order_sizes shape axesOrder = Ok (map fst nm) /\
      Forall2 (fun p pieces => axis_partition (fst p) (snd p) pieces)
              nm piecesL /\
      Forall (fun p => 0 <= fst p /\ 0 <= snd p) nm /\
      buffer_inv cap nItems' (nBuffer * Zprod (map snd nm)).
Proof.
  intros Hcap Hshape. unfold order_sizes.
  induction axesOrder as [|axis rest IH]; intros nItems nBuffer acc Hr Hinv.
  - exists nItems, [], []. cbn [foldM mapM map Zprod fold_right].
    rewrite Z.mul_1_r, app_nil_r.
    split; [reflexivity|]. split; [reflexivity|].
    split; [constructor|]. split; [constructor|assumption].
  - inversion Hr as [|? ? Ha Hrest]; subst.
    destruct (py_index_ok shape axis Ha) as (n & Hidx & _).
    assert (Hn : 0 <= n).
    { rewrite Forall_forall in Hshape. apply Hshape.
      eapply py_index_In; eassumption. }
    destruct (fullChunkIndex_axis_ok shape cap nItems nBuffer acc axis n
                Hcap Hidx Hn Hinv) as (pieces & m & Hstep & Hpart & Hm & Hinv').
    destruct (IH (nItems * n) (nBuffer * m) (acc ++ [pieces]) Hrest Hinv')
      as (nItems' & nm & piecesL & Hfold & Hsizes & Hall & Hpos & Hinv'').
    exists nItems', ((n, m) :: nm), (pieces :: piecesL).
    cbn [foldM map fst snd Zprod fold_right mapM].
    rewrite Hstep. cbn [bind]. rewrite Hfold, Hidx. cbn [bind].
    rewrite Hsizes. cbn [bind]. fold (Zprod (map snd nm)).
    replace (nBuffer * (m * Zprod (map snd nm)))
      with (nBuffer * m * Zprod (map snd nm)) by lia.
    rewrite <- app_assoc. cbn [app].
    split; [reflexivity|]. split; [reflexivity|].
    split; [constructor; assumption|].
    split; [constructor; [cbn; lia|assumption]|assumption].
Qed.

Lemma chunkIndex1_ok (shape : list Z) :
  Forall (fun n => 0 <= n) shape ->
  forall (ca : list Z) (sl : list slice),
    Forall (fun a => 0 <= a < Z.of_nat (List.length shape)) ca ->
    Forall (fun s => slice_step s <> Some 0) sl ->
    exists ci1,
      mapM (fun '(axis, idx) =>
              nAxis <- py_index shape axis ;;
              len <- sliceLen idx nAxis ;;
              Ok [(idx, len)])
           (combine ca sl) = Ok ci1 /\
      Forall2 (chunk_axis_candidates shape) (combine ca sl) ci1.
Proof.
  intros Hshape. induction ca as [|axis ca IH]; intros sl Hr Hs.
  - exists []. split; [reflexivity|constructor].
  - destruct sl as [|idx sl].
    + exists []. split; [reflexivity|constructor].
    + inversion Hr as [|? ? Ha Hr']; subst.
      inversion Hs as [|? ? Hi Hs']; subst.
      destruct (py_index_ok shape axis Ha) as (n & Hidx & _).
      assert (Hn : 0 <= n).
      { rewrite Forall_forall in Hshape. apply Hshape.
        eapply py_index_In; eassumption. }
      destruct (sliceLen_ok idx n Hi Hn) as (len & Hlen & _ & Hpos).
      destruct (IH sl Hr' Hs') as (ci1 & Hm & Hall).
      exists ([(idx, len)] :: ci1). cbn [combine mapM].
      rewrite Hidx. cbn [bind]. rewrite Hlen. cbn [bind].
      rewrite Hm. cbn [bind]. split; [reflexivity|].
      constructor; [|assumption].
      exists n, len. cbn [fst snd]. repeat split; assumption.
Qed.

(** ** Item assignment *)

Lemma set_nth_length {A} (l : list A) (k : nat) (v : A) :
  List.length (set_nth l k v) = List.length l.
Proof.
  revert k. induction l as [|x xs IH]; intros [|k]; cbn; auto.
Qed.

Lemma nth_error_set_nth_eq {A} (l : list A) (k : nat) (v : A) :
  (k < List.length l)%nat -> nth_error (set_nth l k v) k = Some v.
Proof.
  revert k. induction l as [|x xs IH]; intros [|k] H; cbn in *;
    try lia; [reflexivity|]. apply IH. lia.
Qed.

Lemma nth_error_set_nth_neq {A} (l : list A) (k j : nat) (v : A) :
  j <> k -> nth_error (set_nth l k v) j = nth_error l j.
Proof.
  revert k j. induction l as [|x xs IH]; intros [|k] [|j] H; cbn;
    try reflexivity; try lia. apply IH. lia.
Qed.

Lemma py_setitem_ok {A} (l : list A) (i : Z) (v : A) :
  0 <= i < Z.of_nat (List.length l) ->
  py_setitem l i v = Ok (set_nth l (Z.to_nat i) v).
Proof.
  intros Hi. unfold py_setitem.
  destruct (i <? 0) eqn:E; zbool; [lia|].
  replace ((0 <=? i) && (i <? Z.of_nat (List.length l))) with true
    by (symmetry; apply andb_true_iff; split;
        [apply Z.leb_le | apply Z.ltb_lt]; lia).
  reflexivity.
Qed.

Lemma py_index_nonneg {A} (l : list A) (i : Z) :
  0 <= i ->
  py_index l i = match nth_error l (Z.to_nat i) with
                 | Some x => Ok x
                 | None => Err IndexError
                 end.
Proof.
  intros Hi. unfold py_index.
  destruct (i <? 0) eqn:E; zbool; [lia|].
  destruct ((0 <=? i) && (i <? Z.of_nat (List.length l))) eqn:Eb;
    [reflexivity|].
  apply andb_false_iff in Eb. destruct Eb as [Eb|Eb]; zbool; [lia|].
  replace (nth_error l (Z.to_nat i)) with (@None A); [reflexivity|].
  symmetry. apply nth_error_None. lia.
Qed.

Lemma py_index_set_nth_eq {A} (l : list A) (i : Z) (v : A) :
  0 <= i < Z.of_nat (List.length l) ->
  py_index (set_nth l (Z.to_nat i) v) i = Ok v.
Proof.
  intros Hi. rewrite py_index_nonneg by lia.
  rewrite nth_error_set_nth_eq by lia. reflexivity.
Qed.

Lemma py_index_set_nth_neq {A} (l : list A) (i j : Z) (v : A) :
  0 <= i -> 0 <= j -> i <> j ->
  py_index (set_nth l (Z.to_nat i) v) j = py_index l j.
Proof.
  intros Hi Hj Hne. rewrite !py_index_nonneg by lia.
  rewrite nth_error_set_nth_neq by lia. reflexivity.
Qed.

(** ** [chunkIndexProduct] *)

Lemma chunkIndexProduct_inner (axesOrder : list Z) :
  forall (axes : list Z) (t : list (slice * Z))
         (idx : list index) (shp : list (option Z)) (cnt : Z),
    NoDup axes ->
    Forall (fun a => 0 <= a < Z.of_nat (List.length idx)) axes ->
    List.length shp = List.length idx ->
    exists idx' shp',
      foldM (chunkIndexProduct_set axesOrder) (combine axes t) (idx, shp, cnt)
        = Ok (idx', shp', order_count axesOrder (combine axes t) cnt) /\
      List.length idx' = List.length idx /\
      List.length shp' = List.length idx /\
      (forall a p, In (a, p) (combine axes t) ->
         py_index idx' a = Ok (ISlice (fst p)) /\
         py_index shp' a = Ok (Some (snd p))) /\
      (forall a, 0 <= a -> ~ In a axes ->
         py_index idx' a = py_index idx a /\
         py_index shp' a = py_index shp a).
Proof.
  induction axes as [|a0 axes IH]; intros t idx shp cnt Hnd Hr Hl.
  - exists idx, shp. cbn [combine foldM order_count fold_left].
    split; [reflexivity|]. split; [reflexivity|]. split; [assumption|].
    split; [intros a p []|].
    intros a _ _. split; reflexivity.
  - destruct t as [|[s n] t].
    + exists idx, shp. cbn [combine foldM order_count fold_left].
      split; [reflexivity|]. split; [reflexivity|]. split; [assumption|].
      split; [intros a p []|].
      intros a _ _. split; reflexivity.
    + inversion Hnd as [|? ? Hnotin Hnd']; subst.
      inversion Hr as [|? ? Ha0 Hr']; subst.
      cbn [combine foldM chunkIndexProduct_set].
      rewrite py_setitem_ok by lia. cbn [bind].
      rewrite py_setitem_ok by lia. cbn [bind].
      set (idx1 := set_nth idx (Z.to_nat a0) (ISlice s)).
      set (shp1 := set_nth shp (Z.to_nat a0) (Some n)).
      destruct (IH t idx1 shp1
                  (if py_in a0 axesOrder then cnt * n else cnt) Hnd')
        as (idx' & shp' & Hfold & Hl1 & Hl2 & Hget & Hkeep).
      * subst idx1. rewrite set_nth_length. assumption.
      * subst idx1 shp1. rewrite !set_nth_length. assumption.
      * exists idx', shp'. rewrite Hfold.
        subst idx1 shp1. rewrite set_nth_length in *.
        split; [reflexivity|]. split; [assumption|]. split; [assumption|].
        split.
        -- intros a p [Heq|Hin].
           ++ injection Heq as <- <-. cbn [fst snd].
              destruct (Hkeep a0 ltac:(lia) Hnotin) as [-> ->].
              split; apply py_index_set_nth_eq; lia.
           ++ apply Hget; assumption.
        -- intros a Ha Hnot.
           destruct (Hkeep a Ha ltac:(intros H; apply Hnot; right; exact H))
             as [-> ->].
           assert (a0 <> a) by (intros ->; apply Hnot; left; reflexivity).
           split; apply py_index_set_nth_neq; lia.
Qed.

Lemma chunkIndexProduct_outer (axes axesOrder : list Z) :
  NoDup axes ->
  Forall (fun a => 0 <= a < Z.of_nat (List.length axes)) axes ->
  forall (ts : list (list (slice * Z)))
         (idx : list index) (shp : list (option Z)) (acc : list Chunk),
    List.length idx = List.length axes ->
    List.length shp = List.length axes ->
    exists idx' shp' chunks,
      foldM (chunkIndexProduct_step axes axesOrder) ts (idx, shp, acc)
        = Ok (idx', shp', acc ++ chunks) /\
      Forall2 (chunk_of axes axesOrder) ts chunks.
Proof.
  intros Hnd Hr.
  induction ts as [|t ts IH]; intros idx shp acc Hli Hls.
  - exists idx, shp, []. rewrite app_nil_r. split; [reflexivity|constructor].
  - destruct (chunkIndexProduct_inner axesOrder axes t idx shp 1 Hnd)
      as (idx1 & shp1 & Hfold & Hl1 & Hl2 & Hget & _).
    + rewrite Hli. assumption.
    + congruence.
    + destruct (IH idx1 shp1
                  (acc ++ [(idx1, shp1, order_count axesOrder (combine axes t) 1)]))
        as (idx' & shp' & chunks & Hrest & Hall); [congruence|congruence|].
      exists idx', shp',
        ((idx1, shp1, order_count axesOrder (combine axes t) 1) :: chunks).
      cbn [foldM chunkIndexProduct_step]. rewrite Hfold. cbn [bind].
      rewrite Hrest, <- app_assoc. split; [reflexivity|].
      constructor; [|assumption].
      unfold chunk_of. cbn [fst snd].
      split; [congruence|]. split; [congruence|].
      split; [assumption|reflexivity].
Qed.

Lemma chunkIndexProduct_ok (chunkIndex : list (list (slice * Z)))
    (chunkAxes axesOrder : list Z) :
  NoDup (chunkAxes ++ rev axesOrder) ->
  Forall (fun a => 0 <= a
                   < Z.of_nat (List.length (chunkAxes ++ rev axesOrder)))
         (chunkAxes ++ rev axesOrder) ->
  exists chunks,
    chunkIndexProduct chunkIndex chunkAxes axesOrder = Ok chunks /\
    Forall2 (chunk_of (chunkAxes ++ rev axesOrder) axesOrder)
            (product chunkIndex) chunks.
Proof.
  intros Hnd Hr. unfold chunkIndexProduct.
  destruct (chunkIndexProduct_outer _ axesOrder Hnd Hr (product chunkIndex)
              (repeat INone (List.length (chunkAxes ++ rev axesOrder)))
              (repeat None (List.length (chunkAxes ++ rev axesOrder))) [])
    as (idx' & shp' & chunks & Hfold & Hall);
    [apply repeat_length|apply repeat_length|].
  rewrite Hfold. cbn [bind app]. exists chunks. split; [reflexivity|assumption].
Qed.

(** ** Counting over [itertools.product] *)

Lemma product_In {A} (Ls : list (list A)) (t : list A) :
  In t (product Ls) -> Forall2 (fun x l => In x l) t Ls.
Proof.
  revert t. induction Ls as [|l Ls IH]; intros t H; cbn in H.
  - destruct H as [<-|[]]. constructor.
  - apply in_flat_map in H. destruct H as (x & Hx & Ht).
    apply in_map_iff in Ht. destruct Ht as (t' & <- & Ht').
    constructor; [assumption|]. apply IH. assumption.
Qed.

Lemma product_app_singletons {A} (t1 : list A) (L1 L2 : list (list A)) :
  Forall2 (fun x l => l = [x]) t1 L1 ->
  product (L1 ++ L2) = map (app t1) (product L2).
Proof.
  induction 1 as [|x l t1 L1 Hl _ IH]; cbn [app product].
  - rewrite map_id. reflexivity.
  - subst l. cbn [flat_map]. rewrite app_nil_r, IH, map_map. reflexivity.
Qed.

Lemma count_flat_map {A B} (f : B -> bool) (g : A -> list B) (h : A -> bool)
    (k : nat) (l : list A) :
  (forall x, In x l ->
     List.length (filter f (g x)) = if h x then k else 0%nat) ->
  List.length (filter f (flat_map g l)) = (List.length (filter h l) * k)%nat.
Proof.
  induction l as [|x xs IH]; intros H; [reflexivity|].
  cbn [flat_map filter]. rewrite filter_app, length_app.
  rewrite H by (left; reflexivity).
  rewrite IH by (intros y Hy; apply H; right; assumption).
  destruct (h x); cbn [List.length]; lia.
Qed.

Lemma count_product {P C} (sel : C -> P -> bool)
    (Ls : list (list P)) (cs : list C) :
  Forall2 (fun l c => List.length (filter (sel c) l) = 1%nat) Ls cs ->
  List.length
    (filter (fun t => forallb (fun pc => sel (snd pc) (fst pc)) (combine t cs))
            (product Ls)) = 1%nat.
Proof.
  induction 1 as [|l c Ls cs Hl _ IH]; [reflexivity|].
  cbn [product].
  rewrite (count_flat_map _ _ (sel c) 1%nat).
  - rewrite Hl. reflexivity.
  - intros x _. rewrite filter_map_swap, length_map.
    cbn [combine forallb fst snd].
    destruct (sel c x); cbn [andb].
    + exact IH.
    + clear. induction (product Ls); cbn; auto.
Qed.

Lemma Zsum_map_scale {A} (a : Z) (G : A -> Z) (l : list A) :
  Zsum (map (fun t => a * G t) l) = a * Zsum (map G l).
Proof.
  unfold Zsum. induction l as [|x xs IH]; cbn; [lia|]. rewrite IH. lia.
Qed.

Lemma Zsum_flat_map {A B} (F : B -> Z) (g : A -> list B) (l : list A) :
  Zsum (map F (flat_map g l)) = Zsum (map (fun x => Zsum (map F (g x))) l).
Proof.
  induction l as [|x xs IH]; [reflexivity|].
  cbn [flat_map map]. rewrite map_app, Zsum_app, IH. reflexivity.
Qed.

(** The counts of all tuples add up to the product of the per-axis sums. *)
Lemma Zsum_product (Ls : list (list (slice * Z))) :
  Zsum (map (fun t => Zprod (map snd t)) (product Ls))
  = Zprod (map (fun l => Zsum (map snd l)) Ls).
Proof.
  induction Ls as [|l Ls IH]; [reflexivity|].
  cbn [product map Zprod fold_right].
  fold (Zprod (map (fun l => Zsum (map snd l)) Ls)).
  rewrite Zsum_flat_map, <- IH.
  set (S' := Zsum (map (fun t => Zprod (map snd t)) (product Ls))).
  rewrite (map_ext _ (fun x => snd x * S')).
  - replace (map (fun x : slice * Z => snd x * S') l)
      with (map (fun t => S' * snd t) l) by (apply map_ext; intros; lia).
    rewrite Zsum_map_scale. lia.
  - intros x. rewrite map_map. cbn [map Zprod fold_right].
    fold Zprod. subst S'.
    rewrite (Zsum_map_scale (snd x) (fun t => Zprod (map snd t))).
    reflexivity.
Qed.

(** ** List helpers *)

Lemma combine_app {A B} (l1 l2 : list A) (r1 r2 : list B) :
  List.length l1 = List.length r1 ->
  combine (l1 ++ l2) (r1 ++ r2) = combine l1 r1 ++ combine l2 r2.
Proof.
  revert r1. induction l1 as [|x xs IH]; intros [|y ys] H; cbn in *;
    try discriminate; [reflexivity|].
  f_equal. apply IH. lia.
Qed.

Lemma combine_rev {A B} (l : list A) (r : list B) :
  List.length l = List.length r ->
  combine (rev l) (rev r) = rev (combine l r).
Proof.
  revert r. induction l as [|x xs IH]; intros [|y ys] H; cbn in *;
    try discriminate; [reflexivity|].
  rewrite combine_app by (rewrite !length_rev; lia).
  rewrite IH by lia. reflexivity.
Qed.

Lemma forallb_rev {A} (f : A -> bool) (l : list A) :
  forallb f (rev l) = forallb f l.
Proof.
  induction l as [|x xs IH]; [reflexivity|].
  cbn [rev forallb]. rewrite forallb_app, IH. cbn [forallb].
  rewrite andb_true_r. apply andb_comm.
Qed.

Lemma Forall2_rev {A B} (R : A -> B -> Prop) (l : list A) (r : list B) :
  Forall2 R l r -> Forall2 R (rev l) (rev r).
Proof.
  induction 1 as [|x y l r Hxy _ IH]; [constructor|].
  cbn [rev]. apply Forall2_app; [assumption|]. constructor; [assumption|constructor].
Qed.

Lemma Zprod_app (l1 l2 : list Z) : Zprod (l1 ++ l2) = Zprod l1 * Zprod l2.
Proof.
  unfold Zprod. induction l1 as [|x xs IH]; cbn [app fold_right]; [lia|].
  rewrite IH. lia.
Qed.

Lemma Zprod_rev (l : list Z) : Zprod (rev l) = Zprod l.
Proof.
  induction l as [|x xs IH]; [reflexivity|].
  cbn [rev]. rewrite Zprod_app, IH. unfold Zprod. cbn [fold_right]. lia.
Qed.

Lemma Forall2_count {A B} (R : A -> B -> Prop) (f : B -> bool) (g : A -> bool)
    (l : list A) (r : list B) :
  Forall2 R l r ->
  (forall x y, In x l -> R x y -> f y = g x) ->
  List.length (filter f r) = List.length (filter g l).
Proof.
  induction 1 as [|x y l r Hxy _ IH]; intros H; [reflexivity|].
  cbn [filter]. rewrite (H x y) by (first [left; reflexivity | assumption]).
  assert (IH' : List.length (filter f r) = List.length (filter g l))
    by (apply IH; intros; apply H; [right; assumption|assumption]).
  destruct (g x); cbn [List.length]; rewrite IH'; reflexivity.
Qed.

Lemma Forall2_Zsum {A B} (R : A -> B -> Prop) (f : B -> Z) (g : A -> Z)
    (l : list A) (r : list B) :
  Forall2 R l r ->
  (forall x y, In x l -> R x y -> f y = g x) ->
  Zsum (map f r) = Zsum (map g l).
Proof.
  induction 1 as [|x y l r Hxy _ IH]; intros H; [reflexivity|].
  cbn [map Zsum fold_right]. fold (Zsum (map f r)). fold (Zsum (map g l)).
  rewrite (H x y) by (first [left; reflexivity | assumption]).
  rewrite IH by (intros; apply H; [right; assumption|assumption]). reflexivity.
Qed.

Lemma Forall2_bound {A B} (R : A -> B -> Prop) (P : B -> Prop)
    (l : list A) (r : list B) :
  Forall2 R l r ->
  (forall x y, In x l -> R x y -> P y) ->
  Forall P r.
Proof.
  induction 1 as [|x y l r Hxy _ IH]; intros H; constructor.
  - apply (H x y); [left; reflexivity|assumption].
  - apply IH. intros; eapply H; [right|]; eassumption.
Qed.

Lemma order_count_notin (axesOrder : list Z) (es : list (Z * (slice * Z)))
    (n0 : Z) :
  (forall e, In e es -> py_in (fst e) axesOrder = false) ->
  order_count axesOrder es n0 = n0.
Proof.
  unfold order_count. revert n0.
  induction es as [|e es IH]; intros n0 H; [reflexivity|].
  cbn [fold_left]. rewrite (H e) by (left; reflexivity).
  apply IH. intros; apply H; right; assumption.
Qed.

Lemma order_count_in (axesOrder : list Z) (es : list (Z * (slice * Z)))
    (n0 : Z) :
  (forall e, In e es -> py_in (fst e) axesOrder = true) ->
  order_count axesOrder es n0
  = n0 * Zprod (map (fun e => snd (snd e)) es).
Proof.
  unfold order_count. revert n0.
  induction es as [|e es IH]; intros n0 H;
    [cbn [fold_left map Zprod fold_right]; lia|].
  cbn [fold_left map Zprod fold_right]. rewrite (H e) by (left; reflexivity).
  fold (Zprod (map (fun e => snd (snd e)) es)).
  rewrite IH by (intros; apply H; right; assumption). lia.
Qed.

Lemma order_count_app (axesOrder : list Z) (es1 es2 : list (Z * (slice * Z)))
    (n0 : Z) :
  order_count axesOrder (es1 ++ es2) n0
  = order_count axesOrder es2 (order_count axesOrder es1 n0).
Proof.
  unfold order_count. apply fold_left_app.
Qed.

Lemma map_snd_combine {A B} (l : list A) (r : list B) :
  List.length l = List.length r -> map snd (combine l r) = r.
Proof.
  revert r. induction l as [|x xs IH]; intros [|y ys] H; cbn in *;
    try discriminate; [reflexivity|]. f_equal. apply IH. lia.
Qed.

Lemma in_combine_fst {A B} (l : list A) (r : list B) (e : A * B) :
  In e (combine l r) -> In (fst e) l.
Proof.
  destruct e as [a b]. apply in_combine_l.
Qed.

(** ** The plan of the dense planner *)

Lemma planned_axes_rev (shape ca ao : list Z) (sl : list slice) :
  planned_axes shape ca ao sl ->
  NoDup (ca ++ rev ao) /\
  Forall (fun a => 0 <= a < Z.of_nat (List.length (ca ++ rev ao)))
         (ca ++ rev ao).
Proof.
  intros [Hcr Hor Hnd Hall _ _]. split.
  - eapply Permutation_NoDup; [|exact Hnd].
    apply Permutation_app_head, Permutation_rev.
  - rewrite length_app, length_rev, Hall.
    apply Forall_forall. intros a Ha.
    rewrite Forall_forall in Hcr, Hor.
    apply in_app_iff in Ha. destruct Ha as [Ha|Ha].
    + apply Hcr. assumption.
    + apply Hor. apply in_rev. assumption.
Qed.

Lemma fullChunkIndex_plan (shape : list Z) (cap : Z) (kw : kwargs) :
  Forall (fun n => 0 <= n) shape -> valid_axes shape kw ->
  exists ca ao sl ci1 (nm : list (Z * Z)) piecesL chunks,
    chunkIndexParameters shape cap kw = Ok (Z.max cap 1, ca, ao, sl) /\
    planned_axes shape ca ao sl /\
    Forall2 (chunk_axis_candidates shape) (combine ca sl) ci1 /\
    order_sizes shape ao = Ok (map fst nm) /\
    Forall2 (fun p pieces => axis_partition (fst p) (snd p) pieces)
            nm piecesL /\
    Forall (fun p => 0 <= fst p /\ 0 <= snd p) nm /\
    0 <= Zprod (map snd nm) <= Z.max cap 1 /\
    fullChunkIndex shape cap kw
      = Ok (ci1 ++ rev piecesL, ca, ao, Zprod (map snd nm)) /\
    chunkIndexProduct (ci1 ++ rev piecesL) ca ao = Ok chunks /\
    Forall2 (chunk_of (ca ++ rev ao) ao) (product (ci1 ++ rev piecesL)) chunks.
Proof.
  intros Hshape Hvalid.
  destruct (chunkIndexParameters_ok shape cap kw Hvalid)
    as (ca & ao & sl & Hpar & _ & _ & _ & Hpa).
  destruct (chunkIndex1_ok shape Hshape ca sl (pa_chunk_range _ _ _ _ Hpa)
              (pa_slices_step _ _ _ _ Hpa)) as (ci1 & Hci1 & Hcand).
  assert (Hinv0 : buffer_inv (Z.max cap 1) 1 1)
    by (unfold buffer_inv; split; [lia|left; reflexivity]).
  destruct (fullChunkIndex_loop_ok shape (Z.max cap 1) ltac:(lia) Hshape
              ao 1 1 [] (pa_order_range _ _ _ _ Hpa) Hinv0)
    as (nItems' & nm & piecesL & Hloop & Hsizes & Hparts & Hpos & Hinv).
  rewrite Z.mul_1_l in Hloop, Hinv. cbn [app] in Hloop.
  destruct (planned_axes_rev _ _ _ _ Hpa) as [Hnd Hr].
  destruct (chunkIndexProduct_ok (ci1 ++ rev piecesL) ca ao Hnd Hr)
    as (chunks & Hprod & Hall).
  exists ca, ao, sl, ci1, nm, piecesL, chunks.
  split; [assumption|]. split; [assumption|]. split; [assumption|].
  split; [assumption|]. split; [assumption|]. split; [assumption|].
  split; [apply Hinv|]. split; [|split; assumption].
  unfold fullChunkIndex. rewrite Hpar. cbn [bind].
  rewrite Hci1. cbn [bind]. rewrite Hloop. cbn [bind]. reflexivity.
Qed.

Lemma covers_lookup (shape : list Z) (idx : list index) :
  forall (ao : list Z) (ps : list (slice * Z)) (sizes c : list Z),
    (forall a p, In (a, p) (combine ao ps) ->
       py_index idx a = Ok (ISlice (fst p))) ->
    order_sizes shape ao = Ok sizes ->
    List.length ps = List.length ao ->
    List.length c = List.length ao ->
    forallb (fun '(axis, x) => chunk_selects shape idx axis x) (combine ao c)
    = forallb (fun pc => piece_selects (fst (snd pc)) (snd (snd pc)) (fst pc))
              (combine ps (combine sizes c)).
Proof.
  unfold order_sizes.
  induction ao as [|a ao IH]; intros ps sizes c Hget Hsz Hlp Hlc.
  - destruct ps; [reflexivity|discriminate].
  - destruct ps as [|p ps]; [discriminate|].
    destruct c as [|x c]; [discriminate|].
    cbn [mapM] in Hsz.
    destruct (py_index shape a) as [n|] eqn:Hn; [|discriminate].
    cbn [bind] in Hsz.
    destruct (mapM (py_index shape) ao) as [sizes'|] eqn:Hs'; [|discriminate].
    cbn [bind] in Hsz. injection Hsz as <-.
    cbn [combine forallb fst snd].
    rewrite (IH ps sizes' c); try reflexivity.
    + f_equal. unfold chunk_selects, piece_selects.
      rewrite (Hget a p) by (left; reflexivity). rewrite Hn.
      reflexivity.
    + intros a' p' Hin. apply Hget. right. assumption.
    + cbn in Hlp. lia.
    + cbn in Hlc. lia.
Qed.

Lemma dense_product_shape (shape ca : list Z) (sl : list slice)
    (ci1 L2 : list (list (slice * Z))) :
  List.length sl = List.length ca ->
  Forall2 (chunk_axis_candidates shape) (combine ca sl) ci1 ->
  exists t1,
    List.length t1 = List.length ca /\
    Forall2 (fun x l => l = [x]) t1 ci1 /\
    product (ci1 ++ L2) = map (app t1) (product L2).
Proof.
  intros Hsl Hcand.
  assert (Ht1 : exists t1, Forall2 (fun x l => l = [x]) t1 ci1).
  { clear -Hcand. induction Hcand as [|e l es ls He _ IH].
    - exists []. constructor.
    - destruct IH as (t1 & IH).
      destruct He as (n & len & _ & _ & _ & ->).
      exists ((snd e, len) :: t1). constructor; [reflexivity|assumption]. }
  destruct Ht1 as (t1 & Ht1). exists t1. split; [|split; [assumption|]].
  - rewrite (Forall2_length Ht1), <- (Forall2_length Hcand), length_combine.
    lia.
  - apply product_app_singletons. assumption.
Qed.

Lemma NoDup_app_disjoint {A} (l1 l2 : list A) (x : A) :
  NoDup (l1 ++ l2) -> In x l1 -> ~ In x l2.
Proof.
  induction l1 as [|a l1 IH]; intros Hnd Hx Hx2; [contradiction|].
  cbn [app] in Hnd. inversion Hnd as [|? ? Hnot Hnd']; subst.
  destruct Hx as [->|Hx].
  - apply Hnot. apply in_app_iff. right. assumption.
  - eapply IH; eassumption.
Qed.

Lemma dense_chunk_facts (shape ca ao : list Z) (sl : list slice)
    (sizes : list Z) (t1 t2 : list (slice * Z)) (ch : Chunk) :
  planned_axes shape ca ao sl ->
  order_sizes shape ao = Ok sizes ->
  List.length t1 = List.length ca ->
  List.length t2 = List.length ao ->
  chunk_of (ca ++ rev ao) ao (t1 ++ t2) ch ->
  snd ch = Zprod (map snd t2) /\
  forall c, List.length c = List.length ao ->
    dense_chunk_covers shape ao c ch
    = forallb (fun pc => piece_selects (fst (snd pc)) (snd (snd pc)) (fst pc))
              (combine t2 (rev (combine sizes c))).
Proof.
  intros Hpa Hsizes Hlt1 Hlt2 (Hl1 & Hl2 & Hget & Hcnt).
  rewrite combine_app in Hget, Hcnt by lia.
  split.
  - rewrite Hcnt, order_count_app.
    rewrite (order_count_notin ao (combine ca t1)).
    + rewrite order_count_in.
      * rewrite Z.mul_1_l. f_equal.
        rewrite <- (map_map snd snd), map_snd_combine; [reflexivity|].
        rewrite length_rev. lia.
      * intros e He. apply in_combine_fst in He.
        apply py_in_In, in_rev. assumption.
    + intros e He. apply in_combine_fst in He.
      apply py_in_false.
      apply (NoDup_app_disjoint ca ao); [apply (pa_nodup _ _ _ _ Hpa)|assumption].
  - intros c Hlc. unfold dense_chunk_covers.
    rewrite Hlc, Nat.eqb_refl. cbn [andb].
    pose proof (mapM_length _ _ _ Hsizes) as Hls.
    rewrite (covers_lookup shape (fst (fst ch)) ao (rev t2) sizes c);
      try assumption.
    + rewrite <- (forallb_rev _ (combine (rev t2) _)), <- combine_rev.
      * rewrite rev_involutive. reflexivity.
      * rewrite length_rev, length_combine. lia.
    + intros a p Hap. apply (Hget a p). apply in_app_iff. right.
      apply in_rev. rewrite <- combine_rev by (rewrite length_rev; lia).
      rewrite !rev_involutive. assumption.
    + rewrite length_rev. assumption.
Qed.

Lemma Forall2_map_l {A B C} (R : B -> C -> Prop) (h : A -> B)
    (l : list A) (r : list C) :
  Forall2 R (map h l) r -> Forall2 (fun x y => R (h x) y) l r.
Proof.
  revert r. induction l as [|x xs IH]; intros r H; inversion H; subst;
    constructor; auto.
Qed.

Lemma Zprod_le (xs ms : list Z) :
  Forall2 (fun x m => 0 <= x <= m) xs ms -> 0 <= Zprod xs <= Zprod ms.
Proof.
  unfold Zprod. induction 1 as [|x m xs ms Hx _ IH]; cbn [fold_right]; [lia|].
  nia.
Qed.

Lemma pieces_bounds (nm : list (Z * Z)) (piecesL : list (list (slice * Z)))
    (t2 : list (slice * Z)) :
  Forall2 (fun p pieces => axis_partition (fst p) (snd p) pieces) nm piecesL ->
  Forall2 (fun x l => In x l) t2 piecesL ->
  Forall2 (fun x m => 0 <= x <= m) (map snd t2) (map snd nm).
Proof.
  intros Hparts. revert t2.
  induction Hparts as [|p pieces nm piecesL Hp _ IH]; intros t2 Hin;
    inversion Hin; subst; cbn [map]; constructor.
  - pose proof (ap_bound _ _ _ Hp) as Hb. rewrite Forall_forall in Hb.
    apply Hb. assumption.
  - apply IH. assumption.
Qed.

Lemma pieces_once (nm : list (Z * Z)) (piecesL : list (list (slice * Z)))
    (c : list Z) :
  Forall2 (fun p pieces => axis_partition (fst p) (snd p) pieces) nm piecesL ->
  Forall2 (fun n x => 0 <= x < n) (map fst nm) c ->
  Forall2 (fun l (nx : Z * Z) =>
             List.length (filter (piece_selects (fst nx) (snd nx)) l) = 1%nat)
          piecesL (combine (map fst nm) c).
Proof.
  intros Hparts. revert c.
  induction Hparts as [|p pieces nm piecesL Hp _ IH]; intros c Hc;
    inversion Hc; subst; cbn [map combine]; constructor.
  - cbn [fst snd]. apply (ap_once _ _ _ Hp). assumption.
  - apply IH. assumption.
Qed.

Lemma pieces_sum (nm : list (Z * Z)) (piecesL : list (list (slice * Z))) :
  Forall2 (fun p pieces => axis_partition (fst p) (snd p) pieces) nm piecesL ->
  map (fun l => Zsum (map snd l)) piecesL = map fst nm.
Proof.
  induction 1 as [|p pieces nm piecesL Hp _ IH]; [reflexivity|].
  cbn [map]. rewrite IH, (ap_sum _ _ _ Hp). reflexivity.
Qed.

Lemma in_order_space_sizes (shape ao sizes c : list Z) :
  order_sizes shape ao = Ok sizes ->
  in_order_space shape ao c ->
  Forall2 (fun n x => 0 <= x < n) sizes c.
Proof.
  unfold order_sizes, in_order_space. intros Hs Hc. revert sizes Hs.
  induction Hc as [|a x ao c (n & Hn & Hx) _ IH]; intros sizes Hs;
    cbn [mapM] in Hs.
  - injection Hs as <-. constructor.
  - rewrite Hn in Hs. cbn [bind] in Hs.
    destruct (mapM (py_index shape) ao) as [sizes'|]; [|discriminate].
    cbn [bind] in Hs. injection Hs as <-.
    constructor; [assumption|]. apply IH. reflexivity.
Qed.

(** Everything the dense planner guarantees, in one statement. *)
Lemma dense_planner_summary (shape : list Z) (cap : Z) (kw : kwargs) :
  Forall (fun n => 0 <= n) shape -> valid_axes shape kw ->
  exists chunkIndex chunkAxes axesOrder nBuffer chunks sizes,
    fullChunkIndex shape cap kw
      = Ok (chunkIndex, chunkAxes, axesOrder, nBuffer) /\
    chunkIndexProduct chunkIndex chunkAxes axesOrder = Ok chunks /\
    order_sizes shape axesOrder = Ok sizes /\
    (forall c, in_order_space shape axesOrder c ->
       List.length (filter (dense_chunk_covers shape axesOrder c) chunks)
       = 1%nat) /\
    Zsum (map chunk_count chunks) = Zprod sizes /\
    Forall (fun ch => 0 <= chunk_count ch <= nBuffer) chunks /\
    0 <= nBuffer <= Z.max cap 1.
Proof.
  intros Hshape Hvalid.
  destruct (fullChunkIndex_plan shape cap kw Hshape Hvalid)
    as (ca & ao & sl & ci1 & nm & piecesL & chunks & _ & Hpa & Hcand & Hsizes
        & Hparts & Hpos & Hbuf & Hfull & Hprod & Hall).
  destruct (dense_product_shape shape ca sl ci1 (rev piecesL)
              (pa_slices_len _ _ _ _ Hpa) Hcand) as (t1 & Hlt1 & _ & Hshape1).
  rewrite Hshape1 in Hall. apply Forall2_map_l in Hall.
  pose proof (mapM_length _ _ _ Hsizes) as Hls. rewrite length_map in Hls.
  pose proof (Forall2_length Hparts) as Hlp.
  assert (Hfacts : forall t2 ch,
             In t2 (product (rev piecesL)) ->
             chunk_of (ca ++ rev ao) ao (t1 ++ t2) ch ->
             Forall2 (fun x l => In x l) t2 (rev piecesL) /\
             snd ch = Zprod (map snd t2) /\
             forall c, List.length c = List.length ao ->
               dense_chunk_covers shape ao c ch
               = forallb (fun pc => piece_selects (fst (snd pc))
                                                  (snd (snd pc)) (fst pc))
                         (combine t2 (rev (combine (map fst nm) c)))).
  { intros t2 ch Hin Hch. apply product_In in Hin. split; [assumption|].
    eapply dense_chunk_facts; try eassumption.
    rewrite (Forall2_length Hin), length_rev. lia. }
  exists (ci1 ++ rev piecesL), ca, ao, (Zprod (map snd nm)), chunks,
    (map fst nm).
  split; [assumption|]. split; [assumption|]. split; [assumption|].
  split; [|split; [|split]].
  - intros c Hc.
    pose proof (Forall2_length Hc) as Hlc.
    rewrite (Forall2_count _ _
               (fun t2 => forallb (fun pc => piece_selects (fst (snd pc))
                                                            (snd (snd pc)) (fst pc))
                                  (combine t2 (rev (combine (map fst nm) c))))
               _ _ Hall).
    + apply (count_product
               (fun (nx : Z * Z) p => piece_selects (fst nx) (snd nx) p)).
      apply Forall2_rev. apply pieces_once; [assumption|].
      eapply in_order_space_sizes; eassumption.
    + intros t2 ch Hin Hch.
      destruct (Hfacts t2 ch Hin Hch) as (_ & _ & Hcov). apply Hcov. lia.
  - unfold chunk_count.
    rewrite (Forall2_Zsum _ _ (fun t2 => Zprod (map snd t2)) _ _ Hall).
    + rewrite Zsum_product, map_rev, Zprod_rev.
      rewrite (pieces_sum nm piecesL Hparts). reflexivity.
    + intros t2 ch Hin Hch.
      destruct (Hfacts t2 ch Hin Hch) as (_ & Hcnt & _). exact Hcnt.
  - eapply Forall2_bound; [exact Hall|].
    intros t2 ch Hin Hch. cbn beta.
    destruct (Hfacts t2 ch Hin Hch) as (Hin2 & Hcnt & _).
    unfold chunk_count. rewrite Hcnt.
    rewrite <- (Zprod_rev (map snd nm)), <- map_rev.
    apply Zprod_le. apply pieces_bounds with (piecesL := rev piecesL).
    + apply Forall2_rev. assumption.
    + assumption.
  - lia.
Qed.

(** ** Slicing a sequence *)

Lemma mapM_ok_in {A B} (f : A -> result B) (l : list A) :
  (forall x, In x l -> exists y, f x = Ok y) ->
  exists r, mapM f l = Ok r.
Proof.
  induction l as [|x xs IH]; intros H; [exists []; reflexivity|].
  destruct (H x (or_introl eq_refl)) as (y & Hy).
  destruct IH as (r & Hr); [intros z Hz; apply H; right; assumption|].
  exists (y :: r). cbn. rewrite Hy. cbn. rewrite Hr. reflexivity.
Qed.

(** Slicing never raises, whatever the bounds, when the step is not zero. *)
Lemma py_getslice_total {A} (l : list A) (slc : slice) :
  slice_step slc <> Some 0 ->
  exists r, py_getslice l slc = Ok r.
Proof.
  intros Hstep. unfold py_getslice.
  destruct (slice_indices_ok slc (Z.of_nat (List.length l)) Hstep
              (Nat2Z.is_nonneg _))
    as (a & b & s & Hidx & _ & Hs0 & Hp & Hm).
  rewrite Hidx. cbn [bind]. apply mapM_ok_in. intros x Hx.
  apply py_range_bounds in Hx. destruct Hx as [Hxp Hxm].
  assert (Hr : 0 <= x < Z.of_nat (List.length l)).
  { destruct (Z.lt_trichotomy s 0) as [H|[H|H]]; [|lia|].
    - specialize (Hm H). specialize (Hxm H). lia.
    - specialize (Hp H). specialize (Hxp H). lia. }
  destruct (py_index_ok l x Hr) as (y & Hy & _). exists y. exact Hy.
Qed.

Lemma mapM_py_index_seq {A} (l : list A) (a : nat) (len : nat) :
  (a + len <= List.length l)%nat ->
  mapM (py_index l) (map (fun k => Z.of_nat a + Z.of_nat k * 1) (seq 0 len))
  = Ok (firstn len (skipn a l)).
Proof.
  revert a. induction len as [|len IH]; intros a H; [reflexivity|].
  cbn [seq map mapM].
  assert (Ha : 0 <= Z.of_nat a + Z.of_nat 0 * 1 < Z.of_nat (List.length l))
    by lia.
  destruct (py_index_ok l _ Ha) as (x & Hx & Hn).
  rewrite Hx. cbn [bind].
  replace (Z.to_nat (Z.of_nat a + Z.of_nat 0 * 1)) with a in Hn by lia.
  rewrite map_seq_shift.
  rewrite (map_ext _ (fun k => Z.of_nat (S a) + Z.of_nat k * 1))
    by (intros; lia).
  rewrite IH by lia. cbn [bind].
  f_equal.
  assert (Hs : skipn a l = x :: skipn (S a) l).
  { clear -Hn. revert a Hn. induction l as [|y ys IH]; intros [|a] Hn;
      cbn in *; try discriminate.
    - injection Hn as ->. reflexivity.
    - apply IH. assumption. }
  rewrite Hs. reflexivity.
Qed.

(** [l[a:b]] within bounds is the sublist from [a] to [b]. *)
Lemma py_getslice_unit {A} (l : list A) (a b : Z) :
  0 <= a <= b -> b <= Z.of_nat (List.length l) ->
  py_getslice l (mkSlice (Some a) (Some b) (Some 1))
  = Ok (firstn (Z.to_nat (b - a)) (skipn (Z.to_nat a) l)).
Proof.
  intros Ha Hb. unfold py_getslice.
  rewrite slice_indices_some_pos by lia. cbn [bind].
  rewrite py_range_closed by lia.
  replace (range_count a b 1) with (Z.to_nat (b - a))
    by (unfold range_count; cbn [Z.ltb Z.compare]; rewrite Z.div_1_r; lia).
  rewrite (map_ext _ (fun k => Z.of_nat (Z.to_nat a) + Z.of_nat k * 1))
    by (intros; lia).
  apply mapM_py_index_seq. lia.
Qed.

(** ** The loops of the masked planner *)

Lemma masked_setAxis_ok (idx : slice) :
  slice_step idx <> Some 0 ->
  forall (ao : list Z) (mi : list (list Z)) (idxAxis : list index),
    NoDup ao ->
    Forall (fun a => 0 <= a < Z.of_nat (List.length idxAxis)) ao ->
    exists idx',
      foldM (maskedChunkIndex_setAxis idx) (combine ao mi) idxAxis = Ok idx' /\
      List.length idx' = List.length idxAxis /\
      (forall axis ind, In (axis, ind) (combine ao mi) ->
         exists sub, py_getslice ind idx = Ok sub /\
                     py_index idx' axis = Ok (IList sub)) /\
      (forall a, 0 <= a -> ~ In a ao -> py_index idx' a = py_index idxAxis a).
Proof.
  intros Hstep.
  induction ao as [|a0 ao IH]; intros mi idxAxis Hnd Hr.
  - exists idxAxis. cbn [combine foldM].
    split; [reflexivity|]. split; [reflexivity|].
    split; [intros ? ? []|reflexivity].
  - destruct mi as [|ind0 mi].
    + exists idxAxis. cbn [combine foldM].
      split; [reflexivity|]. split; [reflexivity|].
      split; [intros ? ? []|reflexivity].
    + inversion Hnd as [|? ? Hnotin Hnd']; subst.
      inversion Hr as [|? ? Ha0 Hr']; subst.
      destruct (py_getslice_total ind0 idx Hstep) as (sub0 & Hsub0).
      cbn [combine foldM maskedChunkIndex_setAxis].
      rewrite Hsub0. cbn [bind]. rewrite py_setitem_ok by lia. cbn [bind].
      set (idx1 := set_nth idxAxis (Z.to_nat a0) (IList sub0)).
      destruct (IH mi idx1 Hnd') as (idx' & Hfold & Hlen & Hget & Hkeep).
      * subst idx1. rewrite set_nth_length. assumption.
      * exists idx'. rewrite Hfold. subst idx1.
        rewrite set_nth_length in Hlen.
        split; [reflexivity|]. split; [assumption|]. split.
        -- intros axis ind [Heq|Hin].
           ++ injection Heq as <- <-. exists sub0. split; [assumption|].
              rewrite (Hkeep a0 ltac:(lia) Hnotin).
              apply py_index_set_nth_eq. lia.
           ++ apply Hget. assumption.
        -- intros a Ha Hnot.
           rewrite (Hkeep a Ha ltac:(intros H; apply Hnot; right; exact H)).
           assert (a0 <> a) by (intros ->; apply Hnot; left; reflexivity).
           apply py_index_set_nth_neq; lia.
Qed.

Lemma set_nth_app_r {A} (l1 l2 : list A) (x v : A) :
  set_nth (l1 ++ x :: l2) (List.length l1) v = l1 ++ v :: l2.
Proof.
  induction l1 as [|y ys IH]; cbn; [reflexivity|]. rewrite IH. reflexivity.
Qed.

Lemma set_nth_twice {A} (l : list A) (k : nat) (v w : A) :
  set_nth (set_nth l k v) k w = set_nth l k w.
Proof.
  revert k. induction l as [|x xs IH]; intros [|k]; cbn; try reflexivity.
  rewrite IH. reflexivity.
Qed.

Lemma masked_loop_ok (ao : list Z) (mi : list (list Z)) (la : Z)
    (idxAxis0 : list index) (chunkShape0 : list (option Z)) :
  NoDup ao ->
  Forall (fun a => 0 <= a < Z.of_nat (List.length idxAxis0)) ao ->
  0 <= la < Z.of_nat (List.length chunkShape0) ->
  forall (ps : list (slice * Z)) (idxAxis : list index)
         (chunkShape : list (option Z)) (done rest : list (option Chunk)),
    Forall (fun p => slice_step (fst p) <> Some 0) ps ->
    List.length idxAxis = List.length idxAxis0 ->
    (forall a, 0 <= a -> ~ In a ao ->
       py_index idxAxis a = py_index idxAxis0 a) ->
    (forall v, set_nth chunkShape (Z.to_nat la) v
               = set_nth chunkShape0 (Z.to_nat la) v) ->
    (List.length ps <= List.length rest)%nat ->
    exists idx' shp' chunks,
      foldM (maskedChunkIndex_chunk ao mi (Some la)) ps
            (Z.of_nat (List.length done), idxAxis, chunkShape, done ++ rest)
      = Ok (Z.of_nat (List.length done + List.length ps), idx', shp',
            done ++ map Some chunks ++ skipn (List.length ps) rest) /\
      Forall2 (masked_chunk_of idxAxis0 chunkShape0 ao mi la) ps chunks.
Proof.
  intros Hnd Hr Hla.
  induction ps as [|[idx nidx] ps IH];
    intros idxAxis chunkShape done rest Hsteps Hlen Hkeep Hshp Hrest.
  - exists idxAxis, chunkShape, []. cbn [foldM map app skipn List.length].
    rewrite Nat.add_0_r. split; [reflexivity|constructor].
  - inversion Hsteps as [|? ? Hstep Hsteps']; subst. cbn [fst] in Hstep.
    destruct rest as [|r0 rest]; [cbn in Hrest; lia|].
    destruct (masked_setAxis_ok idx Hstep ao mi idxAxis Hnd)
      as (idx1 & Hset & Hlen1 & Hget1 & Hkeep1).
    { rewrite Hlen. assumption. }
    assert (Hlshp : List.length chunkShape = List.length chunkShape0).
    { pose proof (f_equal (@List.length _) (Hshp None)) as H.
      rewrite !set_nth_length in H. exact H. }
    set (shp1 := set_nth chunkShape (Z.to_nat la) (Some nidx)).
    set (ch := (idx1, shp1, nidx) : Chunk).
    destruct (IH idx1 shp1 (done ++ [Some ch]) rest Hsteps')
      as (idx' & shp' & chunks & Hfold & Hall).
    + congruence.
    + intros a Ha Hnot. rewrite Hkeep1 by assumption. apply Hkeep; assumption.
    + intros v. subst shp1. rewrite set_nth_twice. apply Hshp.
    + cbn in Hrest. lia.
    + exists idx', shp', (ch :: chunks).
      cbn [foldM maskedChunkIndex_chunk]. rewrite Hset. cbn [bind].
      rewrite py_setitem_ok by lia. cbn [bind]. fold shp1.
      rewrite py_setitem_ok
        by (rewrite length_app; cbn [List.length]; lia).
      cbn [bind]. rewrite Nat2Z.id, set_nth_app_r. fold ch.
      replace (Z.of_nat (List.length done) + 1)
        with (Z.of_nat (List.length (done ++ [Some ch])))
        by (rewrite length_app; cbn [List.length]; lia).
      rewrite <- (app_assoc done [Some ch] rest) in Hfold.
      cbn [app] in Hfold.
      split.
      * etransitivity; [exact Hfold|].
        rewrite <- app_assoc, length_app. cbn [List.length app map skipn].
        do 4 f_equal. lia.
      * constructor; [|assumption].
        unfold masked_chunk_of. subst ch. cbn [fst snd].
        split; [reflexivity|]. split; [congruence|]. split; [assumption|].
        split.
        -- intros a Ha Hnot. rewrite Hkeep1 by assumption.
           apply Hkeep; assumption.
        -- subst shp1. apply Hshp.
Qed.

Lemma ceil_eq (a b : Z) :
  0 <= a -> 0 < b -> a / b + int_bool (a mod b) = (a + b - 1) / b.
Proof.
  intros Ha Hb. pose proof (ceil_spec a b Hb) as H.
  set (k := a / b + int_bool (a mod b)) in *.
  apply (Z.div_unique (a + b - 1) b k (a + b - 1 - b * k)); lia.
Qed.

Lemma py_min_le (l : list Z) (x : Z) : In x l -> py_min l <= x.
Proof.
  destruct l as [|y ys]; [contradiction|]. cbn [py_min].
  assert (H : forall acc, fold_left Z.min ys acc <= acc /\
                          (In x ys -> fold_left Z.min ys acc <= x)).
  { induction ys as [|z zs IH]; intros acc; cbn [fold_left].
    - split; [lia|contradiction].
    - destruct (IH (Z.min acc z)) as [H1 H2]. split; [lia|].
      intros [->|Hin]; [lia|auto]. }
  destruct (H y) as [H1 H2].
  intros [<-|Hin]; [exact H1 | exact (H2 Hin)].
Qed.

Lemma py_min_nonneg (l : list Z) : Forall (fun a => 0 <= a) l -> 0 <= py_min l.
Proof.
  destruct l as [|y ys]; cbn [py_min]; [lia|].
  intros H. inversion H as [|? ? Hy Hys]; subst. clear H.
  revert y Hy. induction Hys as [|z zs Hz _ IH]; intros y Hy; cbn [fold_left].
  - assumption.
  - apply IH. lia.
Qed.

Lemma intListIndexAxis_bound (shape ao : list Z) :
  ao <> [] -> Forall (fun a => 0 <= a) ao ->
  exists la,
    intListIndexAxis shape ao = Some la /\ 0 <= la /\
    (forall j, 0 <= j < la -> ~ In j ao).
Proof.
  intros Hne Hpos. destruct ao as [|a [|b ao]]; [contradiction| |].
  - exists a. cbn [intListIndexAxis].
    inversion Hpos; subst. split; [reflexivity|]. split; [assumption|].
    intros j Hj [->|[]]. lia.
  - cbn [intListIndexAxis].
    destruct (all_diff_one (sorted (a :: b :: ao))).
    + exists (py_min (a :: b :: ao)). split; [reflexivity|].
      split; [apply py_min_nonneg; assumption|].
      intros j Hj Hin. apply py_min_le in Hin. lia.
    + exists 0. split; [reflexivity|]. split; [lia|]. intros j Hj. lia.
Qed.

Lemma drop_axes_length_ge {A} (ao : list Z) (l : list A) :
  forall (i : Z) (k : nat),
    (forall j, i <= j < i + Z.of_nat k -> ~ In j ao) ->
    (k <= List.length l)%nat ->
    (k <= List.length (drop_axes ao i l))%nat.
Proof.
  induction l as [|s rest IH]; intros i k Hfree Hk; [cbn in *; lia|].
  destruct k as [|k]; [lia|]. cbn [drop_axes].
  assert (Hi : py_in i ao = false) by (apply py_in_false, Hfree; lia).
  rewrite Hi. cbn [List.length]. apply le_n_S. apply IH.
  - intros j Hj. apply Hfree. lia.
  - cbn in Hk. lia.
Qed.

Lemma py_insert_length {A} (l : list A) (i : Z) (v : A) :
  List.length (py_insert l i v) = S (List.length l).
Proof.
  unfold py_insert. rewrite length_app. cbn [List.length].
  rewrite Nat.add_succ_r, <- length_app, firstn_skipn. reflexivity.
Qed.

Lemma masked_chunkAxes_ok (shape : list Z) :
  Forall (fun n => 0 <= n) shape ->
  forall (ca : list Z) (sl : list slice)
         (idx : list index) (shp : list (option Z)),
    NoDup ca ->
    Forall (fun a => 0 <= a < Z.of_nat (List.length shape)) ca ->
    Forall (fun s => slice_step s <> Some 0) sl ->
    List.length idx = List.length shape ->
    List.length shp = List.length shape ->
    exists idx' shp',
      foldM (maskedChunkIndex_chunkAxis shape) (combine ca sl) (idx, shp)
        = Ok (idx', shp') /\
      List.length idx' = List.length shape /\
      List.length shp' = List.length shape /\
      (forall a s, In (a, s) (combine ca sl) ->
         py_index idx' a = Ok (ISlice s) /\
         exists n len, py_index shape a = Ok n /\ sliceLen s n = Ok len /\
                       py_index shp' a = Ok (Some len)) /\
      (forall a, 0 <= a -> ~ In a ca ->
         py_index idx' a = py_index idx a /\ py_index shp' a = py_index shp a).
Proof.
  intros Hshape.
  induction ca as [|a0 ca IH]; intros sl idx shp Hnd Hr Hs Hli Hls.
  - exists idx, shp. cbn [combine foldM].
    split; [reflexivity|]. split; [assumption|]. split; [assumption|].
    split; [intros ? ? []|]. intros a _ _. split; reflexivity.
  - destruct sl as [|s0 sl].
    + exists idx, shp. cbn [combine foldM].
      split; [reflexivity|]. split; [assumption|]. split; [assumption|].
      split; [intros ? ? []|]. intros a _ _. split; reflexivity.
    + inversion Hnd as [|? ? Hnotin Hnd']; subst.
      inversion Hr as [|? ? Ha0 Hr']; subst.
      inversion Hs as [|? ? Hs0 Hs']; subst.
      destruct (py_index_ok shape a0 Ha0) as (n & Hn & _).
      assert (Hn0 : 0 <= n).
      { rewrite Forall_forall in Hshape. apply Hshape.
        eapply py_index_In; eassumption. }
      destruct (sliceLen_ok s0 n Hs0 Hn0) as (len & Hlen & _ & _).
      cbn [combine foldM maskedChunkIndex_chunkAxis].
      rewrite Hn. cbn [bind]. rewrite py_setitem_ok by lia. cbn [bind].
      rewrite Hlen. cbn [bind]. rewrite py_setitem_ok by lia. cbn [bind].
      set (idx1 := set_nth idx (Z.to_nat a0) (ISlice s0)).
      set (shp1 := set_nth shp (Z.to_nat a0) (Some len)).
      destruct (IH sl idx1 shp1 Hnd' Hr' Hs')
        as (idx' & shp' & Hfold & Hl1 & Hl2 & Hget & Hkeep).
      * subst idx1. rewrite set_nth_length. assumption.
      * subst shp1. rewrite set_nth_length. assumption.
      * exists idx', shp'. rewrite Hfold.
        split; [reflexivity|]. split; [assumption|]. split; [assumption|].
        split.
        -- intros a s [Heq|Hin].
           ++ injection Heq as <- <-.
              destruct (Hkeep a0 ltac:(lia) Hnotin) as [-> ->].
              subst idx1 shp1. split; [apply py_index_set_nth_eq; lia|].
              exists n, len. split; [assumption|]. split; [assumption|].
              apply py_index_set_nth_eq; lia.
           ++ apply Hget. assumption.
        -- intros a Ha Hnot.
           destruct (Hkeep a Ha ltac:(intros H; apply Hnot; right; exact H))
             as [-> ->].
           assert (a0 <> a) by (intros ->; apply Hnot; left; reflexivity).
           subst idx1 shp1. split; apply py_index_set_nth_neq; lia.
Qed.

Lemma valid_axes_F (shape : list Z) (kw : kwargs) :
  valid_axes shape kw -> valid_axes shape (kwargs_F kw).
Proof.
  intros [H1 H2 H3 H4]. constructor; assumption.
Qed.

Lemma maskedChunkIndex_plan_full (shape : list Z) (cap : Z) (kw : kwargs)
    (mask : Mask) (first : list Z) (others : list (list Z)) :
  Forall (fun n => 0 <= n) shape -> valid_axes shape kw ->
  mask_ndim mask = Ok (Z.of_nat (n_order_axes shape kw)) ->
  mask_index mask = first :: others ->
  (0 < n_order_axes shape kw)%nat ->
  exists ca ao sl idxAxis0 chunkShape0 la chunks,
    chunkIndexParameters shape cap (kwargs_F kw)
      = Ok (Z.max cap 1, ca, ao, sl) /\
    planned_axes shape ca ao sl /\
    List.length ao = n_order_axes shape kw /\
    List.length idxAxis0 = List.length shape /\
    (forall a s, In (a, s) (combine ca sl) ->
       py_index idxAxis0 a = Ok (ISlice s)) /\
    maskedChunkIndex shape cap (Some mask) kw
      = Ok (map Some chunks, ca, ao, Z.max cap 1) /\
    Forall2 (masked_chunk_of idxAxis0 chunkShape0 ao (mask_index mask) la)
            (map (gen_piece (Z.of_nat (List.length first)) (Z.max cap 1))
                 (seq 0 (gen_count (Z.of_nat (List.length first))
                                   (Z.max cap 1))))
            chunks /\
    intListIndexAxis shape ao = Some la /\
    0 <= la < Z.of_nat (List.length chunkShape0) /\
    (exists shp0,
       chunkShape0 = py_insert (drop_axes ao 0 shp0) la None /\
       List.length shp0 = List.length shape /\
       forall a s, In (a, s) (combine ca sl) ->
         exists n len, py_index shape a = Ok n /\ sliceLen s n = Ok len /\
                       py_index shp0 a = Ok (Some len)) /\
    Permutation ao (other_axes (Z.of_nat (List.length shape)) ca) /\
    ca = map (norm_axis (Z.of_nat (List.length shape)))
             (match kw_chunkAxes kw with None => [] | Some l => l end) /\
    sl = match kw_chunkAxesSlice kw with
         | None => repeat slice_all (List.length ca)
         | Some l => l
         end.
Proof.
  intros Hshape Hvalid Hndim Hmi Hpos.
  destruct (chunkIndexParameters_ok shape cap (kwargs_F kw)
              (valid_axes_F _ _ Hvalid))
    as (ca & ao & sl & Hpar & Hca & Hsl & Hperm & Hpa).
  cbn [kwargs_F kw_chunkAxes kw_chunkAxesSlice] in Hca, Hsl.
  pose proof (pa_all _ _ _ _ Hpa) as Hall.
  assert (Hlca : List.length ca
                 = List.length (match kw_chunkAxes kw with
                                | None => [] | Some l => l end))
    by (rewrite Hca, length_map; reflexivity).
  assert (Hlao : List.length ao = n_order_axes shape kw)
    by (unfold n_order_axes; lia).
  assert (Hnd : NoDup ao)
    by (eapply NoDup_app_remove_l, (pa_nodup _ _ _ _ Hpa)).
  assert (Hndc : NoDup ca)
    by (eapply NoDup_app_remove_r, (pa_nodup _ _ _ _ Hpa)).
  destruct (masked_chunkAxes_ok shape Hshape ca sl
              (repeat (ISlice slice_all) (List.length shape))
              (map Some shape) Hndc (pa_chunk_range _ _ _ _ Hpa)
              (pa_slices_step _ _ _ _ Hpa))
    as (idxAxis0 & shp0 & Hloop1 & Hl1 & Hl2 & Hget0 & _);
    [apply repeat_length|apply length_map|].
  destruct (intListIndexAxis_bound shape ao) as (la & Hla & Hla0 & Hfree).
  { intros ->. cbn in Hlao. lia. }
  { eapply Forall_impl; [|apply (pa_order_range _ _ _ _ Hpa)].
    cbn beta. intros; lia. }
  set (chunkShape0 := py_insert (drop_axes ao 0 shp0) la None).
  assert (Hla1 : 0 <= la < Z.of_nat (List.length chunkShape0)).
  { subst chunkShape0. rewrite py_insert_length.
    assert (Hlt : la <= Z.of_nat (List.length shape)).
    { destruct (Z_le_gt_dec la (Z.of_nat (List.length shape))) as [H|H];
        [assumption|exfalso].
      destruct ao as [|a ao']; [cbn in Hlao; lia|].
      pose proof (pa_order_range _ _ _ _ Hpa) as Hor.
      inversion Hor as [|? ? Ha _]; subst.
      apply (Hfree a); [lia|left; reflexivity]. }
    pose proof (drop_axes_length_ge ao shp0 0 (Z.to_nat la)) as Hd.
    assert (Z.to_nat la <= List.length (drop_axes ao 0 shp0))%nat.
    { apply Hd; [|lia]. intros j Hj. apply Hfree. lia. }
    lia. }
  set (c := Z.max cap 1). set (m := Z.of_nat (List.length first)).
  assert (Hc : 1 <= c) by (subst c; lia).
  pose proof (ceil_eq m c ltac:(subst m; lia) ltac:(lia)) as Hceil.
  destruct (masked_loop_ok ao (mask_index mask) la idxAxis0 chunkShape0 Hnd
              ltac:(rewrite Hl1; apply (pa_order_range _ _ _ _ Hpa)) Hla1
              (map (gen_piece m c) (seq 0 (gen_count m c)))
              idxAxis0 chunkShape0 [] (repeat None (gen_count m c)))
    as (idx' & shp' & chunks & Hloop & Hchunks).
  { apply Forall_forall. intros p Hp. apply in_map_iff in Hp.
    destruct Hp as (k & <- & _). cbn. discriminate. }
  { reflexivity. }
  { intros; reflexivity. }
  { intros; reflexivity. }
  { rewrite length_map, length_seq, repeat_length. lia. }
  exists ca, ao, sl, idxAxis0, chunkShape0, la, chunks.
  split; [assumption|]. split; [assumption|]. split; [assumption|].
  split; [assumption|].
  split; [intros a s Hin; apply (Hget0 a s Hin)|].
  split; [|split; [assumption|]].
  2:{ split; [assumption|]. split; [assumption|].
      split; [|split; [assumption|split; assumption]].
      exists shp0. split; [reflexivity|]. split; [assumption|].
      intros a s Hin. apply (Hget0 a s Hin). }
  unfold maskedChunkIndex. fold (kwargs_F kw). rewrite Hpar. cbn [bind].
  rewrite Hndim. cbn [bind]. rewrite Hlao, Z.eqb_refl. cbn [negb].
  rewrite Hloop1. cbn [bind]. rewrite Hla. fold chunkShape0.
  rewrite Hmi. cbn [py_index List.length Z.ltb Z.compare].
  rewrite Hmi in Hloop.
  replace (py_index (first :: others) 0) with (Ok first) by reflexivity.
  cbn [bind]. fold m. fold c. unfold py_floordiv, py_mod.
  destruct (c =? 0) eqn:E0; zbool; [lia|]. cbn [bind].
  rewrite Hceil. rewrite chunkIndexGen_closed by (subst m; lia).
  cbn [bind]. fold (gen_count m c).
  cbn [List.length app Z.of_nat] in Hloop. rewrite Hloop. cbn [bind].
  rewrite length_map, length_seq.
  rewrite skipn_all2 by (rewrite repeat_length; lia).
  rewrite app_nil_r. reflexivity.
Qed.

Lemma maskedChunkIndex_plan (shape : list Z) (cap : Z) (kw : kwargs)
    (mask : Mask) (first : list Z) (others : list (list Z)) :
  Forall (fun n => 0 <= n) shape -> valid_axes shape kw ->
  mask_ndim mask = Ok (Z.of_nat (n_order_axes shape kw)) ->
  mask_index mask = first :: others ->
  (0 < n_order_axes shape kw)%nat ->
  exists ca ao sl idxAxis0 chunkShape0 la chunks,
    chunkIndexParameters shape cap (kwargs_F kw)
      = Ok (Z.max cap 1, ca, ao, sl) /\
    planned_axes shape ca ao sl /\
    List.length ao = n_order_axes shape kw /\
    List.length idxAxis0 = List.length shape /\
    (forall a s, In (a, s) (combine ca sl) ->
       py_index idxAxis0 a = Ok (ISlice s)) /\
    maskedChunkIndex shape cap (Some mask) kw
      = Ok (map Some chunks, ca, ao, Z.max cap 1) /\
    Forall2 (masked_chunk_of idxAxis0 chunkShape0 ao (mask_index mask) la)
            (map (gen_piece (Z.of_nat (List.length first)) (Z.max cap 1))
                 (seq 0 (gen_count (Z.of_nat (List.length first))
                                   (Z.max cap 1))))
            chunks.
Proof.
  intros Hshape Hvalid Hndim Hmi Hpos.
  destruct (maskedChunkIndex_plan_full shape cap kw mask first others Hshape
              Hvalid Hndim Hmi Hpos)
    as (ca & ao & sl & idxAxis0 & chunkShape0 & la & chunks & H1 & H2 & H3
        & H4 & H5 & H6 & H7 & _).
  exists ca, ao, sl, idxAxis0, chunkShape0, la, chunks.
  repeat (split; [assumption|]). assumption.
Qed.

Lemma Forall2_combine_in {A B} (R : A -> B -> Prop) (l : list A) (r : list B) :
  List.length l = List.length r ->
  (forall x y, In (x, y) (combine l r) -> R x y) ->
  Forall2 R l r.
Proof.
  revert r. induction l as [|x xs IH]; intros [|y ys] Hl H; cbn in Hl;
    try discriminate; constructor.
  - apply H. left. reflexivity.
  - apply IH; [lia|]. intros; apply H; right; assumption.
Qed.

Lemma Forall2_map_eq {A B C} (R : A -> B -> Prop) (f : B -> C) (g : A -> C)
    (l : list A) (r : list B) :
  Forall2 R l r ->
  (forall x y, In x l -> R x y -> f y = g x) ->
  map f r = map g l.
Proof.
  induction 1 as [|x y l r Hxy _ IH]; intros H; [reflexivity|].
  cbn [map]. f_equal.
  - apply H; [left; reflexivity|assumption].
  - apply IH. intros; apply H; [right; assumption|assumption].
Qed.

Lemma Forall2_nth_error_r {A B} (R : A -> B -> Prop) (l : list A) (r : list B)
    (k : nat) (y : B) :
  Forall2 R l r -> nth_error r k = Some y ->
  exists x, nth_error l k = Some x /\ R x y.
Proof.
  intros H. revert k. induction H as [|x0 y0 l r Hxy _ IH]; intros [|k] Hk;
    cbn in Hk; try discriminate.
  - injection Hk as <-. exists x0. split; [reflexivity|assumption].
  - apply IH. assumption.
Qed.

(** Consecutive batches of [c] items, concatenated, give the list back. *)
Lemma concat_batches {A} (ind : list A) (c : Z) (cnt : nat) :
  0 < c ->
  Z.of_nat cnt * c < Z.of_nat (List.length ind) + c ->
  List.concat (map (fun k =>
                 firstn (Z.to_nat (Z.min (Z.of_nat k * c + c)
                                         (Z.of_nat (List.length ind))
                                   - Z.of_nat k * c))
                        (skipn (Z.to_nat (Z.of_nat k * c)) ind))
              (seq 0 cnt))
  = firstn (Z.to_nat (Z.of_nat cnt * c)) ind.
Proof.
  intros Hc. induction cnt as [|cnt IH]; intros Hcnt; [reflexivity|].
  rewrite seq_S, map_app, concat_app, IH by lia.
  cbn [plus map List.concat]. rewrite app_nil_r.
  set (a := Z.to_nat (Z.of_nat cnt * c)).
  set (len := Z.to_nat (Z.min (Z.of_nat cnt * c + c)
                              (Z.of_nat (List.length ind))
                        - Z.of_nat cnt * c)).
  assert (Ha : (a <= List.length ind)%nat) by lia.
  rewrite <- (firstn_skipn a ind) at 3.
  rewrite firstn_app, firstn_firstn.
  rewrite length_firstn.
  replace (Init.Nat.min (Z.to_nat (Z.of_nat (S cnt) * c)) a) with a by lia.
  replace (Init.Nat.min a (List.length ind)) with a by lia.
  f_equal.
  destruct (Z.le_gt_cases (Z.of_nat cnt * c + c) (Z.of_nat (List.length ind))).
  - f_equal. lia.
  - rewrite !firstn_all2; [reflexivity| |]; rewrite length_skipn; lia.
Qed.

(** ** What the masked planner guarantees *)

(** Counts of the batches, for any mask the planner accepts. *)
Lemma masked_planner_bound (shape : list Z) (cap : Z) (kw : kwargs)
    (mask : Mask) :
  Forall (fun n => 0 <= n) shape -> valid_axes shape kw ->
  mask_ndim mask = Ok (Z.of_nat (n_order_axes shape kw)) ->
  (0 < n_order_axes shape kw)%nat ->
  mask_index mask <> [] ->
  exists chunks ca ao,
    maskedChunkIndex shape cap (Some mask) kw
      = Ok (map Some chunks, ca, ao, Z.max cap 1) /\
    Forall (fun ch => 1 <= chunk_count ch <= Z.max cap 1) chunks.
Proof.
  intros Hshape Hvalid Hndim Hpos Hne.
  destruct (mask_index mask) as [|first others] eqn:Hmi; [contradiction|].
  destruct (maskedChunkIndex_plan shape cap kw mask first others
              Hshape Hvalid Hndim Hmi Hpos)
    as (ca & ao & sl & idxAxis0 & chunkShape0 & la & chunks
        & _ & _ & _ & _ & _ & Hres & Hall).
  exists chunks, ca, ao. split; [assumption|].
  eapply Forall2_bound; [exact Hall|].
  intros p ch Hp (Hcnt & _). cbn beta. unfold chunk_count. rewrite Hcnt.
  apply in_map_iff in Hp. destruct Hp as (k & <- & Hk). apply in_seq in Hk.
  assert (Z.of_nat k * Z.max cap 1 < Z.of_nat (List.length first))
    by (apply gen_count_lt; lia).
  unfold gen_piece. cbn [snd]. lia.
Qed.

Lemma masked_planner_summary (shape : list Z) (cap : Z) (kw : kwargs)
    (mask : Mask) (m : nat) :
  Forall (fun n => 0 <= n) shape -> valid_axes shape kw ->
  mask_ndim mask = Ok (Z.of_nat (n_order_axes shape kw)) ->
  (0 < n_order_axes shape kw)%nat ->
  List.length (mask_index mask) = n_order_axes shape kw ->
  Forall (fun l => List.length l = m) (mask_index mask) ->
  exists chunks ca ao,
    maskedChunkIndex shape cap (Some mask) kw
      = Ok (map Some chunks, ca, ao, Z.max cap 1) /\
    Z.of_nat (List.length chunks)
      = (Z.of_nat m + Z.max cap 1 - 1) / Z.max cap 1 /\
    (forall k ch, nth_error chunks k = Some ch ->
       chunk_count ch
       = Z.min (Z.max cap 1) (Z.of_nat m - Z.of_nat k * Z.max cap 1) /\
       1 <= chunk_count ch) /\
    Zsum (map chunk_count chunks) = Z.of_nat m /\
    Forall2 (fun axis ind =>
               List.concat (map (fun ch => chunk_rows ch axis) chunks) = ind /\
               Forall (fun ch => Z.of_nat (List.length (chunk_rows ch axis))
                                 = chunk_count ch) chunks)
            ao (mask_index mask).
Proof.
  intros Hshape Hvalid Hndim Hpos Hlen Hm.
  destruct (mask_index mask) as [|first others] eqn:Hmi;
    [cbn in Hlen; lia|].
  destruct (maskedChunkIndex_plan shape cap kw mask first others
              Hshape Hvalid Hndim Hmi Hpos)
    as (ca & ao & sl & idxAxis0 & chunkShape0 & la & chunks
        & _ & Hpa & Hlao & _ & _ & Hres & Hall).
  rewrite Hmi in Hall.
  assert (Hfirst : List.length first = m) by (inversion Hm; assumption).
  rewrite Hfirst in Hall.
  set (c := Z.max cap 1) in *. assert (Hc : 1 <= c) by (subst c; lia).
  set (M := Z.of_nat m) in *. assert (HM : 0 <= M) by (subst M; lia).
  pose proof (axis_partition_gen M c HM ltac:(lia)) as Hpart.
  exists chunks, ca, ao. split; [assumption|].
  split; [|split; [|split]].
  - rewrite <- (Forall2_length Hall), length_map, length_seq.
    unfold gen_count. rewrite Z2Nat.id; [reflexivity|].
    apply Z.div_pos; lia.
  - intros k ch Hk.
    destruct (Forall2_nth_error_r _ _ _ _ _ Hall Hk) as (p & Hp & Hcnt & _).
    rewrite nth_error_map in Hp.
    destruct (nth_error (seq 0 (gen_count M c)) k) as [k'|] eqn:Ek;
      [|discriminate].
    pose proof (nth_error_In _ _ Ek) as Hin. apply in_seq in Hin.
    assert (k' = k).
    { assert (Hk' : nth_error (seq 0 (gen_count M c)) k <> None) by congruence.
      apply nth_error_Some in Hk'. rewrite length_seq in Hk'.
      rewrite nth_error_seq in Ek.
      destruct (k <? gen_count M c)%nat; [|discriminate].
      injection Ek as <-. reflexivity. }
    subst k'. cbn [option_map] in Hp. injection Hp as <-.
    assert (Z.of_nat k * c < M) by (apply gen_count_lt; lia).
    unfold chunk_count. rewrite Hcnt. unfold gen_piece. cbn [snd]. lia.
  - unfold chunk_count.
    rewrite (Forall2_Zsum _ _ snd _ _ Hall)
      by (intros p ch _ (Hcnt & _); exact Hcnt).
    apply (ap_sum _ _ _ Hpart).
  - apply Forall2_combine_in.
    + rewrite Hlen. exact Hlao.
    + intros axis ind Hin.
      assert (Hind : List.length ind = m).
      { rewrite Forall_forall in Hm. apply Hm.
        eapply in_combine_r. eassumption. }
      assert (Hrows : forall p ch,
                 In p (map (gen_piece M c) (seq 0 (gen_count M c))) ->
                 masked_chunk_of idxAxis0 chunkShape0 ao (first :: others)
                                 la p ch ->
                 chunk_rows ch axis
                 = firstn (Z.to_nat (snd p))
                          (skipn (Z.to_nat (match slice_start (fst p) with
                                            | Some a => a | None => 0 end))
                                 ind) /\
                 Z.of_nat (List.length (chunk_rows ch axis)) = chunk_count ch).
      { intros p ch Hp (Hcnt & _ & Hget & _).
        destruct (Hget axis ind Hin) as (sub & Hsub & Hidx).
        apply in_map_iff in Hp. destruct Hp as (k & <- & Hk).
        apply in_seq in Hk.
        assert (Z.of_nat k * c < M) by (apply gen_count_lt; lia).
        unfold gen_piece in Hsub. cbn [fst] in Hsub.
        rewrite py_getslice_unit in Hsub by (subst M; lia).
        injection Hsub as <-.
        unfold chunk_rows. rewrite Hidx.
        unfold gen_piece. cbn [fst snd slice_start].
        split; [reflexivity|].
        unfold chunk_count. rewrite Hcnt. unfold gen_piece. cbn [snd].
        rewrite length_firstn, length_skipn. subst M. lia. }
      split.
      * rewrite (Forall2_map_eq _ _
                   (fun p => firstn (Z.to_nat (snd p))
                               (skipn (Z.to_nat (match slice_start (fst p) with
                                                 | Some a => a | None => 0 end))
                                      ind)) _ _ Hall)
          by (intros p ch Hp Hch; apply (Hrows p ch Hp Hch)).
        rewrite map_map. unfold gen_piece. cbn [fst snd slice_start].
        subst M. rewrite <- Hind.
        rewrite concat_batches.
        -- apply firstn_all2.
           pose proof (gen_count_ge (Z.of_nat (List.length ind)) c
                         ltac:(lia) ltac:(lia)). lia.
        -- lia.
        -- pose proof (gen_count_ge (Z.of_nat (List.length ind)) c
                         ltac:(lia) ltac:(lia)). lia.
      * eapply Forall2_bound; [exact Hall|].
        intros p ch Hp Hch. apply (Hrows p ch Hp Hch).
Qed.

(** ** The planners: main results *)

Lemma valid_kwargs_last_axis (shape : list Z) :
  shape <> [] -> valid_axes shape kwargs_last_axis.
Proof.
  intros Hne.
  assert (0 < Z.of_nat (List.length shape))
    by (destruct shape; [contradiction|cbn [List.length]; lia]).
  constructor; cbn.
  - constructor; [unfold axis_in_range; lia|constructor].
  - constructor; [intros []|constructor].
  - split; [reflexivity|]. constructor; [discriminate|constructor].
  - exact I.
Qed.

Lemma valid_kwargs_middle_axis : valid_axes [2; 5; 3] kwargs_middle_axis.
Proof.
  constructor; cbn.
  - constructor; [unfold axis_in_range; lia|constructor].
  - constructor; [intros []|constructor].
  - exact I.
  - split; [|reflexivity].
    repeat (constructor; [unfold axis_in_range; cbn; lia|]). constructor.
Qed.

(** C1: for every shape and every capacity, with a valid assignment of
    chunk axes and order axes, [fullChunkIndex] and [chunkIndexProduct]
    return; the chunk axes returned are the given ones (counted from the
    front), the order axes returned are exactly the other dimensions of the
    shape, each once; every coordinate of the order-axes index space is
    covered by exactly one of the enumerated chunks, and the counts of the
    chunks add up to the product of the order-axis sizes. *)
Theorem fullChunkIndex_exact_partition (shape : list Z) (cap : Z) (kw : kwargs)
    (Hshape : Forall (fun n => 0 <= n) shape) (Hvalid : valid_axes shape kw) :
  exists chunkIndex chunkAxes axesOrder nBuffer chunks sizes,
    fullChunkIndex shape cap kw
      = Ok (chunkIndex, chunkAxes, axesOrder, nBuffer) /\
    chunkIndexProduct chunkIndex chunkAxes axesOrder = Ok chunks /\
    chunkAxes
    = map (norm_axis (Z.of_nat (List.length shape)))
          (match kw_chunkAxes kw with None => [] | Some l => l end) /\
    Permutation axesOrder
                (other_axes (Z.of_nat (List.length shape)) chunkAxes) /\
    order_sizes shape axesOrder = Ok sizes /\
    (forall c, in_order_space shape axesOrder c ->
       List.length (filter (dense_chunk_covers shape axesOrder c) chunks)
       = 1%nat) /\
    Zsum (map chunk_count chunks) = Zprod sizes.
Proof.
  destruct (dense_planner_summary shape cap kw Hshape Hvalid)
    as (ci & ca & ao & nb & chunks & sizes & H1 & H2 & H3 & H4 & H5 & _).
  destruct (fullChunkIndex_plan shape cap kw Hshape Hvalid)
    as (ca0 & ao0 & sl & ci1 & nm & piecesL & chunks0 & Hpar & _ & _ & _ & _
        & _ & _ & Hfull & _).
  destruct (chunkIndexParameters_ok shape cap kw Hvalid)
    as (ca' & ao' & sl' & Hpar' & Hca & _ & Hperm & _).
  rewrite Hpar in Hpar'. injection Hpar' as Eca Eao _.
  rewrite H1 in Hfull. injection Hfull as _ Eca0 Eao0 _.
  exists ci, ca, ao, nb, chunks, sizes.
  split; [assumption|]. split; [assumption|].
  split; [congruence|]. split; [congruence|].
  repeat split; assumption.
Qed.

Lemma fullChunkIndex_exact_partition_witness :
  exists chunkIndex chunkAxes axesOrder nBuffer chunks sizes,
    fullChunkIndex [2; 5; 3] 4 kwargs_middle_axis
      = Ok (chunkIndex, chunkAxes, axesOrder, nBuffer) /\
    chunkIndexProduct chunkIndex chunkAxes axesOrder = Ok chunks /\
    chunkAxes
    = map (norm_axis (Z.of_nat (List.length [2; 5; 3])))
          (match kw_chunkAxes kwargs_middle_axis with
           | None => []
           | Some l => l
           end) /\
    Permutation axesOrder
                (other_axes (Z.of_nat (List.length [2; 5; 3])) chunkAxes) /\
    order_sizes [2; 5; 3] axesOrder = Ok sizes /\
    (forall c, in_order_space [2; 5; 3] axesOrder c ->
       List.length (filter (dense_chunk_covers [2; 5; 3] axesOrder c) chunks)
       = 1%nat) /\
    Zsum (map chunk_count chunks) = Zprod sizes.
Proof.
  apply fullChunkIndex_exact_partition.
  - repeat (constructor; [lia|]). constructor.
  - exact valid_kwargs_middle_axis.
Defined.

(** C2: for every mask selecting [m] coordinate tuples of the order axes
    and every capacity [c] (coerced to at least 1), [maskedChunkIndex]
    returns [ceil(m / c)] batches; batch [k] holds [min(c, m - k * c)] rows,
    so every batch holds between 1 and [c] rows and only the last one may be
    shorter; the counts add up to [m]; and along every order axis the rows of
    the batches, concatenated, are the mask's index list in its own order. *)
Theorem maskedChunkIndex_batches (shape : list Z) (cap : Z) (kw : kwargs)
    (mask : Mask) (m : nat)
    (Hshape : Forall (fun n => 0 <= n) shape)
    (Hvalid : valid_axes shape kw)
    (Hndim : mask_ndim mask = Ok (Z.of_nat (n_order_axes shape kw)))
    (Hpos : (0 < n_order_axes shape kw)%nat)
    (Hlen : List.length (mask_index mask) = n_order_axes shape kw)
    (Hm : Forall (fun l => List.length l = m) (mask_index mask)) :
  exists chunks chunkAxes axesOrder,
    maskedChunkIndex shape cap (Some mask) kw
      = Ok (map Some chunks, chunkAxes, axesOrder, Z.max cap 1) /\
    Z.of_nat (List.length chunks)
      = (Z.of_nat m + Z.max cap 1 - 1) / Z.max cap 1 /\
    (forall k ch, nth_error chunks k = Some ch ->
       chunk_count ch
       = Z.min (Z.max cap 1) (Z.of_nat m - Z.of_nat k * Z.max cap 1) /\
       1 <= chunk_count ch) /\
    Zsum (map chunk_count chunks) = Z.of_nat m /\
    Forall2 (fun axis ind =>
               List.concat (map (fun ch => chunk_rows ch axis) chunks) = ind /\
               Forall (fun ch => Z.of_nat (List.length (chunk_rows ch axis))
                                 = chunk_count ch) chunks)
            axesOrder (mask_index mask).
Proof.
  exact (masked_planner_summary shape cap kw mask m
           Hshape Hvalid Hndim Hpos Hlen Hm).
Qed.

Lemma maskedChunkIndex_batches_witness :
  exists chunks chunkAxes axesOrder,
    maskedChunkIndex [20; 10] 3 (Some mask_7_of_20) kwargs_last_axis
      = Ok (map Some chunks, chunkAxes, axesOrder, Z.max 3 1) /\
    Z.of_nat (List.length chunks) = (Z.of_nat 7 + Z.max 3 1 - 1) / Z.max 3 1 /\
    (forall k ch, nth_error chunks k = Some ch ->
       chunk_count ch = Z.min (Z.max 3 1) (Z.of_nat 7 - Z.of_nat k * Z.max 3 1) /\
       1 <= chunk_count ch) /\
    Zsum (map chunk_count chunks) = Z.of_nat 7 /\
    Forall2 (fun axis ind =>
               List.concat (map (fun ch => chunk_rows ch axis) chunks) = ind /\
               Forall (fun ch => Z.of_nat (List.length (chunk_rows ch axis))
                                 = chunk_count ch) chunks)
            axesOrder (mask_index mask_7_of_20).
Proof.
  apply maskedChunkIndex_batches.
  - repeat (constructor; [lia|]). constructor.
  - apply valid_kwargs_last_axis. discriminate.
  - reflexivity.
  - cbn. lia.
  - reflexivity.
  - repeat (constructor; [reflexivity|]). constructor.
Defined.

Example masked_scenario_counts :
  masked_counts [20; 10] 3 (Some mask_7_of_20) kwargs_last_axis
  = Ok [Some 3; Some 3; Some 1].
Proof. reflexivity. Qed.

(** ** The boundary axis of the dense planner *)

Lemma boundary_split_arith (n cap : Z) :
  1 <= cap -> cap < n ->
  let cnt := (n + cap - 1) / cap in
  let step := (n + cnt - 1) / cnt in
  2 <= cnt /\ 1 <= step <= cap /\
  (cnt - 1) * step < n <= cnt * step /\
  gen_count n step = Z.to_nat cnt.
Proof.
  intros Hcap Hn cnt step.
  pose proof (ceil_spec n cap ltac:(lia)) as H1.
  rewrite ceil_eq in H1 by lia. fold cnt in H1.
  assert (Hcnt : 2 <= cnt) by nia.
  pose proof (ceil_spec n cnt ltac:(lia)) as H2.
  rewrite ceil_eq in H2 by lia. fold step in H2.
  assert (Hstep : 1 <= step <= cap) by nia.
  assert (Hlast : (cnt - 1) * step < n) by nia.
  split; [assumption|]. split; [assumption|]. split; [lia|].
  unfold gen_count. f_equal. symmetry.
  apply (Z.div_unique (n + step - 1) step cnt (n + step - 1 - step * cnt)); lia.
Qed.

(** C3, as the code has it: when the first order axis alone exceeds the
    capacity, it is split into [n = ceil(nAxis / capacity)] pieces of length
    [ceil(nAxis / n)], which is at most the capacity, and only the last piece
    may be shorter; for shape (100, 10), channel axis 1 and capacity 30 the
    dense planner yields 4 chunks with row counts [25, 25, 25, 25], covering
    rows 0..99 in order. *)
Theorem fullChunkIndex_boundary_axis_split (shape : list Z) (cap axis n : Z)
    (Hcap : 1 <= cap) (Hidx : py_index shape axis = Ok n) (Hn : cap < n) :
  let cnt := (n + cap - 1) / cap in
  let step := (n + cnt - 1) / cnt in
  (1 <= step <= cap /\
   fullChunkIndex_axis shape cap (1, 1, []) axis
     = Ok (n, step, [map (gen_piece n step) (seq 0 (Z.to_nat cnt))]) /\
   (forall k, (S k < Z.to_nat cnt)%nat -> snd (gen_piece n step k) = step) /\
   snd (gen_piece n step (Z.to_nat cnt - 1)) = n - (cnt - 1) * step /\
   1 <= n - (cnt - 1) * step <= step) /\
  (dense_counts [100; 10] 30 kwargs_axis1 = Ok [25; 25; 25; 25] /\
   dense_rows [100; 10] 30 kwargs_axis1 0
     = Ok [py_range 0 25 1; py_range 25 50 1;
           py_range 50 75 1; py_range 75 100 1]).
Proof.
  intros cnt step.
  destruct (boundary_split_arith n cap Hcap Hn) as (Hcnt & Hstep & Hlast & Hgc).
  fold cnt in Hcnt, Hlast, Hgc. fold step in Hstep, Hlast, Hgc.
  split; [|split; vm_compute; reflexivity].
  split; [assumption|]. split; [|split; [|split]].
  - unfold fullChunkIndex_axis. rewrite Hidx. cbn [bind].
    rewrite !Z.mul_1_l.
    destruct (n <=? cap) eqn:E1; zbool; [lia|].
    destruct (cap <? 1) eqn:E2; zbool; [lia|].
    unfold py_floordiv, py_mod. cbn [Z.eqb bind]. rewrite Z.div_1_r.
    destruct (cap =? 0) eqn:E3; zbool; [lia|]. cbn [bind].
    rewrite (ceil_eq n cap) by lia. fold cnt.
    destruct (cnt =? 0) eqn:E4; zbool; [lia|]. cbn [bind].
    rewrite (ceil_eq n cnt) by lia. fold step.
    rewrite chunkIndexGen_closed by lia. cbn [bind app].
    rewrite Hgc, Z.mul_1_l. reflexivity.
  - intros k Hk. unfold gen_piece. cbn [snd].
    assert (Z.of_nat k + 2 <= cnt) by lia. nia.
  - unfold gen_piece. cbn [snd].
    replace (Z.of_nat (Z.to_nat cnt - 1)) with (cnt - 1) by lia. lia.
  - lia.
Qed.

Lemma fullChunkIndex_boundary_axis_split_witness :
  let cnt := (100 + 30 - 1) / 30 in
  let step := (100 + cnt - 1) / cnt in
  (1 <= step <= 30 /\
   fullChunkIndex_axis [100; 10] 30 (1, 1, []) 0
     = Ok (100, step, [map (gen_piece 100 step) (seq 0 (Z.to_nat cnt))]) /\
   (forall k, (S k < Z.to_nat cnt)%nat -> snd (gen_piece 100 step k) = step) /\
   snd (gen_piece 100 step (Z.to_nat cnt - 1)) = 100 - (cnt - 1) * step /\
   1 <= 100 - (cnt - 1) * step <= step) /\
  (dense_counts [100; 10] 30 kwargs_axis1 = Ok [25; 25; 25; 25] /\
   dense_rows [100; 10] 30 kwargs_axis1 0
     = Ok [py_range 0 25 1; py_range 25 50 1;
           py_range 50 75 1; py_range 75 100 1]).
Proof.
  apply (fullChunkIndex_boundary_axis_split [100; 10] 30 0 100);
    [lia | reflexivity | lia].
Defined.

(** C3, as stated, fails: the scenario's row counts are not
    [30, 30, 30, 10]. *)
Lemma dense_scenario_counts_not_30_30_30_10 :
  dense_counts [100; 10] 30 kwargs_axis1 <> Ok [30; 30; 30; 10].
Proof.
  vm_compute. discriminate.
Qed.

(** ** Capacity and buffer bounds of both planners *)

Lemma planner_bounds (shape : list Z) (cap : Z) (kw : kwargs)
    (mask : option Mask) :
  Forall (fun n => 0 <= n) shape -> valid_axes shape kw ->
  mask_accepted shape kw mask ->
  exists chunks chunkAxes axesOrder nBuffer,
    maskedChunkIndex shape cap mask kw
      = Ok (map Some chunks, chunkAxes, axesOrder, nBuffer) /\
    (mask = None ->
     exists chunkIndex,
       fullChunkIndex shape cap kw
         = Ok (chunkIndex, chunkAxes, axesOrder, nBuffer) /\
       chunkIndexProduct chunkIndex chunkAxes axesOrder = Ok chunks) /\
    0 <= nBuffer <= Z.max cap 1 /\
    Forall (fun ch => 0 <= chunk_count ch <= nBuffer) chunks.
Proof.
  intros Hshape Hvalid Hmask. destruct mask as [mk|].
  - destruct Hmask as (Hndim & Hpos & Hne).
    destruct (masked_planner_bound shape cap kw mk Hshape Hvalid Hndim Hpos Hne)
      as (chunks & ca & ao & Hres & Hall).
    exists chunks, ca, ao, (Z.max cap 1).
    split; [assumption|]. split; [discriminate|]. split; [lia|].
    eapply Forall_impl; [|exact Hall]. cbn beta. intros; lia.
  - destruct (dense_planner_summary shape cap kw Hshape Hvalid)
      as (ci & ca & ao & nb & chunks & sizes & H1 & H2 & _ & _ & _ & H6 & H7).
    exists chunks, ca, ao, nb.
    split; [|split; [|split; assumption]].
    + unfold maskedChunkIndex. rewrite H1. cbn [bind]. rewrite H2.
      reflexivity.
    + intros _. exists ci. split; assumption.
Qed.

(** C7: for every shape and every requested capacity, coerced to at least 1,
    both planners return and no chunk they produce has a count above the
    capacity: neither the chunks [chunkIndexProduct] enumerates from
    [fullChunkIndex] (no mask), nor the batches of [maskedChunkIndex]. *)
Theorem chunk_count_within_capacity (shape : list Z) (cap : Z) (kw : kwargs)
    (mask : option Mask)
    (Hshape : Forall (fun n => 0 <= n) shape)
    (Hvalid : valid_axes shape kw)
    (Hmask : mask_accepted shape kw mask) :
  exists chunks chunkAxes axesOrder nBuffer,
    maskedChunkIndex shape cap mask kw
      = Ok (map Some chunks, chunkAxes, axesOrder, nBuffer) /\
    (mask = None ->
     exists chunkIndex,
       fullChunkIndex shape cap kw
         = Ok (chunkIndex, chunkAxes, axesOrder, nBuffer) /\
       chunkIndexProduct chunkIndex chunkAxes axesOrder = Ok chunks) /\
    Forall (fun ch => chunk_count ch <= Z.max cap 1) chunks.
Proof.
  destruct (planner_bounds shape cap kw mask Hshape Hvalid Hmask)
    as (chunks & ca & ao & nb & H1 & H2 & H3 & H4).
  exists chunks, ca, ao, nb. split; [assumption|]. split; [assumption|].
  eapply Forall_impl; [|exact H4]. cbn beta. intros; lia.
Qed.

Lemma chunk_count_within_capacity_witness :
  (exists chunks chunkAxes axesOrder nBuffer,
     maskedChunkIndex [2; 5; 3] 0 None kwargs_middle_axis
       = Ok (map Some chunks, chunkAxes, axesOrder, nBuffer) /\
     (@None Mask = None ->
      exists chunkIndex,
        fullChunkIndex [2; 5; 3] 0 kwargs_middle_axis
          = Ok (chunkIndex, chunkAxes, axesOrder, nBuffer) /\
        chunkIndexProduct chunkIndex chunkAxes axesOrder = Ok chunks) /\
     Forall (fun ch => chunk_count ch <= Z.max 0 1) chunks) /\
  (exists chunks chunkAxes axesOrder nBuffer,
     maskedChunkIndex [20; 10] 3 (Some mask_7_of_20) kwargs_last_axis
       = Ok (map Some chunks, chunkAxes, axesOrder, nBuffer) /\
     (Some mask_7_of_20 = None ->
      exists chunkIndex,
        fullChunkIndex [20; 10] 3 kwargs_last_axis
          = Ok (chunkIndex, chunkAxes, axesOrder, nBuffer) /\
        chunkIndexProduct chunkIndex chunkAxes axesOrder = Ok chunks) /\
     Forall (fun ch => chunk_count ch <= Z.max 3 1) chunks).
Proof.
  split.
  - apply chunk_count_within_capacity.
    + repeat (constructor; [lia|]). constructor.
    + exact valid_kwargs_middle_axis.
    + exact I.
  - apply chunk_count_within_capacity.
    + repeat (constructor; [lia|]). constructor.
    + apply valid_kwargs_last_axis. discriminate.
    + split; [reflexivity|]. split; [cbn; lia|discriminate].
Defined.

(** ** Validation of the mask *)

Lemma valid_kwargs_axis1_default : valid_axes [2; 5; 3] kwargs_axis1_default.
Proof.
  constructor; cbn.
  - constructor; [unfold axis_in_range; lia|constructor].
  - constructor; [intros []|constructor].
  - exact I.
  - exact I.
Qed.

(** C9, as the code has it: the only validation of a mask is that of its
    dimensionality; a mask whose [ndim] is not the number of order axes
    fails with [ValueError('Mask does not have the correct dimensions')]
    before any chunk is built.  The lengths of the index lists are not
    compared: a mask of the right dimensionality that resolves to index
    lists is partitioned by the length of its first list, whatever the
    lengths of the others. *)
Theorem maskedChunkIndex_mask_validation (shape : list Z) (cap : Z)
    (kw : kwargs) (mask : Mask)
    (Hshape : Forall (fun n => 0 <= n) shape)
    (Hvalid : valid_axes shape kw) :
  (forall d, mask_ndim mask = Ok d ->
     d <> Z.of_nat (n_order_axes shape kw) ->
     maskedChunkIndex shape cap (Some mask) kw
     = Err (ValueError "Mask does not have the correct dimensions")) /\
  (mask_ndim mask = Ok (Z.of_nat (n_order_axes shape kw)) ->
   (0 < n_order_axes shape kw)%nat ->
   forall first others, mask_index mask = first :: others ->
     exists chunks chunkAxes axesOrder,
       maskedChunkIndex shape cap (Some mask) kw
         = Ok (map Some chunks, chunkAxes, axesOrder, Z.max cap 1) /\
       Z.of_nat (List.length chunks)
         = (Z.of_nat (List.length first) + Z.max cap 1 - 1) / Z.max cap 1 /\
       Zsum (map chunk_count chunks) = Z.of_nat (List.length first)).
Proof.
  split.
  - intros d Hd Hne.
    destruct (chunkIndexParameters_ok shape cap (kwargs_F kw)
                (valid_axes_F _ _ Hvalid))
      as (ca & ao & sl & Hpar & Hca & _ & _ & Hpa).
    cbn [kwargs_F kw_chunkAxes] in Hca.
    pose proof (pa_all _ _ _ _ Hpa) as Hall.
    rewrite Hca, length_map in Hall.
    unfold maskedChunkIndex. fold (kwargs_F kw). rewrite Hpar. cbn [bind].
    rewrite Hd. cbn [bind].
    destruct (Z.of_nat (List.length ao) =? d) eqn:E; zbool; [|reflexivity].
    exfalso. apply Hne. unfold n_order_axes. lia.
  - intros Hndim Hpos first others Hmi.
    destruct (maskedChunkIndex_plan shape cap kw mask first others
                Hshape Hvalid Hndim Hmi Hpos)
      as (ca & ao & sl & idxAxis0 & chunkShape0 & la & chunks
          & _ & _ & _ & _ & _ & Hres & Hall).
    set (c := Z.max cap 1) in *. assert (Hc : 1 <= c) by (subst c; lia).
    set (M := Z.of_nat (List.length first)) in *.
    assert (HM : 0 <= M) by (subst M; lia).
    exists chunks, ca, ao. split; [assumption|]. split.
    + rewrite <- (Forall2_length Hall), length_map, length_seq.
      unfold gen_count. rewrite Z2Nat.id; [reflexivity|].
      apply Z.div_pos; lia.
    + unfold chunk_count.
      rewrite (Forall2_Zsum _ _ snd _ _ Hall)
        by (intros p ch _ (Hcnt & _); exact Hcnt).
      apply (ap_sum _ _ _ (axis_partition_gen M c HM ltac:(lia))).
Qed.

Lemma maskedChunkIndex_mask_validation_witness :
  maskedChunkIndex [2; 5; 3] 3 (Some (MaskSeq (Some 3) [[0]; [0]; [0]]))
                   kwargs_axis1_default
  = Err (ValueError "Mask does not have the correct dimensions") /\
  exists chunks chunkAxes axesOrder,
    maskedChunkIndex [2; 5; 3] 3 (Some mismatched_seq_with_ndim)
                     kwargs_axis1_default
      = Ok (map Some chunks, chunkAxes, axesOrder, Z.max 3 1) /\
    Z.of_nat (List.length chunks)
      = (Z.of_nat (List.length [0; 1; 1]) + Z.max 3 1 - 1) / Z.max 3 1 /\
    Zsum (map chunk_count chunks) = Z.of_nat (List.length [0; 1; 1]).
Proof.
  assert (Hshape : Forall (fun n => 0 <= n) [2; 5; 3])
    by (repeat (constructor; [lia|]); constructor).
  split.
  - apply (proj1 (maskedChunkIndex_mask_validation
                    [2; 5; 3] 3 kwargs_axis1_default
                    (MaskSeq (Some 3) [[0]; [0]; [0]])
                    Hshape valid_kwargs_axis1_default) 3).
    + reflexivity.
    + cbn. lia.
  - apply (proj2 (maskedChunkIndex_mask_validation
                    [2; 5; 3] 3 kwargs_axis1_default
                    mismatched_seq_with_ndim
                    Hshape valid_kwargs_axis1_default))
      with (others := [[0]]).
    + reflexivity.
    + cbn. lia.
    + reflexivity.
Defined.

(** C9, as stated, fails: index lists of different lengths are not
    rejected as inconsistent.  A plain tuple raises [AttributeError] at
    [mask.ndim], as a tuple of lists of equal lengths does, and a sequence
    that has [ndim] is partitioned without complaint. *)
Lemma mismatched_index_lists_not_rejected :
  ~ data_inconsistency_error
      (maskedChunkIndex [2; 5; 3] 3 (Some mismatched_tuple)
                        kwargs_axis1_default) /\
  ~ data_inconsistency_error
      (maskedChunkIndex [2; 5; 3] 3 (Some mismatched_seq_with_ndim)
                        kwargs_axis1_default) /\
  maskedChunkIndex [2; 5; 3] 3 (Some mismatched_tuple) kwargs_axis1_default
    = Err AttributeError /\
  maskedChunkIndex [2; 5; 3] 3 (Some (MaskSeq None [[0; 1]; [0; 2]]))
                   kwargs_axis1_default
    = Err AttributeError /\
  masked_counts [2; 5; 3] 3 (Some mismatched_seq_with_ndim)
                kwargs_axis1_default
    = Ok [Some 3].
Proof.
  repeat split; try reflexivity.
  - intros (msg & H). vm_compute in H. discriminate.
  - intros (msg & H). vm_compute in H. discriminate.
Qed.

(** ** Memory budgeting *)




Example chunks_in_memory_value :
  chunks_in_memory (Some 8000000000) [100; 200; 2048] 4 (AxisInt (-1))
                   (1 # 100) None = Ok (Some 1000).
Proof. reflexivity. Qed.

Example chunks_in_memory_guard :
  chunks_in_memory (Some 8000000000) [2048] 4 (AxisInt (-1)) (1 # 100) None
  = Err (ValueError "Required: len(axis)<len(shape)").
Proof. reflexivity. Qed.

(** ** Construction of a view *)

Lemma py_index_in_range {X} (l : list X) (i : Z) :
  axis_in_range (Z.of_nat (List.length l)) i ->
  exists x, py_index l i = Ok x /\ In x l.
Proof.
  unfold axis_in_range, py_index. intros Hi.
  set (n := Z.of_nat (List.length l)) in *.
  set (j := if i <? 0 then i + n else i).
  assert (Hj : 0 <= j < n) by (subst j; destruct (i <? 0) eqn:E; zbool; lia).
  replace ((0 <=? j) && (j <? n)) with true
    by (symmetry; apply andb_true_iff; split;
        [apply Z.leb_le | apply Z.ltb_lt]; lia).
  destruct (nth_error l (Z.to_nat j)) as [x|] eqn:En.
  - exists x. split; [reflexivity|]. eapply nth_error_In; eassumption.
  - apply nth_error_None in En. lia.
Qed.

Section ViewProperties.

Context {A B : Type}.
Variable cast_in : A -> B.
Variable cast_out : B -> A.
Variable garbage : B.

Lemma MaskedView_init_ok (data : ndarray A) (mask : option Mask) (nMca : Z)
    (mcaAxis : option Z) (mcaSlice : option slice)
    (axesOrder : option (list Z)) (readonly : bool) :
  Forall (fun n => 0 <= n) (arr_shape data) ->
  valid_axes (arr_shape data) (view_kwargs mcaAxis mcaSlice axesOrder) ->
  mask_accepted (arr_shape data) (view_kwargs mcaAxis mcaSlice axesOrder) mask ->
  exists (v : @View A B) chunks transposeAxes nBuffer nChan n2,
    MaskedView_init data mask (Some nMca) mcaAxis mcaSlice axesOrder readonly
      = Ok v /\
    v_data v = data /\ v_buffer v = None /\ v_readonly v = readonly /\
    v_bufferShape v = (nBuffer, nChan) /\
    v_masked v = match mask with None => false | Some _ => true end /\
    maskedChunkIndex (arr_shape data) nMca mask
                     (view_kwargs mcaAxis mcaSlice axesOrder)
      = Ok (map Some chunks, v_chunkAxes v, v_axesOrder v, nBuffer) /\
    items_generator v = Ok (map Some chunks, transposeAxes) /\
    py_index (arr_shape data)
             (match mcaAxis with None => -1 | Some a => a end) = Ok n2 /\
    0 <= n2 /\
    sliceLen (match mcaSlice with None => slice_all | Some s => s end) n2
      = Ok nChan /\
    0 <= nChan /\
    0 <= nBuffer <= Z.max nMca 1 /\
    Forall (fun ch => 0 <= chunk_count ch <= nBuffer) chunks.
Proof.
  intros Hshape Hvalid Hmask.
  destruct (planner_bounds _ nMca _ mask Hshape Hvalid Hmask)
    as (chunks & ca & ao & nb & Hres & Hdense & Hnb & Hall).
  set (ma := match mcaAxis with None => -1 | Some a => a end).
  set (ms := match mcaSlice with None => slice_all | Some s => s end).
  assert (Hkw : view_kwargs (Some ma) (Some ms) axesOrder
                = view_kwargs mcaAxis mcaSlice axesOrder) by reflexivity.
  assert (Hma : axis_in_range (Z.of_nat (List.length (arr_shape data))) ma).
  { pose proof (va_chunk_range _ _ Hvalid) as H. cbn in H.
    inversion H; subst. assumption. }
  destruct (py_index_in_range (arr_shape data) ma Hma) as (n2 & Hn2 & Hin).
  assert (Hn2pos : 0 <= n2)
    by (rewrite Forall_forall in Hshape; apply Hshape; assumption).
  assert (Hms : slice_step ms <> Some 0).
  { pose proof (va_slices _ _ Hvalid) as H. cbn in H.
    destruct H as [_ H]. inversion H; subst. assumption. }
  destruct (sliceLen_ok ms n2 Hms Hn2pos) as (nChan & HnChan & _ & HnChanpos).
  destruct mask as [mk|].
  - eexists _, chunks, _, nb, nChan, n2.
    split.
    { unfold MaskedView_init. cbn [bind]. fold ma ms. rewrite Hkw, Hres.
      cbn [bind]. rewrite Hn2. cbn [bind]. rewrite HnChan. cbn [bind].
      reflexivity. }
    cbn [v_data v_buffer v_readonly v_bufferShape v_masked v_chunkAxes
         v_axesOrder].
    repeat split; try reflexivity; try assumption; lia.
  - destruct (Hdense eq_refl) as (ci & Hfull & Hprod).
    eexists _, chunks, _, nb, nChan, n2.
    split.
    { unfold MaskedView_init. cbn [bind]. fold ma ms. rewrite Hkw, Hfull.
      cbn [bind]. rewrite Hn2. cbn [bind]. rewrite HnChan. cbn [bind].
      reflexivity. }
    cbn [v_data v_buffer v_readonly v_bufferShape v_masked v_chunkAxes
         v_axesOrder].
    repeat split; try reflexivity; try assumption; try lia.
    unfold items_generator.
    cbn [v_masked v_chunkIndex v_chunkAxes v_axesOrder].
    rewrite Hprod. reflexivity.
Qed.

Lemma map_Some_inj {X} (l1 l2 : list X) : map Some l1 = map Some l2 -> l1 = l2.
Proof.
  revert l2. induction l1 as [|x xs IH]; intros [|y ys] H; cbn in H;
    try discriminate; [reflexivity|].
  injection H as -> H. f_equal. apply IH. assumption.
Qed.

Lemma buffer_rows_ok (buffer : ndarray B) (rows cols n : Z) :
  arr_shape buffer = [rows; cols] -> 0 <= n <= rows ->
  buffer_rows buffer n = Ok n.
Proof.
  intros Hs Hn. unfold buffer_rows. rewrite Hs.
  replace (py_index [rows; cols] 0) with (Ok rows) by reflexivity.
  cbn [bind]. unfold slice_indices. cbn [slice_start slice_stop slice_step].
  cbn [Z.eqb Z.ltb Z.compare].
  destruct (rows <? 0) eqn:E1; zbool; [lia|].
  destruct (n <? 0) eqn:E2; zbool; [lia|].
  cbn [bind]. f_equal. lia.
Qed.

(** C10: the count of every chunk a view enumerates is between 0 and the
    buffer size its planner returned ([nBuffer] of [fullChunkIndex],
    [nChunksMax] of [maskedChunkIndex]); the view allocates its buffer with
    that many rows, so [buffer[:count, :]] has [count] rows. *)
Theorem buffer_slice_in_bounds (data : ndarray A) (mask : option Mask)
    (nMca : Z) (mcaAxis : option Z) (mcaSlice : option slice)
    (axesOrder : option (list Z)) (readonly : bool)
    (Hshape : Forall (fun n => 0 <= n) (arr_shape data))
    (Hvalid : valid_axes (arr_shape data)
                         (view_kwargs mcaAxis mcaSlice axesOrder))
    (Hmask : mask_accepted (arr_shape data)
                           (view_kwargs mcaAxis mcaSlice axesOrder) mask) :
  exists (v : @View A B) chunks transposeAxes chunkAxes order nBuffer nChan
         buffer,
    maskedChunkIndex (arr_shape data) nMca mask
                     (view_kwargs mcaAxis mcaSlice axesOrder)
      = Ok (map Some chunks, chunkAxes, order, nBuffer) /\
    (mask = None ->
     exists chunkIndex,
       fullChunkIndex (arr_shape data) nMca
                      (view_kwargs mcaAxis mcaSlice axesOrder)
         = Ok (chunkIndex, chunkAxes, order, nBuffer) /\
       chunkIndexProduct chunkIndex chunkAxes order = Ok chunks) /\
    MaskedView_init data mask (Some nMca) mcaAxis mcaSlice axesOrder readonly
      = Ok v /\
    items_generator v = Ok (map Some chunks, transposeAxes) /\
    prepareAccess garbage v = Ok buffer /\
    arr_shape buffer = [nBuffer; nChan] /\
    Forall (fun ch =>
              0 <= chunk_count ch <= nBuffer /\
              buffer_rows buffer (chunk_count ch) = Ok (chunk_count ch))
           chunks.
Proof.
  destruct (MaskedView_init_ok data mask nMca mcaAxis mcaSlice axesOrder
              readonly Hshape Hvalid Hmask)
    as (v & chunks & T & nb & nChan & n2 & Hinit & _ & Hbuf & _ & Hbs & _
        & Hres & Hgen & _ & _ & _ & HnChan & Hnb & Hall).
  destruct (planner_bounds _ nMca _ mask Hshape Hvalid Hmask)
    as (chunks' & ca & ao & nb' & Hres' & Hdense & _ & _).
  rewrite Hres in Hres'. injection Hres' as Hc Hca Hao Hnb'.
  apply map_Some_inj in Hc. subst chunks' ca ao nb'.
  assert (Hempty : prepareAccess garbage v
                   = Ok (mkArray [nb; nChan]
                                 (repeat garbage (Z.to_nat (nb * nChan))))).
  { unfold prepareAccess, numpy_empty. rewrite Hbuf, Hbs.
    destruct (nb <? 0) eqn:E1; zbool; [lia|].
    destruct (nChan <? 0) eqn:E2; zbool; [lia|]. reflexivity. }
  eexists v, chunks, T, _, _, nb, nChan, _.
  split; [exact Hres|]. split; [exact Hdense|]. split; [exact Hinit|].
  split; [exact Hgen|]. split; [exact Hempty|]. split; [reflexivity|].
  eapply Forall_impl; [|exact Hall]. cbn beta. intros ch Hch.
  split; [assumption|].
  apply (buffer_rows_ok _ nb nChan); [reflexivity|assumption].
Qed.

End ViewProperties.

Lemma buffer_slice_in_bounds_witness :
  exists (v : @View Z Z) chunks transposeAxes chunkAxes order nBuffer nChan
         buffer,
    maskedChunkIndex [20; 10] 3 (Some mask_7_of_20)
                     (view_kwargs None None None)
      = Ok (map Some chunks, chunkAxes, order, nBuffer) /\
    (Some mask_7_of_20 = None ->
     exists chunkIndex,
       fullChunkIndex [20; 10] 3 (view_kwargs None None None)
         = Ok (chunkIndex, chunkAxes, order, nBuffer) /\
       chunkIndexProduct chunkIndex chunkAxes order = Ok chunks) /\
    MaskedView_init (mkArray [20; 10] (py_range 0 200 1))
                    (Some mask_7_of_20) (Some 3) None None None false
      = Ok v /\
    items_generator v = Ok (map Some chunks, transposeAxes) /\
    prepareAccess 0 v = Ok buffer /\
    arr_shape buffer = [nBuffer; nChan] /\
    Forall (fun ch =>
              0 <= chunk_count ch <= nBuffer /\
              buffer_rows buffer (chunk_count ch) = Ok (chunk_count ch))
           chunks.
Proof.
  apply (buffer_slice_in_bounds 0 (mkArray [20; 10] (py_range 0 200 1))
           (Some mask_7_of_20) 3 None None None false).
  - repeat (constructor; [lia|]). constructor.
  - apply (valid_kwargs_last_axis [20; 10]). discriminate.
  - split; [reflexivity|]. split; [cbn; lia|discriminate].
Defined.

(** ** Row-major coordinates *)

Lemma Zprod_nonneg (l : list Z) : Forall (fun n => 0 <= n) l -> 0 <= Zprod l.
Proof.
  unfold Zprod. induction 1 as [|x xs Hx _ IH]; cbn [fold_right]; [lia|nia].
Qed.

Lemma length_product {X} (Ls : list (list X)) :
  List.length (product Ls)
  = fold_right Nat.mul 1%nat (map (@List.length X) Ls).
Proof.
  induction Ls as [|l Ls IH]; [reflexivity|].
  cbn [product map fold_right]. rewrite <- IH. clear IH.
  induction l as [|x xs IHl]; [reflexivity|].
  cbn [flat_map]. rewrite length_app, length_map, IHl. reflexivity.
Qed.

Lemma length_indices (shape : list Z) :
  Forall (fun n => 0 <= n) shape ->
  List.length (indices shape) = Z.to_nat (Zprod shape).
Proof.
  intros H. unfold indices. rewrite length_product, map_map.
  induction H as [|n s Hn Hs IH]; [reflexivity|].
  cbn [map fold_right Zprod]. fold (Zprod s).
  rewrite IH, py_range_0_n, length_map, length_seq.
  pose proof (Zprod_nonneg s Hs). rewrite Z2Nat.inj_mul by lia. reflexivity.
Qed.

Lemma indices_valid (shape c : list Z) :
  In c (indices shape) -> valid_coord shape c.
Proof.
  unfold indices, valid_coord. intros H. apply product_In in H.
  remember (map (fun n => py_range 0 n 1) shape) as Ls eqn:E.
  revert shape E. induction H as [|x l c Ls Hx _ IH]; intros shape E.
  - destruct shape; [constructor|discriminate].
  - destruct shape as [|n s]; [discriminate|].
    cbn [map] in E. injection E as -> ->.
    constructor; [apply py_range_0_n_In; assumption|].
    apply IH. reflexivity.
Qed.

Lemma ravel_bound (shape c : list Z) :
  valid_coord shape c -> 0 <= ravel shape c < Zprod shape.
Proof.
  unfold valid_coord.
  induction 1 as [|n x s c Hx _ IH]; cbn [ravel Zprod fold_right].
  - lia.
  - fold (Zprod s). nia.
Qed.

Lemma map_add_seq (P a k : nat) :
  map (fun r => Z.of_nat a + Z.of_nat r) (seq k P)
  = map Z.of_nat (seq (a + k) P).
Proof.
  revert k. induction P as [|P IH]; intros k; [reflexivity|].
  cbn [seq map]. f_equal; [lia|].
  rewrite IH. replace (a + S k)%nat with (S (a + k)) by lia. reflexivity.
Qed.

Lemma flat_map_ranges (n P : nat) :
  flat_map (fun x => map (fun r => x * Z.of_nat P + r)
                         (map Z.of_nat (seq 0 P)))
           (map Z.of_nat (seq 0 n))
  = map Z.of_nat (seq 0 (n * P)).
Proof.
  induction n as [|n IH]; [reflexivity|].
  rewrite seq_S, map_app, flat_map_app, IH. cbn [plus map flat_map].
  rewrite app_nil_r.
  replace (S n * P)%nat with (n * P + P)%nat by lia.
  rewrite seq_app, map_app. f_equal. cbn [plus].
  rewrite map_map.
  transitivity (map (fun r => Z.of_nat (n * P) + Z.of_nat r) (seq 0 P)).
  - apply map_ext. intros r. lia.
  - rewrite map_add_seq, Nat.add_0_r. reflexivity.
Qed.

(** The flat positions of the coordinates, in row-major order, are
    [0, 1, 2, ...]. *)
Lemma ravel_indices (shape : list Z) :
  Forall (fun n => 0 <= n) shape ->
  map (ravel shape) (indices shape) = py_range 0 (Zprod shape) 1.
Proof.
  unfold indices. induction 1 as [|n s Hn Hs IH]; [reflexivity|].
  cbn [map product Zprod fold_right]. fold (Zprod s).
  pose proof (Zprod_nonneg s Hs) as HP.
  rewrite (py_range_0_n (n * Zprod s)), Z2Nat.inj_mul by lia.
  rewrite <- flat_map_ranges, Z2Nat.id by lia.
  rewrite <- py_range_0_n, <- py_range_0_n, <- IH.
  generalize (py_range 0 n 1). intros l.
  induction l as [|x xs IHl]; [reflexivity|].
  cbn [flat_map]. rewrite map_app, IHl. f_equal.
  rewrite !map_map. apply map_ext. intros c. reflexivity.
Qed.

Lemma nth_error_flat_map_uniform {X Y} (g : X -> list Y) (P : nat)
    (l : list X) (k r : nat) (x : X) :
  (forall y, In y l -> List.length (g y) = P) ->
  nth_error l k = Some x -> (r < P)%nat ->
  nth_error (flat_map g l) (k * P + r) = nth_error (g x) r.
Proof.
  revert k. induction l as [|y ys IH]; intros k Hlen Hk Hr.
  - destruct k; discriminate.
  - cbn [flat_map]. destruct k as [|k]; cbn in Hk.
    + injection Hk as ->. cbn [Nat.mul plus].
      rewrite nth_error_app1; [reflexivity|].
      rewrite Hlen by (left; reflexivity). assumption.
    + rewrite nth_error_app2
        by (rewrite Hlen by (left; reflexivity); cbn; lia).
      rewrite Hlen by (left; reflexivity).
      replace (S k * P + r - P)%nat with (k * P + r)%nat by (cbn; lia).
      apply IH; [|assumption|assumption].
      intros z Hz. apply Hlen. right. assumption.
Qed.

(** The coordinates at flat position [ravel shape c] are [c]. *)
Lemma nth_error_indices (shape c : list Z) :
  Forall (fun n => 0 <= n) shape -> valid_coord shape c ->
  nth_error (indices shape) (Z.to_nat (ravel shape c)) = Some c.
Proof.
  intros Hshape Hc. revert Hshape. unfold valid_coord in Hc.
  induction Hc as [|n x s c Hx Hc IH]; intros Hshape; [reflexivity|].
  inversion Hshape as [|? ? Hn Hs]; subst. specialize (IH Hs).
  pose proof (ravel_bound s c Hc) as Hr.
  cbn [ravel]. unfold indices in *. cbn [map product].
  replace (Z.to_nat (x * Zprod s + ravel s c))
    with (Z.to_nat x * Z.to_nat (Zprod s) + Z.to_nat (ravel s c))%nat by nia.
  rewrite (nth_error_flat_map_uniform _ (Z.to_nat (Zprod s)) _ _ _ x).
  - rewrite nth_error_map, IH. reflexivity.
  - intros y _. rewrite length_map. apply (length_indices s Hs).
  - rewrite py_range_0_n, nth_error_map, nth_error_seq.
    replace (Z.to_nat x <? Z.to_nat n)%nat with true
      by (symmetry; apply Nat.ltb_lt; lia).
    cbn. f_equal. lia.
  - lia.
Qed.

(** ** [argsort] of a permutation *)

Lemma insert_pair_perm (x : Z * Z) (l : list (Z * Z)) :
  Permutation (x :: l) (insert_pair x l).
Proof.
  induction l as [|y ys IH]; cbn; [reflexivity|].
  destruct (fst x <=? fst y); [reflexivity|].
  rewrite perm_swap. apply perm_skip. exact IH.
Qed.

Lemma sort_pairs_perm (l : list (Z * Z)) :
  Permutation l (fold_right insert_pair [] l).
Proof.
  induction l as [|x xs IH]; cbn [fold_right]; [reflexivity|].
  rewrite <- insert_pair_perm. apply perm_skip. exact IH.
Qed.

Lemma map_fst_insert_pair (x : Z * Z) (l : list (Z * Z)) :
  map fst (insert_pair x l) = insert_sorted (fst x) (map fst l).
Proof.
  induction l as [|y ys IH]; cbn; [reflexivity|].
  destruct (fst x <=? fst y); cbn; [reflexivity|]. rewrite IH. reflexivity.
Qed.

Lemma map_fst_sort_pairs (l : list (Z * Z)) :
  map fst (fold_right insert_pair [] l) = sorted (map fst l).
Proof.
  induction l as [|x xs IH]; [reflexivity|].
  cbn [fold_right map]. rewrite map_fst_insert_pair, IH. reflexivity.
Qed.

Lemma sorted_range (a n : nat) :
  sorted (map Z.of_nat (seq a n)) = map Z.of_nat (seq a n).
Proof.
  revert a. induction n as [|n IH]; intros a; [reflexivity|].
  cbn [seq map]. unfold sorted in *. cbn [fold_right]. rewrite IH.
  destruct n as [|n]; [reflexivity|]. cbn [seq map insert_sorted].
  replace (Z.of_nat a <=? Z.of_nat (S a)) with true
    by (symmetry; apply Z.leb_le; lia).
  reflexivity.
Qed.

Lemma map_fst_combine {X Y} (l : list X) (r : list Y) :
  List.length l = List.length r -> map fst (combine l r) = l.
Proof.
  revert r. induction l as [|x xs IH]; intros [|y ys] H; cbn in *;
    try discriminate; [reflexivity|]. f_equal. apply IH. lia.
Qed.

Lemma in_combine_nth_error {X Y} (l : list X) (r : list Y) (x : X) (y : Y) :
  In (x, y) (combine l r) ->
  exists k, nth_error l k = Some x /\ nth_error r k = Some y.
Proof.
  revert r. induction l as [|x0 xs IH]; intros [|y0 ys] H; cbn in H;
    try contradiction.
  destruct H as [H|H].
  - injection H as -> ->. exists 0%nat. split; reflexivity.
  - destruct (IH ys H) as (k & Hk1 & Hk2). exists (S k). split; assumption.
Qed.

Lemma nth_error_range (d k : nat) (y : Z) :
  nth_error (py_range 0 (Z.of_nat d) 1) k = Some y ->
  y = Z.of_nat k /\ (k < d)%nat.
Proof.
  rewrite py_range_0_n, nth_error_map, Nat2Z.id, nth_error_seq.
  destruct (k <? d)%nat eqn:E; [|discriminate].
  apply Nat.ltb_lt in E. cbn. intros [= <-]. split; [reflexivity|assumption].
Qed.

Lemma axes_perm_length (d : nat) (axes : list Z) :
  is_axes_perm d axes -> List.length axes = d.
Proof.
  intros H. apply Permutation_length in H. rewrite H.
  rewrite py_range_0_n, length_map, length_seq. lia.
Qed.

Lemma axes_perm_NoDup (d : nat) (axes : list Z) :
  is_axes_perm d axes -> NoDup axes.
Proof.
  intros H. eapply Permutation_NoDup; [symmetry; exact H|].
  apply py_range_0_n_NoDup.
Qed.

Lemma axes_perm_range (d : nat) (axes : list Z) (a : Z) :
  is_axes_perm d axes -> In a axes -> 0 <= a < Z.of_nat d.
Proof.
  intros H Ha. apply (Permutation_in _ H) in Ha.
  apply py_range_0_n_In in Ha. assumption.
Qed.

Lemma argsort_perm (d : nat) (axes : list Z) :
  is_axes_perm d axes -> is_axes_perm d (argsort axes).
Proof.
  intros H. pose proof (axes_perm_length d axes H) as Hl.
  unfold is_axes_perm, argsort.
  rewrite <- (sort_pairs_perm (combine axes _)).
  rewrite map_snd_combine; [rewrite Hl; reflexivity|].
  rewrite py_range_0_n, length_map, length_seq. lia.
Qed.

(** [argsort axes] gives, for every dimension, its position in [axes]. *)
Lemma argsort_spec (d : nat) (axes : list Z) (a : nat) :
  is_axes_perm d axes -> (a < d)%nat ->
  exists i, nth_error (argsort axes) a = Some (Z.of_nat i) /\
            nth_error axes i = Some (Z.of_nat a).
Proof.
  intros H Ha. pose proof (axes_perm_length d axes H) as Hl.
  unfold argsort.
  set (pairs := combine axes (py_range 0 (Z.of_nat (List.length axes)) 1)).
  assert (Hlr : List.length axes
                = List.length (py_range 0 (Z.of_nat (List.length axes)) 1))
    by (rewrite py_range_0_n, length_map, length_seq; lia).
  assert (Hfst : map fst (fold_right insert_pair [] pairs)
                 = map Z.of_nat (seq 0 d)).
  { rewrite map_fst_sort_pairs. subst pairs. rewrite map_fst_combine by exact Hlr.
    rewrite (sorted_Permutation _ _ H), py_range_0_n, Nat2Z.id.
    apply sorted_range. }
  assert (Hnth : nth_error (map fst (fold_right insert_pair [] pairs)) a
                 = Some (Z.of_nat a)).
  { rewrite Hfst, nth_error_map, nth_error_seq.
    replace (a <? d)%nat with true by (symmetry; apply Nat.ltb_lt; lia).
    reflexivity. }
  rewrite nth_error_map in Hnth.
  destruct (nth_error (fold_right insert_pair [] pairs) a) as [[x y]|] eqn:En;
    [|discriminate].
  cbn in Hnth. injection Hnth as ->.
  pose proof (nth_error_In _ _ En) as Hin.
  apply (Permutation_in _ (Permutation_sym (sort_pairs_perm pairs))) in Hin.
  subst pairs. apply in_combine_nth_error in Hin.
  destruct Hin as (k & Hk1 & Hk2).
  apply nth_error_range in Hk2. destruct Hk2 as [-> _].
  exists k. split; [|assumption].
  rewrite nth_error_map, En. reflexivity.
Qed.

Lemma argsort_inv (d : nat) (axes : list Z) (i a : nat) :
  is_axes_perm d axes -> nth_error axes i = Some (Z.of_nat a) ->
  nth_error (argsort axes) a = Some (Z.of_nat i).
Proof.
  intros H Hi.
  assert (Ha : (a < d)%nat).
  { pose proof (axes_perm_range d axes _ H (nth_error_In _ _ Hi)). lia. }
  destruct (argsort_spec d axes a H Ha) as (i' & Hi1 & Hi2).
  assert (i = i'); [|subst; assumption].
  pose proof (axes_perm_NoDup d axes H) as Hnd.
  rewrite NoDup_nth_error in Hnd. apply Hnd; [|congruence].
  apply nth_error_Some. congruence.
Qed.

Lemma argsort_involutive (d : nat) (axes : list Z) :
  is_axes_perm d axes -> argsort (argsort axes) = axes.
Proof.
  intros H. pose proof (argsort_perm d axes H) as H'.
  pose proof (axes_perm_length d axes H) as Hl.
  pose proof (axes_perm_length d _ H') as Hl'.
  pose proof (axes_perm_length d _ (argsort_perm d _ H')) as Hl''.
  apply nth_error_ext. intros a.
  destruct (Nat.lt_ge_cases a d) as [Ha|Ha].
  - destruct (nth_error axes a) as [x|] eqn:Ex;
      [|apply nth_error_None in Ex; lia].
    pose proof (axes_perm_range d axes _ H (nth_error_In _ _ Ex)) as Hx.
    replace x with (Z.of_nat (Z.to_nat x)) in * by lia.
    apply (argsort_inv d axes) in Ex; [|assumption].
    apply (argsort_inv d (argsort axes)) in Ex; [|assumption].
    rewrite Ex. f_equal. 
  - rewrite (proj2 (nth_error_None _ _)) by lia.
    rewrite (proj2 (nth_error_None _ _)) by lia. reflexivity.
Qed.

(** ** The error monad over lists *)

Lemma mapM_Forall2 {X Y} (f : X -> result Y) (l : list X) (r : list Y) :
  mapM f l = Ok r <-> Forall2 (fun x y => f x = Ok y) l r.
Proof.
  revert r. induction l as [|x xs IH]; intros r; cbn [mapM].
  - split.
    + intros [= <-]. constructor.
    + intros H. inversion H. reflexivity.
  - split.
    + intros H. destruct (f x) as [y|] eqn:Ey; [|discriminate].
      cbn [bind] in H.
      destruct (mapM f xs) as [ys|] eqn:Eys; [|discriminate].
      cbn [bind] in H. injection H as <-.
      constructor; [assumption|]. apply IH. reflexivity.
    + intros H. inversion H as [|? y ? ys Hy Hys]; subst.
      rewrite Hy. cbn [bind]. apply IH in Hys. rewrite Hys. reflexivity.
Qed.

Lemma mapM_ext_in {X Y} (f g : X -> result Y) (l : list X) :
  (forall x, In x l -> f x = g x) -> mapM f l = mapM g l.
Proof.
  induction l as [|x xs IH]; intros H; [reflexivity|].
  cbn [mapM]. rewrite (H x) by (left; reflexivity).
  rewrite IH by (intros; apply H; right; assumption). reflexivity.
Qed.

Lemma mapM_map {X Y W} (f : Y -> result W) (g : X -> Y) (l : list X) :
  mapM f (map g l) = mapM (fun x => f (g x)) l.
Proof.
  induction l as [|x xs IH]; [reflexivity|].
  cbn [map mapM]. rewrite IH. reflexivity.
Qed.

Lemma mapM_fmap {X Y W} (g : X -> result W) (h : X -> result Y) (f : Y -> W)
    (l : list X) :
  (forall x, g x = match h x with Ok y => Ok (f y) | Err e => Err e end) ->
  mapM g l = match mapM h l with Ok r => Ok (map f r) | Err e => Err e end.
Proof.
  intros H. induction l as [|x xs IH]; [reflexivity|].
  cbn [mapM]. rewrite H. destruct (h x) as [y|]; [|reflexivity].
  cbn [bind]. rewrite IH. destruct (mapM h xs); reflexivity.
Qed.

Lemma mapM_py_index_range {X} (l : list X) :
  mapM (py_index l) (py_range 0 (Z.of_nat (List.length l)) 1) = Ok l.
Proof.
  rewrite py_range_0_n, Nat2Z.id.
  rewrite (map_ext _ (fun k => Z.of_nat 0 + Z.of_nat k * 1)) by (intros; lia).
  rewrite mapM_py_index_seq by lia.
  cbn [skipn]. rewrite firstn_all. reflexivity.
Qed.

Lemma py_index_map {X Y} (f : X -> Y) (l : list X) (p : Z) :
  py_index (map f l) p
  = match py_index l p with Ok x => Ok (f x) | Err e => Err e end.
Proof.
  unfold py_index. rewrite length_map.
  destruct (_ && _); [|reflexivity].
  rewrite nth_error_map. destruct (nth_error l _); reflexivity.
Qed.

Lemma Forall2_nth_error_l {X Y} (R : X -> Y -> Prop) (l : list X) (r : list Y)
    (k : nat) (x : X) :
  Forall2 R l r -> nth_error l k = Some x ->
  exists y, nth_error r k = Some y /\ R x y.
Proof.
  intros H. revert k. induction H as [|x0 y0 l r Hxy _ IH]; intros [|k] Hk;
    cbn in Hk; try discriminate.
  - injection Hk as <-. exists y0. split; [reflexivity|assumption].
  - apply IH. assumption.
Qed.

(** ** Transposition *)

Lemma perm_coords_length (axes j : list Z) :
  List.length (perm_coords axes j) = List.length axes.
Proof.
  apply length_map.
Qed.

Lemma mapM_py_index_perm (d : nat) (axes : list Z) (j : list Z) :
  is_axes_perm d axes -> List.length j = d ->
  mapM (py_index j) axes = Ok (perm_coords axes j).
Proof.
  intros H Hl. apply mapM_ok_map. intros i Hi.
  pose proof (axes_perm_range d axes i H Hi) as Hr.
  destruct (py_index_ok j i ltac:(lia)) as (x & Hx & Hn).
  rewrite Hx. f_equal. symmetry. apply nth_error_nth. assumption.
Qed.

Lemma nth_error_perm_coords (axes j : list Z) (k : nat) (i : Z) :
  nth_error axes k = Some i ->
  nth_error (perm_coords axes j) k = Some (nth (Z.to_nat i) j 0).
Proof.
  intros H. unfold perm_coords. rewrite nth_error_map, H. reflexivity.
Qed.

(** Permuting by [axes] and then by [argsort axes] gives the list back. *)
Lemma perm_coords_inverse (d : nat) (axes j : list Z) :
  is_axes_perm d axes -> List.length j = d ->
  perm_coords (argsort axes) (perm_coords axes j) = j.
Proof.
  intros H Hl.
  pose proof (axes_perm_length d _ (argsort_perm d axes H)) as Hla.
  apply nth_error_ext. intros a.
  destruct (Nat.lt_ge_cases a d) as [Ha|Ha].
  - destruct (argsort_spec d axes a H Ha) as (i & Hi1 & Hi2).
    rewrite (nth_error_perm_coords _ _ _ _ Hi1), Nat2Z.id.
    rewrite (nth_error_nth _ _ _ (nth_error_perm_coords _ j _ _ Hi2)).
    rewrite Nat2Z.id. symmetry. apply nth_error_nth'. lia.
  - rewrite (proj2 (nth_error_None _ _))
      by (rewrite perm_coords_length; lia).
    rewrite (proj2 (nth_error_None _ _)) by lia. reflexivity.
Qed.

Lemma perm_coords_inverse' (d : nat) (axes j : list Z) :
  is_axes_perm d axes -> List.length j = d ->
  perm_coords axes (perm_coords (argsort axes) j) = j.
Proof.
  intros H Hl.
  rewrite <- (argsort_involutive d axes H) at 1.
  apply (perm_coords_inverse d); [apply argsort_perm|]; assumption.
Qed.

Lemma Forall2_nth {X Y} (R : X -> Y -> Prop) (l : list X) (r : list Y)
    (k : nat) (dx : X) (dy : Y) :
  Forall2 R l r -> (k < List.length l)%nat -> R (nth k l dx) (nth k r dy).
Proof.
  intros H. revert k. induction H as [|x y l r Hxy _ IH]; intros [|k] Hk;
    cbn in *; try lia; [assumption|]. apply IH. lia.
Qed.

Lemma valid_coord_perm (d : nat) (axes shape c : list Z) :
  is_axes_perm d axes -> List.length shape = d ->
  valid_coord shape c ->
  valid_coord (perm_coords axes shape) (perm_coords axes c).
Proof.
  intros H Hl Hc. unfold valid_coord, perm_coords.
  assert (Hr : forall i, In i axes -> 0 <= i < Z.of_nat d)
    by (intros i Hi; eapply axes_perm_range; eassumption).
  clear H. induction axes as [|i axes IH]; cbn [map]; constructor.
  - apply (Forall2_nth _ _ _ _ 0 0 Hc).
    specialize (Hr i (or_introl eq_refl)). lia.
  - apply IH. intros; apply Hr; right; assumption.
Qed.

Lemma perm_coords_nonneg (d : nat) (axes shape : list Z) :
  is_axes_perm d axes -> List.length shape = d ->
  Forall (fun n => 0 <= n) shape ->
  Forall (fun n => 0 <= n) (perm_coords axes shape).
Proof.
  intros H Hl Hs. apply Forall_forall. intros n Hn.
  apply in_map_iff in Hn. destruct Hn as (i & <- & Hi).
  pose proof (axes_perm_range d axes i H Hi) as Hr.
  rewrite Forall_forall in Hs. apply Hs. apply nth_In. lia.
Qed.

Lemma Zprod_Permutation (l1 l2 : list Z) :
  Permutation l1 l2 -> Zprod l1 = Zprod l2.
Proof.
  unfold Zprod. induction 1; cbn [fold_right]; lia.
Qed.

Lemma perm_coords_Permutation (d : nat) (axes shape : list Z) :
  is_axes_perm d axes -> List.length shape = d ->
  Permutation (perm_coords axes shape) shape.
Proof.
  intros H Hl. unfold perm_coords.
  rewrite (Permutation_map _ H).
  rewrite py_range_0_n, Nat2Z.id, map_map.
  rewrite (map_ext _ (fun k => nth k shape 0))
    by (intros; rewrite Nat2Z.id; reflexivity).
  subst d. clear. 
  assert (Hg : forall k, map (fun i => nth i shape 0)
                             (seq k (List.length shape - k))
                         = skipn k shape).
  { intros k. remember (List.length shape - k)%nat as m eqn:Em.
    revert k Em. induction m as [|m IH]; intros k Em.
    - cbn. symmetry. apply skipn_all2. lia.
    - cbn [seq map]. rewrite IH by lia.
      assert (Hk : (k < List.length shape)%nat) by lia.
      clear -Hk. revert k Hk. induction shape as [|x xs IH]; intros k Hk;
        [cbn in Hk; lia|].
      destruct k as [|k]; [reflexivity|]. cbn [nth skipn].
      apply IH. cbn in Hk. lia. }
  specialize (Hg 0%nat). rewrite Nat.sub_0_r in Hg. rewrite Hg. reflexivity.
Qed.

Lemma transpose_normalize (d : nat) (axes : list Z) :
  is_axes_perm d axes ->
  mapM (fun i =>
          if (0 <=? (if i <? 0 then i + Z.of_nat d else i)) &&
             ((if i <? 0 then i + Z.of_nat d else i) <? Z.of_nat d)
          then Ok (if i <? 0 then i + Z.of_nat d else i)
          else Err (ValueError "axis is out of bounds")) axes = Ok axes.
Proof.
  intros H. apply mapM_ok_id. intros i Hi.
  pose proof (axes_perm_range d axes i H Hi) as Hr.
  destruct (i <? 0) eqn:E; zbool; [lia|].
  replace ((0 <=? i) && (i <? Z.of_nat d)) with true; [reflexivity|].
  symmetry. apply andb_true_iff. split; [apply Z.leb_le|apply Z.ltb_lt]; lia.
Qed.

Lemma transpose_ok {X} (a : ndarray X) (axes : list Z) :
  wf_array a -> is_axes_perm (List.length (arr_shape a)) axes ->
  exists r,
    transpose a axes = Ok (mkArray (perm_coords axes (arr_shape a)) r) /\
    Forall2 (fun j x =>
               py_index (arr_data a)
                        (ravel (arr_shape a) (perm_coords (argsort axes) j))
               = Ok x)
            (indices (perm_coords axes (arr_shape a))) r.
Proof.
  intros [Hs Hlen] H.
  set (d := List.length (arr_shape a)) in *.
  pose proof (argsort_perm d axes H) as Hinv.
  assert (Hdata : exists r,
            mapM (fun j =>
                    c <- mapM (py_index j) (argsort axes) ;;
                    py_index (arr_data a) (ravel (arr_shape a) c))
                 (indices (perm_coords axes (arr_shape a))) = Ok r /\
            Forall2 (fun j x =>
                       py_index (arr_data a)
                         (ravel (arr_shape a) (perm_coords (argsort axes) j))
                       = Ok x)
                    (indices (perm_coords axes (arr_shape a))) r).
  { assert (Hall : forall j,
              In j (indices (perm_coords axes (arr_shape a))) ->
              (c <- mapM (py_index j) (argsort axes) ;;
               py_index (arr_data a) (ravel (arr_shape a) c))
              = py_index (arr_data a)
                  (ravel (arr_shape a) (perm_coords (argsort axes) j)) /\
              exists x, py_index (arr_data a)
                  (ravel (arr_shape a) (perm_coords (argsort axes) j)) = Ok x).
    { intros j Hj. apply indices_valid in Hj.
      assert (Hlj : List.length j = d).
      { unfold valid_coord in Hj. rewrite <- (Forall2_length Hj).
        rewrite perm_coords_length. apply (axes_perm_length d axes H). }
      rewrite (mapM_py_index_perm d _ j Hinv Hlj). cbn [bind].
      split; [reflexivity|].
      apply (valid_coord_perm d (argsort axes)) in Hj;
        [|assumption
         |rewrite perm_coords_length; apply (axes_perm_length d axes H)].
      rewrite (perm_coords_inverse d axes (arr_shape a) H eq_refl) in Hj.
      apply ravel_bound in Hj.
      assert (Hb : 0 <= ravel (arr_shape a) (perm_coords (argsort axes) j)
                   < Z.of_nat (List.length (arr_data a))) by lia.
      destruct (py_index_ok (arr_data a) _ Hb) as (x & Hx & _).
      exists x. exact Hx. }
    destruct (mapM_ok_in
                (fun j => py_index (arr_data a)
                   (ravel (arr_shape a) (perm_coords (argsort axes) j)))
                (indices (perm_coords axes (arr_shape a))))
      as (r & Hr); [intros j Hj; apply (Hall j Hj)|].
    exists r. split.
    - rewrite <- Hr. apply mapM_ext_in. intros j Hj. apply (Hall j Hj).
    - apply mapM_Forall2. exact Hr. }
  destruct Hdata as (r & Hr & Hall). exists r. split; [|assumption].
  unfold transpose. cbv zeta. fold d.
  rewrite (transpose_normalize d axes H). cbn [bind].
  replace (list_eqb (sorted axes) (py_range 0 (Z.of_nat d) 1)) with true.
  - cbn [negb]. rewrite (mapM_py_index_perm d axes _ H eq_refl). cbn [bind].
    rewrite Hr. reflexivity.
  - symmetry. apply list_eqb_eq.
    rewrite (sorted_Permutation _ _ H), py_range_0_n. apply sorted_range.
Qed.

Lemma transpose_wf {X} (a b : ndarray X) (axes : list Z) :
  wf_array a -> is_axes_perm (List.length (arr_shape a)) axes ->
  transpose a axes = Ok b ->
  arr_shape b = perm_coords axes (arr_shape a) /\ wf_array b /\
  List.length (arr_data b) = List.length (arr_data a).
Proof.
  intros Hwf H Ht. destruct (transpose_ok a axes Hwf H) as (r & Hr & Hall).
  rewrite Hr in Ht. injection Ht as <-. cbn [arr_shape arr_data].
  destruct Hwf as [Hs Hlen].
  pose proof (perm_coords_nonneg _ axes _ H eq_refl Hs) as Hs'.
  assert (Hlr : List.length r
                = Z.to_nat (Zprod (perm_coords axes (arr_shape a)))).
  { rewrite <- (Forall2_length Hall). apply length_indices. assumption. }
  split; [reflexivity|]. split; [split; assumption|].
  rewrite Hlr, Hlen. f_equal. apply Zprod_Permutation.
  apply (perm_coords_Permutation _ axes _ H eq_refl).
Qed.

(** Transposing back with [argsort axes] gives the array back. *)
Lemma transpose_roundtrip {X} (a b : ndarray X) (axes : list Z) :
  wf_array a -> is_axes_perm (List.length (arr_shape a)) axes ->
  transpose a axes = Ok b ->
  transpose b (argsort axes) = Ok a.
Proof.
  intros Hwf H Ht.
  destruct (transpose_wf a b axes Hwf H Ht) as (Hsb & Hwfb & _).
  destruct (transpose_ok a axes Hwf H) as (r & Hr & Hall).
  rewrite Hr in Ht. injection Ht as <-. cbn [arr_shape arr_data] in *.
  set (d := List.length (arr_shape a)) in *.
  pose proof (axes_perm_length d axes H) as Hla.
  assert (Hinv : is_axes_perm
                   (List.length (arr_shape
                      (mkArray (perm_coords axes (arr_shape a)) r)))
                   (argsort axes)).
  { cbn [arr_shape]. rewrite perm_coords_length, Hla.
    apply argsort_perm. assumption. }
  destruct (transpose_ok _ (argsort axes) Hwfb Hinv) as (r' & Hr' & Hall').
  cbn [arr_shape arr_data] in Hr', Hall'.
  rewrite (perm_coords_inverse d axes _ H eq_refl) in Hr', Hall'.
  rewrite (argsort_involutive d axes H) in Hall'.
  rewrite Hr'. destruct a as [s dat]. cbn [arr_shape arr_data] in *.
  f_equal. f_equal.
  destruct Hwf as [Hs Hlen]. cbn [arr_shape arr_data] in Hs, Hlen.
  pose proof (perm_coords_nonneg d axes s H eq_refl Hs) as Hs'.
  assert (Hm : mapM (fun j => py_index dat (ravel s j)) (indices s) = Ok r').
  { apply mapM_Forall2 in Hall'. rewrite <- Hall'.
    apply mapM_ext_in. intros j Hj. apply indices_valid in Hj.
    assert (Hlj : List.length j = d)
      by (unfold valid_coord in Hj; rewrite <- (Forall2_length Hj);
          reflexivity).
    pose proof (valid_coord_perm d axes s j H eq_refl Hj) as Hc'.
    pose proof (nth_error_indices _ _ Hs' Hc') as Hn.
    destruct (Forall2_nth_error_l _ _ _ _ _ Hall Hn) as (x & Hx & Hpx).
    rewrite (perm_coords_inverse d axes j H Hlj) in Hpx.
    rewrite Hpx. pose proof (ravel_bound _ _ Hc') as Hb.
    rewrite py_index_nonneg by lia. rewrite Hx. reflexivity. }
  rewrite <- mapM_map, (ravel_indices s Hs) in Hm.
  replace (Zprod s) with (Z.of_nat (List.length dat)) in Hm
    by (pose proof (Zprod_nonneg s Hs); lia).
  rewrite mapM_py_index_range in Hm. congruence.
Qed.

Lemma transpose_array_map {X Y} (f : X -> Y) (a : ndarray X) (axes : list Z) :
  transpose (array_map f a) axes
  = match transpose a axes with
    | Ok b => Ok (array_map f b)
    | Err e => Err e
    end.
Proof.
  unfold transpose, array_map. cbn [arr_shape arr_data].
  destruct (mapM _ axes) as [axes'|]; [|reflexivity]. cbn [bind].
  destruct (negb _); [reflexivity|].
  destruct (mapM (py_index (arr_shape a)) axes') as [shape|]; [|reflexivity].
  cbn [bind].
  rewrite (mapM_fmap _
             (fun j => c <- mapM (py_index j) (argsort axes') ;;
                       py_index (arr_data a) (ravel (arr_shape a) c)) f).
  - destruct (mapM _ (indices shape)); reflexivity.
  - intros j. destruct (mapM (py_index j) (argsort axes')); [|reflexivity].
    cbn [bind]. apply py_index_map.
Qed.


(** ** Reading and writing items *)

Lemma set_nth_same {X} (l : list X) (k : nat) (v : X) :
  nth_error l k = Some v -> set_nth l k v = l.
Proof.
  revert k. induction l as [|x xs IH]; intros [|k] H; cbn in *;
    try discriminate.
  - injection H as ->. reflexivity.
  - rewrite IH by assumption. reflexivity.
Qed.

Lemma py_setitem_same {X} (l : list X) (p : Z) (v : X) :
  py_index l p = Ok v -> py_setitem l p v = Ok l.
Proof.
  unfold py_index, py_setitem. destruct (_ && _); [|discriminate].
  destruct (nth_error l _) as [x|] eqn:E; [|discriminate].
  intros [= <-]. rewrite set_nth_same by assumption. reflexivity.
Qed.

Lemma foldM_setitem_same {X Y} (cast : Y -> X) (cast_in : X -> Y)
    (d : list X) (sel : list Z) (vals : list X) :
  (forall x, cast (cast_in x) = x) ->
  mapM (py_index d) sel = Ok vals ->
  foldM (fun d' '(p, x) => py_setitem d' p (cast x))
        (combine sel (map cast_in vals)) d = Ok d.
Proof.
  intros Hcast. revert vals. induction sel as [|p sel IH]; intros vals H.
  - reflexivity.
  - cbn [mapM] in H. destruct (py_index d p) as [v|] eqn:Ev; [|discriminate].
    cbn [bind] in H.
    destruct (mapM (py_index d) sel) as [vs|] eqn:Evs; [|discriminate].
    cbn [bind] in H. injection H as <-.
    cbn [map combine foldM]. rewrite Hcast.
    rewrite (py_setitem_same d p v Ev). cbn [bind].
    apply IH. reflexivity.
Qed.

(** Writing back what was read leaves the array as it is, when the
    conversion of the items is lossless. *)
Lemma setitem_getitem {X Y} (cast : Y -> X) (cast_in : X -> Y)
    (a g : ndarray X) (idx : list index) :
  (forall x, cast (cast_in x) = x) ->
  getitem a idx = Ok g ->
  setitem cast a idx (array_map cast_in g) = Ok a.
Proof.
  intros Hcast Hg. unfold getitem in Hg. unfold setitem.
  destruct (selection (arr_shape a) idx) as [[shape sel]|]; [|discriminate].
  cbn [bind] in *.
  destruct (mapM (py_index (arr_data a)) sel) as [vals|] eqn:Ev;
    [|discriminate].
  cbn [bind] in Hg. injection Hg as <-.
  cbn [array_map arr_shape arr_data].
  replace (list_eqb shape shape) with true
    by (symmetry; apply list_eqb_eq; reflexivity).
  cbn [negb].
  rewrite (foldM_setitem_same cast cast_in _ _ _ Hcast Ev). cbn [bind].
  destruct a. reflexivity.
Qed.

Lemma getitem_wf {X} (a g : ndarray X) (idx : list index) :
  getitem a idx = Ok g -> wf_array g.
Proof.
  unfold getitem, selection. intros Hg.
  destruct (resolve_index (arr_shape a) idx) as [sels|]; [|discriminate].
  cbn [bind] in Hg.
  destruct (result_dims sels) as [dims|]; [|discriminate].
  cbn [bind] in Hg.
  destruct (mapM _ _) as [vals|] eqn:Ev; [|discriminate].
  cbn [bind] in Hg. injection Hg as <-.
  apply mapM_length in Ev. rewrite length_map, length_product in Ev.
  unfold wf_array. cbn [arr_shape arr_data]. split.
  - apply Forall_forall. intros n Hn. apply in_map_iff in Hn.
    destruct Hn as (dd & <- & _). lia.
  - rewrite Ev. clear. induction dims as [|dd dims IH]; [reflexivity|].
    cbn [map fold_right Zprod]. fold (Zprod (map (fun d => Z.of_nat (List.length d)) dims)).
    rewrite IH.
    assert (0 <= Zprod (map (fun d => Z.of_nat (List.length d)) dims)).
    { apply Zprod_nonneg. apply Forall_forall. intros n Hn.
      apply in_map_iff in Hn. destruct Hn as (x & <- & _). lia. }
    rewrite Z2Nat.inj_mul by lia. rewrite Nat2Z.id. reflexivity.
Qed.

(** ** One iteration of [items] *)

Section ItemsRoundTrip.

Context {A B : Type}.
Variable cast_in : A -> B.
Variable cast_out : B -> A.
Variable garbage : B.
Hypothesis cast_lossless : forall x, cast_out (cast_in x) = x.

Lemma mapM_idxShape (d : nat) (T shape : list Z) :
  is_axes_perm d T -> List.length shape = d ->
  mapM (fun i =>
          n <- py_index (map Some shape) i ;;
          match n with
          | Some n => Ok n
          | None => Err TypeError
          end) T = Ok (perm_coords T shape).
Proof.
  intros H Hl. apply mapM_ok_map. intros i Hi.
  pose proof (axes_perm_range d T i H Hi) as Hr.
  rewrite py_index_map.
  destruct (py_index_ok shape i ltac:(lia)) as (x & Hx & Hn).
  rewrite Hx. cbn [bind]. f_equal. symmetry.
  apply nth_error_nth. assumption.
Qed.

Lemma items_step_keep (keyType : KeyType) (masked post_copy : bool)
    (nChan rows : Z) (axesOrderSorted T : list Z)
    (data : ndarray A) (buffer : ndarray B)
    (yielded : list (Key * ndarray B)) (ch : Chunk) :
  chunk_ok data masked axesOrderSorted T nChan rows ch ->
  arr_shape buffer = [rows; nChan] -> 0 <= nChan ->
  exists buffer' y,
    items_step cast_in cast_out keyType masked post_copy nChan
               axesOrderSorted T (argsort T) keep_buffer
               (data, buffer, yielded) (Some ch)
    = Ok (data, buffer', yielded ++ [y]) /\
    arr_shape buffer' = [rows; nChan].
Proof.
  intros [(g & Hg & Hshp & Hsize & Hperm) Hrows Hkey] Hbuf HnChan.
  destruct ch as [[idx shp] cnt]. cbn [fst snd] in *.
  pose proof (getitem_wf _ _ _ Hg) as Hwf.
  destruct (transpose_ok g T Hwf Hperm) as (r & Ht & _).
  destruct (transpose_wf g _ T Hwf Hperm Ht) as (_ & Hwft & Hlt).
  cbn [arr_shape arr_data] in Hwft, Hlt.
  destruct Hwf as [Hgs Hgl]. destruct Hwft as [Hts Htl].
  cbn [arr_shape arr_data] in Hts, Htl.
  destruct (Hkey keyType) as (key & Hk).
  assert (Hlr : Z.of_nat (List.length r) = cnt * nChan) by nia.
  unfold items_step.
  rewrite (buffer_rows_ok buffer rows nChan cnt Hbuf Hrows). cbn [bind].
  rewrite Hbuf. replace (py_index [rows; nChan] 1) with (Ok nChan)
    by reflexivity.
  cbn [bind]. rewrite Hg. cbn [bind]. rewrite Ht. cbn [bind].
  unfold reshape at 1. cbn [arr_data arr_shape forallb Zprod fold_right].
  replace ((0 <=? cnt) && ((0 <=? nChan) && true)
           && (cnt * (nChan * 1) =? Z.of_nat (List.length r))) with true.
  2:{ symmetry. rewrite !andb_true_iff, !Z.leb_le, Z.eqb_eq. lia. }
  cbn [bind arr_shape arr_data].
  replace (list_eqb [cnt; nChan] [cnt; nChan]) with true
    by (symmetry; apply list_eqb_eq; reflexivity).
  cbn [negb]. rewrite Hk. cbn [bind].
  unfold keep_buffer at 1 2 3. cbn [arr_data].
  rewrite length_map, Nat.eqb_refl. cbn [negb].
  destruct post_copy.
  - rewrite Hshp, (mapM_idxShape _ T _ Hperm eq_refl). cbn [bind].
    unfold reshape. cbn [arr_data arr_shape]. rewrite length_map.
    replace (forallb (fun n => 0 <=? n) (perm_coords T (arr_shape g))
             && (Zprod (perm_coords T (arr_shape g))
                 =? Z.of_nat (List.length r))) with true.
    2:{ symmetry. rewrite andb_true_iff, forallb_forall, Z.eqb_eq. split.
        - intros n Hn. rewrite Forall_forall in Hts. apply Z.leb_le, Hts, Hn.
        - pose proof (Zprod_nonneg _ Hts). lia. }
    cbn [bind].
    change (mkArray (perm_coords T (arr_shape g)) (map cast_in r))
      with (array_map cast_in (mkArray (perm_coords T (arr_shape g)) r)).
    rewrite transpose_array_map.
    rewrite (transpose_roundtrip g _ T (conj Hgs Hgl) Hperm Ht).
    cbn [bind].
    rewrite (setitem_getitem cast_out cast_in data g idx cast_lossless Hg).
    cbn [bind]. eexists _, _. split; reflexivity.
  - cbn [bind]. eexists _, _. split; reflexivity.
Qed.

End ItemsRoundTrip.

(** ** Indexing stays inside the array *)

Lemma mapM_In {X Y} (f : X -> result Y) (l : list X) (r : list Y) (y : Y) :
  mapM f l = Ok r -> In y r -> exists x, In x l /\ f x = Ok y.
Proof.
  intros H. apply mapM_Forall2 in H.
  induction H as [|x y' l' r' Hxy _ IH]; intros Hin; [contradiction|].
  destruct Hin as [<-|Hin].
  - exists x. split; [left; reflexivity|assumption].
  - destruct (IH Hin) as (x' & Hx' & Hf). exists x'.
    split; [right|]; assumption.
Qed.

Lemma expand_in_range (slc : slice) (n : Z) (l : list Z) :
  expand slc n = Ok l -> Forall (fun x => 0 <= x < n) l.
Proof.
  unfold expand, py_getslice. intros H.
  destruct (slice_indices slc _) as [[[start stop] step]|e]; [|discriminate].
  cbn [bind] in H. apply Forall_forall. intros x Hx.
  destruct (mapM_In _ _ _ _ H Hx) as (i & _ & Hi).
  apply py_index_In in Hi. apply py_range_0_n_In in Hi. exact Hi.
Qed.

Lemma index_select_in_range (i : index) (n : Z) (l : list Z) :
  index_select i n = Ok l -> Forall (fun x => 0 <= x < n) l.
Proof.
  destruct i as [|s|ks]; cbn [index_select]; intros H.
  - discriminate.
  - eapply expand_in_range; eassumption.
  - apply Forall_forall. intros x Hx.
    destruct (mapM_In _ _ _ _ H Hx) as (k & _ & Hk). cbv zeta in Hk.
    destruct ((0 <=? _) && _) eqn:E; [|discriminate].
    injection Hk as <-. apply andb_true_iff in E. destruct E. zbool. lia.
Qed.

Lemma nth_error_combine {X Y} (l : list X) (r : list Y) (k : nat) (x : X)
    (y : Y) :
  nth_error (combine l r) k = Some (x, y) ->
  nth_error l k = Some x /\ nth_error r k = Some y.
Proof.
  revert r k. induction l as [|a l IH]; intros [|b r] [|k] H; cbn in *;
    try discriminate.
  - injection H as -> ->. split; reflexivity.
  - apply IH. assumption.
Qed.

Lemma resolve_index_ok (shape : list Z) (idx : list index)
    (sels : list (Z * axis_sel)) :
  resolve_index shape idx = Ok sels -> sels_ok shape sels.
Proof.
  unfold resolve_index. intros H.
  destruct (_ <? _)%nat eqn:Elen; [discriminate|].
  apply Nat.ltb_ge in Elen.
  destruct (mapM _ _) as [sels0|] eqn:Em; [|discriminate].
  cbn [bind] in H. injection H as <-.
  pose proof (mapM_length _ _ _ Em) as Hl.
  rewrite length_combine, length_app, repeat_length in Hl.
  assert (Hr : List.length (py_range 0 (Z.of_nat (List.length shape)) 1)
               = List.length sels0).
  { rewrite py_range_0_n, length_map, length_seq. lia. }
  split; [apply map_fst_combine; assumption|].
  intros a s Hin.
  destruct (in_combine_nth_error _ _ _ _ Hin) as (k & Hk1 & Hk2).
  apply nth_error_range in Hk1. destruct Hk1 as [-> Hk].
  apply mapM_Forall2 in Em.
  destruct (Forall2_nth_error_r _ _ _ _ _ Em Hk2) as ([n e] & Hne & Hf).
  apply nth_error_combine in Hne. destruct Hne as [Hn _].
  exists n. rewrite Nat2Z.id. split; [assumption|]. split; [lia|].
  destruct e as [|sl|ks]; [discriminate| |].
  - destruct (expand sl n) as [p|] eqn:Ep; [|discriminate].
    cbn [bind] in Hf. injection Hf as <-. cbn [sel_positions].
    eapply expand_in_range; eassumption.
  - destruct (index_select (IList ks) n) as [p|] eqn:Ep; [|discriminate].
    cbn [bind] in Hf. injection Hf as <-. cbn [sel_positions].
    eapply index_select_in_range; eassumption.
Qed.

Lemma NoDup_map_fst_eq {X Y} (l : list (X * Y)) (a : X) (x y : Y) :
  NoDup (map fst l) -> In (a, x) l -> In (a, y) l -> x = y.
Proof.
  induction l as [|[b z] l IH]; cbn [map fst]; intros Hnd Hx Hy;
    [contradiction|].
  inversion Hnd as [|? ? Hnotin Hnd']; subst.
  destruct Hx as [Hx|Hx], Hy as [Hy|Hy].
  - congruence.
  - injection Hx as -> ->. exfalso. apply Hnotin.
    apply in_map_iff. exists (a, y). split; [reflexivity|assumption].
  - injection Hy as -> ->. exfalso. apply Hnotin.
    apply in_map_iff. exists (a, x). split; [reflexivity|assumption].
  - apply IH; assumption.
Qed.

Lemma sels_fst_In (shape : list Z) (sels : list (Z * axis_sel)) (a : Z) :
  sels_ok shape sels -> 0 <= a < Z.of_nat (List.length shape) ->
  exists s, In (a, s) sels.
Proof.
  intros [Hfst _] Ha. apply py_range_0_n_In in Ha. rewrite <- Hfst in Ha.
  apply in_map_iff in Ha. destruct Ha as ([b s] & Hb & Hin).
  cbn [fst] in Hb. subst b. exists s. assumption.
Qed.

Lemma result_dims_ok (shape : list Z) (sels : list (Z * axis_sel))
    (dims : list (list (list (Z * Z)))) :
  sels_ok shape sels -> result_dims sels = Ok dims ->
  dims_valid shape dims /\ dims_cover (Z.of_nat (List.length shape)) dims.
Proof.
  intros Hok Hd. pose proof Hok as [Hfst Hval].
  assert (Hnd : NoDup (map fst sels))
    by (rewrite Hfst; apply py_range_0_n_NoDup).
  set (sliced_dim := fun s : Z * axis_sel =>
         map (fun x => [(fst s, x)]) (sel_positions (snd s))).
  assert (Hsv : forall s asg a x,
             In s sels -> In asg (sliced_dim s) -> In (a, x) asg ->
             exists n, nth_error shape (Z.to_nat a) = Some n /\ 0 <= a /\
                       0 <= x < n).
  { intros [b sel] asg a x Hs Hasg Hax. unfold sliced_dim in Hasg.
    cbn [fst snd] in Hasg. apply in_map_iff in Hasg.
    destruct Hasg as (y & <- & Hy). destruct Hax as [Hax|[]].
    injection Hax as <- <-.
    destruct (Hval b sel Hs) as (n & Hn & Hb & Hall).
    exists n. split; [assumption|]. split; [assumption|].
    rewrite Forall_forall in Hall. apply Hall. assumption. }
  assert (Hsc : forall s asg, In asg (sliced_dim s) -> In (fst s) (map fst asg)).
  { intros s asg Hasg. unfold sliced_dim in Hasg. apply in_map_iff in Hasg.
    destruct Hasg as (y & <- & _). left. reflexivity. }
  unfold result_dims in Hd. fold sliced_dim in Hd.
  destruct (filter is_sel_list sels) as [|[a0 s0] adv'] eqn:Eadv.
  - injection Hd as <-. split.
    + intros d asg a x Hin. apply in_map_iff in Hin.
      destruct Hin as (s & <- & Hs). apply Hsv. assumption.
    + intros a Ha. destruct (sels_fst_In _ _ a Hok Ha) as (s & Hs).
      exists (sliced_dim (a, s)). split; [apply in_map; assumption|].
      intros asg Hasg. apply (Hsc (a, s)). assumption.
  - rewrite <- Eadv in Hd.
    set (adv := filter is_sel_list sels) in *.
    set (L := fold_right Nat.max 0%nat
                (map (fun s : Z * axis_sel =>
                        List.length (sel_positions (snd s))) adv)) in *.
    destruct (forallb _ adv) eqn:Eall; cbn [negb] in Hd; [|discriminate].
    set (adv_dim := map (fun r => map _ adv) (seq 0 L)) in *.
    assert (Hadv : forall s, In s adv -> In s sels /\ is_sel_list s = true)
      by (intros s Hs; apply filter_In in Hs; exact Hs).
    assert (Hav : forall asg a x, In asg adv_dim -> In (a, x) asg ->
               exists n, nth_error shape (Z.to_nat a) = Some n /\ 0 <= a /\
                         0 <= x < n).
    { intros asg a x Hasg Hax. unfold adv_dim in Hasg.
      apply in_map_iff in Hasg. destruct Hasg as (r & <- & Hr).
      apply in_seq in Hr. apply in_map_iff in Hax.
      destruct Hax as ([b sel] & Heq & Hs). cbn [fst snd] in Heq.
      injection Heq as <- <-.
      destruct (Hval b sel (proj1 (Hadv _ Hs))) as (n & Hn & Hb & Hall).
      exists n. split; [assumption|]. split; [assumption|].
      rewrite Forall_forall in Hall. apply Hall.
      rewrite forallb_forall in Eall. specialize (Eall _ Hs).
      cbn [snd] in Eall. apply nth_In.
      destruct (_ =? L)%nat eqn:E1.
      - apply Nat.eqb_eq in E1. lia.
      - cbn [orb] in Eall. apply Nat.eqb_eq in Eall. lia. }
    assert (Hac : forall a s, In (a, s) adv ->
               forall asg, In asg adv_dim -> In a (map fst asg)).
    { intros a s Hs asg Hasg. unfold adv_dim in Hasg.
      apply in_map_iff in Hasg. destruct Hasg as (r & <- & _).
      rewrite map_map. cbn [fst]. apply in_map_iff.
      exists (a, s). split; [reflexivity|assumption]. }
    assert (Hsub : forall (f : Z * axis_sel -> bool) s,
               In s (filter f (filter (fun s => negb (is_sel_list s)) sels)) ->
               In s sels).
    { intros f s Hs. apply filter_In in Hs. destruct Hs as [Hs _].
      apply filter_In in Hs. apply Hs. }
    assert (Ha0 : In (a0, s0) adv) by (rewrite Eadv; left; reflexivity).
    destruct (all_diff_one (map fst adv)); injection Hd as <-; split.
    + intros d asg a x Hin. apply in_app_or in Hin.
      destruct Hin as [Hin|[<-|Hin]]; [|apply Hav|].
      * apply in_map_iff in Hin. destruct Hin as (s & <- & Hs).
        apply Hsv. eapply Hsub; eassumption.
      * apply in_map_iff in Hin. destruct Hin as (s & <- & Hs).
        apply Hsv. eapply Hsub; eassumption.
    + intros a Ha. destruct (sels_fst_In _ _ a Hok Ha) as (s & Hs).
      destruct (is_sel_list (a, s)) eqn:El.
      * exists adv_dim. split; [apply in_or_app; right; left; reflexivity|].
        apply (Hac a s). apply filter_In. split; assumption.
      * assert (Hne : a <> a0).
        { intros ->. destruct (Hadv _ Ha0) as [Hin0 Hl0].
          pose proof (NoDup_map_fst_eq _ _ _ _ Hnd Hs Hin0) as ->.
          congruence. }
        exists (sliced_dim (a, s)). split.
        -- apply in_or_app. destruct (Z_lt_ge_dec a a0) as [Hlt|Hge].
           ++ left. apply in_map. apply filter_In. split.
              ** apply filter_In. split; [assumption|]. rewrite El. reflexivity.
              ** cbn [fst]. apply Z.ltb_lt. assumption.
           ++ right. right. apply in_map. apply filter_In. split.
              ** apply filter_In. split; [assumption|]. rewrite El. reflexivity.
              ** cbn [fst]. apply Z.ltb_lt. lia.
        -- intros asg Hasg. apply (Hsc (a, s)). assumption.
    + intros d asg a x [<-|Hin]; [apply Hav|].
      apply in_map_iff in Hin. destruct Hin as (s & <- & Hs).
      apply Hsv. apply filter_In in Hs. apply Hs.
    + intros a Ha. destruct (sels_fst_In _ _ a Hok Ha) as (s & Hs).
      destruct (is_sel_list (a, s)) eqn:El.
      * exists adv_dim. split; [left; reflexivity|].
        apply (Hac a s). apply filter_In. split; assumption.
      * exists (sliced_dim (a, s)). split.
        -- right. apply in_map. apply filter_In.
           split; [assumption|]. rewrite El. reflexivity.
        -- intros asg Hasg. apply (Hsc (a, s)). assumption.
Qed.

Lemma Forall2_seq {X Y} (R : X -> Y -> Prop) (f : nat -> Y) (l : list X) :
  forall s,
    (forall k x, nth_error l k = Some x -> R x (f (s + k)%nat)) ->
    Forall2 R l (map f (seq s (List.length l))).
Proof.
  induction l as [|x l IH]; intros s H; cbn [List.length seq map]; constructor.
  - specialize (H 0%nat x eq_refl). rewrite Nat.add_0_r in H. exact H.
  - apply IH. intros k y Hk. specialize (H (S k) y Hk).
    rewrite Nat.add_succ_r in H. exact H.
Qed.

Lemma lookup_axis_In (a : Z) (asg : list (Z * Z)) :
  In a (map fst asg) -> In (a, lookup_axis a asg) asg.
Proof.
  induction asg as [|[b x] asg IH]; cbn [map fst lookup_axis];
    [contradiction|].
  intros H. destruct (a =? b) eqn:E; zbool.
  - subst. left. reflexivity.
  - right. apply IH. destruct H as [H|H]; [cbn in H; lia|assumption].
Qed.

Lemma Forall2_In_r {X Y} (R : X -> Y -> Prop) (l : list X) (r : list Y)
    (y : Y) :
  Forall2 R l r -> In y r -> exists x, In x l /\ R x y.
Proof.
  induction 1 as [|x y' l r Hxy _ IH]; intros Hin; [contradiction|].
  destruct Hin as [<-|Hin].
  - exists x. split; [left; reflexivity|assumption].
  - destruct (IH Hin) as (x' & Hx' & HR). exists x'.
    split; [right|]; assumption.
Qed.

Lemma Forall2_In_l {X Y} (R : X -> Y -> Prop) (l : list X) (r : list Y)
    (x : X) :
  Forall2 R l r -> In x l -> exists y, In y r /\ R x y.
Proof.
  induction 1 as [|x' y l r Hxy _ IH]; intros Hin; [contradiction|].
  destruct Hin as [<-|Hin].
  - exists y. split; [left; reflexivity|assumption].
  - destruct (IH Hin) as (y' & Hy' & HR). exists y'.
    split; [right|]; assumption.
Qed.

Lemma selection_coords_valid (shape : list Z)
    (dims : list (list (list (Z * Z)))) (t : list (list (Z * Z))) :
  dims_valid shape dims -> dims_cover (Z.of_nat (List.length shape)) dims ->
  In t (product dims) ->
  valid_coord shape
    (map (fun a => lookup_axis a (List.concat t))
         (py_range 0 (Z.of_nat (List.length shape)) 1)).
Proof.
  intros Hv Hc Ht. apply product_In in Ht.
  rewrite py_range_0_n, Nat2Z.id, map_map.
  apply Forall2_seq. intros k n Hk. cbn [Nat.add].
  assert (Hr : 0 <= Z.of_nat k < Z.of_nat (List.length shape)).
  { assert (k < List.length shape)%nat
      by (apply nth_error_Some; congruence). lia. }
  destruct (Hc _ Hr) as (d & Hd & Hall).
  destruct (Forall2_In_r _ _ _ _ Ht Hd) as (asg & Hasg & Hin).
  assert (Hfst : In (Z.of_nat k) (map fst (List.concat t))).
  { specialize (Hall _ Hin). apply in_map_iff in Hall.
    destruct Hall as (e & He & Hine). apply in_map_iff. exists e.
    split; [assumption|]. apply in_concat. exists asg. split; assumption. }
  apply lookup_axis_In in Hfst. apply in_concat in Hfst.
  destruct Hfst as (asg' & Hasg' & Hin').
  destruct (Forall2_In_l _ _ _ _ Ht Hasg') as (d' & Hd' & Hind').
  destruct (Hv d' asg' _ _ Hd' Hind' Hin') as (n' & Hn' & _ & Hb).
  rewrite Nat2Z.id in Hn'. congruence.
Qed.

Lemma getitem_ok {X} (a : ndarray X) (idx : list index)
    (sels : list (Z * axis_sel)) (dims : list (list (list (Z * Z)))) :
  wf_array a -> resolve_index (arr_shape a) idx = Ok sels ->
  result_dims sels = Ok dims ->
  exists data,
    getitem a idx
    = Ok (mkArray (map (fun d => Z.of_nat (List.length d)) dims) data).
Proof.
  intros [Hs Hl] Hr Hd. unfold getitem, selection.
  rewrite Hr. cbn [bind]. rewrite Hd. cbn [bind].
  destruct (result_dims_ok _ _ _ (resolve_index_ok _ _ _ Hr) Hd) as [Hv Hc].
  match goal with
  | |- context [mapM ?f ?l] =>
      destruct (mapM_ok_in f l) as (r & Hr')
  end.
  - intros p Hp. apply in_map_iff in Hp. destruct Hp as (t & <- & Ht).
    pose proof (ravel_bound _ _ (selection_coords_valid _ _ _ Hv Hc Ht)) as Hb.
    pose proof (Zprod_nonneg _ Hs) as Hp.
    destruct (py_index_ok (arr_data a)
                (ravel (arr_shape a)
                   (map (fun a0 => lookup_axis a0 (List.concat t))
                      (py_range 0 (Z.of_nat (List.length (arr_shape a))) 1))))
      as (x & Hx & _); [rewrite Hl; lia|].
    exists x. assumption.
  - rewrite Hr'. cbn [bind]. eexists. reflexivity.
Qed.

Lemma nth_error_combine_Some {X Y} (l : list X) (r : list Y) (k : nat) (x : X)
    (y : Y) :
  nth_error l k = Some x -> nth_error r k = Some y ->
  nth_error (combine l r) k = Some (x, y).
Proof.
  revert r k. induction l as [|a l IH]; intros [|b r] [|k] H1 H2; cbn in *;
    try discriminate.
  - congruence.
  - apply IH; assumption.
Qed.

Lemma nth_error_py_range (d k : nat) :
  (k < d)%nat ->
  nth_error (py_range 0 (Z.of_nat d) 1) k = Some (Z.of_nat k).
Proof.
  intros Hk. rewrite py_range_0_n, Nat2Z.id, nth_error_map.
  rewrite nth_error_seq. apply Nat.ltb_lt in Hk. rewrite Hk. reflexivity.
Qed.

(** An index tuple with one entry per axis, each inside its axis, is
    accepted. *)
Lemma resolve_index_total (shape : list Z) (idx : list index) :
  List.length idx = List.length shape ->
  (forall k n e, nth_error shape k = Some n -> nth_error idx k = Some e ->
     is_ok (index_select e n) = true) ->
  exists sels, resolve_index shape idx = Ok sels.
Proof.
  intros Hlen Hall. unfold resolve_index.
  replace (_ <? _)%nat with false by (symmetry; apply Nat.ltb_ge; lia).
  rewrite Hlen, Nat.sub_diag. cbn [repeat]. rewrite app_nil_r.
  match goal with
  | |- context [mapM ?f ?l] => destruct (mapM_ok_in f l) as (r & Hr)
  end.
  - intros [n e] Hin.
    destruct (in_combine_nth_error _ _ _ _ Hin) as (k & Hk1 & Hk2).
    specialize (Hall k n e Hk1 Hk2).
    destruct e as [|s|ks]; [discriminate| |].
    + cbn [index_select] in Hall. destruct (expand s n); [|discriminate].
      eexists. reflexivity.
    + destruct (index_select (IList ks) n); [|discriminate].
      eexists. reflexivity.
  - rewrite Hr. cbn [bind]. eexists. reflexivity.
Qed.

(** What the selection of each axis is. *)
Lemma resolve_index_nth (shape : list Z) (idx : list index)
    (sels : list (Z * axis_sel)) :
  List.length idx = List.length shape ->
  resolve_index shape idx = Ok sels ->
  List.length sels = List.length shape /\
  forall k n e, nth_error shape k = Some n -> nth_error idx k = Some e ->
    exists sel,
      nth_error sels k = Some (Z.of_nat k, sel) /\
      match e with
      | ISlice s => exists l, expand s n = Ok l /\ sel = SelSlice l
      | IList ks => exists p, index_select (IList ks) n = Ok p /\ sel = SelList p
      | INone => False
      end.
Proof.
  intros Hlen. unfold resolve_index.
  replace (_ <? _)%nat with false by (symmetry; apply Nat.ltb_ge; lia).
  rewrite Hlen, Nat.sub_diag. cbn [repeat]. rewrite app_nil_r.
  destruct (mapM _ _) as [sels0|] eqn:Em; [|discriminate].
  cbn [bind]. intros H. injection H as <-.
  pose proof (mapM_length _ _ _ Em) as Hl.
  rewrite length_combine, Hlen, Nat.min_id in Hl.
  assert (Hr : List.length (py_range 0 (Z.of_nat (List.length shape)) 1)
               = List.length sels0).
  { rewrite py_range_0_n, length_map, length_seq. lia. }
  split; [rewrite length_combine; lia|].
  intros k n e Hk1 Hk2. apply mapM_Forall2 in Em.
  pose proof (nth_error_combine_Some _ _ _ _ _ Hk1 Hk2) as Hk.
  destruct (Forall2_nth_error_l _ _ _ _ _ Em Hk) as (sel & Hsel & Hf).
  exists sel. split.
  - apply nth_error_combine_Some; [|assumption].
    apply nth_error_py_range. apply nth_error_Some. congruence.
  - destruct e as [|s|ks]; [discriminate| |].
    + destruct (expand s n) as [l|]; [|discriminate].
      cbn [bind] in Hf. injection Hf as <-. exists l. split; reflexivity.
    + destruct (index_select (IList ks) n) as [p|]; [|discriminate].
      cbn [bind] in Hf. injection Hf as <-. exists p. split; reflexivity.
Qed.

Lemma filter_nil {X} (f : X -> bool) (l : list X) :
  (forall x, In x l -> f x = false) -> filter f l = [].
Proof.
  induction l as [|x l IH]; intros H; [reflexivity|]. cbn [filter].
  rewrite (H x (or_introl eq_refl)). apply IH.
  intros y Hy. apply H. right. assumption.
Qed.

Lemma nth_error_ext_eq {X} (l1 l2 : list X) :
  (forall k, nth_error l1 k = nth_error l2 k) -> l1 = l2.
Proof.
  revert l2. induction l1 as [|x l1 IH]; intros [|y l2] H.
  - reflexivity.
  - specialize (H 0%nat). discriminate.
  - specialize (H 0%nat). discriminate.
  - pose proof (H 0%nat) as H0. cbn in H0. injection H0 as ->.
    f_equal. apply IH. intros k. exact (H (S k)).
Qed.

(** Indexing with one slice per axis: the result has, on every axis, the
    length of the slice. *)
Lemma getitem_slices {X} (a : ndarray X) (idx : list index)
    (shp : list (option Z)) :
  wf_array a ->
  List.length idx = List.length (arr_shape a) ->
  List.length shp = List.length (arr_shape a) ->
  (forall k n, nth_error (arr_shape a) k = Some n ->
     exists s l, nth_error idx k = Some (ISlice s) /\ expand s n = Ok l /\
                 nth_error shp k = Some (Some (Z.of_nat (List.length l)))) ->
  exists g, getitem a idx = Ok g /\ shp = map Some (arr_shape g).
Proof.
  intros Hwf Hli Hls Hax.
  destruct (resolve_index_total (arr_shape a) idx Hli) as (sels & Hres).
  { intros k n e Hn He. destruct (Hax k n Hn) as (s & l & Hs & Hl & _).
    rewrite Hs in He. injection He as <-. cbn [index_select].
    rewrite Hl. reflexivity. }
  destruct (resolve_index_nth _ _ _ Hli Hres) as [Hlen Hnth].
  assert (Hsl : forall k n, nth_error (arr_shape a) k = Some n ->
            exists l, nth_error sels k = Some (Z.of_nat k, SelSlice l) /\
                      nth_error shp k
                      = Some (Some (Z.of_nat (List.length l)))).
  { intros k n Hn. destruct (Hax k n Hn) as (s & l & Hs & Hl & Hshp).
    destruct (Hnth k n _ Hn Hs) as (sel & Hsel & l' & Hl' & ->).
    exists l'. split; [assumption|]. congruence. }
  assert (Hdims : result_dims sels
                  = Ok (map (fun s : Z * axis_sel =>
                               map (fun x => [(fst s, x)])
                                   (sel_positions (snd s))) sels)).
  { unfold result_dims. rewrite filter_nil; [reflexivity|].
    intros s Hs. apply In_nth_error in Hs. destruct Hs as (k & Hk).
    assert (Hlt : (k < List.length (arr_shape a))%nat)
      by (rewrite <- Hlen; apply nth_error_Some; congruence).
    destruct (nth_error (arr_shape a) k) as [n|] eqn:En;
      [|apply nth_error_None in En; lia].
    destruct (Hsl k n En) as (l & Hl & _). rewrite Hl in Hk.
    injection Hk as <-. reflexivity. }
  destruct (getitem_ok a idx sels _ Hwf Hres Hdims) as (data & Hg).
  eexists. split; [exact Hg|]. cbn [arr_shape].
  apply nth_error_ext_eq. intros k. rewrite !map_map, nth_error_map.
  destruct (nth_error (arr_shape a) k) as [n|] eqn:En.
  - destruct (Hsl k n En) as (l & Hl & Hshp). rewrite Hl, Hshp.
    cbn [option_map snd sel_positions]. rewrite length_map. reflexivity.
  - apply nth_error_None in En.
    replace (nth_error shp k) with (@None (option Z))
      by (symmetry; apply nth_error_None; lia).
    replace (nth_error sels k) with (@None (Z * axis_sel))
      by (symmetry; apply nth_error_None; lia).
    reflexivity.
Qed.

(** ** The chunks of a dense view *)

Lemma Forall2_compose {X Y W} (R : X -> Y -> Prop) (S : Y -> W -> Prop)
    (l : list X) (m : list Y) (r : list W) :
  Forall2 R l m -> Forall2 S m r ->
  Forall2 (fun x z => exists y, R x y /\ S y z) l r.
Proof.
  intros H. revert r. induction H as [|x y l m Hxy _ IH]; intros r Hr;
    inversion Hr; subst; constructor.
  - exists y. split; assumption.
  - apply IH. assumption.
Qed.

Lemma planned_axes_perm (shape ca ao : list Z) (sl : list slice) :
  planned_axes shape ca ao sl ->
  Permutation (ca ++ ao) (py_range 0 (Z.of_nat (List.length shape)) 1).
Proof.
  intros Hpa. apply NoDup_Permutation_bis.
  - apply (pa_nodup _ _ _ _ Hpa).
  - rewrite py_range_0_n, length_map, length_seq, Nat2Z.id, length_app.
    pose proof (pa_all _ _ _ _ Hpa). lia.
  - intros a Ha. apply py_range_0_n_In. apply in_app_or in Ha.
    pose proof (pa_chunk_range _ _ _ _ Hpa) as H1.
    pose proof (pa_order_range _ _ _ _ Hpa) as H2.
    rewrite Forall_forall in H1, H2. destruct Ha; auto.
Qed.

Lemma order_candidates (shape ao : list Z) (nm : list (Z * Z))
    (piecesL : list (list (slice * Z))) (t2 : list (slice * Z)) :
  order_sizes shape ao = Ok (map fst nm) ->
  Forall2 (fun p pieces => axis_partition (fst p) (snd p) pieces) nm piecesL ->
  Forall2 (fun x l => In x l) t2 (rev piecesL) ->
  Forall2 (axis_candidate shape) (rev ao) t2.
Proof.
  intros Hsz Hpart Ht2. apply mapM_Forall2 in Hsz.
  apply Forall2_flip, Forall2_map_l, Forall2_flip in Hsz.
  pose proof (Forall2_compose _ _ _ _ _ Hsz Hpart) as H1.
  apply Forall2_rev in H1. apply Forall2_flip in Ht2.
  pose proof (Forall2_compose _ _ _ _ _ H1 Ht2) as H2.
  eapply Forall2_impl; [|exact H2]. cbn beta.
  intros a p (pieces & ([n b] & Hn & Hap) & Hin). cbn [fst snd] in *.
  pose proof (ap_len _ _ _ Hap) as Hlen. rewrite Forall_forall in Hlen.
  destruct (Hlen p Hin) as (l & Hl & Hs). exists n, l.
  split; [assumption|]. split; assumption.
Qed.

Lemma sliceLen_expand (slc : slice) (n len : Z) :
  slice_step slc <> Some 0 -> 0 <= n -> sliceLen slc n = Ok len ->
  exists l, expand slc n = Ok l /\ len = Z.of_nat (List.length l).
Proof.
  intros Hs Hn Hlen. rewrite sliceLen_eq_materializedLen in Hlen.
  destruct (expand_ok slc n Hs Hn) as (start & stop & step & Hi & He).
  unfold materializedLen in Hlen. rewrite Hi in Hlen. cbn [bind] in Hlen.
  injection Hlen as <-. eexists. split; [exact He|reflexivity].
Qed.

Lemma py_index_nth_error {X} (l : list X) (k : nat) (x : X) :
  py_index l (Z.of_nat k) = Ok x -> nth_error l k = Some x.
Proof.
  rewrite py_index_nonneg by lia. rewrite Nat2Z.id.
  destruct (nth_error l k); [congruence|discriminate].
Qed.

Lemma nth_error_py_index {X} (l : list X) (k : nat) (x : X) :
  nth_error l k = Some x -> py_index l (Z.of_nat k) = Ok x.
Proof.
  intros H. rewrite py_index_nonneg by lia. rewrite Nat2Z.id, H. reflexivity.
Qed.

Lemma items_key_dense (keyType : KeyType) (axes : list Z) (ch : Chunk) :
  Forall (fun a => 0 <= a < Z.of_nat (List.length (fst (fst ch)))) axes ->
  List.length (snd (fst ch)) = List.length (fst (fst ch)) ->
  exists key, items_key keyType false axes ch = Ok key.
Proof.
  destruct ch as [[idx shp] cnt]. cbn [fst snd]. intros Hr Hl.
  rewrite Forall_forall in Hr.
  destruct keyType; cbn [items_key]; [eexists; reflexivity|].
  destruct (mapM_ok_in (py_index idx) axes) as (r1 & Hr1).
  { intros a Ha. destruct (py_index_ok idx a (Hr a Ha)) as (x & Hx & _).
    exists x. assumption. }
  destruct (mapM_ok_in (py_index shp) axes) as (r2 & Hr2).
  { intros a Ha.
    destruct (py_index_ok shp a ltac:(rewrite Hl; apply Hr; assumption))
      as (x & Hx & _).
    exists x. assumption. }
  rewrite Hr1. cbn [bind]. rewrite Hr2. cbn [bind]. eexists. reflexivity.
Qed.

Lemma dense_chunk_ok {X} (data : ndarray X) (ma : Z) (ms : slice)
    (ao : list Z) (nm : list (Z * Z)) (piecesL : list (list (slice * Z)))
    (nChan rows n2 : Z) (t : list (slice * Z)) (ch : Chunk) :
  wf_array data ->
  planned_axes (arr_shape data) [ma] ao [ms] ->
  order_sizes (arr_shape data) ao = Ok (map fst nm) ->
  Forall2 (fun p pieces => axis_partition (fst p) (snd p) pieces) nm piecesL ->
  py_index (arr_shape data) ma = Ok n2 -> sliceLen ms n2 = Ok nChan ->
  In t (product ([(ms, nChan)] :: rev piecesL)) ->
  chunk_of (ma :: rev ao) ao t ch ->
  0 <= snd ch <= rows ->
  chunk_ok data false (sorted ao) (sorted ao ++ [ma]) nChan rows ch.
Proof.
  intros Hwf Hpa Hsz Hpart Hn2 HnChan Ht Hch Hrows.
  set (shape := arr_shape data) in *.
  cbn [product flat_map] in Ht. rewrite app_nil_r in Ht.
  apply in_map_iff in Ht. destruct Ht as (t2 & <- & Ht2).
  apply product_In in Ht2.
  pose proof (order_candidates _ _ _ _ _ Hsz Hpart Ht2) as Hc2.
  assert (Hc1 : axis_candidate shape ma (ms, nChan)).
  { pose proof (pa_slices_step _ _ _ _ Hpa) as Hs.
    inversion Hs as [|? ? Hms _]; subst.
    assert (H0 : 0 <= n2).
    { destruct Hwf as [Hpos _]. rewrite Forall_forall in Hpos.
      apply Hpos. eapply py_index_In; eassumption. }
    destruct (sliceLen_expand ms n2 nChan Hms H0 HnChan) as (l & Hl & Hlen).
    exists n2, l. split; [assumption|]. split; assumption. }
  assert (Hcand : Forall2 (axis_candidate shape) (ma :: rev ao)
                          ((ms, nChan) :: t2)) by (constructor; assumption).
  pose proof (Forall2_length Hc2) as Hlt2. rewrite length_rev in Hlt2.
  destruct (dense_chunk_facts shape [ma] ao [ms] (map fst nm)
              [(ms, nChan)] t2 ch Hpa Hsz eq_refl (eq_sym Hlt2) Hch)
    as [Hcnt _].
  destruct Hch as (Hli & Hls & Hent & _).
  cbn [List.length] in Hli, Hls. rewrite length_rev in Hli, Hls.
  pose proof (pa_all _ _ _ _ Hpa) as Hall. cbn [List.length Nat.add] in Hall.
  pose proof (planned_axes_perm _ _ _ _ Hpa) as Hperm. cbn [app] in Hperm.
  assert (Hperm' : Permutation (ma :: rev ao)
                     (py_range 0 (Z.of_nat (List.length shape)) 1)).
  { etransitivity; [|exact Hperm]. constructor. symmetry.
    apply Permutation_rev. }
  destruct ch as [[idx shp] cnt]. cbn [fst snd] in *.
  destruct (getitem_slices data idx shp Hwf) as (g & Hg & Hshp).
  { fold shape. lia. }
  { fold shape. lia. }
  { fold shape. intros k n Hn.
    assert (Hin : In (Z.of_nat k) (ma :: rev ao)).
    { eapply Permutation_in; [symmetry; exact Hperm'|].
      apply py_range_0_n_In.
      assert (k < List.length shape)%nat by (apply nth_error_Some; congruence).
      lia. }
    apply In_nth_error in Hin. destruct Hin as (i & Hi).
    destruct (Forall2_nth_error_l _ _ _ _ _ Hcand Hi)
      as (p & Hp & n' & l & Hn' & Hl & Hlen).
    apply py_index_nth_error in Hn'. rewrite Hn in Hn'. injection Hn' as <-.
    pose proof (nth_error_In _ _ (nth_error_combine_Some _ _ _ _ _ Hi Hp))
      as Hc.
    destruct (Hent _ _ Hc) as [Hi1 Hi2].
    apply py_index_nth_error in Hi1, Hi2.
    exists (fst p), l. split; [assumption|]. split; [assumption|].
    rewrite Hi2, Hlen. reflexivity. }
  assert (Hlg : List.length (arr_shape g) = List.length shape).
  { rewrite <- (length_map Some), <- Hshp. lia. }
  assert (Hax : is_axes_perm (List.length (arr_shape g)) (ma :: rev ao))
    by (unfold is_axes_perm; rewrite Hlg; exact Hperm').
  assert (Hsnd : map snd ((ms, nChan) :: t2)
                 = perm_coords (ma :: rev ao) (arr_shape g)).
  { unfold perm_coords.
    apply (Forall2_map_eq
             (fun a p => 0 <= a /\ py_index shp a = Ok (Some (snd p)))).
    - apply Forall2_combine_in;
        [cbn [List.length]; rewrite length_rev; lia|].
      intros a p Hc. split; [|apply (Hent _ _ Hc)].
      apply in_combine_l in Hc. apply (axes_perm_range _ _ _ Hax Hc).
    - intros a p _ [Ha Hp]. rewrite Hshp, py_index_map in Hp.
      rewrite py_index_nonneg in Hp by assumption.
      destruct (nth_error (arr_shape g) (Z.to_nat a)) as [v|] eqn:Ev;
        [|discriminate].
      injection Hp as <-. symmetry. apply nth_error_nth. assumption. }
  constructor; cbn [fst snd].
  - exists g. split; [assumption|]. split; [assumption|]. split.
    + rewrite <- (Zprod_Permutation _ _
                    (perm_coords_Permutation _ _ _ Hax eq_refl)).
      rewrite <- Hsnd. cbn [map snd]. unfold Zprod at 1. cbn [fold_right].
      fold (Zprod (map snd t2)). rewrite Hcnt. lia.
    + unfold is_axes_perm. rewrite Hlg. etransitivity; [|exact Hperm].
      etransitivity; [apply Permutation_app_comm|]. cbn [app].
      constructor. symmetry. apply sorted_perm.
  - assumption.
  - intros keyType. apply items_key_dense; cbn [fst snd]; [|lia].
    apply Forall_forall. intros a Ha.
    assert (Hin : In a ao)
      by (eapply Permutation_in; [symmetry; apply sorted_perm|exact Ha]).
    pose proof (pa_order_range _ _ _ _ Hpa) as Hor.
    rewrite Forall_forall in Hor. specialize (Hor a Hin). fold shape in Hor.
    lia.
Qed.

(** ** A whole iteration *)

Section ItemsRun.

Context {A B : Type}.
Variable cast_in : A -> B.
Variable cast_out : B -> A.
Variable garbage : B.
Hypothesis cast_lossless : forall x, cast_out (cast_in x) = x.

Lemma items_fold_keep (keyType : KeyType) (masked post_copy : bool)
    (nChan rows : Z) (axesOrderSorted T : list Z) (data : ndarray A)
    (chunks : list Chunk) :
  Forall (chunk_ok data masked axesOrderSorted T nChan rows) chunks ->
  0 <= nChan ->
  forall (buffer : ndarray B) (yielded : list (Key * ndarray B)),
    arr_shape buffer = [rows; nChan] ->
    exists buffer' yielded',
      foldM (items_step cast_in cast_out keyType masked post_copy nChan
                        axesOrderSorted T (argsort T) keep_buffer)
            (map Some chunks) (data, buffer, yielded)
      = Ok (data, buffer', yielded') /\
      arr_shape buffer' = [rows; nChan] /\
      List.length yielded'
      = (List.length yielded + List.length chunks)%nat.
Proof.
  intros Hall HnChan.
  induction Hall as [|ch chunks Hch _ IH]; intros buffer ys Hb.
  - exists buffer, ys. cbn [map foldM List.length].
    split; [reflexivity|]. split; [assumption|lia].
  - cbn [map foldM].
    destruct (items_step_keep cast_in cast_out cast_lossless keyType masked
                post_copy nChan rows axesOrderSorted T data buffer ys ch
                Hch Hb HnChan) as (b' & y & Hstep & Hb').
    rewrite Hstep. cbn [bind].
    destruct (IH b' (ys ++ [y]) Hb') as (b'' & ys' & Hf & Hb'' & Hl).
    exists b'', ys'. split; [assumption|]. split; [assumption|].
    rewrite Hl, length_app. cbn [List.length]. lia.
Qed.

Lemma items_run_keep (keyType : KeyType) (v : @View A B)
    (chunks : list Chunk) (T : list Z) (rows nChan : Z) :
  items_generator v = Ok (map Some chunks, T) ->
  v_bufferShape v = (rows, nChan) -> v_buffer v = None ->
  0 <= rows -> 0 <= nChan ->
  Forall (chunk_ok (v_data v) (v_masked v) (sorted (v_axesOrder v)) T
                   nChan rows) chunks ->
  exists v' yielded,
    items_run cast_in cast_out garbage keyType keep_buffer v
    = Ok (v', yielded) /\
    v_data v' = v_data v /\
    List.length yielded = List.length chunks.
Proof.
  intros Hgen Hshape Hbuf Hrows HnChan Hall.
  unfold items_run. rewrite Hgen. cbn [bind].
  unfold prepareAccess, numpy_empty. rewrite Hbuf, Hshape. cbn [snd].
  destruct (rows <? 0) eqn:E1; zbool; [lia|].
  destruct (nChan <? 0) eqn:E2; zbool; [lia|]. cbn [orb bind].
  destruct (items_fold_keep keyType (v_masked v) (negb (v_readonly v)) nChan
              rows (sorted (v_axesOrder v)) T (v_data v) chunks Hall HnChan
              (mkArray [rows; nChan]
                       (repeat garbage (Z.to_nat (rows * nChan))))
              [] eq_refl)
    as (b' & ys & Hf & _ & Hl).
  rewrite Hf. cbn [bind]. eexists _, ys.
  split; [reflexivity|]. split; [reflexivity|]. exact Hl.
Qed.

End ItemsRun.

Lemma py_index_norm_axis {X} (l : list X) (i : Z) :
  axis_in_range (Z.of_nat (List.length l)) i ->
  py_index l (norm_axis (Z.of_nat (List.length l)) i) = py_index l i.
Proof.
  unfold axis_in_range, norm_axis, py_index. intros Hi.
  destruct (i <? 0) eqn:E; [|rewrite E; reflexivity]. zbool.
  replace (i + Z.of_nat (List.length l) <? 0) with false
    by (symmetry; apply Z.ltb_ge; lia).
  reflexivity.
Qed.

(** The chunks a dense view enumerates can all be read and written back. *)
Lemma dense_view_chunks {X} (data : ndarray X) (nMca : Z)
    (mcaAxis : option Z) (mcaSlice : option slice)
    (axesOrder : option (list Z)) :
  wf_array data ->
  valid_axes (arr_shape data) (view_kwargs mcaAxis mcaSlice axesOrder) ->
  exists ci ca ao nb chunks nChan n2,
    fullChunkIndex (arr_shape data) nMca
                   (view_kwargs mcaAxis mcaSlice axesOrder)
      = Ok (ci, ca, ao, nb) /\
    chunkIndexProduct ci ca ao = Ok chunks /\
    py_index (arr_shape data)
             (match mcaAxis with None => -1 | Some a => a end) = Ok n2 /\
    sliceLen (match mcaSlice with None => slice_all | Some s => s end) n2
      = Ok nChan /\
    0 <= nChan /\ 0 <= nb /\
    Forall (chunk_ok data false (sorted ao) (sorted ao ++ ca) nChan nb) chunks.
Proof.
  intros Hwf Hvalid. pose proof Hwf as [Hshape _].
  set (kw := view_kwargs mcaAxis mcaSlice axesOrder) in *.
  set (ma := match mcaAxis with None => -1 | Some a => a end).
  set (ms := match mcaSlice with None => slice_all | Some s => s end).
  set (shape := arr_shape data) in *.
  destruct (fullChunkIndex_plan shape nMca kw Hshape Hvalid)
    as (ca & ao & sl & ci1 & nm & piecesL & chunks & Hpar & Hpa & Hci1 & Hsz
        & Hpart & Hnm & Hnb & Hfull & Hprod & Hchunks).
  destruct (chunkIndexParameters_ok shape nMca kw Hvalid)
    as (ca' & ao' & sl' & Hpar' & Hca & Hsl & _ & _).
  rewrite Hpar in Hpar'. injection Hpar' as <- <- <-.
  cbn in Hca, Hsl. fold ma in Hca. fold ms in Hsl. subst ca sl.
  set (ma' := norm_axis (Z.of_nat (List.length shape)) ma) in *.
  assert (Hma : axis_in_range (Z.of_nat (List.length shape)) ma).
  { pose proof (va_chunk_range _ _ Hvalid) as H. cbn in H.
    inversion H; subst. assumption. }
  destruct (py_index_in_range shape ma Hma) as (n2 & Hn2 & Hin).
  assert (Hn2' : py_index shape ma' = Ok n2)
    by (unfold ma'; rewrite py_index_norm_axis; assumption).
  assert (Hn2pos : 0 <= n2)
    by (rewrite Forall_forall in Hshape; apply Hshape; assumption).
  pose proof (pa_slices_step _ _ _ _ Hpa) as Hms.
  inversion Hms as [|? ? Hms0 _]; subst.
  destruct (sliceLen_ok ms n2 Hms0 Hn2pos) as (nChan & HnChan & _ & HnChanpos).
  cbn [combine] in Hci1.
  inversion Hci1 as [|? l1 ? ? (n & len & Hn & Hlen & _ & Hl1) Hrest];
    subst.
  inversion Hrest; subst. cbn [fst snd] in *.
  rewrite Hn2' in Hn. injection Hn as <-.
  rewrite HnChan in Hlen. injection Hlen as <-.
  destruct (dense_planner_summary shape nMca kw Hshape Hvalid)
    as (ci' & ca' & ao' & nb' & chunks' & sizes & Hfull' & Hprod' & _ & _ & _
        & Hbound & _).
  rewrite Hfull in Hfull'. injection Hfull' as <- <- <- <-.
  assert (Heq : Ok chunks = Ok chunks') by (rewrite <- Hprod; exact Hprod').
  injection Heq as <-.
  exists ([[(ms, nChan)]] ++ rev piecesL), [ma'], ao, (Zprod (map snd nm)),
         chunks, nChan, n2.
  split; [assumption|]. split; [assumption|]. split; [assumption|].
  split; [assumption|]. split; [assumption|]. split; [lia|].
  apply Forall_forall. intros ch Hch.
  destruct (Forall2_In_r _ _ _ _ Hchunks Hch) as (t & Ht & Hof).
  rewrite Forall_forall in Hbound.
  eapply (dense_chunk_ok data ma' ms ao nm piecesL); try eassumption.
  apply (Hbound ch Hch).
Qed.

(** ** Indexing with integer lists *)

Lemma filter_fst_single {Y} (l : list (Z * Y)) (a : Z) (x : Y) :
  NoDup (map fst l) -> In (a, x) l ->
  filter (fun s => fst s =? a) l = [(a, x)].
Proof.
  induction l as [|[b y] l IH]; cbn [map fst filter]; intros Hnd Hin;
    [contradiction|].
  inversion Hnd as [|? ? Hnotin Hnd']; subst.
  destruct Hin as [Heq|Hin].
  - injection Heq as -> ->. rewrite Z.eqb_refl. f_equal.
    apply filter_nil. intros [c z] Hc. cbn [fst]. apply Z.eqb_neq.
    intros ->. apply Hnotin. apply in_map_iff.
    exists (a, z). split; [reflexivity|assumption].
  - destruct (b =? a) eqn:E; zbool.
    + subst. exfalso. apply Hnotin. apply in_map_iff.
      exists (a, x). split; [reflexivity|assumption].
    + apply IH; assumption.
Qed.

Lemma fold_max_const {X} (f : X -> nat) (l : list X) (c : nat) :
  l <> [] -> (forall x, In x l -> f x = c) ->
  fold_right Nat.max 0%nat (map f l) = c.
Proof.
  induction l as [|x l IH]; intros Hne Hall; [contradiction|].
  cbn [map fold_right]. rewrite (Hall x (or_introl eq_refl)).
  destruct l as [|y l'].
  - cbn. lia.
  - rewrite IH; [lia|discriminate|].
    intros z Hz. apply Hall. right. assumption.
Qed.

(** One slice, everywhere else integer lists of one length: the result has
    two dimensions, the lists' one standing where numpy puts it. *)
Lemma result_dims_one_slice (sels : list (Z * axis_sel)) (ma : Z)
    (cols : list Z) (cnt : nat) (a0 : Z) (rest : list Z) :
  NoDup (map fst sels) ->
  In (ma, SelSlice cols) sels ->
  (forall a s, In (a, s) sels -> a <> ma ->
     exists p, s = SelList p /\ List.length p = cnt) ->
  map fst (filter is_sel_list sels) = a0 :: rest ->
  exists dims,
    result_dims sels = Ok dims /\
    map (fun d => Z.of_nat (List.length d)) dims
    = if all_diff_one (a0 :: rest) && (ma <? a0)
      then [Z.of_nat (List.length cols); Z.of_nat cnt]
      else [Z.of_nat cnt; Z.of_nat (List.length cols)].
Proof.
  intros Hnd Hma Hlists Hfst.
  assert (Hkind : forall s, In s sels ->
            is_sel_list s = negb (fst s =? ma)).
  { intros [a s] Hs. cbn [fst]. destruct (a =? ma) eqn:E; zbool.
    - subst. rewrite (NoDup_map_fst_eq _ _ _ _ Hnd Hs Hma). reflexivity.
    - destruct (Hlists a s Hs E) as (p & -> & _). reflexivity. }
  assert (Hsliced : filter (fun s => negb (is_sel_list s)) sels
                    = [(ma, SelSlice cols)]).
  { rewrite <- (filter_fst_single sels ma (SelSlice cols) Hnd Hma).
    apply filter_ext_in. intros s Hs. rewrite (Hkind s Hs).
    apply negb_involutive. }
  unfold result_dims. rewrite Hsliced.
  destruct (filter is_sel_list sels) as [|[a0' s0] adv'] eqn:Eadv;
    [discriminate|].
  assert (Ha0 : a0' = a0) by (cbn [map fst] in Hfst; congruence).
  subst a0'. rewrite <- Eadv in Hfst |- *. rewrite Hfst.
  set (adv := filter is_sel_list sels) in *.
  assert (Hadv : forall s, In s adv ->
            List.length (sel_positions (snd s)) = cnt).
  { intros [a s] Hs. apply filter_In in Hs. destruct Hs as [Hs Hl].
    rewrite (Hkind _ Hs) in Hl. cbn [fst] in Hl.
    apply negb_true_iff in Hl. zbool.
    destruct (Hlists a s Hs Hl) as (p & -> & Hp). exact Hp. }
  assert (HL : fold_right Nat.max 0%nat
                 (map (fun s : Z * axis_sel =>
                         List.length (sel_positions (snd s))) adv) = cnt).
  { apply fold_max_const; [rewrite Eadv; discriminate|exact Hadv]. }
  rewrite HL.
  replace (forallb _ adv) with true.
  2:{ symmetry. apply forallb_forall. intros s Hs. cbv zeta.
      rewrite (Hadv s Hs), Nat.eqb_refl. reflexivity. }
  cbn [negb].
  assert (Hne : ma <> a0).
  { intros ->. assert (Hin : In (a0, s0) adv) by (rewrite Eadv; left; reflexivity).
    apply filter_In in Hin. destruct Hin as [Hin Hl].
    rewrite (Hkind _ Hin) in Hl. cbn [fst] in Hl.
    rewrite Z.eqb_refl in Hl. discriminate. }
  destruct (all_diff_one (a0 :: rest)); cbn [andb].
  - cbn [filter fst].
    destruct (ma <? a0) eqn:E1; destruct (a0 <? ma) eqn:E2; zbool;
      try lia; eexists; (split; [reflexivity|]);
      cbn [map app]; rewrite !length_map, length_seq; reflexivity.
  - eexists. split; [reflexivity|].
    cbn [map]. rewrite !length_map, length_seq. reflexivity.
Qed.

Lemma index_select_list_ok (ks : list Z) (n : Z) :
  Forall (fun x => - n <= x < n) ks ->
  exists p, index_select (IList ks) n = Ok p /\
            List.length p = List.length ks.
Proof.
  intros Hall. cbn [index_select].
  match goal with
  | |- context [mapM ?f ks] => destruct (mapM_ok_in f ks) as (p & Hp)
  end.
  - intros k Hk. rewrite Forall_forall in Hall. specialize (Hall k Hk).
    cbv zeta. eexists.
    replace ((0 <=? (if k <? 0 then k + n else k))
             && ((if k <? 0 then k + n else k) <? n)) with true;
      [reflexivity|].
    symmetry. apply andb_true_iff.
    destruct (k <? 0) eqn:E; zbool; split;
      first [apply Z.leb_le | apply Z.ltb_lt]; lia.
  - exists p. split; [assumption|]. eapply mapM_length; eassumption.
Qed.

Lemma map_fst_filter {Y} (f : Z * Y -> bool) (g : Z -> bool)
    (l : list (Z * Y)) :
  (forall s, In s l -> f s = g (fst s)) ->
  map fst (filter f l) = filter g (map fst l).
Proof.
  induction l as [|s l IH]; intros H; [reflexivity|].
  cbn [filter map]. rewrite <- (H s (or_introl eq_refl)).
  rewrite <- IH by (intros x Hx; apply H; right; assumption).
  destruct (f s); reflexivity.
Qed.

Lemma getitem_one_slice {X} (a : ndarray X) (idx : list index) (ma : Z)
    (nc cnt : nat) :
  wf_array a ->
  List.length idx = List.length (arr_shape a) ->
  0 <= ma < Z.of_nat (List.length (arr_shape a)) ->
  (2 <= List.length (arr_shape a))%nat ->
  (forall k n, nth_error (arr_shape a) k = Some n ->
     exists e, nth_error idx k = Some e /\
       if Z.of_nat k =? ma
       then exists s l, e = ISlice s /\ expand s n = Ok l /\
                        List.length l = nc
       else exists ks, e = IList ks /\ List.length ks = cnt /\
                       Forall (fun x => - n <= x < n) ks) ->
  exists g,
    getitem a idx = Ok g /\
    arr_shape g
    = let oa := other_axes (Z.of_nat (List.length (arr_shape a))) [ma] in
      if all_diff_one oa && (ma <? hd 0 oa)
      then [Z.of_nat nc; Z.of_nat cnt]
      else [Z.of_nat cnt; Z.of_nat nc].
Proof.
  intros Hwf Hli Hma Hdim Hax.
  set (shape := arr_shape a) in *.
  destruct (resolve_index_total shape idx Hli) as (sels & Hres).
  { intros k n e Hn He. destruct (Hax k n Hn) as (e' & He' & Hcase).
    rewrite He in He'. injection He' as <-.
    destruct (Z.of_nat k =? ma).
    - destruct Hcase as (s & l & -> & Hl & _). cbn [index_select].
      rewrite Hl. reflexivity.
    - destruct Hcase as (ks & -> & _ & Hall).
      destruct (index_select_list_ok ks n Hall) as (p & Hp & _).
      rewrite Hp. reflexivity. }
  destruct (resolve_index_nth _ _ _ Hli Hres) as [Hlen Hnth].
  pose proof (resolve_index_ok _ _ _ Hres) as [Hfst _].
  assert (Hnd : NoDup (map fst sels))
    by (rewrite Hfst; apply py_range_0_n_NoDup).
  assert (Hslice : exists cols,
            In (ma, SelSlice cols) sels /\ List.length cols = nc).
  { destruct (nth_error shape (Z.to_nat ma)) as [n|] eqn:En;
      [|apply nth_error_None in En; lia].
    destruct (Hax _ n En) as (e & He & Hcase).
    rewrite Z2Nat.id, Z.eqb_refl in Hcase by lia.
    destruct Hcase as (s & l & -> & Hl & Hnc).
    destruct (Hnth _ n _ En He) as (sel & Hsel & l' & Hl' & ->).
    rewrite Hl in Hl'. injection Hl' as <-.
    exists l. split; [|assumption].
    apply nth_error_In in Hsel. rewrite Z2Nat.id in Hsel by lia.
    assumption. }
  destruct Hslice as (cols & Hcols & Hnc).
  assert (Hlists : forall b s, In (b, s) sels -> b <> ma ->
            exists p, s = SelList p /\ List.length p = cnt).
  { intros b s Hin Hne. apply In_nth_error in Hin. destruct Hin as (k & Hk).
    assert (Hlt : (k < List.length shape)%nat)
      by (rewrite <- Hlen; apply nth_error_Some; congruence).
    destruct (nth_error shape k) as [n|] eqn:En;
      [|apply nth_error_None in En; lia].
    destruct (Hax k n En) as (e & He & Hcase).
    destruct (Hnth k n e En He) as (sel & Hsel & He').
    rewrite Hk in Hsel. injection Hsel as -> ->.
    destruct (Z.of_nat k =? ma) eqn:E; zbool; [contradiction|].
    destruct Hcase as (ks & -> & Hks & Hall).
    destruct He' as (p & Hp & ->).
    destruct (index_select_list_ok ks n Hall) as (p' & Hp' & Hlp).
    rewrite Hp in Hp'. injection Hp' as <-.
    exists p. split; [reflexivity|lia]. }
  assert (Hoa : map fst (filter is_sel_list sels)
                = other_axes (Z.of_nat (List.length shape)) [ma]).
  { unfold other_axes. rewrite <- Hfst.
    apply map_fst_filter. intros [b s] Hs. cbn [fst py_in existsb].
    rewrite orb_false_r. destruct (b =? ma) eqn:E; zbool.
    - subst. rewrite (NoDup_map_fst_eq _ _ _ _ Hnd Hs Hcols). reflexivity.
    - destruct (Hlists b s Hs E) as (p & -> & _). reflexivity. }
  cbv zeta.
  destruct (other_axes (Z.of_nat (List.length shape)) [ma])
    as [|a0 rest] eqn:Eoa.
  { exfalso.
    assert (Hin : In (if ma =? 0 then 1 else 0)
                     (other_axes (Z.of_nat (List.length shape)) [ma])).
    { apply other_axes_In. destruct (ma =? 0) eqn:E; zbool; split;
        try lia; intros [H|[]]; lia. }
    rewrite Eoa in Hin. contradiction. }
  destruct (result_dims_one_slice sels ma cols cnt a0 rest Hnd Hcols Hlists
              Hoa) as (dims & Hdims & Hshape).
  destruct (getitem_ok a idx sels dims Hwf Hres Hdims) as (data & Hg).
  eexists. split; [exact Hg|]. cbn [arr_shape hd].
  rewrite Hshape, Hnc. reflexivity.
Qed.

(** ** The dimension of the integer lists *)

Lemma sorted_id (l : list Z) : StronglySorted Z.le l -> sorted l = l.
Proof.
  induction 1 as [|x l Hl IH Hx]; [reflexivity|].
  unfold sorted in *. cbn [fold_right]. rewrite IH.
  destruct l as [|y l']; [reflexivity|]. cbn [insert_sorted].
  inversion Hx; subst.
  replace (x <=? y) with true by (symmetry; apply Z.leb_le; assumption).
  reflexivity.
Qed.

Lemma StronglySorted_filter (f : Z -> bool) (l : list Z) :
  StronglySorted Z.le l -> StronglySorted Z.le (filter f l).
Proof.
  induction 1 as [|x l Hl IH Hx]; cbn [filter]; [constructor|].
  destruct (f x); [|assumption]. constructor; [assumption|].
  apply Forall_forall. intros y Hy. apply filter_In in Hy.
  rewrite Forall_forall in Hx. apply Hx, Hy.
Qed.

Lemma StronglySorted_range (a n : nat) :
  StronglySorted Z.le (map Z.of_nat (seq a n)).
Proof.
  revert a. induction n as [|n IH]; intros a; cbn [seq map]; constructor.
  - apply IH.
  - apply Forall_forall. intros y Hy. apply in_map_iff in Hy.
    destruct Hy as (k & <- & Hk). apply in_seq in Hk. lia.
Qed.

Lemma sorted_other_axes (ndim : Z) (ca ao : list Z) :
  Permutation ao (other_axes ndim ca) -> sorted ao = other_axes ndim ca.
Proof.
  intros H. rewrite (sorted_Permutation _ _ H). apply sorted_id.
  unfold other_axes. apply StronglySorted_filter.
  rewrite py_range_0_n. apply StronglySorted_range.
Qed.

Lemma py_min_In (l : list Z) : l <> [] -> In (py_min l) l.
Proof.
  destruct l as [|y ys]; [contradiction|]. intros _. cbn [py_min].
  revert y. induction ys as [|z zs IH]; intros y; cbn [fold_left].
  - left. reflexivity.
  - destruct (IH (Z.min y z)) as [H|H].
    + destruct (Z.min_spec y z) as [[_ Hm]|[_ Hm]]; rewrite Hm in H |- *.
      * left. assumption.
      * right. left. assumption.
    + right. right. assumption.
Qed.

Lemma hd_other_axes (d : nat) (ma : Z) :
  (2 <= d)%nat ->
  hd 0 (other_axes (Z.of_nat d) [ma]) = if ma =? 0 then 1 else 0.
Proof.
  intros Hd. destruct d as [|[|d]]; try lia.
  unfold other_axes. rewrite py_range_0_n, Nat2Z.id.
  cbn [seq map filter py_in existsb]. change (Z.of_nat 0) with 0.
  change (Z.of_nat 1) with 1. rewrite !orb_false_r.
  rewrite (Z.eqb_sym 0 ma), (Z.eqb_sym 1 ma).
  destruct (ma =? 0) eqn:E0; zbool; cbn [negb hd].
  - subst. reflexivity.
  - reflexivity.
Qed.

(** The dimension [intListIndexAxis] announces for the integer lists is
    the one numpy gives them. *)
Lemma intListIndexAxis_one_slice (shape ao : list Z) (ma la : Z) :
  (2 <= List.length shape)%nat ->
  0 <= ma < Z.of_nat (List.length shape) ->
  Permutation ao (other_axes (Z.of_nat (List.length shape)) [ma]) ->
  intListIndexAxis shape ao = Some la ->
  la = if all_diff_one (other_axes (Z.of_nat (List.length shape)) [ma])
          && (ma <? hd 0 (other_axes (Z.of_nat (List.length shape)) [ma]))
       then 1 else 0.
Proof.
  intros Hd Hma Hperm Hla.
  set (oa := other_axes (Z.of_nat (List.length shape)) [ma]) in *.
  pose proof (hd_other_axes (List.length shape) ma Hd) as Hhd. fold oa in Hhd.
  pose proof (sorted_other_axes _ _ _ Hperm) as Hsorted. fold oa in Hsorted.
  assert (Hin : forall x, In x ao <->
                  0 <= x < Z.of_nat (List.length shape) /\ x <> ma).
  { intros x. split.
    - intros Hx. apply (Permutation_in _ Hperm) in Hx.
      apply other_axes_In in Hx. destruct Hx as [Hr Hn].
      split; [assumption|]. intros ->. apply Hn. left. reflexivity.
    - intros [Hr Hn]. apply (Permutation_in _ (Permutation_sym Hperm)).
      apply other_axes_In. split; [assumption|]. intros [H|[]]. congruence. }
  assert (Hmin : forall x, In x ao -> (forall y, In y ao -> x <= y) ->
                   x = if ma =? 0 then 1 else 0).
  { intros x Hx Hle. apply Hin in Hx.
    destruct (ma =? 0) eqn:E; zbool.
    - assert (In 1 ao) by (apply Hin; lia). specialize (Hle 1 H). lia.
    - assert (In 0 ao) by (apply Hin; lia). specialize (Hle 0 H). lia. }
  rewrite Hhd.
  assert (Hlt : (ma <? (if ma =? 0 then 1 else 0)) = (ma =? 0)).
  { destruct (ma =? 0) eqn:E; zbool; [subst; reflexivity|].
    apply Z.ltb_ge. lia. }
  rewrite Hlt.
  destruct ao as [|x [|y ao']]; cbn [intListIndexAxis] in Hla.
  - discriminate.
  - injection Hla as <-.
    assert (Hoa : oa = [x]).
    { rewrite <- Hsorted. reflexivity. }
    rewrite Hoa. cbn [all_diff_one andb].
    rewrite (Hmin x (or_introl eq_refl)).
    + destruct (ma =? 0); reflexivity.
    + intros z [<-|[]]. lia.
  - rewrite Hsorted in Hla. destruct (all_diff_one oa); cbn [andb].
    + injection Hla as <-.
      change (fold_left Z.min ao' (Z.min x y))
        with (py_min (x :: y :: ao')).
      apply Hmin.
      * apply py_min_In. discriminate.
      * intros z Hz. apply py_min_le. assumption.
    + injection Hla as <-. reflexivity.
Qed.

(** ** The chunks of a masked view *)

Lemma drop_axes_none {X} (ao : list Z) (l : list X) :
  forall i, (forall j, i <= j < i + Z.of_nat (List.length l) -> In j ao) ->
            drop_axes ao i l = [].
Proof.
  induction l as [|s rest IH]; intros i H; [reflexivity|].
  cbn [drop_axes].
  replace (py_in i ao) with true
    by (symmetry; apply py_in_In, H; cbn [List.length]; lia).
  apply IH. intros j Hj. apply H. cbn [List.length]. lia.
Qed.

Lemma drop_axes_single {X} (ao : list Z) (a : Z) (x : X) (l : list X) :
  forall i,
    i <= a -> nth_error l (Z.to_nat (a - i)) = Some x -> ~ In a ao ->
    (forall j, i <= j < i + Z.of_nat (List.length l) -> j <> a -> In j ao) ->
    drop_axes ao i l = [x].
Proof.
  induction l as [|s rest IH]; intros i Hi Hx Hnot Hall.
  - destruct (Z.to_nat (a - i)); discriminate.
  - cbn [drop_axes]. destruct (Z.eq_dec i a) as [->|Hne].
    + rewrite Z.sub_diag in Hx. cbn in Hx. injection Hx as ->.
      replace (py_in a ao) with false
        by (symmetry; apply py_in_false; assumption).
      f_equal. apply drop_axes_none. intros j Hj. apply Hall.
      * cbn [List.length]. lia.
      * lia.
    + replace (py_in i ao) with true.
      2:{ symmetry. apply py_in_In, Hall; [cbn [List.length]; lia|assumption]. }
      apply IH; [lia| |assumption|].
      * replace (Z.to_nat (a - i)) with (S (Z.to_nat (a - (i + 1)))) in Hx
          by lia.
        exact Hx.
      * intros j Hj Hja. apply Hall; [cbn [List.length]; lia|assumption].
Qed.

Lemma items_key_masked (keyType : KeyType) (axes : list Z) (ch : Chunk) :
  Forall (fun a => 0 <= a < Z.of_nat (List.length (fst (fst ch)))) axes ->
  exists key, items_key keyType true axes ch = Ok key.
Proof.
  destruct ch as [[idx shp] cnt]. cbn [fst snd]. intros Hr.
  rewrite Forall_forall in Hr.
  destruct keyType; cbn [items_key]; [eexists; reflexivity|].
  destruct (mapM_ok_in (py_index idx) axes) as (r1 & Hr1).
  { intros a Ha. destruct (py_index_ok idx a (Hr a Ha)) as (x & Hx & _).
    exists x. assumption. }
  rewrite Hr1. cbn [bind]. eexists. reflexivity.
Qed.

Lemma firstn_skipn_In {X} (l : list X) (a b : nat) (x : X) :
  In x (firstn b (skipn a l)) -> In x l.
Proof.
  intros H. apply In_nth_error in H. destruct H as (k & Hk).
  assert (Hk' : nth_error (skipn a l) k = Some x).
  { destruct (Nat.lt_ge_cases k b) as [Hlt|Hge].
    - rewrite nth_error_firstn in Hk. apply Nat.ltb_lt in Hlt.
      rewrite Hlt in Hk. exact Hk.
    - assert (Hl : (List.length (firstn b (skipn a l)) <= k)%nat)
        by (rewrite length_firstn; lia).
      apply nth_error_None in Hl. congruence. }
  rewrite nth_error_skipn in Hk'. eapply nth_error_In. eassumption.
Qed.

Lemma masked_chunk_ok {X} (data : ndarray X) (ma : Z) (ms : slice)
    (ao : list Z) (mi : list (list Z)) (idxAxis0 : list index) (la : Z)
    (m k : nat) (c nChan n2 : Z) (ch : Chunk) :
  wf_array data ->
  (2 <= List.length (arr_shape data))%nat ->
  0 <= ma < Z.of_nat (List.length (arr_shape data)) ->
  Permutation ao (other_axes (Z.of_nat (List.length (arr_shape data))) [ma]) ->
  List.length idxAxis0 = List.length (arr_shape data) ->
  py_index idxAxis0 ma = Ok (ISlice ms) ->
  slice_step ms <> Some 0 ->
  py_index (arr_shape data) ma = Ok n2 -> sliceLen ms n2 = Ok nChan ->
  intListIndexAxis (arr_shape data) ao = Some la ->
  Forall2 (fun a ind =>
             exists n, py_index (arr_shape data) a = Ok n /\
                       Forall (fun x => - n <= x < n) ind) ao mi ->
  Forall (fun ind => List.length ind = m) mi ->
  0 < c -> (k < gen_count (Z.of_nat m) c)%nat ->
  masked_chunk_of idxAxis0 (py_insert [Some nChan] la None) ao mi la
                  (gen_piece (Z.of_nat m) c k) ch ->
  chunk_ok data true (sorted ao)
           (match intListIndexAxis (arr_shape data) ao with
            | Some 0 => [0; 1]
            | _ => [1; 0]
            end) nChan c ch.
Proof.
  intros Hwf Hdim Hma Hperm Hl0 Hidx0 Hms Hn2 HnChan Hla Hfit Hsame Hc Hk Hch.
  set (shape := arr_shape data) in *.
  destruct Hch as (Hcnt & Hlen & Hlists & Hkeep & Hshp).
  unfold gen_piece in Hcnt, Hlists, Hshp. cbn [fst snd] in Hcnt, Hlists, Hshp.
  pose proof (gen_count_lt _ _ _ Hc Hk) as Ha.
  set (a := Z.of_nat k * c) in *.
  set (b := Z.min (a + c) (Z.of_nat m)) in *.
  assert (Hab : 0 <= a <= b /\ b <= Z.of_nat m /\ b - a <= c /\ a < b)
    by (subst a b; nia).
  assert (Hn2pos : 0 <= n2).
  { destruct Hwf as [Hpos _]. rewrite Forall_forall in Hpos.
    apply Hpos. eapply py_index_In; eassumption. }
  destruct (sliceLen_expand ms n2 nChan Hms Hn2pos HnChan) as (l & Hl & HnC).
  assert (Hin : forall x, In x ao <->
                  0 <= x < Z.of_nat (List.length shape) /\ x <> ma).
  { intros x. split.
    - intros Hx. apply (Permutation_in _ Hperm) in Hx.
      apply other_axes_In in Hx. destruct Hx as [Hr Hn].
      split; [assumption|]. intros ->. apply Hn. left. reflexivity.
    - intros [Hr Hn]. apply (Permutation_in _ (Permutation_sym Hperm)).
      apply other_axes_In. split; [assumption|]. intros [H|[]]. congruence. }
  destruct ch as [[idx shp] cnt]. cbn [fst snd] in *.
  destruct (getitem_one_slice data idx ma (List.length l) (Z.to_nat (b - a))
              Hwf) as (g & Hg & Hgs).
  { fold shape. lia. }
  { assumption. }
  { assumption. }
  { fold shape. intros i n Hn. destruct (Z.of_nat i =? ma) eqn:E; zbool.
    - exists (ISlice ms). split.
      + apply py_index_nth_error. rewrite E.
        rewrite Hkeep; [assumption|lia|]. intros H. apply Hin in H. lia.
      + exists ms, l. split; [reflexivity|]. split; [|reflexivity].
        apply nth_error_py_index in Hn. rewrite E, Hn2 in Hn.
        injection Hn as <-. assumption.
    - assert (Hi : In (Z.of_nat i) ao).
      { apply Hin. split; [|assumption].
        assert (i < List.length shape)%nat
          by (apply nth_error_Some; congruence). lia. }
      apply In_nth_error in Hi. destruct Hi as (j & Hj).
      destruct (Forall2_nth_error_l _ _ _ _ _ Hfit Hj)
        as (ind & Hind & n' & Hn' & Hall).
      apply py_index_nth_error in Hn'. rewrite Hn in Hn'. injection Hn' as <-.
      pose proof (nth_error_In _ _
                    (nth_error_combine_Some _ _ _ _ _ Hj Hind)) as Hcomb.
      destruct (Hlists _ _ Hcomb) as (sub & Hsub & Hisub).
      rewrite Forall_forall in Hsame.
      pose proof (Hsame ind (nth_error_In _ _ Hind)) as Hlind.
      rewrite py_getslice_unit in Hsub by lia. injection Hsub as <-.
      eexists. split; [apply py_index_nth_error; exact Hisub|].
      eexists. split; [reflexivity|]. split.
      + rewrite length_firstn, length_skipn. lia.
      + apply Forall_forall. intros x Hx. apply firstn_skipn_In in Hx.
        rewrite Forall_forall in Hall. apply Hall. assumption. }
  fold shape in Hgs. cbv zeta in Hgs.
  pose proof (intListIndexAxis_one_slice shape ao ma la Hdim Hma Hperm Hla)
    as Hlav.
  rewrite Hla.
  assert (Hcnt0 : Z.of_nat (Z.to_nat (b - a)) = cnt) by lia.
  assert (Hkey : forall keyType,
            exists key, items_key keyType true (sorted ao) (idx, shp, cnt)
                        = Ok key).
  { intros keyType. apply items_key_masked. cbn [fst snd].
    apply Forall_forall. intros x Hx.
    assert (Hx' : In x ao)
      by (eapply Permutation_in; [symmetry; apply sorted_perm|exact Hx]).
    apply Hin in Hx'. lia. }
  destruct (all_diff_one _ && _).
  - subst la. constructor; cbn [fst snd]; [|lia|exact Hkey].
    exists g. split; [assumption|]. rewrite Hgs, Hcnt0, <- HnC.
    split; [rewrite Hshp, Hcnt; reflexivity|].
    split; [unfold Zprod; cbn [fold_right]; lia|].
    unfold is_axes_perm. cbn. apply perm_swap.
  - subst la. constructor; cbn [fst snd]; [|lia|exact Hkey].
    exists g. split; [assumption|]. rewrite Hgs, Hcnt0, <- HnC.
    split; [rewrite Hshp, Hcnt; reflexivity|].
    split; [unfold Zprod; cbn [fold_right]; lia|].
    unfold is_axes_perm. cbn. apply Permutation_refl.
Qed.

(** The chunks a masked view enumerates can all be read and written back. *)
Lemma masked_view_chunks {X} (data : ndarray X) (nMca : Z)
    (mcaAxis : option Z) (mcaSlice : option slice)
    (axesOrder : option (list Z)) (mk : Mask) :
  wf_array data ->
  valid_axes (arr_shape data) (view_kwargs mcaAxis mcaSlice axesOrder) ->
  mask_accepted (arr_shape data) (view_kwargs mcaAxis mcaSlice axesOrder)
                (Some mk) ->
  mask_fits (arr_shape data) nMca (view_kwargs mcaAxis mcaSlice axesOrder) mk ->
  exists chunks ca ao nChan n2,
    maskedChunkIndex (arr_shape data) nMca (Some mk)
                     (view_kwargs mcaAxis mcaSlice axesOrder)
      = Ok (map Some chunks, ca, ao, Z.max nMca 1) /\
    py_index (arr_shape data)
             (match mcaAxis with None => -1 | Some a => a end) = Ok n2 /\
    sliceLen (match mcaSlice with None => slice_all | Some s => s end) n2
      = Ok nChan /\
    0 <= nChan /\
    Forall (chunk_ok data true (sorted ao)
              (match intListIndexAxis (arr_shape data) ao with
               | Some 0 => [0; 1]
               | _ => [1; 0]
               end) nChan (Z.max nMca 1)) chunks.
Proof.
  intros Hwf Hvalid (Hndim & Hpos & Hne) Hfit.
  pose proof Hwf as [Hshape _].
  set (kw := view_kwargs mcaAxis mcaSlice axesOrder) in *.
  set (ma := match mcaAxis with None => -1 | Some a => a end).
  set (ms := match mcaSlice with None => slice_all | Some s => s end).
  set (shape := arr_shape data) in *.
  destruct (mask_index mk) as [|first others] eqn:Hmi; [contradiction|].
  clear Hne.
  destruct (maskedChunkIndex_plan_full shape nMca kw mk first others Hshape
              Hvalid Hndim Hmi Hpos)
    as (ca & ao & sl & idxAxis0 & chunkShape0 & la & chunks & Hpar & Hpa
        & Hlao & Hl0 & Hidx0 & Hres & Hchunks & Hla & Hla1
        & (shp0 & Hcs0 & Hls0 & Hshp0) & Hperm & Hca & Hsl).
  cbn in Hca, Hsl. fold ma in Hca. fold ms in Hsl. subst ca sl.
  set (ma' := norm_axis (Z.of_nat (List.length shape)) ma) in *.
  unfold mask_fits in Hfit. fold kw shape in Hfit.
  destruct Hfit as (c & ca' & ao' & sl' & m & Hpar' & Hf2 & Hsame).
  rewrite Hpar in Hpar'. injection Hpar' as <- <- <- <-.
  assert (Hm : List.length first = m).
  { rewrite Forall_forall in Hsame. apply Hsame. rewrite Hmi. left.
    reflexivity. }
  subst m.
  assert (Hma : axis_in_range (Z.of_nat (List.length shape)) ma).
  { pose proof (va_chunk_range _ _ Hvalid) as H. cbn in H.
    inversion H; subst. assumption. }
  destruct (py_index_in_range shape ma Hma) as (n2 & Hn2 & Hin2).
  assert (Hn2' : py_index shape ma' = Ok n2)
    by (unfold ma'; rewrite py_index_norm_axis; assumption).
  assert (Hn2pos : 0 <= n2)
    by (rewrite Forall_forall in Hshape; apply Hshape; assumption).
  pose proof (pa_slices_step _ _ _ _ Hpa) as Hms.
  inversion Hms as [|? ? Hms0 _]; subst.
  destruct (sliceLen_ok ms n2 Hms0 Hn2pos) as (nChan & HnChan & _ & HnChanpos).
  pose proof (pa_chunk_range _ _ _ _ Hpa) as Hcr.
  inversion Hcr as [|? ? Hma' _]; subst.
  pose proof (pa_all _ _ _ _ Hpa) as Hall. cbn [List.length Nat.add] in Hall.
  assert (Hdim : (2 <= List.length shape)%nat) by lia.
  assert (Hin : forall x, In x ao <->
                  0 <= x < Z.of_nat (List.length shape) /\ x <> ma').
  { intros x. split.
    - intros Hx. apply (Permutation_in _ Hperm) in Hx.
      apply other_axes_In in Hx. destruct Hx as [Hr Hn].
      split; [assumption|]. intros ->. apply Hn. left. reflexivity.
    - intros [Hr Hn]. apply (Permutation_in _ (Permutation_sym Hperm)).
      apply other_axes_In. split; [assumption|]. intros [H|[]]. congruence. }
  assert (Hdrop : drop_axes ao 0 shp0 = [Some nChan]).
  { apply (drop_axes_single ao ma').
    - lia.
    - destruct (Hshp0 ma' ms (or_introl eq_refl))
        as (n & len & Hn & Hlen & Hs).
      rewrite Hn2' in Hn. injection Hn as <-.
      rewrite HnChan in Hlen. injection Hlen as <-.
      rewrite Z.sub_0_r. rewrite py_index_nonneg in Hs by lia.
      destruct (nth_error shp0 (Z.to_nat ma')); [congruence|discriminate].
    - intros H. apply Hin in H. lia.
    - intros j Hj Hne. apply Hin. split; [lia|assumption]. }
  rewrite Hdrop in Hchunks.
  exists chunks, [ma'], ao, nChan, n2.
  split; [assumption|]. split; [assumption|]. split; [assumption|].
  split; [assumption|].
  apply Forall_forall. intros ch Hch.
  destruct (Forall2_In_r _ _ _ _ Hchunks Hch) as (p & Hp & Hof).
  apply in_map_iff in Hp. destruct Hp as (k & <- & Hk).
  apply in_seq in Hk.
  eapply (masked_chunk_ok data ma' ms ao (mask_index mk) idxAxis0 la
            (List.length first) k); try eassumption; try lia.
  apply Hidx0. left. reflexivity.
Qed.

(** ** Writing back what was read *)

Section WriteBack.

Context {A B : Type}.
Variable cast_in : A -> B.
Variable cast_out : B -> A.
Variable garbage : B.

(** C4: a writable view ([readonly=False]) over an in-memory array, dense
    or masked by index lists that fit the array, whose buffer type holds
    every item of the source exactly ([cast_out (cast_in x) = x], as with
    the default [dtype=None]): [items] runs to exhaustion and, when no
    yielded buffer view is modified, leaves the source array as it was,
    shape and items. *)
Theorem items_write_back_round_trip (data : ndarray A) (mask : option Mask)
    (nMca : Z) (mcaAxis : option Z) (mcaSlice : option slice)
    (axesOrder : option (list Z)) (keyType : KeyType)
    (Hcast : forall x, cast_out (cast_in x) = x)
    (Hwf : wf_array data)
    (Hvalid : valid_axes (arr_shape data)
                         (view_kwargs mcaAxis mcaSlice axesOrder))
    (Hmask : mask_accepted (arr_shape data)
                           (view_kwargs mcaAxis mcaSlice axesOrder) mask)
    (Hfit : forall mk, mask = Some mk ->
              mask_fits (arr_shape data) nMca
                        (view_kwargs mcaAxis mcaSlice axesOrder) mk) :
  exists (v v' : @View A B) yielded,
    MaskedView_init data mask (Some nMca) mcaAxis mcaSlice axesOrder false
      = Ok v /\
    items_run cast_in cast_out garbage keyType keep_buffer v
      = Ok (v', yielded) /\
    v_data v' = data.
Proof.
  set (ma := match mcaAxis with None => -1 | Some a => a end).
  set (ms := match mcaSlice with None => slice_all | Some s => s end).
  assert (Hkw : view_kwargs (Some ma) (Some ms) axesOrder
                = view_kwargs mcaAxis mcaSlice axesOrder) by reflexivity.
  destruct mask as [mk|].
  - destruct (masked_view_chunks data nMca mcaAxis mcaSlice axesOrder mk Hwf
                Hvalid Hmask (Hfit mk eq_refl))
      as (chunks & ca & ao & nChan & n2 & Hres & Hn2 & HnChan & Hpos & Hall).
    fold ma in Hn2. fold ms in HnChan.
    set (v := mkView data (MaskedIndex (map Some chunks)) ca ao (Some mk) true
                     ms ma (Z.max nMca 1, nChan) (@None (ndarray B)) false).
    destruct (items_run_keep cast_in cast_out garbage Hcast keyType v chunks
                (match intListIndexAxis (arr_shape data) ao with
                 | Some 0 => [0; 1]
                 | _ => [1; 0]
                 end) (Z.max nMca 1) nChan)
      as (v' & ys & Hrun & Hdata & _);
      [reflexivity|reflexivity|reflexivity|lia|assumption|exact Hall|].
    exists v, v', ys. split; [|split; assumption].
    unfold MaskedView_init. cbn [bind]. fold ma ms. rewrite Hkw, Hres.
    cbn [bind]. rewrite Hn2. cbn [bind]. rewrite HnChan. reflexivity.
  - destruct (dense_view_chunks data nMca mcaAxis mcaSlice axesOrder Hwf
                Hvalid)
      as (ci & ca & ao & nb & chunks & nChan & n2 & Hfull & Hprod & Hn2
          & HnChan & Hpos & Hnb & Hall).
    fold ma in Hn2. fold ms in HnChan.
    set (v := mkView data (DenseIndex ci) ca ao (@None Mask) false
                     ms ma (nb, nChan) (@None (ndarray B)) false).
    destruct (items_run_keep cast_in cast_out garbage Hcast keyType v chunks
                (sorted ao ++ ca) nb nChan)
      as (v' & ys & Hrun & Hdata & _);
      [|reflexivity|reflexivity|lia|assumption|exact Hall|].
    { unfold items_generator. cbn [v v_masked v_chunkIndex v_chunkAxes
                                   v_axesOrder v_data].
      rewrite Hprod. reflexivity. }
    exists v, v', ys. split; [|split; assumption].
    unfold MaskedView_init. cbn [bind]. fold ma ms. rewrite Hkw, Hfull.
    cbn [bind]. rewrite Hn2. cbn [bind]. rewrite HnChan. reflexivity.
Qed.

End WriteBack.

Lemma items_write_back_round_trip_witness :
  exists (v v' : @View Z Z) yielded,
    MaskedView_init data_20_10 (Some mask_7_of_20) (Some 3) None None None
                    false = Ok v /\
    items_run (fun x => x) (fun x => x) 0 KeySelect keep_buffer v
      = Ok (v', yielded) /\
    v_data v' = data_20_10.
Proof.
  apply (items_write_back_round_trip (fun x => x) (fun x => x) 0 data_20_10
           (Some mask_7_of_20) 3 None None None KeySelect).
  - intros x. reflexivity.
  - split; [|reflexivity]. repeat (constructor; [lia|]). constructor.
  - apply (valid_kwargs_last_axis [20; 10]). discriminate.
  - split; [reflexivity|]. split; [cbn; lia|discriminate].
  - intros mk Hmk. injection Hmk as <-.
    exists 3, [1], [0], [slice_all], 7%nat.
    split; [reflexivity|]. split.
    + change (mask_index mask_7_of_20) with [[0; 3; 4; 8; 11; 15; 19]].
      constructor; [|constructor]. exists 20. split; [reflexivity|].
      repeat (constructor; [lia|]). constructor.
    + constructor; [reflexivity|constructor].
Defined.

(** With a buffer of a narrower integer type the item 300 comes back as
    44: the source array is changed although no yielded view was. *)
Lemma lossy_buffer_type_changes_source :
  exists (v v' : @View Z Z) yielded,
    MaskedView_init data_300 None (Some 1) None None None false = Ok v /\
    items_run int8_cast (fun x => x) 0 KeyAll keep_buffer v
      = Ok (v', yielded) /\
    arr_data (v_data v') = [44] /\
    v_data v' <> data_300.
Proof.
  eexists _, _, _. split; [reflexivity|]. split; [vm_compute; reflexivity|].
  split; [reflexivity|]. discriminate.
Qed.

(** The same view with a buffer of the source's own type. *)
Example same_type_keeps_source :
  exists (v v' : @View Z Z) yielded,
    MaskedView_init data_300 None (Some 1) None None None false = Ok v /\
    items_run (fun x => x) (fun x => x) 0 KeyAll keep_buffer v
      = Ok (v', yielded) /\
    v_data v' = data_300.
Proof.
  eexists _, _, _. split; [reflexivity|]. split; [vm_compute; reflexivity|].
  reflexivity.
Qed.

(** ** Boolean masks fit *)

Lemma true_positions_bound (data : list bool) :
  forall p0 p, In p (true_positions data p0) ->
               p0 <= p < p0 + Z.of_nat (List.length data).
Proof.
  induction data as [|b rest IH]; intros p0 p Hin; [contradiction|].
  cbn [true_positions] in Hin. cbn [List.length].
  destruct b.
  - destruct Hin as [<-|Hin]; [lia|]. apply IH in Hin. lia.
  - apply IH in Hin. lia.
Qed.

Lemma unravel_valid (shape : list Z) :
  Forall (fun n => 0 <= n) shape ->
  forall p, 0 <= p < Zprod shape -> valid_coord shape (unravel shape p).
Proof.
  unfold valid_coord.
  induction 1 as [|n rest Hn Hrest IH]; intros p Hp; cbn [unravel];
    constructor.
  - unfold Zprod in Hp. cbn [fold_right] in Hp. fold (Zprod rest) in Hp.
    pose proof (Zprod_nonneg rest Hrest) as H0.
    assert (0 < Zprod rest) by nia.
    split; [apply Z.div_pos; lia|].
    apply Z.div_lt_upper_bound; [lia|nia].
  - apply IH. unfold Zprod in Hp. cbn [fold_right] in Hp.
    fold (Zprod rest) in Hp.
    pose proof (Zprod_nonneg rest Hrest) as H0.
    assert (0 < Zprod rest) by nia.
    apply Z.mod_pos_bound. assumption.
Qed.

(** A boolean mask no larger than the order axes resolves to index lists
    that fit the array. *)
Lemma mask_fits_array (shape : list Z) (cap : Z) (kw : kwargs) (a : BoolArray)
    (c : Z) (ca ao : list Z) (sl : list slice) :
  chunkIndexParameters shape cap (kwargs_F kw) = Ok (c, ca, ao, sl) ->
  Forall (fun n => 0 <= n) (ba_shape a) ->
  Forall2 (fun ax m => exists n, py_index shape ax = Ok n /\ m <= n)
          ao (ba_shape a) ->
  (List.length (ba_data a) <= Z.to_nat (Zprod (ba_shape a)))%nat ->
  mask_fits shape cap kw (MaskArray a).
Proof.
  intros Hpar Hpos Hsizes Hlen.
  exists c, ca, ao, sl, (List.length (true_positions (ba_data a) 0)).
  split; [assumption|]. cbn [mask_index]. unfold nonzero. split.
  - rewrite <- (Forall2_length Hsizes). apply Forall2_seq.
    intros k ax Hk. cbn [Nat.add].
    destruct (Forall2_nth_error_l _ _ _ _ _ Hsizes Hk)
      as (m & Hm & n & Hn & Hmn).
    exists n. split; [assumption|].
    apply Forall_forall. intros x Hx. apply in_map_iff in Hx.
    destruct Hx as (p & <- & Hp). apply true_positions_bound in Hp.
    pose proof (Zprod_nonneg _ Hpos) as H0.
    assert (Hv : valid_coord (ba_shape a) (unravel (ba_shape a) p))
      by (apply unravel_valid; [assumption|lia]).
    assert (Hlt : (k < List.length (ba_shape a))%nat)
      by (apply nth_error_Some; congruence).
    pose proof (Forall2_nth _ _ _ k 0 0 Hv Hlt) as Hb. cbn beta in Hb.
    rewrite (nth_error_nth _ _ 0 Hm) in Hb. lia.
  - apply Forall_forall. intros ind Hind. apply in_map_iff in Hind.
    destruct Hind as (k & <- & _). apply length_map.
Qed.

(** * Further properties *)

(** ** Slices *)

Lemma slice_indices_inv (slc : slice) (n start stop step : Z) :
  slice_indices slc n = Ok (start, stop, step) ->
  slice_step slc <> Some 0 /\ 0 <= n /\ step <> 0 /\
  (0 < step -> 0 <= start <= n /\ 0 <= stop <= n) /\
  (step < 0 -> -1 <= start <= n - 1 /\ -1 <= stop <= n - 1 /\
               (slice_stop slc = None -> stop = -1)).
Proof.
  intros H.
  assert (Hs : slice_step slc <> Some 0).
  { intros E. unfold slice_indices in H. rewrite E in H. discriminate. }
  assert (Hn : 0 <= n).
  { unfold slice_indices in H. destruct (_ =? 0); [discriminate|].
    destruct (n <? 0) eqn:E; [discriminate|]. zbool. lia. }
  destruct (slice_indices_ok slc n Hs Hn)
    as (a & b & s & Hi & Hst & Hs0 & Hp & Hm).
  rewrite H in Hi. injection Hi as <- <- <-.
  split; [assumption|]. split; [assumption|]. split; [assumption|].
  split; [assumption|]. intros Hneg. destruct (Hm Hneg) as [H1 H2].
  split; [assumption|]. split; [assumption|]. intros Hnone.
  unfold slice_indices in H. rewrite Hnone in H.
  destruct (_ =? 0); [discriminate|]. destruct (n <? 0); [discriminate|].
  injection H as _ Hb Hc. rewrite Hc in Hb.
  replace (step <? 0) with true in Hb by (symmetry; apply Z.ltb_lt; lia).
  lia.
Qed.

(** X1: when the bounds [slice.indices] computes are not negative (always
    so for a positive step; for a negative step, when the selection starts
    inside the sequence and the stop is either absent or not clipped to
    -1), [sliceNormalize] returns a slice with those bounds that selects
    the same items of every sequence of length [n]. *)
Theorem sliceNormalize_same_selection {X} (slc : slice) (n start stop step : Z)
    (l : list X)
    (Hidx : slice_indices slc n = Ok (start, stop, step))
    (Hlen : Z.of_nat (List.length l) = n)
    (Hsafe : 0 < step \/
             (0 <= start /\ (slice_stop slc = None \/ 0 <= stop))) :
  exists s',
    sliceNormalize slc n = Ok s' /\
    slice_start s' = Some start /\ slice_step s' = Some step /\
    slice_indices s' n = Ok (start, stop, step) /\
    py_getslice l s' = py_getslice l slc.
Proof.
  destruct (slice_indices_inv _ _ _ _ _ Hidx) as (Hs & Hn & Hs0 & Hp & Hm).
  unfold sliceNormalize. rewrite Hidx. cbn [bind].
  eexists. split; [reflexivity|].
  cbn [slice_start slice_step]. split; [reflexivity|]. split; [reflexivity|].
  assert (Hsame : slice_indices
                    (mkSlice (Some start)
                       match slice_stop slc with
                       | Some _ => Some stop
                       | None => if step <? 0 then None else Some stop
                       end (Some step)) n = Ok (start, stop, step)).
  { destruct (Z_lt_ge_dec 0 step) as [Hpos|Hneg].
    - destruct (Hp Hpos) as [H1 H2].
      replace (step <? 0) with false by (symmetry; apply Z.ltb_ge; lia).
      destruct (slice_stop slc); apply slice_indices_some_pos; lia.
    - assert (Hlt : step < 0) by lia.
      destruct (Hm Hlt) as (H1 & H2 & H3).
      destruct Hsafe as [Hpos|[Hst Hstop]]; [lia|].
      replace (step <? 0) with true by (symmetry; apply Z.ltb_lt; lia).
      apply slice_indices_some_neg; [lia|lia|].
      destruct (slice_stop slc) as [w|].
      + right. split; [reflexivity|]. destruct Hstop; [discriminate|lia].
      + left. split; [reflexivity|]. apply H3. reflexivity. }
  split; [exact Hsame|].
  unfold py_getslice. rewrite Hlen, Hsame, Hidx. reflexivity.
Qed.

Lemma sliceNormalize_same_selection_witness :
  exists s',
    sliceNormalize (mkSlice (Some (-3)) None (Some (-2))) 10 = Ok s' /\
    slice_start s' = Some 7 /\ slice_step s' = Some (-2) /\
    slice_indices s' 10 = Ok (7, -1, -2) /\
    py_getslice (py_range 0 10 1) s'
    = py_getslice (py_range 0 10 1) (mkSlice (Some (-3)) None (Some (-2))).
Proof.
  apply (sliceNormalize_same_selection
           (mkSlice (Some (-3)) None (Some (-2))) 10 7 (-1) (-2)
           (py_range 0 10 1)).
  - reflexivity.
  - reflexivity.
  - right. split; [lia|]. left. reflexivity.
Defined.

(** What [sliceNormalize] does otherwise: a stop clipped to -1 is read
    again as the last position. *)
Example sliceNormalize_clipped_stop :
  sliceNormalize (mkSlice (Some 5) (Some (-100)) (Some (-1))) 10
    = Ok (mkSlice (Some 5) (Some (-1)) (Some (-1))) /\
  expand (mkSlice (Some 5) (Some (-100)) (Some (-1))) 10
    = Ok [5; 4; 3; 2; 1; 0] /\
  expand (mkSlice (Some 5) (Some (-1)) (Some (-1))) 10 = Ok [].
Proof. repeat split; reflexivity. Qed.

Lemma py_range_NoDup (start stop step : Z) :
  step <> 0 -> NoDup (py_range start stop step).
Proof.
  intros Hs. rewrite py_range_closed by assumption.
  apply Finite.Injective_map_NoDup; [|apply seq_NoDup].
  intros a b H. nia.
Qed.

Lemma StronglySorted_filter_rel {X} (R : X -> X -> Prop) (f : X -> bool)
    (l : list X) :
  StronglySorted R l -> StronglySorted R (filter f l).
Proof.
  induction 1 as [|x l Hl IH Hx]; cbn [filter]; [constructor|].
  destruct (f x); [|assumption]. constructor; [assumption|].
  apply Forall_forall. intros y Hy. apply filter_In in Hy.
  rewrite Forall_forall in Hx. apply Hx, Hy.
Qed.

Lemma StronglySorted_lt_range (a n : nat) :
  StronglySorted Z.lt (map Z.of_nat (seq a n)).
Proof.
  revert a. induction n as [|n IH]; intros a; cbn [seq map]; constructor.
  - apply IH.
  - apply Forall_forall. intros y Hy. apply in_map_iff in Hy.
    destruct Hy as (k & <- & Hk). apply in_seq in Hk. lia.
Qed.

(** X2: for a non-zero step, the selection of a slice and its
    [sliceComplement] split [range(n)]: together they hold every item of
    [range(n)] once, the complement is in increasing order, and it has
    [n - sliceLen(slc, n)] items. *)
Theorem sliceComplement_partition (slc : slice) (n : Z)
    (Hstep : slice_step slc <> Some 0) (Hn : 0 <= n) :
  exists sel c len,
    expand slc n = Ok sel /\ sliceComplement slc n = Ok c /\
    sliceLen slc n = Ok len /\
    Permutation (sel ++ c) (py_range 0 n 1) /\
    StronglySorted Z.lt c /\
    Z.of_nat (List.length c) = n - len.
Proof.
  destruct (expand_ok slc n Hstep Hn) as (start & stop & step & Hi & He).
  destruct (slice_indices_inv _ _ _ _ _ Hi) as (_ & _ & Hs0 & _).
  destruct (sliceLen_ok slc n Hstep Hn) as (len & Hlen & Hmat & _).
  unfold materializedLen in Hmat. rewrite Hi in Hmat. cbn [bind] in Hmat.
  injection Hmat as Hmat.
  set (sel := py_range start stop step) in *.
  set (c := filter (fun i => negb (py_in i sel)) (py_range 0 n 1)).
  assert (Hperm : Permutation (sel ++ c) (py_range 0 n 1)).
  { apply NoDup_Permutation.
    - apply NoDup_app.
      + apply py_range_NoDup. assumption.
      + apply NoDup_filter, py_range_0_n_NoDup.
      + intros x Hx Hc. apply filter_In in Hc. destruct Hc as [_ Hc].
        apply negb_true_iff, py_in_false in Hc. contradiction.
    - apply py_range_0_n_NoDup.
    - intros x. rewrite in_app_iff. split.
      + intros [Hx|Hx].
        * apply py_range_0_n_In.
          pose proof (expand_in_range _ _ _ He) as Hall.
          rewrite Forall_forall in Hall. apply Hall. assumption.
        * apply filter_In in Hx. apply Hx.
      + intros Hx. destruct (py_in x sel) eqn:E.
        * left. apply py_in_In. assumption.
        * right. apply filter_In. split; [assumption|]. rewrite E.
          reflexivity. }
  exists sel, c, len.
  split; [assumption|]. split.
  { unfold sliceComplement. fold (expand slc n). rewrite He. reflexivity. }
  split; [assumption|]. split; [assumption|]. split.
  - apply StronglySorted_filter_rel. rewrite py_range_0_n.
    apply StronglySorted_lt_range.
  - apply Permutation_length in Hperm. rewrite length_app in Hperm.
    rewrite py_range_0_n, length_map, length_seq in Hperm. lia.
Qed.

Lemma sliceComplement_partition_witness :
  exists sel c len,
    expand (mkSlice (Some 1) None (Some 3)) 8 = Ok sel /\
    sliceComplement (mkSlice (Some 1) None (Some 3)) 8 = Ok c /\
    sliceLen (mkSlice (Some 1) None (Some 3)) 8 = Ok len /\
    Permutation (sel ++ c) (py_range 0 8 1) /\
    StronglySorted Z.lt c /\
    Z.of_nat (List.length c) = 8 - len.
Proof.
  apply (sliceComplement_partition (mkSlice (Some 1) None (Some 3)) 8).
  - discriminate.
  - lia.
Defined.

Example sliceComplement_value :
  sliceComplement (mkSlice (Some 1) None (Some 3)) 8 = Ok [0; 2; 3; 5; 6].
Proof. reflexivity. Qed.

Lemma sliceLen_of_expand (slc : slice) (n : Z) (l : list Z) :
  slice_step slc <> Some 0 -> 0 <= n -> expand slc n = Ok l ->
  sliceLen slc n = Ok (Z.of_nat (List.length l)).
Proof.
  intros Hs Hn He.
  destruct (sliceLen_ok slc n Hs Hn) as (len & Hlen & _ & _).
  destruct (sliceLen_expand slc n len Hs Hn Hlen) as (l' & Hl' & ->).
  rewrite He in Hl'. injection Hl' as <-. assumption.
Qed.

(** X3: on a non-empty selection, reversing a slice keeps its length, and
    reversing twice gives a slice that selects the original items in the
    original order. *)
Theorem sliceReverse_twice (slc : slice) (n : Z) (l : list Z)
    (Hstep : slice_step slc <> Some 0) (Hn : 0 <= n)
    (Hexp : expand slc n = Ok l) (Hne : l <> []) :
  exists r r2,
    sliceReverse slc n = Ok r /\ expand r n = Ok (rev l) /\
    sliceLen r n = Ok (Z.of_nat (List.length l)) /\
    sliceLen slc n = Ok (Z.of_nat (List.length l)) /\
    sliceReverse r n = Ok r2 /\ expand r2 n = Ok l.
Proof.
  pose proof (sliceReverse_nonempty slc n l Hstep Hn Hexp Hne) as H1.
  unfold expandReverse in H1.
  destruct (sliceReverse slc n) as [r|] eqn:Er; [|discriminate].
  cbn [bind] in H1.
  assert (Hr : slice_step r <> Some 0).
  { unfold sliceReverse in Er.
    destruct (slice_indices slc n) as [[[a b] s]|] eqn:Ei; [|discriminate].
    cbn [bind] in Er. injection Er as <-. cbn [slice_step].
    destruct (slice_indices_inv _ _ _ _ _ Ei) as (_ & _ & Hs0 & _).
    intros H. injection H as H. lia. }
  assert (Hne' : rev l <> []).
  { intros H. apply Hne. apply (f_equal (@List.length Z)) in H.
    rewrite length_rev in H. destruct l; [reflexivity|discriminate]. }
  pose proof (sliceReverse_nonempty r n (rev l) Hr Hn H1 Hne') as H2.
  unfold expandReverse in H2.
  destruct (sliceReverse r n) as [r2|] eqn:Er2; [|discriminate].
  cbn [bind] in H2. rewrite rev_involutive in H2.
  exists r, r2. split; [reflexivity|]. split; [assumption|]. split.
  - rewrite <- (length_rev l). apply sliceLen_of_expand; assumption.
  - split; [apply sliceLen_of_expand; assumption|].
    split; assumption.
Qed.

Lemma sliceReverse_twice_witness :
  exists r r2,
    sliceReverse (mkSlice (Some 1) (Some 9) (Some 3)) 10 = Ok r /\
    expand r 10 = Ok (rev [1; 4; 7]) /\
    sliceLen r 10 = Ok (Z.of_nat (List.length [1; 4; 7])) /\
    sliceLen (mkSlice (Some 1) (Some 9) (Some 3)) 10
      = Ok (Z.of_nat (List.length [1; 4; 7])) /\
    sliceReverse r 10 = Ok r2 /\ expand r2 10 = Ok [1; 4; 7].
Proof.
  apply (sliceReverse_twice (mkSlice (Some 1) (Some 9) (Some 3)) 10 [1; 4; 7]).
  - discriminate.
  - lia.
  - reflexivity.
  - discriminate.
Defined.

(** ** [chunkIndexGen] with any start and either direction *)

Lemma range_count_pos_spec (start stop step : Z) :
  0 < step ->
  (stop <= start -> range_count start stop step = 0%nat) /\
  (start < stop ->
   (Z.of_nat (range_count start stop step) - 1) * step < stop - start
   <= Z.of_nat (range_count start stop step) * step).
Proof.
  intros Hs. unfold range_count.
  replace (step <? 0) with false by (symmetry; apply Z.ltb_ge; lia).
  pose proof (Z.mul_div_le (stop - start + step - 1) step Hs) as H1.
  pose proof (Z.mul_succ_div_gt (stop - start + step - 1) step Hs) as H2.
  set (q := (stop - start + step - 1) / step) in *.
  split; intros H.
  - assert (q <= 0) by nia. lia.
  - assert (1 <= q) by nia. rewrite Z2Nat.id by lia. nia.
Qed.

Lemma py_range_opp (start stop step : Z) :
  step < 0 ->
  py_range start stop step = map Z.opp (py_range (- start) (- stop) (- step)).
Proof.
  intros Hs. unfold py_range.
  replace (Z.abs (- stop - - start)) with (Z.abs (stop - start)) by lia.
  apply range_loop_opp. assumption.
Qed.

Lemma chunk_counts_pos (start stop step : Z) :
  0 < step ->
  let L := map (fun a => Z.abs (Z.min (a + step) stop - a))
               (py_range start stop step) in
  List.length L = range_count start stop step /\
  Forall (fun x => 1 <= x <= step) L /\
  Zsum L = Z.max 0 (stop - start).
Proof.
  intros Hs L. subst L.
  destruct (range_count_pos_spec start stop step Hs) as [Hle Hlt].
  rewrite py_range_closed by lia. rewrite map_map.
  split; [rewrite length_map, length_seq; reflexivity|].
  destruct (Z_le_gt_dec stop start) as [H|H].
  - rewrite (Hle H). cbn [seq map]. split; [constructor|].
    unfold Zsum. cbn [fold_right]. lia.
  - specialize (Hlt ltac:(lia)).
    set (cnt := range_count start stop step) in *. split.
    + apply Forall_forall. intros x Hx. apply in_map_iff in Hx.
      destruct Hx as (k & <- & Hk). apply in_seq in Hk.
      assert (Z.of_nat k * step <= (Z.of_nat cnt - 1) * step) by nia.
      lia.
    + assert (Hsum : forall c : nat,
                (Z.of_nat c - 1) * step < stop - start ->
                Zsum (map (fun k => Z.abs (Z.min (start + Z.of_nat k * step
                                                  + step) stop
                                           - (start + Z.of_nat k * step)))
                          (seq 0 c))
                = Z.min (start + Z.of_nat c * step) stop - start).
      { induction c as [|c IH]; intros Hc.
        - cbn [seq map]. unfold Zsum. cbn [fold_right]. lia.
        - rewrite seq_S, map_app, Zsum_app. cbn [Nat.add map].
          rewrite IH by nia. unfold Zsum at 1. cbn [fold_right].
          assert (Z.of_nat c * step < stop - start) by nia.
          replace (Z.of_nat (S c) * step) with (Z.of_nat c * step + step)
            by lia.
          lia. }
      rewrite Hsum by lia. lia.
Qed.

Lemma chunkIndexGen_snd (start stop step : Z) :
  step <> 0 ->
  exists l,
    chunkIndexGen start stop (Some step) = Ok l /\
    map snd l
    = map (fun a => Z.abs ((if step <? 0 then Z.max else Z.min) (a + step) stop
                           - a))
          (py_range start stop step).
Proof.
  intros Hs. unfold chunkIndexGen.
  destruct (step =? 0) eqn:E; zbool; [lia|].
  eexists. split; [reflexivity|]. rewrite map_map. reflexivity.
Qed.

(** X4: for a non-zero step, [chunkIndexGen(start, stop, step)] yields
    [ceil(|stop - start| / |step|)] chunks when [stop] lies ahead of
    [start] in the direction of the step (none otherwise); every chunk
    holds between 1 and [|step|] items, and the counts add up to the
    distance from [start] to [stop]. *)
Theorem chunkIndexGen_counts (start stop step : Z) (Hstep : step <> 0) :
  exists l,
    chunkIndexGen start stop (Some step) = Ok l /\
    List.length l = range_count start stop step /\
    Forall (fun p => 1 <= snd p <= Z.abs step) l /\
    Zsum (map snd l)
    = Z.max 0 (if step <? 0 then start - stop else stop - start).
Proof.
  destruct (chunkIndexGen_snd start stop step Hstep) as (l & Hl & Hsnd).
  exists l. split; [assumption|].
  assert (Hlen : List.length l = List.length (map snd l))
    by (symmetry; apply length_map).
  assert (Hall : Forall (fun x => 1 <= x <= Z.abs step) (map snd l) ->
                 Forall (fun p => 1 <= snd p <= Z.abs step) l).
  { intros H. rewrite Forall_forall in H. apply Forall_forall.
    intros p Hp. apply H. apply in_map. assumption. }
  rewrite Hlen, Hsnd. clear Hlen.
  destruct (step <? 0) eqn:E; zbool.
  - rewrite py_range_opp, map_map in * by assumption.
    assert (Heq : map (fun x => Z.abs (Z.max (- x + step) stop - - x))
                      (py_range (- start) (- stop) (- step))
                  = map (fun a => Z.abs (Z.min (a + - step) (- stop) - a))
                        (py_range (- start) (- stop) (- step))).
    { apply map_ext. intros a. lia. }
    rewrite Heq in *.
    destruct (chunk_counts_pos (- start) (- stop) (- step) ltac:(lia))
      as (H1 & H2 & H3).
    split; [rewrite H1; symmetry; apply range_count_opp; assumption|].
    split.
    + apply Hall. rewrite Hsnd.
      eapply Forall_impl; [|exact H2]. cbn beta. intros; lia.
    + rewrite H3. lia.
  - destruct (chunk_counts_pos start stop step ltac:(lia)) as (H1 & H2 & H3).
    split; [assumption|]. split.
    + apply Hall. rewrite Hsnd.
      eapply Forall_impl; [|exact H2]. cbn beta. intros; lia.
    + rewrite H3. reflexivity.
Qed.

Lemma chunkIndexGen_counts_witness :
  exists l,
    chunkIndexGen 9 (-1) (Some (-4)) = Ok l /\
    List.length l = range_count 9 (-1) (-4) /\
    Forall (fun p => 1 <= snd p <= Z.abs (-4)) l /\
    Zsum (map snd l) = Z.max 0 (if -4 <? 0 then 9 - -1 else -1 - 9).
Proof.
  apply (chunkIndexGen_counts 9 (-1) (-4)). discriminate.
Defined.

Example chunkIndexGen_backwards :
  chunkIndexGen 9 (-1) (Some (-4))
  = Ok [(mkSlice (Some 9) (Some 5) (Some (-1)), 4);
        (mkSlice (Some 5) (Some 1) (Some (-1)), 4);
        (mkSlice (Some 1) None (Some (-1)), 2)].
Proof. reflexivity. Qed.

Lemma map_seq_offset {X} (f : nat -> X) (m n : nat) :
  map f (seq m n) = map (fun k => f (m + k)%nat) (seq 0 n).
Proof.
  revert m. induction n as [|n IH]; intros m; [reflexivity|].
  cbn [seq map]. rewrite Nat.add_0_r. f_equal.
  rewrite IH, map_seq_shift. apply map_ext. intros k.
  f_equal. lia.
Qed.

Lemma py_range_1_closed (a b : Z) :
  a <= b ->
  py_range a b 1 = map (fun k => a + Z.of_nat k) (seq 0 (Z.to_nat (b - a))).
Proof.
  intros H. rewrite py_range_closed by lia.
  assert (Hc : range_count a b 1 = Z.to_nat (b - a)).
  { unfold range_count. cbn [Z.ltb Z.compare].
    replace (b - a + 1 - 1) with (b - a) by lia. rewrite Z.div_1_r. lia. }
  rewrite Hc. apply map_ext. intros k. lia.
Qed.

Lemma py_range_1_app (a b c : Z) :
  a <= b <= c -> py_range a b 1 ++ py_range b c 1 = py_range a c 1.
Proof.
  intros H. rewrite !py_range_1_closed by lia.
  replace (Z.to_nat (c - a)) with (Z.to_nat (b - a) + Z.to_nat (c - b))%nat
    by lia.
  rewrite seq_app, map_app. f_equal. cbn [Nat.add].
  rewrite (map_seq_offset _ (Z.to_nat (b - a))).
  apply map_ext. intros k. lia.
Qed.

Lemma concat_ranges_pos (start stop step : Z) :
  0 < step -> start < stop ->
  forall c : nat,
    (Z.of_nat c - 1) * step < stop - start ->
    List.concat
      (map (fun k => py_range (start + Z.of_nat k * step)
                              (Z.min (start + Z.of_nat k * step + step) stop) 1)
           (seq 0 c))
    = py_range start (Z.min (start + Z.of_nat c * step) stop) 1.
Proof.
  intros Hs Hlt. induction c as [|c IH]; intros Hc.
  - cbn [seq map List.concat].
    replace (Z.min (start + Z.of_nat 0 * step) stop) with start by lia.
    rewrite py_range_1_closed by lia. rewrite Z.sub_diag. reflexivity.
  - rewrite seq_S, map_app, concat_app. cbn [Nat.add map List.concat].
    rewrite app_nil_r, IH by nia.
    assert (Z.of_nat c * step < stop - start) by nia.
    replace (Z.min (start + Z.of_nat c * step) stop)
      with (start + Z.of_nat c * step) by lia.
    replace (start + Z.of_nat (S c) * step)
      with (start + Z.of_nat c * step + step) by lia.
    apply py_range_1_app. nia.
Qed.

Lemma expand_unit_back (a b n : Z) (stop : option Z) :
  0 <= a <= n - 1 -> -1 <= b <= a ->
  stop = (if b =? -1 then None else Some b) ->
  expand (mkSlice (Some a) stop (Some (-1))) n = Ok (py_range a b (-1)).
Proof.
  intros Ha Hb Hstop. apply expand_indices; try lia.
  apply slice_indices_some_neg; [lia|lia|].
  destruct (b =? -1) eqn:E; zbool.
  - left. split; assumption.
  - right. split; [assumption|lia].
Qed.

Lemma Forall2_map_same {X Y W} (R : Y -> W -> Prop) (f : X -> Y) (g : X -> W)
    (l : list X) :
  (forall x, In x l -> R (f x) (g x)) -> Forall2 R (map f l) (map g l).
Proof.
  induction l as [|x l IH]; intros H; cbn [map]; constructor.
  - apply H. left. reflexivity.
  - apply IH. intros y Hy. apply H. right. assumption.
Qed.

Lemma py_range_empty (start stop step : Z) :
  0 < step -> stop <= start -> py_range start stop step = [].
Proof.
  intros Hs H. rewrite py_range_closed by lia.
  rewrite (proj1 (range_count_pos_spec start stop step Hs) H). reflexivity.
Qed.

Lemma chunk_ranges_pos (start stop step : Z) :
  0 < step ->
  List.concat
    (map (fun a => py_range a (Z.min (a + step) stop) 1)
         (py_range start stop step))
  = py_range start stop 1 /\
  forall a, In a (py_range start stop step) ->
    start <= a < stop /\ a < Z.min (a + step) stop <= stop.
Proof.
  intros Hs. destruct (range_count_pos_spec start stop step Hs) as [Hle Hlt].
  split.
  - destruct (Z_le_gt_dec stop start) as [H|H].
    + rewrite !py_range_empty by lia. reflexivity.
    + specialize (Hlt ltac:(lia)).
      rewrite (py_range_closed start stop step) by lia. rewrite map_map.
      rewrite (concat_ranges_pos start stop step Hs ltac:(lia) _ (proj1 Hlt)).
      f_equal. lia.
  - intros a Ha. apply py_range_bounds in Ha. destruct Ha as [Ha _].
    specialize (Ha Hs). lia.
Qed.

(** X5: the chunks of [chunkIndexGen] index a sequence like
    [range(start, stop, sign(step))] does.  Taken from a sequence
    [range(N)] that holds the range ([0 <= start] and [stop <= N] going
    up, [start < N] and [-1 <= stop] going down), the slices select,
    one after the other, exactly the items of
    [range(start, stop, sign(step))], and each chunk's count is the
    number of items its slice selects. *)
Theorem chunkIndexGen_selects_range (start stop step N : Z)
    (Hstep : step <> 0)
    (Hup : 0 < step -> 0 <= start /\ stop <= N)
    (Hdown : step < 0 -> start < N /\ -1 <= stop) :
  exists l sels,
    chunkIndexGen start stop (Some step) = Ok l /\
    mapM (fun p => expand (fst p) N) l = Ok sels /\
    List.concat sels = py_range start stop (if step <? 0 then -1 else 1) /\
    Forall2 (fun p sel => snd p = Z.of_nat (List.length sel)) l sels.
Proof.
  unfold chunkIndexGen.
  destruct (step =? 0) eqn:E0; zbool; [lia|].
  destruct (step <? 0) eqn:E1; zbool.
  - destruct (Hdown E1) as [H1 H2]. clear Hup Hdown.
    destruct (chunk_ranges_pos (- start) (- stop) (- step) ltac:(lia))
      as [Hcat Hin].
    rewrite (py_range_opp start stop step E1).
    set (R := py_range (- start) (- stop) (- step)) in *.
    exists (map (fun a =>
                   (mkSlice (Some a)
                            (if Z.max (a + step) stop =? -1 then None
                             else Some (Z.max (a + step) stop))
                            (Some (-1)),
                    Z.abs (Z.max (a + step) stop - a)))
                (map Z.opp R)),
           (map (fun a' => py_range (- a') (Z.max (- a' + step) stop) (-1)) R).
    split; [reflexivity|]. rewrite !map_map. split.
    { rewrite mapM_map. apply mapM_ok_map. intros a' Ha'. cbn [fst].
      destruct (Hin a' Ha') as [Hb1 Hb2].
      apply expand_unit_back; [lia|lia|reflexivity]. }
    split.
    { rewrite (py_range_opp start stop (-1)) by lia.
      change (- -1) with 1. rewrite <- Hcat, concat_map, map_map. f_equal.
      apply map_ext_in. intros a' Ha'. rewrite py_range_opp by lia.
      change (- -1) with 1. rewrite Z.opp_involutive. f_equal. f_equal. lia. }
    apply Forall2_map_same. intros a' Ha'. cbn [snd].
    destruct (Hin a' Ha') as [Hb1 Hb2].
    rewrite py_range_opp by lia. change (- -1) with 1.
    rewrite length_map, Z.opp_involutive, py_range_1_length by lia. lia.
  - assert (Hs : 0 < step) by lia. destruct (Hup Hs) as [H1 H2].
    clear Hup Hdown.
    destruct (chunk_ranges_pos start stop step Hs) as [Hcat Hin].
    set (R := py_range start stop step) in *.
    exists (map (fun a =>
                   (mkSlice (Some a)
                            (if Z.min (a + step) stop =? -1 then None
                             else Some (Z.min (a + step) stop))
                            (Some 1),
                    Z.abs (Z.min (a + step) stop - a))) R),
           (map (fun a => py_range a (Z.min (a + step) stop) 1) R).
    split; [reflexivity|]. split.
    { rewrite mapM_map. apply mapM_ok_map. intros a Ha. cbn [fst].
      destruct (Hin a Ha) as [Hb1 Hb2].
      replace (Z.min (a + step) stop =? -1) with false
        by (symmetry; apply Z.eqb_neq; lia).
      apply expand_unit_step; lia. }
    split; [exact Hcat|].
    apply Forall2_map_same. intros a Ha. cbn [snd].
    destruct (Hin a Ha) as [Hb1 Hb2].
    rewrite py_range_1_length by lia. lia.
Qed.

Lemma chunkIndexGen_selects_range_witness :
  exists l sels,
    chunkIndexGen 9 (-1) (Some (-4)) = Ok l /\
    mapM (fun p => expand (fst p) 10) l = Ok sels /\
    List.concat sels = py_range 9 (-1) (if -4 <? 0 then -1 else 1) /\
    Forall2 (fun p sel => snd p = Z.of_nat (List.length sel)) l sels.
Proof.
  apply (chunkIndexGen_selects_range 9 (-1) (-4) 10).
  - discriminate.
  - intros H. lia.
  - intros _. lia.
Defined.

(** ** Axis arguments *)

(** X6: for a positive [n], [possitive_index(i, n)] returns an index
    congruent to [i] modulo [n]: [i] itself when it is not negative,
    [i + n], the usual position in [0, n), when [-n <= i < 0], and a value
    in [(-n, 0]] (so in general not a valid position) when [i < -n]. *)
Theorem possitive_index_congruent (i n : Z) (Hn : 0 < n) :
  exists r,
    possitive_index i n = Ok r /\ r mod n = i mod n /\
    (0 <= i -> r = i) /\
    (- n <= i < 0 -> r = i + n /\ 0 <= r < n) /\
    (i < - n -> - n < r <= 0).
Proof.
  unfold possitive_index, py_floordiv.
  destruct (i <? 0) eqn:E; zbool.
  - destruct (n =? 0) eqn:E0; zbool; [lia|]. cbn [bind].
    eexists. split; [reflexivity|].
    pose proof (Z.mul_div_le (- i) n Hn) as H1.
    pose proof (Z.mul_succ_div_gt (- i) n Hn) as H2.
    assert (Hq : 0 <= - i / n) by (apply Z.div_pos; lia).
    set (q := - i / n) in *.
    split; [apply Z.mod_add; lia|]. split; [lia|]. split.
    + intros Hi. assert (q <= 1) by nia.
      replace (Z.max q 1) with 1 by lia. lia.
    + intros Hi. assert (1 <= q) by nia.
      replace (Z.max q 1) with q by lia. nia.
  - exists i. split; [reflexivity|]. split; [reflexivity|].
    split; [reflexivity|]. split; lia.
Qed.

Lemma possitive_index_congruent_witness :
  exists r,
    possitive_index (-7) 3 = Ok r /\ r mod 3 = (-7) mod 3 /\
    (0 <= -7 -> r = -7) /\
    (- 3 <= -7 < 0 -> r = -7 + 3 /\ 0 <= r < 3) /\
    (-7 < - 3 -> - 3 < r <= 0).
Proof.
  apply (possitive_index_congruent (-7) 3). lia.
Defined.

Example possitive_index_below_range : possitive_index (-7) 3 = Ok (-1).
Proof. reflexivity. Qed.

Lemma filter_rev_comm {X} (f : X -> bool) (l : list X) :
  filter f (rev l) = rev (filter f l).
Proof.
  induction l as [|x l IH]; [reflexivity|]. cbn [rev filter].
  rewrite filter_app, IH. cbn [filter].
  destruct (f x); cbn [rev]; [reflexivity|apply app_nil_r].
Qed.

(** X7: whenever [chunkIndexParameters] returns, the capacity it returns
    is [max(nChunksMax, 1)], there is one slice per chunk axis, and the
    order axes it returns are exactly the dimensions that are not chunk
    axes, each once.  (The chunk axes themselves are not checked.) *)
Theorem chunkIndexParameters_sound (shape : list Z) (nChunksMax : Z)
    (kw : kwargs) (c : Z) (ca ao : list Z) (sl : list slice)
    (Hres : chunkIndexParameters shape nChunksMax kw = Ok (c, ca, ao, sl)) :
  c = Z.max nChunksMax 1 /\ 1 <= c /\
  List.length sl = List.length ca /\
  Permutation ao (other_axes (Z.of_nat (List.length shape)) ca) /\
  NoDup ao /\
  sorted ao = other_axes (Z.of_nat (List.length shape)) ca.
Proof.
  unfold chunkIndexParameters in Hres.
  set (ndim := Z.of_nat (List.length shape)) in *.
  destruct (mapM _ (match kw_chunkAxes kw with None => [] | Some l => l end))
    as [ca'|] eqn:Eca; [|discriminate].
  cbn [bind] in Hres.
  set (base := filter (fun i => negb (py_in i ca'))
                 (if String.eqb (kw_defaultOrder kw) "C"
                  then rev (py_range 0 ndim 1) else py_range 0 ndim 1)) in *.
  assert (Hbase : Permutation base (other_axes ndim ca')).
  { subst base. unfold other_axes.
    destruct (String.eqb (kw_defaultOrder kw) "C"); [|reflexivity].
    rewrite filter_rev_comm. symmetry. apply Permutation_rev. }
  assert (Hlen : forall sl',
             match kw_chunkAxesSlice kw with
             | None => Ok (repeat slice_all (List.length ca'))
             | Some l =>
                 if negb (List.length ca' =? List.length l)%nat
                 then Err (ValueError
                     "Chunk slicing does not correspond with chunk dimensions")
                 else Ok l
             end = Ok sl' -> List.length sl' = List.length ca').
  { intros sl' H. destruct (kw_chunkAxesSlice kw) as [l|].
    - destruct (List.length ca' =? List.length l)%nat eqn:E;
        cbn [negb] in H; [|discriminate].
      injection H as <-. apply Nat.eqb_eq in E. lia.
    - injection H as <-. apply repeat_length. }
  destruct (match kw_chunkAxesSlice kw with
            | None => Ok (repeat slice_all (List.length ca'))
            | Some l => _
            end) as [sl'|] eqn:Esl; [|discriminate].
  cbn [bind] in Hres. specialize (Hlen sl' eq_refl).
  assert (Hao : forall ao',
             match kw_axesOrder kw with
             | None => Ok base
             | Some l =>
                 axesOrder <- mapM (fun i => possitive_index i ndim) l ;;
                 if negb (list_eqb (sorted axesOrder) (sorted base))
                 then Err (ValueError
                             "axesOrder and chunkAxes do not correspond")
                 else Ok axesOrder
             end = Ok ao' -> Permutation ao' (other_axes ndim ca')).
  { intros ao' H. destruct (kw_axesOrder kw) as [l|].
    - destruct (mapM _ l) as [ao2|]; [|discriminate]. cbn [bind] in H.
      destruct (list_eqb (sorted ao2) (sorted base)) eqn:E;
        cbn [negb] in H; [|discriminate].
      injection H as <-. apply list_eqb_eq in E.
      etransitivity; [apply sorted_perm|]. rewrite E.
      etransitivity; [symmetry; apply sorted_perm|exact Hbase].
    - injection H as <-. exact Hbase. }
  destruct (match kw_axesOrder kw with
            | None => Ok base
            | Some l => _
            end) as [ao'|] eqn:Eao; [|discriminate].
  cbn [bind] in Hres. specialize (Hao ao' eq_refl).
  injection Hres as <- <- <- <-.
  split; [reflexivity|]. split; [lia|]. split; [assumption|].
  split; [assumption|]. split.
  - apply (Permutation_NoDup (Permutation_sym Hao)).
    apply NoDup_filter, py_range_0_n_NoDup.
  - apply sorted_other_axes. assumption.
Qed.

Lemma chunkIndexParameters_sound_witness :
  3 = Z.max 3 1 /\ 1 <= 3 /\
  List.length [slice_all] = List.length [1] /\
  Permutation [2; 0] (other_axes (Z.of_nat (List.length [4; 5; 6])) [1]) /\
  NoDup [2; 0] /\
  sorted [2; 0] = other_axes (Z.of_nat (List.length [4; 5; 6])) [1].
Proof.
  apply (chunkIndexParameters_sound [4; 5; 6] 3
           (mkKwargs (Some [-2]) None None "C") 3 [1] [2; 0] [slice_all]).
  reflexivity.
Defined.

(** A chunk axis outside the array is accepted as it is. *)
Example chunkIndexParameters_unchecked_chunk_axis :
  chunkIndexParameters [2; 3] 1 (mkKwargs (Some [5]) None None "C")
  = Ok (1, [5], [1; 0], [slice_all]).
Proof. reflexivity. Qed.

(** ** [izipChunkItems] *)

Lemma heads_Some {A} (its : list (list A)) :
  (forall it, In it its -> it <> []) ->
  exists row,
    heads its = Some row /\
    Forall2 (fun it x => nth_error it 0 = Some x) its row.
Proof.
  induction its as [|it rest IH]; intros H.
  - exists []. split; [reflexivity|constructor].
  - destruct IH as (r & Hr & Hall);
      [intros x Hx; apply H; right; assumption|].
    destruct it as [|x it'];
      [exfalso; apply (H [] (or_introl eq_refl)); reflexivity|].
    exists (x :: r). cbn [heads]. rewrite Hr.
    split; [reflexivity|]. constructor; [reflexivity|assumption].
Qed.

Lemma heads_None {A} (its : list (list A)) :
  In [] its -> heads its = None.
Proof.
  induction its as [|it rest IH]; intros H; [contradiction|].
  cbn [heads]. destruct H as [->|H]; [reflexivity|].
  rewrite (IH H). destruct it; reflexivity.
Qed.

Lemma izipChunkItems_rounds {A} :
  forall (m : nat) (its : list (list A)) (fuel : nat)
         (yielded : list (list A)),
    (forall it, In it its -> (m <= List.length it)%nat) ->
    (exists it, In it its /\ List.length it = m) ->
    (m < fuel)%nat ->
    exists rows,
      izipChunkItems fuel its yielded
      = Some (yielded ++ rows, map (skipn (S m)) its) /\
      List.length rows = m /\
      forall k row, nth_error rows k = Some row ->
        Forall2 (fun it x => nth_error it k = Some x) its row.
Proof.
  induction m as [|m IH]; intros its fuel yielded Hall Hex Hfuel.
  - destruct fuel as [|fuel]; [lia|]. cbn [izipChunkItems].
    destruct Hex as (it & Hin & Hlen).
    destruct it; [|discriminate]. rewrite (heads_None its Hin).
    exists []. rewrite app_nil_r. split; [|split; [reflexivity|]].
    + do 2 f_equal; try (apply map_ext; intros [|x l]; reflexivity).
    + intros k row Hk. destruct k; discriminate.
  - destruct fuel as [|fuel]; [lia|]. cbn [izipChunkItems].
    destruct (heads_Some its) as (row & Hrow & Hhd).
    { intros it Hit Hnil. specialize (Hall it Hit). subst it.
      cbn in Hall. lia. }
    rewrite Hrow.
    destruct (IH (map (@tl A) its) fuel (yielded ++ [row]))
      as (rows & Hrun & Hlen & Hnth).
    + intros it Hit. apply in_map_iff in Hit.
      destruct Hit as (it0 & <- & Hit0). specialize (Hall it0 Hit0).
      destruct it0; cbn in *; lia.
    + destruct Hex as (it & Hin & Hlen). exists (tl it).
      split; [apply in_map; assumption|].
      destruct it; cbn in *; lia.
    + lia.
    + exists (row :: rows). split; [|split; [cbn; lia|]].
      * rewrite Hrun, <- app_assoc, map_map. cbn [app]. do 2 f_equal.
        apply map_ext. intros [|x l]; [|reflexivity].
        cbn [tl]. rewrite !skipn_nil. reflexivity.
      * intros k r Hk. destruct k as [|k].
        -- cbn in Hk. injection Hk as <-. assumption.
        -- cbn [nth_error] in Hk. specialize (Hnth k r Hk).
           clear -Hnth. remember (map (@tl A) its) as its' eqn:E.
           revert its E. induction Hnth as [|it' x its' r Hx _ IHn];
             intros its E.
           ++ destruct its; [constructor|discriminate].
           ++ destruct its as [|it its0]; [discriminate|].
              cbn [map] in E. injection E as -> ->.
              constructor; [|apply IHn; reflexivity].
              destruct it; [destruct k; discriminate|exact Hx].
Qed.

(** X8: zipping at least one iterator, the shortest of which has [m]
    items left: the loop ends, [m] tuples are yielded, the [k]-th holds
    the [k]-th item of every iterator, and afterwards every iterator has
    been advanced [m + 1] times (an exhausted one stays exhausted), also
    those a plain [zip] would not have asked again. *)
Theorem izipChunkItems_advances_all {A} (m : nat) (its : list (list A))
    (fuel : nat)
    (Hall : forall it, In it its -> (m <= List.length it)%nat)
    (Hex : exists it, In it its /\ List.length it = m)
    (Hfuel : (m < fuel)%nat) :
  exists rows,
    izipChunkItems fuel its [] = Some (rows, map (skipn (S m)) its) /\
    List.length rows = m /\
    forall k row, nth_error rows k = Some row ->
      Forall2 (fun it x => nth_error it k = Some x) its row.
Proof.
  exact (izipChunkItems_rounds m its fuel [] Hall Hex Hfuel).
Qed.

Lemma izipChunkItems_advances_all_witness :
  exists rows,
    izipChunkItems 5 [[1; 2; 3; 4]; [10; 20]; [7; 8; 9]] []
    = Some (rows, map (skipn 3) [[1; 2; 3; 4]; [10; 20]; [7; 8; 9]]) /\
    List.length rows = 2%nat /\
    forall k row, nth_error rows k = Some row ->
      Forall2 (fun it x => nth_error it k = Some x)
              [[1; 2; 3; 4]; [10; 20]; [7; 8; 9]] row.
Proof.
  apply (izipChunkItems_advances_all 2 [[1; 2; 3; 4]; [10; 20]; [7; 8; 9]] 5).
  - intros it [<-|[<-|[<-|[]]]]; cbn; lia.
  - exists [10; 20]. split; [right; left; reflexivity|reflexivity].
  - lia.
Defined.

(** X9: called without iterators, the loop never ends: whatever the
    number of rounds allowed, it has not stopped (every round yields the
    empty tuple), where [zip()] yields nothing. *)
Theorem izipChunkItems_no_iterators_diverges {A} (fuel : nat)
    (yielded : list (list A)) :
  izipChunkItems fuel [] yielded = None.
Proof.
  revert yielded. induction fuel as [|fuel IH]; intros yielded;
    [reflexivity|].
  cbn [izipChunkItems heads map]. apply IH.
Qed.

(** ** Read-only views *)

Section ReadOnly.

Context {A B : Type}.
Variable cast_in : A -> B.
Variable cast_out : B -> A.
Variable garbage : B.
Variable consumer : Key -> ndarray B -> list B.
Hypothesis consumer_length :
  forall key value,
    List.length (consumer key value) = List.length (arr_data value).

Lemma items_step_readonly (keyType : KeyType) (masked : bool)
    (nChan rows : Z) (axesOrderSorted T iT : list Z)
    (data : ndarray A) (buffer : ndarray B)
    (yielded : list (Key * ndarray B)) (ch : Chunk) :
  chunk_ok data masked axesOrderSorted T nChan rows ch ->
  arr_shape buffer = [rows; nChan] -> 0 <= nChan ->
  exists buffer' y,
    items_step cast_in cast_out keyType masked false nChan
               axesOrderSorted T iT consumer
               (data, buffer, yielded) (Some ch)
    = Ok (data, buffer', yielded ++ [y]) /\
    arr_shape buffer' = [rows; nChan].
Proof.
  intros [(g & Hg & Hshp & Hsize & Hperm) Hrows Hkey] Hbuf HnChan.
  destruct ch as [[idx shp] cnt]. cbn [fst snd] in *.
  pose proof (getitem_wf _ _ _ Hg) as Hwf.
  destruct (transpose_ok g T Hwf Hperm) as (r & Ht & _).
  destruct (transpose_wf g _ T Hwf Hperm Ht) as (_ & Hwft & Hlt).
  cbn [arr_shape arr_data] in Hwft, Hlt.
  destruct Hwf as [Hgs Hgl]. destruct Hwft as [Hts Htl].
  cbn [arr_shape arr_data] in Hts, Htl.
  destruct (Hkey keyType) as (key & Hk).
  assert (Hlr : Z.of_nat (List.length r) = cnt * nChan) by nia.
  unfold items_step.
  rewrite (buffer_rows_ok buffer rows nChan cnt Hbuf Hrows). cbn [bind].
  rewrite Hbuf. replace (py_index [rows; nChan] 1) with (Ok nChan)
    by reflexivity.
  cbn [bind]. rewrite Hg. cbn [bind]. rewrite Ht. cbn [bind].
  unfold reshape at 1. cbn [arr_data arr_shape forallb Zprod fold_right].
  replace ((0 <=? cnt) && ((0 <=? nChan) && true)
           && (cnt * (nChan * 1) =? Z.of_nat (List.length r))) with true.
  2:{ symmetry. rewrite !andb_true_iff, !Z.leb_le, Z.eqb_eq. lia. }
  cbn [bind arr_shape arr_data].
  replace (list_eqb [cnt; nChan] [cnt; nChan]) with true
    by (symmetry; apply list_eqb_eq; reflexivity).
  cbn [negb]. rewrite Hk. cbn [bind].
  rewrite consumer_length. cbn [arr_data].
  rewrite length_map, Nat.eqb_refl. cbn [negb bind].
  eexists _, _. split; reflexivity.
Qed.

Lemma items_fold_readonly (keyType : KeyType) (masked : bool)
    (nChan rows : Z) (axesOrderSorted T iT : list Z) (data : ndarray A)
    (chunks : list Chunk) :
  Forall (chunk_ok data masked axesOrderSorted T nChan rows) chunks ->
  0 <= nChan ->
  forall (buffer : ndarray B) (yielded : list (Key * ndarray B)),
    arr_shape buffer = [rows; nChan] ->
    exists buffer' yielded',
      foldM (items_step cast_in cast_out keyType masked false nChan
                        axesOrderSorted T iT consumer)
            (map Some chunks) (data, buffer, yielded)
      = Ok (data, buffer', yielded') /\
      List.length yielded'
      = (List.length yielded + List.length chunks)%nat.
Proof.
  intros Hall HnChan.
  induction Hall as [|ch chunks Hch _ IH]; intros buffer ys Hb.
  - exists buffer, ys. cbn [map foldM List.length].
    split; [reflexivity|lia].
  - cbn [map foldM].
    destruct (items_step_readonly keyType masked nChan rows axesOrderSorted
                T iT data buffer ys ch Hch Hb HnChan)
      as (b' & y & Hstep & Hb').
    rewrite Hstep. cbn [bind].
    destruct (IH b' (ys ++ [y]) Hb') as (b'' & ys' & Hf & Hl).
    exists b'', ys'. split; [assumption|].
    rewrite Hl, length_app. cbn [List.length]. lia.
Qed.

(** X10: a read-only view ([readonly=True], the default), dense or masked
    by index lists that fit the array, with any buffer type, handed to a
    consumer that may overwrite the yielded buffer views (without resizing
    them): the iteration completes, yields one pair per planned chunk, and
    the source array is left as it was. *)
Theorem readonly_view_keeps_source (data : ndarray A) (mask : option Mask)
    (nMca : Z) (mcaAxis : option Z) (mcaSlice : option slice)
    (axesOrder : option (list Z)) (keyType : KeyType)
    (Hwf : wf_array data)
    (Hvalid : valid_axes (arr_shape data)
                         (view_kwargs mcaAxis mcaSlice axesOrder))
    (Hmask : mask_accepted (arr_shape data)
                           (view_kwargs mcaAxis mcaSlice axesOrder) mask)
    (Hfit : forall mk, mask = Some mk ->
              mask_fits (arr_shape data) nMca
                        (view_kwargs mcaAxis mcaSlice axesOrder) mk) :
  exists (v v' : @View A B) yielded chunks chunkAxes order nBuffer,
    MaskedView_init data mask (Some nMca) mcaAxis mcaSlice axesOrder true
      = Ok v /\
    maskedChunkIndex (arr_shape data) nMca mask
                     (view_kwargs mcaAxis mcaSlice axesOrder)
      = Ok (map Some chunks, chunkAxes, order, nBuffer) /\
    items_run cast_in cast_out garbage keyType consumer v
      = Ok (v', yielded) /\
    v_data v' = data /\
    List.length yielded = List.length chunks.
Proof.
  set (ma := match mcaAxis with None => -1 | Some a => a end).
  set (ms := match mcaSlice with None => slice_all | Some s => s end).
  assert (Hkw : view_kwargs (Some ma) (Some ms) axesOrder
                = view_kwargs mcaAxis mcaSlice axesOrder) by reflexivity.
  destruct mask as [mk|].
  - destruct (masked_view_chunks data nMca mcaAxis mcaSlice axesOrder mk Hwf
                Hvalid Hmask (Hfit mk eq_refl))
      as (chunks & ca & ao & nChan & n2 & Hres & Hn2 & HnChan & Hpos & Hall).
    fold ma in Hn2. fold ms in HnChan.
    destruct (items_fold_readonly keyType true nChan (Z.max nMca 1)
                (sorted ao)
                (match intListIndexAxis (arr_shape data) ao with
                 | Some 0 => [0; 1]
                 | _ => [1; 0]
                 end)
                (argsort (match intListIndexAxis (arr_shape data) ao with
                          | Some 0 => [0; 1]
                          | _ => [1; 0]
                          end))
                data chunks Hall Hpos
                (mkArray [Z.max nMca 1; nChan]
                   (repeat garbage (Z.to_nat (Z.max nMca 1 * nChan))))
                [] eq_refl)
      as (b' & ys & Hf & Hl).
    eexists _, _, ys, chunks, ca, ao, (Z.max nMca 1).
    split.
    { unfold MaskedView_init. cbn [bind]. fold ma ms. rewrite Hkw, Hres.
      cbn [bind]. rewrite Hn2. cbn [bind]. rewrite HnChan. reflexivity. }
    split; [exact Hres|]. split.
    { unfold items_run, items_generator, prepareAccess, numpy_empty.
      cbn [v_masked v_chunkIndex v_chunkAxes v_axesOrder v_data v_buffer
           v_bufferShape v_readonly bind snd negb].
      destruct (Z.max nMca 1 <? 0) eqn:E1; zbool; [lia|].
      destruct (nChan <? 0) eqn:E2; zbool; [lia|]. cbn [orb bind].
      rewrite Hf. cbn [bind]. reflexivity. }
    split; [reflexivity|exact Hl].
  - destruct (dense_view_chunks data nMca mcaAxis mcaSlice axesOrder Hwf
                Hvalid)
      as (ci & ca & ao & nb & chunks & nChan & n2 & Hfull & Hprod & Hn2
          & HnChan & Hpos & Hnb & Hall).
    fold ma in Hn2. fold ms in HnChan.
    destruct (items_fold_readonly keyType false nChan nb (sorted ao)
                (sorted ao ++ ca) (argsort (sorted ao ++ ca))
                data chunks Hall Hpos
                (mkArray [nb; nChan] (repeat garbage (Z.to_nat (nb * nChan))))
                [] eq_refl)
      as (b' & ys & Hf & Hl).
    eexists _, _, ys, chunks, ca, ao, nb.
    split.
    { unfold MaskedView_init. cbn [bind]. fold ma ms. rewrite Hkw, Hfull.
      cbn [bind]. rewrite Hn2. cbn [bind]. rewrite HnChan. reflexivity. }
    split.
    { unfold maskedChunkIndex. rewrite Hfull. cbn [bind]. rewrite Hprod.
      reflexivity. }
    split.
    { unfold items_run, items_generator, prepareAccess, numpy_empty.
      cbn [v_masked v_chunkIndex v_chunkAxes v_axesOrder v_data v_buffer
           v_bufferShape v_readonly bind snd negb].
      rewrite Hprod. cbn [bind].
      destruct (nb <? 0) eqn:E1; zbool; [lia|].
      destruct (nChan <? 0) eqn:E2; zbool; [lia|]. cbn [orb bind].
      rewrite Hf. cbn [bind]. reflexivity. }
    split; [reflexivity|exact Hl].
Qed.

End ReadOnly.

Lemma readonly_view_keeps_source_witness :
  exists (v v' : @View Z Z) yielded chunks chunkAxes order nBuffer,
    MaskedView_init data_20_10 None (Some 7) None None None true = Ok v /\
    maskedChunkIndex (arr_shape data_20_10) 7 None (view_kwargs None None None)
      = Ok (map Some chunks, chunkAxes, order, nBuffer) /\
    items_run int8_cast (fun x => x) 0 KeyAll
              (fun _ value => map (fun _ => 0) (arr_data value)) v
      = Ok (v', yielded) /\
    v_data v' = data_20_10 /\
    List.length yielded = List.length chunks.
Proof.
  apply (readonly_view_keeps_source int8_cast (fun x => x) 0
           (fun _ value => map (fun _ => 0) (arr_data value))
           (fun _ value => length_map (fun _ => 0) (arr_data value))
           data_20_10 None 7 None None None KeyAll).
  - split; [|reflexivity]. repeat (constructor; [lia|]). constructor.
  - apply (valid_kwargs_last_axis [20; 10]). discriminate.
  - exact I.
  - intros mk H. discriminate.
Defined.

(** ** What a chunk descriptor announces *)

(** X11: for a view over an in-memory array, dense or masked by index
    lists that fit the array, every chunk [(index, shape, count)] of its
    plan can be read: [data[index]] exists, has exactly the announced
    [shape], and holds [count * nChan] items, [nChan] being the number of
    channels the channel slice selects. *)
Theorem chunk_descriptor_shape {X} (data : ndarray X) (mask : option Mask)
    (nMca : Z) (mcaAxis : option Z) (mcaSlice : option slice)
    (axesOrder : option (list Z))
    (Hwf : wf_array data)
    (Hvalid : valid_axes (arr_shape data)
                         (view_kwargs mcaAxis mcaSlice axesOrder))
    (Hmask : mask_accepted (arr_shape data)
                           (view_kwargs mcaAxis mcaSlice axesOrder) mask)
    (Hfit : forall mk, mask = Some mk ->
              mask_fits (arr_shape data) nMca
                        (view_kwargs mcaAxis mcaSlice axesOrder) mk) :
  exists chunks chunkAxes order nBuffer n2 nChan,
    maskedChunkIndex (arr_shape data) nMca mask
                     (view_kwargs mcaAxis mcaSlice axesOrder)
      = Ok (map Some chunks, chunkAxes, order, nBuffer) /\
    py_index (arr_shape data)
             (match mcaAxis with None => -1 | Some a => a end) = Ok n2 /\
    sliceLen (match mcaSlice with None => slice_all | Some s => s end) n2
      = Ok nChan /\
    Forall (fun ch : Chunk =>
              exists g,
                getitem data (fst (fst ch)) = Ok g /\
                snd (fst ch) = map Some (arr_shape g) /\
                Z.of_nat (List.length (arr_data g)) = chunk_count ch * nChan)
           chunks.
Proof.
  assert (Hco : forall masked aos T nChan rows chunks,
            0 <= nChan ->
            Forall (chunk_ok data masked aos T nChan rows) chunks ->
            Forall (fun ch : Chunk =>
                      exists g,
                        getitem data (fst (fst ch)) = Ok g /\
                        snd (fst ch) = map Some (arr_shape g) /\
                        Z.of_nat (List.length (arr_data g))
                        = chunk_count ch * nChan) chunks).
  { intros masked aos T nChan rows chunks Hpos Hall.
    eapply Forall_impl; [|exact Hall]. cbn beta.
    intros ch [(g & Hg & Hshp & Hsize & _) Hrows _].
    exists g. split; [assumption|]. split; [assumption|].
    destruct (getitem_wf _ _ _ Hg) as [_ Hl]. rewrite Hl.
    unfold chunk_count. rewrite Z2Nat.id by nia. assumption. }
  destruct mask as [mk|].
  - destruct (masked_view_chunks data nMca mcaAxis mcaSlice axesOrder mk Hwf
                Hvalid Hmask (Hfit mk eq_refl))
      as (chunks & ca & ao & nChan & n2 & Hres & Hn2 & HnChan & Hpos & Hall).
    exists chunks, ca, ao, (Z.max nMca 1), n2, nChan.
    split; [assumption|]. split; [assumption|]. split; [assumption|].
    eapply Hco; eassumption.
  - destruct (dense_view_chunks data nMca mcaAxis mcaSlice axesOrder Hwf
                Hvalid)
      as (ci & ca & ao & nb & chunks & nChan & n2 & Hfull & Hprod & Hn2
          & HnChan & Hpos & Hnb & Hall).
    exists chunks, ca, ao, nb, n2, nChan.
    split.
    { unfold maskedChunkIndex. rewrite Hfull. cbn [bind]. rewrite Hprod.
      reflexivity. }
    split; [assumption|]. split; [assumption|].
    eapply Hco; eassumption.
Qed.

Lemma chunk_descriptor_shape_witness :
  exists chunks chunkAxes order nBuffer n2 nChan,
    maskedChunkIndex (arr_shape data_20_10) 3 (Some mask_7_of_20)
                     (view_kwargs None None None)
      = Ok (map Some chunks, chunkAxes, order, nBuffer) /\
    py_index (arr_shape data_20_10) (-1) = Ok n2 /\
    sliceLen slice_all n2 = Ok nChan /\
    Forall (fun ch : Chunk =>
              exists g,
                getitem data_20_10 (fst (fst ch)) = Ok g /\
                snd (fst ch) = map Some (arr_shape g) /\
                Z.of_nat (List.length (arr_data g)) = chunk_count ch * nChan)
           chunks.
Proof.
  apply (chunk_descriptor_shape data_20_10 (Some mask_7_of_20) 3 None None
           None).
  - split; [|reflexivity]. repeat (constructor; [lia|]). constructor.
  - apply (valid_kwargs_last_axis [20; 10]). discriminate.
  - split; [reflexivity|]. split; [cbn; lia|discriminate].
  - intros mk Hmk. injection Hmk as <-.
    exists 3, [1], [0], [slice_all], 7%nat.
    split; [reflexivity|]. split.
    + change (mask_index mask_7_of_20) with [[0; 3; 4; 8; 11; 15; 19]].
      constructor; [|constructor]. exists 20. split; [reflexivity|].
      repeat (constructor; [lia|]). constructor.
    + constructor; [reflexivity|constructor].
Defined.

(** ** Boolean masks *)

Lemma true_positions_length (data : list bool) :
  forall p, List.length (true_positions data p)
            = count_occ Bool.bool_dec data true.
Proof.
  induction data as [|b rest IH]; intros p; [reflexivity|].
  cbn [true_positions count_occ]. destruct b.
  - destruct (Bool.bool_dec true true); [|congruence].
    cbn [List.length]. rewrite IH. reflexivity.
  - destruct (Bool.bool_dec false true); [discriminate|]. apply IH.
Qed.

(** X12: a boolean mask with one dimension per order axis is planned into
    [ceil(t / c)] chunks whose counts add up to [t], the number of [True]
    entries of the mask ([c] being the capacity, at least 1): one buffer
    row per selected spectrum, and no chunk at all for a mask without a
    [True] entry. *)
Theorem boolean_mask_rows (shape : list Z) (cap : Z) (kw : kwargs)
    (a : BoolArray)
    (Hshape : Forall (fun n => 0 <= n) shape)
    (Hvalid : valid_axes shape kw)
    (Hndim : List.length (ba_shape a) = n_order_axes shape kw)
    (Hpos : (0 < n_order_axes shape kw)%nat) :
  let t := Z.of_nat (count_occ Bool.bool_dec (ba_data a) true) in
  exists chunks chunkAxes axesOrder,
    maskedChunkIndex shape cap (Some (MaskArray a)) kw
      = Ok (map Some chunks, chunkAxes, axesOrder, Z.max cap 1) /\
    Z.of_nat (List.length chunks) = (t + Z.max cap 1 - 1) / Z.max cap 1 /\
    Zsum (map chunk_count chunks) = t /\
    Forall (fun ch => 1 <= chunk_count ch <= Z.max cap 1) chunks /\
    (t = 0 -> chunks = []).
Proof.
  intros t.
  destruct (masked_planner_summary shape cap kw (MaskArray a)
              (count_occ Bool.bool_dec (ba_data a) true) Hshape Hvalid)
    as (chunks & ca & ao & Hres & Hlen & Hcnt & Hsum & _).
  - cbn [mask_ndim]. rewrite Hndim. reflexivity.
  - assumption.
  - cbn [mask_index]. unfold nonzero. rewrite length_map, length_seq.
    assumption.
  - cbn [mask_index]. unfold nonzero. apply Forall_forall.
    intros l Hl. apply in_map_iff in Hl. destruct Hl as (k & <- & _).
    rewrite length_map. apply true_positions_length.
  - exists chunks, ca, ao. fold t in Hlen, Hsum, Hcnt.
    split; [assumption|]. split; [assumption|]. split; [assumption|].
    split.
    + apply Forall_forall. intros ch Hch. apply In_nth_error in Hch.
      destruct Hch as (k & Hk). destruct (Hcnt k ch Hk) as [H1 H2]. lia.
    + intros Ht. rewrite Ht in Hlen.
      replace (0 + Z.max cap 1 - 1) with (Z.max cap 1 - 1) in Hlen by lia.
      rewrite Z.div_small in Hlen by lia.
      destruct chunks; [reflexivity|discriminate].
Qed.

Lemma boolean_mask_rows_witness :
  let t := Z.of_nat
             (count_occ Bool.bool_dec
                (ba_data (mkBoolArray [2; 2] [true; false; true; true]))
                true) in
  exists chunks chunkAxes axesOrder,
    maskedChunkIndex [2; 2; 5] 2
      (Some (MaskArray (mkBoolArray [2; 2] [true; false; true; true])))
      kwargs_last_axis
      = Ok (map Some chunks, chunkAxes, axesOrder, Z.max 2 1) /\
    Z.of_nat (List.length chunks) = (t + Z.max 2 1 - 1) / Z.max 2 1 /\
    Zsum (map chunk_count chunks) = t /\
    Forall (fun ch => 1 <= chunk_count ch <= Z.max 2 1) chunks /\
    (t = 0 -> chunks = []).
Proof.
  apply (boolean_mask_rows [2; 2; 5] 2 kwargs_last_axis
           (mkBoolArray [2; 2] [true; false; true; true])).
  - repeat (constructor; [lia|]). constructor.
  - apply (valid_kwargs_last_axis [2; 2; 5]). discriminate.
  - reflexivity.
  - cbn. lia.
Defined.

(** ** The [axis] tuple of [chunks_in_memory] *)

Lemma drop_axes_app {X} (ao : list Z) (l1 l2 : list X) :
  forall i,
    drop_axes ao i (l1 ++ l2)
    = drop_axes ao i l1 ++ drop_axes ao (i + Z.of_nat (List.length l1)) l2.
Proof.
  induction l1 as [|x l1 IH]; intros i.
  - cbn [app drop_axes List.length]. f_equal. lia.
  - cbn [app drop_axes List.length]. rewrite IH.
    replace (i + 1 + Z.of_nat (List.length l1))
      with (i + Z.of_nat (S (List.length l1))) by lia.
    destruct (py_in i ao); reflexivity.
Qed.

Lemma drop_axes_ext {X} (ao ao' : list Z) (l : list X) :
  forall i,
    (forall j, i <= j < i + Z.of_nat (List.length l) ->
               py_in j ao = py_in j ao') ->
    drop_axes ao i l = drop_axes ao' i l.
Proof.
  induction l as [|x l IH]; intros i H; [reflexivity|].
  cbn [drop_axes]. rewrite (H i) by (cbn [List.length]; lia).
  rewrite (IH (i + 1)); [reflexivity|].
  intros j Hj. apply H. cbn [List.length]. lia.
Qed.

Lemma drop_axes_keep {X} (ao : list Z) (l : list X) :
  forall i,
    (forall j, i <= j < i + Z.of_nat (List.length l) -> ~ In j ao) ->
    drop_axes ao i l = l.
Proof.
  induction l as [|x l IH]; intros i H; [reflexivity|].
  cbn [drop_axes].
  replace (py_in i ao) with false
    by (symmetry; apply py_in_false, H; cbn [List.length]; lia).
  f_equal. apply IH. intros j Hj. apply H. cbn [List.length]. lia.
Qed.

Lemma py_pop_ok {X} (l : list X) (a : Z) :
  0 <= a < Z.of_nat (List.length l) ->
  py_pop l a = Ok (firstn (Z.to_nat a) l ++ skipn (S (Z.to_nat a)) l).
Proof.
  intros Ha. unfold py_pop.
  replace (a <? 0) with false by (symmetry; apply Z.ltb_ge; lia).
  replace ((0 <=? a) && (a <? Z.of_nat (List.length l))) with true;
    [reflexivity|].
  symmetry. apply andb_true_iff. split; [apply Z.leb_le|apply Z.ltb_lt]; lia.
Qed.

(** X13: [chunks_in_memory] removes the axes of a tuple one after the
    other, each position being read in what the earlier removals left.
    For non-negative axes given in strictly decreasing order this leaves
    exactly the dimensions that are not listed. *)
Theorem chunk_row_shape_decreasing (shape : list Z) (axes : list Z)
    (Hsorted : StronglySorted (fun a b => b < a) axes)
    (Hrange : Forall (fun a => 0 <= a < Z.of_nat (List.length shape)) axes) :
  chunk_row_shape shape (AxisSeq axes) = Ok (drop_axes axes 0 shape) /\
  forall nbytes_mem itemsize margin maximal,
    chunks_in_memory nbytes_mem shape itemsize (AxisSeq axes) margin maximal
    = chunks_in_memory nbytes_mem (drop_axes axes 0 shape) itemsize
                       (AxisSeq []) margin maximal.
Proof.
  assert (Hpop : foldM py_pop axes shape = Ok (drop_axes axes 0 shape));
    [|split; [exact Hpop|];
      intros [mem|] itemsize margin maximal; [|reflexivity];
      unfold chunks_in_memory; rewrite Hpop; reflexivity].
  revert shape Hrange.
  induction Hsorted as [|a rest Hrest IH Ha]; intros shape Hrange.
  - cbn [foldM]. rewrite drop_axes_keep; [reflexivity|]. intros j _ [].
  - inversion Hrange as [|? ? Har Hrr]; subst. cbn [foldM].
    rewrite py_pop_ok by assumption. cbn [bind].
    set (k := Z.to_nat a).
    assert (Hk : (k < List.length shape)%nat) by lia.
    assert (Hl1 : List.length (firstn k shape) = k)
      by (rewrite length_firstn; lia).
    rewrite Forall_forall in Ha.
    rewrite IH.
    2:{ apply Forall_forall. intros r Hr. specialize (Ha r Hr).
        rewrite Forall_forall in Hrr. specialize (Hrr r Hr).
        rewrite length_app, Hl1, length_skipn. lia. }
    f_equal. rewrite drop_axes_app, Hl1.
    rewrite <- (firstn_skipn k shape) at 3.
    rewrite drop_axes_app, Hl1. f_equal.
    + apply drop_axes_ext. intros j Hj. rewrite Hl1 in Hj.
      cbn [py_in existsb].
      replace (j =? a) with false by (symmetry; apply Z.eqb_neq; lia).
      reflexivity.
    + destruct (skipn k shape) as [|x tail] eqn:Esk.
      { apply (f_equal (@List.length Z)) in Esk. rewrite length_skipn in Esk.
        cbn in Esk. lia. }
      assert (Htail : skipn (S k) shape = tail).
      { replace (S k) with (1 + k)%nat by lia.
        rewrite <- skipn_skipn, Esk. reflexivity. }
      rewrite Htail. cbn [drop_axes].
      replace (0 + Z.of_nat k) with a by lia.
      replace (py_in a (a :: rest)) with true
        by (symmetry; apply py_in_In; left; reflexivity).
      rewrite !drop_axes_keep; [reflexivity| |].
      * intros j Hj [->|Hin]; [lia|]. specialize (Ha j Hin). lia.
      * intros j Hj Hin. specialize (Ha j Hin). lia.
Qed.

Lemma chunk_row_shape_decreasing_witness :
  chunk_row_shape [4; 5; 6; 7] (AxisSeq [3; 1])
  = Ok (drop_axes [3; 1] 0 [4; 5; 6; 7]) /\
  forall nbytes_mem itemsize margin maximal,
    chunks_in_memory nbytes_mem [4; 5; 6; 7] itemsize (AxisSeq [3; 1]) margin
                     maximal
    = chunks_in_memory nbytes_mem (drop_axes [3; 1] 0 [4; 5; 6; 7]) itemsize
                       (AxisSeq []) margin maximal.
Proof.
  apply (chunk_row_shape_decreasing [4; 5; 6; 7] [3; 1]).
  - repeat constructor; lia.
  - repeat constructor; cbn; lia.
Defined.

(** In increasing order the second position is read after the first
    removal: axes [(0, 1)] remove the dimensions 0 and 2. *)
Example chunk_row_shape_increasing (a b c : Z) :
  chunk_row_shape [a; b; c] (AxisSeq [0; 1]) = Ok [b].
Proof. reflexivity. Qed.

(** ** The size of the buffer of a dense view *)

Lemma gen_pieces_first (n step : Z) :
  1 <= step <= n ->
  exists rest,
    map (gen_piece n step) (seq 0 (gen_count n step))
    = (mkSlice (Some 0) (Some step) (Some 1), step) :: rest.
Proof.
  intros H. unfold gen_count.
  assert (Hq : 1 <= (n + step - 1) / step)
    by (apply Z.div_le_lower_bound; lia).
  destruct (Z.to_nat ((n + step - 1) / step)) as [|k] eqn:E; [lia|].
  cbn [seq map]. eexists. f_equal. unfold gen_piece. cbn zeta.
  change (Z.of_nat 0) with 0.
  replace (Z.min (0 * step + step) n) with step by lia.
  repeat f_equal; lia.
Qed.

Lemma fullChunkIndex_axis_first (shape : list Z) (cap nItems nBuffer : Z)
    (acc : list (list (slice * Z))) (axis n : Z) :
  1 <= cap -> py_index shape axis = Ok n -> 0 <= n ->
  buffer_inv cap nItems nBuffer ->
  exists p0 rest,
    fullChunkIndex_axis shape cap (nItems, nBuffer, acc) axis
      = Ok (nItems * n, nBuffer * snd p0, acc ++ [p0 :: rest]) /\
    buffer_inv cap (nItems * n) (nBuffer * snd p0) /\
    (nItems * n <= cap -> p0 = (slice_all, n) /\ rest = []).
Proof.
  intros Hcap Hidx Hn [Hb Hinv].
  unfold fullChunkIndex_axis. rewrite Hidx. cbn [bind].
  destruct (nItems * n <=? cap) eqn:E1; zbool.
  - exists (slice_all, n), []. cbn [bind snd].
    split; [reflexivity|]. split; [|intros _; split; reflexivity].
    unfold buffer_inv. destruct Hinv as [->|Hgt].
    + split; [nia|left; reflexivity].
    + assert (n = 0) by nia. subst n.
      rewrite !Z.mul_0_r. split; [lia|left; reflexivity].
  - destruct (cap <? nItems) eqn:E2; zbool.
    + rewrite chunkIndexGen_closed by lia. cbn [bind].
      assert (Hn1 : 1 <= n) by nia.
      destruct (gen_pieces_first n 1 ltac:(lia)) as (rest & ->).
      exists (mkSlice (Some 0) (Some 1) (Some 1), 1), rest. cbn [snd].
      rewrite Z.mul_1_r. split; [reflexivity|].
      split; [|intros; lia].
      unfold buffer_inv. split; [lia|right; lia].
    + destruct Hinv as [->|Hgt]; [|lia].
      assert (Hpos : 1 <= nBuffer) by nia.
      assert (Hn1 : 1 <= n) by nia.
      unfold py_floordiv, py_mod.
      destruct (nBuffer =? 0) eqn:E3; zbool; [lia|]. cbn [bind].
      assert (Hs0 : 1 <= cap / nBuffer)
        by (apply Z.div_le_lower_bound; lia).
      pose proof (Z.mul_div_le cap nBuffer ltac:(lia)) as Hs0'.
      set (step0 := cap / nBuffer) in *.
      destruct (step0 =? 0) eqn:E4; zbool; [lia|]. cbn [bind].
      pose proof (ceil_spec n step0 ltac:(lia)) as Hc.
      set (cnt := n / step0 + int_bool (n mod step0)) in *.
      assert (Hcnt : 1 <= cnt) by nia.
      destruct (cnt =? 0) eqn:E5; zbool; [lia|]. cbn [bind].
      pose proof (ceil_spec n cnt ltac:(lia)) as Hc'.
      set (step := n / cnt + int_bool (n mod cnt)) in *.
      assert (Hstep : 1 <= step <= step0) by nia.
      assert (Hstepn : step <= n) by nia.
      rewrite chunkIndexGen_closed by lia. cbn [bind].
      destruct (gen_pieces_first n step ltac:(lia)) as (rest & ->).
      exists (mkSlice (Some 0) (Some step) (Some 1), step), rest. cbn [snd].
      split; [reflexivity|].
      split; [|intros; lia].
      unfold buffer_inv. split; [nia|right; lia].
Qed.

Lemma Zprod_ge_1 (l : list Z) : Forall (fun n => 1 <= n) l -> 1 <= Zprod l.
Proof.
  unfold Zprod. induction 1 as [|x xs Hx _ IH]; cbn [fold_right]; [lia|nia].
Qed.

Lemma fullChunkIndex_loop_first (shape : list Z) (cap : Z) :
  1 <= cap -> Forall (fun n => 0 <= n) shape ->
  forall (axesOrder : list Z) (nItems nBuffer : Z) acc,
    Forall (fun a => 0 <= a < Z.of_nat (List.length shape)) axesOrder ->
    buffer_inv cap nItems nBuffer ->
    exists sizes firsts piecesL,
      foldM (fullChunkIndex_axis shape cap) axesOrder (nItems, nBuffer, acc)
        = Ok (nItems * Zprod sizes, nBuffer * Zprod (map snd firsts),
              acc ++ piecesL) /\
      order_sizes shape axesOrder = Ok sizes /\
      Forall2 (fun p0 pieces => exists rest, pieces = p0 :: rest)
              firsts piecesL /\
      List.length firsts = List.length axesOrder /\
      buffer_inv cap (nItems * Zprod sizes)
                 (nBuffer * Zprod (map snd firsts)) /\
      (1 <= nItems -> Forall (fun n => 1 <= n) sizes ->
       nItems * Zprod sizes <= cap ->
       piecesL = map (fun n => [(slice_all, n)]) sizes).
Proof.
  intros Hcap Hshape. unfold order_sizes.
  induction axesOrder as [|axis rest IH]; intros nItems nBuffer acc Hr Hinv.
  - exists [], [], []. cbn [foldM mapM map Zprod fold_right].
    rewrite !Z.mul_1_r, app_nil_r.
    split; [reflexivity|]. split; [reflexivity|].
    split; [constructor|]. split; [reflexivity|].
    split; [assumption|]. intros; reflexivity.
  - inversion Hr as [|? ? Ha Hrest]; subst.
    destruct (py_index_ok shape axis Ha) as (n & Hidx & _).
    assert (Hn : 0 <= n).
    { rewrite Forall_forall in Hshape. apply Hshape.
      eapply py_index_In; eassumption. }
    destruct (fullChunkIndex_axis_first shape cap nItems nBuffer acc axis n
                Hcap Hidx Hn Hinv) as (p0 & tl & Hstep & Hinv' & Hwhole).
    destruct (IH (nItems * n) (nBuffer * snd p0) (acc ++ [p0 :: tl]) Hrest
                Hinv')
      as (sizes & firsts & piecesL & Hfold & Hsizes & Hall & Hlenf & Hinv''
          & Hfit).
    exists (n :: sizes), (p0 :: firsts), ((p0 :: tl) :: piecesL).
    cbn [foldM map fst snd Zprod fold_right mapM].
    rewrite Hstep. cbn [bind]. rewrite Hfold, Hidx. cbn [bind].
    rewrite Hsizes. cbn [bind].
    fold (Zprod (map snd firsts)). fold (Zprod sizes).
    replace (nItems * (n * Zprod sizes)) with (nItems * n * Zprod sizes)
      by lia.
    replace (nBuffer * (snd p0 * Zprod (map snd firsts)))
      with (nBuffer * snd p0 * Zprod (map snd firsts)) by lia.
    rewrite <- app_assoc. cbn [app].
    split; [reflexivity|]. split; [reflexivity|].
    split; [constructor; [exists tl; reflexivity|assumption]|].
    split; [cbn [List.length]; lia|].
    split; [assumption|].
    intros Hni Hsz Hle. inversion Hsz as [|? ? Hn1 Hsz']; subst.
    pose proof (Zprod_ge_1 _ Hsz') as Hp.
    destruct Hwhole as [-> ->]; [nia|].
    rewrite Hfit; [reflexivity|nia|assumption|assumption].
Qed.

Lemma product_head {X} (xs : list X) (Ls : list (list X)) :
  Forall2 (fun x l => exists rest, l = x :: rest) xs Ls ->
  exists tl, product Ls = xs :: tl.
Proof.
  induction 1 as [|x l xs Ls (rest & ->) _ (tl & IH)].
  - exists []. reflexivity.
  - cbn [product flat_map]. rewrite IH. cbn [map app].
    eexists. reflexivity.
Qed.

(** X14: the dense planner always yields at least one chunk, and the
    buffer size [nBuffer] it returns is the count of the first chunk: no
    chunk has more rows than the buffer, and the first one fills it. *)
Theorem dense_buffer_is_tight (shape : list Z) (cap : Z) (kw : kwargs)
    (Hshape : Forall (fun n => 0 <= n) shape) (Hvalid : valid_axes shape kw) :
  exists chunkIndex chunkAxes axesOrder nBuffer ch0 rest,
    fullChunkIndex shape cap kw
      = Ok (chunkIndex, chunkAxes, axesOrder, nBuffer) /\
    chunkIndexProduct chunkIndex chunkAxes axesOrder = Ok (ch0 :: rest) /\
    chunk_count ch0 = nBuffer /\
    Forall (fun ch => chunk_count ch <= nBuffer) (ch0 :: rest).
Proof.
  destruct (chunkIndexParameters_ok shape cap kw Hvalid)
    as (ca & ao & sl & Hpar & _ & _ & _ & Hpa).
  destruct (chunkIndex1_ok shape Hshape ca sl (pa_chunk_range _ _ _ _ Hpa)
              (pa_slices_step _ _ _ _ Hpa)) as (ci1 & Hci1 & Hcand).
  assert (Hinv0 : buffer_inv (Z.max cap 1) 1 1)
    by (unfold buffer_inv; split; [lia|left; reflexivity]).
  destruct (fullChunkIndex_loop_first shape (Z.max cap 1) ltac:(lia) Hshape
              ao 1 1 [] (pa_order_range _ _ _ _ Hpa) Hinv0)
    as (sizes & firsts & piecesL & Hloop & Hsizes & Hfirst & Hlenf & _ & _).
  rewrite !Z.mul_1_l in Hloop. cbn [app] in Hloop.
  assert (Hfull : fullChunkIndex shape cap kw
                  = Ok (ci1 ++ rev piecesL, ca, ao, Zprod (map snd firsts))).
  { unfold fullChunkIndex. rewrite Hpar. cbn [bind].
    rewrite Hci1. cbn [bind]. rewrite Hloop. cbn [bind]. reflexivity. }
  destruct (planned_axes_rev _ _ _ _ Hpa) as [Hnd Hr].
  destruct (chunkIndexProduct_ok (ci1 ++ rev piecesL) ca ao Hnd Hr)
    as (chunks & Hprod & Hall).
  destruct (dense_product_shape shape ca sl ci1 (rev piecesL)
              (pa_slices_len _ _ _ _ Hpa) Hcand) as (t1 & Hlt1 & _ & Hpeq).
  destruct (product_head (rev firsts) (rev piecesL) (Forall2_rev _ _ _ Hfirst))
    as (tl & Htl).
  rewrite Hpeq, Htl in Hall. cbn [map] in Hall.
  inversion Hall as [|t ch0 ts rest Hch0 _]; subst.
  destruct (dense_chunk_facts shape ca ao sl sizes t1 (rev firsts) ch0 Hpa
              Hsizes Hlt1 ltac:(rewrite length_rev; assumption) Hch0)
    as [Hcnt _].
  destruct (dense_planner_summary shape cap kw Hshape Hvalid)
    as (ci' & ca' & ao' & nb' & chunks' & sizes' & Hfull' & Hprod' & _ & _ & _
        & Hbound & _).
  rewrite Hfull in Hfull'. injection Hfull' as <- <- <- <-.
  rewrite Hprod in Hprod'. injection Hprod' as <-.
  exists (ci1 ++ rev piecesL), ca, ao, (Zprod (map snd firsts)), ch0, rest.
  split; [assumption|]. split; [assumption|]. split.
  - unfold chunk_count. rewrite Hcnt, map_rev, Zprod_rev. reflexivity.
  - eapply Forall_impl; [|exact Hbound]. cbn beta. intros; lia.
Qed.

Lemma dense_buffer_is_tight_witness :
  exists chunkIndex chunkAxes axesOrder nBuffer ch0 rest,
    fullChunkIndex [7; 5; 3] 12 kwargs_last_axis
      = Ok (chunkIndex, chunkAxes, axesOrder, nBuffer) /\
    chunkIndexProduct chunkIndex chunkAxes axesOrder = Ok (ch0 :: rest) /\
    chunk_count ch0 = nBuffer /\
    Forall (fun ch => chunk_count ch <= nBuffer) (ch0 :: rest).
Proof.
  apply (dense_buffer_is_tight [7; 5; 3] 12 kwargs_last_axis).
  - repeat (constructor; [lia|]). constructor.
  - apply (valid_kwargs_last_axis [7; 5; 3]). discriminate.
Defined.

Example dense_buffer_size : dense_counts [7; 5; 3] 12 kwargs_last_axis
                            = Ok [10; 10; 10; 5].
Proof. reflexivity. Qed.

Lemma In_combine_l_ex {X Y} (l : list X) (r : list Y) (x : X) :
  List.length l = List.length r -> In x l -> exists y, In (x, y) (combine l r).
Proof.
  revert r. induction l as [|a l IH]; intros [|b r] Hlen Hin;
    try contradiction; try discriminate.
  destruct Hin as [->|Hin].
  - exists b. left. reflexivity.
  - destruct (IH r ltac:(cbn in Hlen; lia) Hin) as (y & Hy).
    exists y. right. assumption.
Qed.

(** X15: when every dimension has at least one item and all the spectra
    fit in the capacity (the product of the sizes of the order axes is at
    most [max(nChunksMax, 1)]), the dense planner yields exactly one
    chunk: it takes every order axis whole ([slice(None)]), its count is
    the number of spectra, and so is the buffer size. *)
Theorem dense_single_chunk_when_all_fit (shape : list Z) (cap : Z)
    (kw : kwargs) (c : Z) (ca ao : list Z) (sl : list slice) (sizes : list Z)
    (Hshape : Forall (fun n => 1 <= n) shape)
    (Hvalid : valid_axes shape kw)
    (Hpar : chunkIndexParameters shape cap kw = Ok (c, ca, ao, sl))
    (Hsizes : order_sizes shape ao = Ok sizes)
    (Hfit : Zprod sizes <= c) :
  exists chunkIndex ch,
    fullChunkIndex shape cap kw = Ok (chunkIndex, ca, ao, Zprod sizes) /\
    chunkIndexProduct chunkIndex ca ao = Ok [ch] /\
    chunk_count ch = Zprod sizes /\
    Forall (fun a => py_index (fst (fst ch)) a = Ok (ISlice slice_all)) ao.
Proof.
  assert (Hshape0 : Forall (fun n => 0 <= n) shape)
    by (eapply Forall_impl; [|exact Hshape]; cbn beta; intros; lia).
  destruct (chunkIndexParameters_ok shape cap kw Hvalid)
    as (ca' & ao' & sl' & Hpar' & _ & _ & _ & Hpa).
  rewrite Hpar in Hpar'. injection Hpar' as -> <- <- <-.
  destruct (chunkIndex1_ok shape Hshape0 ca sl (pa_chunk_range _ _ _ _ Hpa)
              (pa_slices_step _ _ _ _ Hpa)) as (ci1 & Hci1 & Hcand).
  assert (Hinv0 : buffer_inv (Z.max cap 1) 1 1)
    by (unfold buffer_inv; split; [lia|left; reflexivity]).
  destruct (fullChunkIndex_loop_first shape (Z.max cap 1) ltac:(lia) Hshape0
              ao 1 1 [] (pa_order_range _ _ _ _ Hpa) Hinv0)
    as (sizes' & firsts & piecesL & Hloop & Hsizes' & _ & _ & Hinv & Hwhole).
  rewrite Hsizes in Hsizes'. injection Hsizes' as <-.
  rewrite !Z.mul_1_l in Hloop, Hinv, Hwhole. cbn [app] in Hloop.
  assert (Hs1 : Forall (fun n => 1 <= n) sizes).
  { apply Forall_forall. intros n Hn. unfold order_sizes in Hsizes.
    destruct (mapM_In _ _ _ _ Hsizes Hn) as (a & _ & Ha).
    rewrite Forall_forall in Hshape. apply Hshape.
    eapply py_index_In; eassumption. }
  specialize (Hwhole ltac:(lia) Hs1 Hfit). subst piecesL.
  assert (Hnb : Zprod (map snd firsts) = Zprod sizes).
  { destruct Hinv as [_ [H|H]]; lia. }
  rewrite ?Z.mul_1_l, Hnb in Hloop.
  assert (Hfull : fullChunkIndex shape cap kw
                  = Ok (ci1 ++ rev (map (fun n => [(slice_all, n)]) sizes),
                        ca, ao, Zprod sizes)).
  { unfold fullChunkIndex. rewrite Hpar. cbn [bind].
    rewrite Hci1. cbn [bind]. rewrite Hloop. cbn [bind]. reflexivity. }
  set (piecesL := map (fun n => [(slice_all, n)]) sizes) in *.
  set (t2 := rev (map (fun n => (slice_all, n)) sizes)).
  destruct (planned_axes_rev _ _ _ _ Hpa) as [Hnd Hr].
  destruct (chunkIndexProduct_ok (ci1 ++ rev piecesL) ca ao Hnd Hr)
    as (chunks & Hprod & Hall).
  destruct (dense_product_shape shape ca sl ci1 (rev piecesL)
              (pa_slices_len _ _ _ _ Hpa) Hcand) as (t1 & Hlt1 & _ & Hpeq).
  assert (Hp2 : product (rev piecesL) = [t2]).
  { rewrite <- (app_nil_r (rev piecesL)).
    rewrite (product_app_singletons t2); [cbn; rewrite app_nil_r; reflexivity|].
    subst t2 piecesL. apply Forall2_rev. rewrite <- (map_id sizes) at 1.
    rewrite map_map. apply Forall2_map_same. intros n _. reflexivity. }
  rewrite Hpeq, Hp2 in Hall. cbn [map] in Hall.
  inversion Hall as [|t ch ts rest Hch Hrest]; subst.
  inversion Hrest; subst.
  assert (Hlt2 : List.length t2 = List.length ao).
  { subst t2. rewrite length_rev, length_map.
    apply mapM_length in Hsizes. assumption. }
  destruct (dense_chunk_facts shape ca ao sl sizes t1 t2 ch Hpa Hsizes Hlt1
              Hlt2 Hch) as [Hcnt _].
  exists (ci1 ++ rev piecesL), ch.
  split; [assumption|]. split; [assumption|]. split.
  - unfold chunk_count. rewrite Hcnt. subst t2.
    rewrite <- map_rev, map_map. cbn [snd]. rewrite map_id.
    apply Zprod_rev.
  - apply Forall_forall. intros a Ha.
    destruct Hch as (_ & _ & Hent & _).
    assert (Ha' : In a (rev ao)) by (apply in_rev; rewrite rev_involutive;
                                       assumption).
    destruct (In_combine_l_ex (rev ao) t2 a
                ltac:(rewrite length_rev; lia) Ha') as (p & Hp).
    assert (Hfst : fst p = slice_all).
    { apply in_combine_r in Hp. subst t2. apply in_rev in Hp.
      apply in_map_iff in Hp.
      destruct Hp as (n & <- & _). reflexivity. }
    destruct (Hent a p) as [Hidx _].
    + rewrite combine_app by lia. apply in_or_app. right. assumption.
    + rewrite Hfst in Hidx. assumption.
Qed.

Lemma dense_single_chunk_when_all_fit_witness :
  exists chunkIndex ch,
    fullChunkIndex [4; 5; 6] 20 kwargs_last_axis
      = Ok (chunkIndex, [2], [1; 0], Zprod [5; 4]) /\
    chunkIndexProduct chunkIndex [2] [1; 0] = Ok [ch] /\
    chunk_count ch = Zprod [5; 4] /\
    Forall (fun a => py_index (fst (fst ch)) a = Ok (ISlice slice_all)) [1; 0].
Proof.
  apply (dense_single_chunk_when_all_fit [4; 5; 6] 20 kwargs_last_axis 20
           [2] [1; 0] [slice_all] [5; 4]).
  - repeat (constructor; [lia|]). constructor.
  - apply (valid_kwargs_last_axis [4; 5; 6]). discriminate.
  - reflexivity.
  - reflexivity.
  - cbn. lia.
Defined.

(** ** Where a writable view writes *)

Lemma foldM_setitem_frame {X Y} (cast : Y -> X) (ps : list Z) :
  forall (xs : list Y) (d : list X),
    Forall (fun p => 0 <= p < Z.of_nat (List.length d)) ps ->
    exists d',
      foldM (fun d' '(p, x) => py_setitem d' p (cast x)) (combine ps xs) d
      = Ok d' /\
      List.length d' = List.length d /\
      forall q, ~ In (Z.of_nat q) ps -> nth_error d' q = nth_error d q.
Proof.
  induction ps as [|p ps IH]; intros xs d Hall.
  - exists d. cbn [combine foldM]. split; [reflexivity|].
    split; [reflexivity|]. intros; reflexivity.
  - destruct xs as [|x xs].
    + exists d. cbn [combine foldM]. split; [reflexivity|].
      split; [reflexivity|]. intros; reflexivity.
    + inversion Hall as [|? ? Hp Hps]; subst. cbn [combine foldM].
      rewrite py_setitem_ok by assumption. cbn [bind].
      destruct (IH xs (set_nth d (Z.to_nat p) (cast x))) as (d' & Hf & Hl & Hq).
      { rewrite set_nth_length. assumption. }
      exists d'. split; [assumption|]. rewrite set_nth_length in Hl.
      split; [assumption|]. intros q Hnot.
      rewrite Hq by (intros H; apply Hnot; right; assumption).
      apply nth_error_set_nth_neq. intros ->. apply Hnot. left. lia.
Qed.

Lemma selection_in_range (shape : list Z) (idx : list index)
    (rshape sel : list Z) :
  Forall (fun n => 0 <= n) shape ->
  selection shape idx = Ok (rshape, sel) ->
  Forall (fun p => 0 <= p < Zprod shape) sel.
Proof.
  intros Hpos Hsel. unfold selection in Hsel.
  destruct (resolve_index shape idx) as [sels|] eqn:Hr; [|discriminate].
  cbn [bind] in Hsel.
  destruct (result_dims sels) as [dims|] eqn:Hd; [|discriminate].
  cbn [bind] in Hsel. injection Hsel as _ <-.
  destruct (result_dims_ok _ _ _ (resolve_index_ok _ _ _ Hr) Hd) as [Hv Hc].
  apply Forall_forall. intros p Hp. apply in_map_iff in Hp.
  destruct Hp as (t & <- & Ht).
  apply ravel_bound. apply (selection_coords_valid shape dims); assumption.
Qed.

Lemma setitem_frame {X Y} (cast : Y -> X) (a : ndarray X) (idx : list index)
    (v : ndarray Y) (rshape sel : list Z) :
  wf_array a ->
  selection (arr_shape a) idx = Ok (rshape, sel) ->
  arr_shape v = rshape ->
  exists a',
    setitem cast a idx v = Ok a' /\
    arr_shape a' = arr_shape a /\
    List.length (arr_data a') = List.length (arr_data a) /\
    forall q, ~ In (Z.of_nat q) sel ->
      nth_error (arr_data a') q = nth_error (arr_data a) q.
Proof.
  intros [Hpos Hlen] Hsel Hshape. unfold setitem. rewrite Hsel. cbn [bind].
  rewrite Hshape.
  replace (list_eqb rshape rshape) with true
    by (symmetry; apply list_eqb_eq; reflexivity).
  cbn [negb].
  destruct (foldM_setitem_frame cast sel (arr_data v) (arr_data a))
    as (d' & Hf & Hl & Hq).
  { pose proof (selection_in_range _ _ _ _ Hpos Hsel) as Hr.
    eapply Forall_impl; [|exact Hr]. cbn beta. intros p Hp.
    pose proof (Zprod_nonneg _ Hpos). lia. }
  rewrite Hf. cbn [bind]. eexists. split; [reflexivity|].
  cbn [arr_shape arr_data]. split; [reflexivity|]. split; assumption.
Qed.

Lemma getitem_same_layout {X} (a a' g : ndarray X) (idx : list index) :
  wf_array a -> arr_shape a' = arr_shape a ->
  List.length (arr_data a') = List.length (arr_data a) ->
  getitem a idx = Ok g ->
  exists g', getitem a' idx = Ok g' /\ arr_shape g' = arr_shape g.
Proof.
  intros [Hpos Hlen] Hs Hl Hg. unfold getitem in *. rewrite Hs.
  destruct (selection (arr_shape a) idx) as [[rshape sel]|] eqn:Hsel;
    [|discriminate].
  cbn [bind] in *.
  destruct (mapM (py_index (arr_data a)) sel) as [vals|]; [|discriminate].
  cbn [bind] in Hg. injection Hg as <-.
  destruct (mapM_ok_in (py_index (arr_data a')) sel) as (vals' & Hv).
  { intros p Hp. pose proof (selection_in_range _ _ _ _ Hpos Hsel) as Hr.
    rewrite Forall_forall in Hr. specialize (Hr p Hp).
    pose proof (Zprod_nonneg _ Hpos).
    destruct (py_index_ok (arr_data a') p ltac:(lia)) as (x & Hx & _).
    exists x. assumption. }
  rewrite Hv. cbn [bind]. eexists. split; reflexivity.
Qed.

Lemma chunk_ok_same_layout {X} (data data' : ndarray X) (masked : bool)
    (aos T : list Z) (nChan rows : Z) (ch : Chunk) :
  wf_array data -> arr_shape data' = arr_shape data ->
  List.length (arr_data data') = List.length (arr_data data) ->
  chunk_ok data masked aos T nChan rows ch ->
  chunk_ok data' masked aos T nChan rows ch.
Proof.
  intros Hwf Hs Hl [(g & Hg & Hshp & Hsize & Hperm) Hrows Hkey].
  destruct (getitem_same_layout data data' g _ Hwf Hs Hl Hg) as (g' & Hg' & He).
  constructor; [|assumption|assumption].
  exists g'. rewrite He. repeat (split; [assumption|]). assumption.
Qed.

Section Writable.

Context {A B : Type}.
Variable cast_in : A -> B.
Variable cast_out : B -> A.
Variable garbage : B.
Variable consumer : Key -> ndarray B -> list B.
Hypothesis consumer_length :
  forall key value,
    List.length (consumer key value) = List.length (arr_data value).

Lemma items_step_writable (keyType : KeyType) (masked : bool)
    (nChan rows : Z) (axesOrderSorted T : list Z)
    (data : ndarray A) (buffer : ndarray B)
    (yielded : list (Key * ndarray B)) (ch : Chunk) :
  wf_array data ->
  chunk_ok data masked axesOrderSorted T nChan rows ch ->
  arr_shape buffer = [rows; nChan] -> 0 <= nChan ->
  exists data' buffer' y rshape sel,
    selection (arr_shape data) (fst (fst ch)) = Ok (rshape, sel) /\
    items_step cast_in cast_out keyType masked true nChan
               axesOrderSorted T (argsort T) consumer
               (data, buffer, yielded) (Some ch)
    = Ok (data', buffer', yielded ++ [y]) /\
    arr_shape data' = arr_shape data /\
    List.length (arr_data data') = List.length (arr_data data) /\
    arr_shape buffer' = [rows; nChan] /\
    forall q, ~ In (Z.of_nat q) sel ->
      nth_error (arr_data data') q = nth_error (arr_data data) q.
Proof.
  intros Hwfd [(g & Hg & Hshp & Hsize & Hperm) Hrows Hkey] Hbuf HnChan.
  destruct ch as [[idx shp] cnt]. cbn [fst snd] in *.
  pose proof (getitem_wf _ _ _ Hg) as Hwf.
  destruct (transpose_ok g T Hwf Hperm) as (r & Ht & _).
  destruct (transpose_wf g _ T Hwf Hperm Ht) as (_ & Hwft & Hlt).
  cbn [arr_shape arr_data] in Hwft, Hlt.
  destruct Hwf as [Hgs Hgl]. destruct Hwft as [Hts Htl].
  cbn [arr_shape arr_data] in Hts, Htl.
  destruct (Hkey keyType) as (key & Hk).
  assert (Hlr : Z.of_nat (List.length r) = cnt * nChan) by nia.
  assert (Hsel : exists sel, selection (arr_shape data) idx
                             = Ok (arr_shape g, sel)).
  { unfold getitem in Hg.
    destruct (selection (arr_shape data) idx) as [[rs sel]|]; [|discriminate].
    cbn [bind] in Hg.
    destruct (mapM (py_index (arr_data data)) sel); [|discriminate].
    cbn [bind] in Hg. injection Hg as <-. exists sel. reflexivity. }
  destruct Hsel as (sel & Hsel).
  set (value := mkArray [cnt; nChan] (map cast_in r)).
  set (items' := consumer key value).
  assert (Hli : List.length items' = List.length r).
  { subst items' value. rewrite consumer_length. cbn [arr_data].
    apply length_map. }
  set (tshape := perm_coords T (arr_shape g)) in *.
  assert (Hlen_t : List.length tshape = List.length (arr_shape g)).
  { subst tshape. rewrite perm_coords_length.
    apply (axes_perm_length _ _ Hperm). }
  assert (Hwf2 : wf_array (mkArray tshape items')).
  { split; cbn [arr_shape arr_data]; [assumption|]. lia. }
  assert (Hperm2 : is_axes_perm (List.length (arr_shape (mkArray tshape items')))
                                (argsort T)).
  { cbn [arr_shape]. rewrite Hlen_t. apply argsort_perm. assumption. }
  destruct (transpose_ok (mkArray tshape items') (argsort T) Hwf2 Hperm2)
    as (r2 & Ht2 & _).
  cbn [arr_shape] in Ht2. subst tshape.
  rewrite (perm_coords_inverse _ T (arr_shape g) Hperm eq_refl) in Ht2.
  destruct (setitem_frame cast_out data idx (mkArray (arr_shape g) r2)
              (arr_shape g) sel Hwfd Hsel eq_refl)
    as (data' & Hset & Hs' & Hl' & Hframe).
  exists data'. eexists _, _. exists (arr_shape g), sel.
  split; [assumption|]. split.
  - unfold items_step.
    rewrite (buffer_rows_ok buffer rows nChan cnt Hbuf Hrows). cbn [bind].
    rewrite Hbuf. replace (py_index [rows; nChan] 1) with (Ok nChan)
      by reflexivity.
    cbn [bind]. rewrite Hg. cbn [bind]. rewrite Ht. cbn [bind].
    unfold reshape at 1. cbn [arr_data arr_shape forallb Zprod fold_right].
    replace ((0 <=? cnt) && ((0 <=? nChan) && true)
             && (cnt * (nChan * 1) =? Z.of_nat (List.length r))) with true.
    2:{ symmetry. rewrite !andb_true_iff, !Z.leb_le, Z.eqb_eq. lia. }
    cbn [bind arr_shape arr_data].
    replace (list_eqb [cnt; nChan] [cnt; nChan]) with true
      by (symmetry; apply list_eqb_eq; reflexivity).
    cbn [negb]. rewrite Hk. cbn [bind].
    fold value. fold items'. rewrite Hli, Nat.eqb_refl. cbn [negb].
    rewrite Hshp, (mapM_idxShape _ T _ Hperm eq_refl). cbn [bind].
    unfold reshape. cbn [arr_data arr_shape]. rewrite Hli.
    replace (forallb (fun n => 0 <=? n) (perm_coords T (arr_shape g))
             && (Zprod (perm_coords T (arr_shape g))
                 =? Z.of_nat (List.length r))) with true.
    2:{ symmetry. rewrite andb_true_iff, forallb_forall, Z.eqb_eq. split.
        - intros n Hn. rewrite Forall_forall in Hts. apply Z.leb_le, Hts, Hn.
        - pose proof (Zprod_nonneg _ Hts). lia. }
    cbn [bind]. rewrite Ht2. cbn [bind]. rewrite Hset. cbn [bind].
    reflexivity.
  - split; [assumption|]. split; [assumption|].
    split; [reflexivity|assumption].
Qed.

Lemma items_fold_writable (keyType : KeyType) (masked : bool)
    (nChan rows : Z) (axesOrderSorted T : list Z) (data0 : ndarray A)
    (chunks : list Chunk) :
  wf_array data0 ->
  Forall (chunk_ok data0 masked axesOrderSorted T nChan rows) chunks ->
  0 <= nChan ->
  forall (data : ndarray A) (buffer : ndarray B)
         (yielded : list (Key * ndarray B)),
    arr_shape data = arr_shape data0 ->
    List.length (arr_data data) = List.length (arr_data data0) ->
    arr_shape buffer = [rows; nChan] ->
    exists data' buffer' yielded',
      foldM (items_step cast_in cast_out keyType masked true nChan
                        axesOrderSorted T (argsort T) consumer)
            (map Some chunks) (data, buffer, yielded)
      = Ok (data', buffer', yielded') /\
      arr_shape data' = arr_shape data0 /\
      List.length (arr_data data') = List.length (arr_data data0) /\
      List.length yielded'
      = (List.length yielded + List.length chunks)%nat /\
      forall q,
        (forall ch rshape sel,
           In ch chunks ->
           selection (arr_shape data0) (fst (fst ch)) = Ok (rshape, sel) ->
           ~ In (Z.of_nat q) sel) ->
        nth_error (arr_data data') q = nth_error (arr_data data) q.
Proof.
  intros Hwf0 Hall HnChan.
  induction Hall as [|ch chunks Hch _ IH]; intros data buffer ys Hs Hl Hb.
  - exists data, buffer, ys. cbn [map foldM List.length].
    split; [reflexivity|]. split; [assumption|]. split; [assumption|].
    split; [lia|]. intros; reflexivity.
  - cbn [map foldM].
    assert (Hwf : wf_array data).
    { destruct Hwf0 as [H1 H2]. split; [rewrite Hs; assumption|].
      rewrite Hs, Hl. assumption. }
    pose proof (chunk_ok_same_layout data0 data masked axesOrderSorted T nChan
                  rows ch Hwf0 Hs Hl Hch) as Hch'.
    destruct (items_step_writable keyType masked nChan rows axesOrderSorted T
                data buffer ys ch Hwf Hch' Hb HnChan)
      as (d1 & b1 & y & rs & sel & Hsel & Hstep & Hs1 & Hl1 & Hb1 & Hfr).
    rewrite Hstep. cbn [bind].
    destruct (IH d1 b1 (ys ++ [y]) ltac:(congruence) ltac:(congruence) Hb1)
      as (d2 & b2 & ys' & Hf & Hs2 & Hl2 & Hly & Hfr2).
    exists d2, b2, ys'. split; [assumption|]. split; [assumption|].
    split; [assumption|]. split.
    { rewrite Hly, length_app. cbn [List.length]. lia. }
    intros q Hq. rewrite Hfr2.
    + apply Hfr. rewrite Hs in Hsel.
      apply (Hq ch rs sel (or_introl eq_refl) Hsel).
    + intros ch' rs' sel' Hin. apply Hq. right. assumption.
Qed.

Lemma writable_view_run (data : ndarray A)
    (mask : option Mask) (nMca : Z) (mcaAxis : option Z)
    (mcaSlice : option slice) (axesOrder : option (list Z))
    (keyType : KeyType)
    (Hwf : wf_array data)
    (Hvalid : valid_axes (arr_shape data)
                         (view_kwargs mcaAxis mcaSlice axesOrder))
    (Hmask : mask_accepted (arr_shape data)
                           (view_kwargs mcaAxis mcaSlice axesOrder) mask)
    (Hfit : forall mk, mask = Some mk ->
              mask_fits (arr_shape data) nMca
                        (view_kwargs mcaAxis mcaSlice axesOrder) mk) :
  exists (v v' : @View A B) yielded chunks chunkAxes order nBuffer,
    MaskedView_init data mask (Some nMca) mcaAxis mcaSlice axesOrder false
      = Ok v /\
    maskedChunkIndex (arr_shape data) nMca mask
                     (view_kwargs mcaAxis mcaSlice axesOrder)
      = Ok (map Some chunks, chunkAxes, order, nBuffer) /\
    items_run cast_in cast_out garbage keyType consumer v
      = Ok (v', yielded) /\
    List.length yielded = List.length chunks /\
    arr_shape (v_data v') = arr_shape data /\
    forall q,
      (forall ch rshape sel,
         In ch chunks ->
         selection (arr_shape data) (fst (fst ch)) = Ok (rshape, sel) ->
         ~ In (Z.of_nat q) sel) ->
      nth_error (arr_data (v_data v')) q = nth_error (arr_data data) q.
Proof.
  set (ma := match mcaAxis with None => -1 | Some a => a end).
  set (ms := match mcaSlice with None => slice_all | Some s => s end).
  assert (Hkw : view_kwargs (Some ma) (Some ms) axesOrder
                = view_kwargs mcaAxis mcaSlice axesOrder) by reflexivity.
  destruct mask as [mk|].
  - destruct (masked_view_chunks data nMca mcaAxis mcaSlice axesOrder mk Hwf
                Hvalid Hmask (Hfit mk eq_refl))
      as (chunks & ca & ao & nChan & n2 & Hres & Hn2 & HnChan & Hpos & Hall).
    fold ma in Hn2. fold ms in HnChan.
    destruct (items_fold_writable keyType true nChan (Z.max nMca 1)
                (sorted ao)
                (match intListIndexAxis (arr_shape data) ao with
                 | Some 0 => [0; 1]
                 | _ => [1; 0]
                 end)
                data chunks Hwf Hall Hpos data
                (mkArray [Z.max nMca 1; nChan]
                   (repeat garbage (Z.to_nat (Z.max nMca 1 * nChan))))
                [] eq_refl eq_refl eq_refl)
      as (d' & b' & ys & Hf & Hs' & _ & Hl & Hfr).
    eexists _, _, ys, chunks, ca, ao, (Z.max nMca 1).
    split.
    { unfold MaskedView_init. cbn [bind]. fold ma ms. rewrite Hkw, Hres.
      cbn [bind]. rewrite Hn2. cbn [bind]. rewrite HnChan. reflexivity. }
    split; [exact Hres|]. split.
    { unfold items_run, items_generator, prepareAccess, numpy_empty.
      cbn [v_masked v_chunkIndex v_chunkAxes v_axesOrder v_data v_buffer
           v_bufferShape v_readonly bind snd negb].
      destruct (Z.max nMca 1 <? 0) eqn:E1; zbool; [lia|].
      destruct (nChan <? 0) eqn:E2; zbool; [lia|]. cbn [orb bind].
      rewrite Hf. cbn [bind]. reflexivity. }
    cbn [v_data]. split; [exact Hl|]. split; assumption.
  - destruct (dense_view_chunks data nMca mcaAxis mcaSlice axesOrder Hwf
                Hvalid)
      as (ci & ca & ao & nb & chunks & nChan & n2 & Hfull & Hprod & Hn2
          & HnChan & Hpos & Hnb & Hall).
    fold ma in Hn2. fold ms in HnChan.
    destruct (items_fold_writable keyType false nChan nb (sorted ao)
                (sorted ao ++ ca) data chunks Hwf Hall Hpos data
                (mkArray [nb; nChan] (repeat garbage (Z.to_nat (nb * nChan))))
                [] eq_refl eq_refl eq_refl)
      as (d' & b' & ys & Hf & Hs' & _ & Hl & Hfr).
    eexists _, _, ys, chunks, ca, ao, nb.
    split.
    { unfold MaskedView_init. cbn [bind]. fold ma ms. rewrite Hkw, Hfull.
      cbn [bind]. rewrite Hn2. cbn [bind]. rewrite HnChan. reflexivity. }
    split.
    { unfold maskedChunkIndex. rewrite Hfull. cbn [bind]. rewrite Hprod.
      reflexivity. }
    split.
    { unfold items_run, items_generator, prepareAccess, numpy_empty.
      cbn [v_masked v_chunkIndex v_chunkAxes v_axesOrder v_data v_buffer
           v_bufferShape v_readonly bind snd negb].
      rewrite Hprod. cbn [bind].
      destruct (nb <? 0) eqn:E1; zbool; [lia|].
      destruct (nChan <? 0) eqn:E2; zbool; [lia|]. cbn [orb bind].
      rewrite Hf. cbn [bind]. reflexivity. }
    cbn [v_data]. split; [exact Hl|]. split; assumption.
Qed.

(** X16: a writable view ([readonly=False]) over an in-memory array, dense
    or masked by index lists that fit the array, with any buffer type and
    any consumer that overwrites the yielded buffer views without resizing
    them: the iteration completes, the source keeps its shape, and an item
    of the source can only have changed if the index of some chunk of the
    plan selects its position. *)
Theorem writable_view_writes_only_selected (data : ndarray A)
    (mask : option Mask) (nMca : Z) (mcaAxis : option Z)
    (mcaSlice : option slice) (axesOrder : option (list Z))
    (keyType : KeyType)
    (Hwf : wf_array data)
    (Hvalid : valid_axes (arr_shape data)
                         (view_kwargs mcaAxis mcaSlice axesOrder))
    (Hmask : mask_accepted (arr_shape data)
                           (view_kwargs mcaAxis mcaSlice axesOrder) mask)
    (Hfit : forall mk, mask = Some mk ->
              mask_fits (arr_shape data) nMca
                        (view_kwargs mcaAxis mcaSlice axesOrder) mk) :
  exists (v v' : @View A B) yielded chunks chunkAxes order nBuffer,
    MaskedView_init data mask (Some nMca) mcaAxis mcaSlice axesOrder false
      = Ok v /\
    maskedChunkIndex (arr_shape data) nMca mask
                     (view_kwargs mcaAxis mcaSlice axesOrder)
      = Ok (map Some chunks, chunkAxes, order, nBuffer) /\
    items_run cast_in cast_out garbage keyType consumer v
      = Ok (v', yielded) /\
    List.length yielded = List.length chunks /\
    arr_shape (v_data v') = arr_shape data /\
    forall q,
      (forall ch rshape sel,
         In ch chunks ->
         selection (arr_shape data) (fst (fst ch)) = Ok (rshape, sel) ->
         ~ In (Z.of_nat q) sel) ->
      nth_error (arr_data (v_data v')) q = nth_error (arr_data data) q.
Proof.
  exact (writable_view_run data mask nMca mcaAxis mcaSlice axesOrder keyType
           Hwf Hvalid Hmask Hfit).
Qed.

End Writable.

Lemma writable_view_writes_only_selected_witness :
  exists (v v' : @View Z Z) yielded chunks chunkAxes order nBuffer,
    MaskedView_init data_20_10 None (Some 7) None None None false = Ok v /\
    maskedChunkIndex (arr_shape data_20_10) 7 None (view_kwargs None None None)
      = Ok (map Some chunks, chunkAxes, order, nBuffer) /\
    items_run int8_cast (fun x => x) 0 KeyAll
              (fun _ value => map (fun _ => 0) (arr_data value)) v
      = Ok (v', yielded) /\
    List.length yielded = List.length chunks /\
    arr_shape (v_data v') = arr_shape data_20_10 /\
    forall q,
      (forall ch rshape sel,
         In ch chunks ->
         selection (arr_shape data_20_10) (fst (fst ch)) = Ok (rshape, sel) ->
         ~ In (Z.of_nat q) sel) ->
      nth_error (arr_data (v_data v')) q = nth_error (arr_data data_20_10) q.
Proof.
  apply (writable_view_writes_only_selected int8_cast (fun x => x) 0
           (fun _ value => map (fun _ => 0) (arr_data value))
           (fun _ value => length_map (fun _ => 0) (arr_data value))
           data_20_10 None 7 None None None KeyAll).
  - split; [|reflexivity]. repeat (constructor; [lia|]). constructor.
  - apply (valid_kwargs_last_axis [20; 10]). discriminate.
  - exact I.
  - intros mk H. discriminate.
Defined.

(** ** Channels outside the channel slice *)

Lemma ravel_inj (shape c c' : list Z) :
  valid_coord shape c -> valid_coord shape c' ->
  ravel shape c = ravel shape c' -> c = c'.
Proof.
  unfold valid_coord. intros H. revert c'.
  induction H as [|n x s c Hx Hc IH]; intros c' H'; inversion H' as
    [|? x' ? c0 Hx' Hc']; subst; [reflexivity|].
  cbn [ravel]. intros Heq.
  pose proof (ravel_bound s c Hc) as Hb.
  pose proof (ravel_bound s c0 Hc') as Hb'.
  assert (x = x') by nia. subst x'.
  f_equal. apply IH; [assumption|lia].
Qed.

(** Every coordinate fixed by an item of a dimension of the result is one
    of the positions the index selects on that axis. *)
Lemma result_dims_positions (P : Z -> Z -> Prop)
    (sels : list (Z * axis_sel)) (dims : list (list (list (Z * Z)))) :
  (forall a s, In (a, s) sels -> Forall (P a) (sel_positions s)) ->
  result_dims sels = Ok dims ->
  forall d asg a x, In d dims -> In asg d -> In (a, x) asg -> P a x.
Proof.
  intros Hval Hd.
  set (sliced_dim := fun s : Z * axis_sel =>
         map (fun x => [(fst s, x)]) (sel_positions (snd s))).
  assert (Hsv : forall s asg a x,
             In s sels -> In asg (sliced_dim s) -> In (a, x) asg -> P a x).
  { intros [b sel] asg a x Hs Hasg Hax. unfold sliced_dim in Hasg.
    cbn [fst snd] in Hasg. apply in_map_iff in Hasg.
    destruct Hasg as (y & <- & Hy). destruct Hax as [Hax|[]].
    injection Hax as <- <-.
    pose proof (Hval b sel Hs) as Hall.
    rewrite Forall_forall in Hall. apply Hall. assumption. }
  unfold result_dims in Hd. fold sliced_dim in Hd.
  destruct (filter is_sel_list sels) as [|[a0 s0] adv'] eqn:Eadv.
  - injection Hd as <-. intros d asg a x Hin. apply in_map_iff in Hin.
    destruct Hin as (s & <- & Hs). apply Hsv. assumption.
  - rewrite <- Eadv in Hd.
    set (adv := filter is_sel_list sels) in *.
    set (L := fold_right Nat.max 0%nat
                (map (fun s : Z * axis_sel =>
                        List.length (sel_positions (snd s))) adv)) in *.
    destruct (forallb _ adv) eqn:Eall; cbn [negb] in Hd; [|discriminate].
    set (adv_dim := map (fun r => map _ adv) (seq 0 L)) in *.
    assert (Hadv : forall s, In s adv -> In s sels /\ is_sel_list s = true)
      by (intros s Hs; apply filter_In in Hs; exact Hs).
    assert (Hav : forall asg a x, In asg adv_dim -> In (a, x) asg -> P a x).
    { intros asg a x Hasg Hax. unfold adv_dim in Hasg.
      apply in_map_iff in Hasg. destruct Hasg as (r & <- & Hr).
      apply in_seq in Hr. apply in_map_iff in Hax.
      destruct Hax as ([b sel] & Heq & Hs). cbn [fst snd] in Heq.
      injection Heq as <- <-.
      pose proof (Hval b sel (proj1 (Hadv _ Hs))) as Hall.
      rewrite Forall_forall in Hall. apply Hall.
      rewrite forallb_forall in Eall. specialize (Eall _ Hs).
      cbn [snd] in Eall. apply nth_In.
      destruct (_ =? L)%nat eqn:E1.
      - apply Nat.eqb_eq in E1. lia.
      - cbn [orb] in Eall. apply Nat.eqb_eq in Eall. lia. }
    assert (Hsub : forall (f : Z * axis_sel -> bool) s,
               In s (filter f (filter (fun s => negb (is_sel_list s)) sels)) ->
               In s sels).
    { intros f s Hs. apply filter_In in Hs. destruct Hs as [Hs _].
      apply filter_In in Hs. apply Hs. }
    destruct (all_diff_one (map fst adv)); injection Hd as <-.
    + intros d asg a x Hin. apply in_app_or in Hin.
      destruct Hin as [Hin|[<-|Hin]]; [|apply Hav|].
      * apply in_map_iff in Hin. destruct Hin as (s & <- & Hs).
        apply Hsv. eapply Hsub; eassumption.
      * apply in_map_iff in Hin. destruct Hin as (s & <- & Hs).
        apply Hsv. eapply Hsub; eassumption.
    + intros d asg a x [<-|Hin]; [apply Hav|].
      apply in_map_iff in Hin. destruct Hin as (s & <- & Hs).
      apply Hsv. apply filter_In in Hs. apply Hs.
Qed.

(** The items an index selects lie, on an axis it slices, at the positions
    of the slice. *)
Lemma selection_slice_axis (shape : list Z) (idx : list index)
    (rshape sel : list Z) (k : nat) (n : Z) (s : slice) (l : list Z) :
  List.length idx = List.length shape ->
  selection shape idx = Ok (rshape, sel) ->
  nth_error shape k = Some n -> nth_error idx k = Some (ISlice s) ->
  expand s n = Ok l ->
  forall p, In p sel ->
    exists c, valid_coord shape c /\ p = ravel shape c /\ In (nth k c 0) l.
Proof.
  intros Hlen Hsel Hn Hk Hl p Hp. unfold selection in Hsel.
  destruct (resolve_index shape idx) as [sels|] eqn:Hr; [|discriminate].
  cbn [bind] in Hsel.
  destruct (result_dims sels) as [dims|] eqn:Hd; [|discriminate].
  cbn [bind] in Hsel. injection Hsel as _ <-.
  apply in_map_iff in Hp. destruct Hp as (t & <- & Ht).
  pose proof (resolve_index_ok _ _ _ Hr) as Hok.
  destruct (result_dims_ok _ _ _ Hok Hd) as [Hv Hc].
  pose proof (selection_coords_valid shape dims t Hv Hc Ht) as Hvalid.
  eexists. split; [exact Hvalid|]. split; [reflexivity|].
  assert (Hkl : (k < List.length shape)%nat)
    by (apply nth_error_Some; congruence).
  rewrite py_range_0_n, Nat2Z.id, map_map.
  rewrite (nth_indep _ 0 ((fun x => lookup_axis (Z.of_nat x) (List.concat t)) k))
    by (rewrite length_map, length_seq; assumption).
  rewrite (map_nth (fun x => lookup_axis (Z.of_nat x) (List.concat t))).
  rewrite seq_nth by assumption. cbn [Nat.add].
  assert (Hr0 : 0 <= Z.of_nat k < Z.of_nat (List.length shape)) by lia.
  destruct (Hc _ Hr0) as (d & Hdin & Hall).
  pose proof (product_In _ _ Ht) as Ht2.
  destruct (Forall2_In_r _ _ _ _ Ht2 Hdin) as (asg & Hasg & Hin).
  assert (Hfst : In (Z.of_nat k) (map fst (List.concat t))).
  { specialize (Hall _ Hin). apply in_map_iff in Hall.
    destruct Hall as (e & He & Hine). apply in_map_iff. exists e.
    split; [assumption|]. apply in_concat. exists asg. split; assumption. }
  apply lookup_axis_In in Hfst. apply in_concat in Hfst.
  destruct Hfst as (asg' & Hasg' & Hin').
  destruct (Forall2_In_l _ _ _ _ Ht2 Hasg') as (d' & Hd' & Hind').
  refine (result_dims_positions (fun a x => a = Z.of_nat k -> In x l)
            sels dims _ Hd d' asg' _ _ Hd' Hind' Hin' eq_refl).
  intros a s' Hs'. apply Forall_forall. intros x Hx ->.
  destruct (resolve_index_nth shape idx sels Hlen Hr) as (_ & Hnth).
  destruct (Hnth k n (ISlice s) Hn Hk) as (sel0 & Hsel0 & l0 & Hl0 & ->).
  rewrite Hl in Hl0. injection Hl0 as <-.
  apply nth_error_In in Hsel0.
  assert (Hnd : NoDup (map fst sels))
    by (rewrite (proj1 Hok); apply py_range_0_n_NoDup).
  rewrite (NoDup_map_fst_eq _ _ _ _ Hnd Hs' Hsel0) in Hx. exact Hx.
Qed.

(** Every chunk a view plans, dense or masked, has one index entry per
    dimension and carries the channel slice on the channel axis. *)
Lemma plan_channel_index (shape : list Z) (nMca : Z) (mcaAxis : option Z)
    (mcaSlice : option slice) (axesOrder : option (list Z))
    (mask : option Mask) (chunks : list Chunk) (ca ao : list Z) (nb : Z) :
  Forall (fun n => 0 <= n) shape ->
  valid_axes shape (view_kwargs mcaAxis mcaSlice axesOrder) ->
  mask_accepted shape (view_kwargs mcaAxis mcaSlice axesOrder) mask ->
  maskedChunkIndex shape nMca mask (view_kwargs mcaAxis mcaSlice axesOrder)
    = Ok (map Some chunks, ca, ao, nb) ->
  Forall (fun ch : Chunk =>
            List.length (fst (fst ch)) = List.length shape /\
            py_index (fst (fst ch))
              (norm_axis (Z.of_nat (List.length shape))
                 (match mcaAxis with None => -1 | Some a => a end))
            = Ok (ISlice (match mcaSlice with
                          | None => slice_all
                          | Some s => s
                          end))) chunks.
Proof.
  intros Hshape Hvalid Hmask Hres.
  set (kw := view_kwargs mcaAxis mcaSlice axesOrder) in *.
  set (ma := match mcaAxis with None => -1 | Some a => a end).
  set (ms := match mcaSlice with None => slice_all | Some s => s end).
  set (ma' := norm_axis (Z.of_nat (List.length shape)) ma).
  destruct mask as [mk|].
  - destruct Hmask as (Hndim & Hpos & Hne).
    destruct (mask_index mk) as [|first others] eqn:Hmi; [contradiction|].
    destruct (maskedChunkIndex_plan_full shape nMca kw mk first others Hshape
                Hvalid Hndim Hmi Hpos)
      as (ca0 & ao0 & sl & idxAxis0 & chunkShape0 & la & chunks0 & Hpar & Hpa
          & Hlao & Hl0 & Hidx0 & Hres0 & Hchunks & Hla & Hla1
          & _ & Hperm & Hca & Hsl).
    cbn in Hca, Hsl. fold ma in Hca. fold ms in Hsl. subst ca0 sl.
    fold ma' in Hpar, Hpa, Hidx0, Hperm.
    rewrite Hres0 in Hres. injection Hres as Heq _ _ _.
    apply map_Some_inj in Heq. subst chunks0.
    pose proof (pa_chunk_range _ _ _ _ Hpa) as Hcr.
    inversion Hcr as [|? ? Hma' _]; subst.
    apply Forall_forall. intros ch Hch.
    destruct (Forall2_In_r _ _ _ _ Hchunks Hch)
      as (p & _ & (_ & Hlen & _ & Hkeep & _)).
    split; [congruence|].
    rewrite Hkeep.
    + apply Hidx0. left. reflexivity.
    + lia.
    + intros Hx. apply (Permutation_in _ Hperm) in Hx.
      apply other_axes_In in Hx. destruct Hx as [_ Hn]. apply Hn.
      left. reflexivity.
  - destruct (fullChunkIndex_plan shape nMca kw Hshape Hvalid)
      as (ca0 & ao0 & sl & ci1 & nm & piecesL & chunks0 & Hpar & Hpa & Hci1
          & _ & _ & _ & _ & Hfull & Hprod & Hchunks).
    destruct (chunkIndexParameters_ok shape nMca kw Hvalid)
      as (ca' & ao' & sl' & Hpar' & Hca & Hsl & _ & _).
    rewrite Hpar in Hpar'. injection Hpar' as <- <- <-.
    cbn in Hca, Hsl. fold ma in Hca. fold ms in Hsl. subst ca0 sl.
    fold ma' in Hpar, Hpa, Hci1, Hfull, Hprod, Hchunks.
    unfold maskedChunkIndex in Hres. rewrite Hfull in Hres.
    cbn [bind] in Hres. rewrite Hprod in Hres. cbn [bind] in Hres.
    injection Hres as Heq _ _ _. apply map_Some_inj in Heq. subst chunks0.
    cbn [combine] in Hci1.
    inversion Hci1 as [|? l1 ? ? (n & len & _ & _ & _ & Hl1) Hrest]; subst.
    inversion Hrest; subst. cbn [fst snd app] in *.
    pose proof (pa_all _ _ _ _ Hpa) as Hall.
    cbn [List.length Nat.add] in Hall.
    apply Forall_forall. intros ch Hch.
    destruct (Forall2_In_r _ _ _ _ Hchunks Hch)
      as (t & Ht & (Hlen & _ & Hidx & _)).
    split.
    { rewrite Hlen. cbn [List.length]. rewrite length_rev. assumption. }
    apply product_In in Ht.
    inversion Ht as [|x ? t' ? Hx _]; subst.
    destruct Hx as [<-|[]].
    destruct (Hidx ma' (ms, len)) as [H _]; [left; reflexivity|exact H].
Qed.

Section OtherChannels.

Context {A B : Type}.
Variable cast_in : A -> B.
Variable cast_out : B -> A.
Variable garbage : B.
Variable consumer : Key -> ndarray B -> list B.
Hypothesis consumer_length :
  forall key value,
    List.length (consumer key value) = List.length (arr_data value).

(** X17: a writable view never touches a channel outside its channel
    slice.  For a view over an in-memory array, dense or masked by index
    lists that fit the array, with any buffer type and any consumer that
    keeps the size of the yielded buffer views: after the iteration, the
    item at any coordinates [c] whose position on the channel axis is not
    one the channel slice selects is the item the source held before. *)
Theorem writable_view_keeps_other_channels (data : ndarray A)
    (mask : option Mask) (nMca : Z) (mcaAxis : option Z)
    (mcaSlice : option slice) (axesOrder : option (list Z))
    (keyType : KeyType)
    (Hwf : wf_array data)
    (Hvalid : valid_axes (arr_shape data)
                         (view_kwargs mcaAxis mcaSlice axesOrder))
    (Hmask : mask_accepted (arr_shape data)
                           (view_kwargs mcaAxis mcaSlice axesOrder) mask)
    (Hfit : forall mk, mask = Some mk ->
              mask_fits (arr_shape data) nMca
                        (view_kwargs mcaAxis mcaSlice axesOrder) mk) :
  exists (v v' : @View A B) yielded nChanOrg channels,
    MaskedView_init data mask (Some nMca) mcaAxis mcaSlice axesOrder false
      = Ok v /\
    items_run cast_in cast_out garbage keyType consumer v
      = Ok (v', yielded) /\
    py_index (arr_shape data)
             (match mcaAxis with None => -1 | Some a => a end)
      = Ok nChanOrg /\
    expand (match mcaSlice with None => slice_all | Some s => s end) nChanOrg
      = Ok channels /\
    forall c,
      valid_coord (arr_shape data) c ->
      ~ In (nth (Z.to_nat
                   (norm_axis (Z.of_nat (List.length (arr_shape data)))
                      (match mcaAxis with None => -1 | Some a => a end)))
                c 0) channels ->
      py_index (arr_data (v_data v')) (ravel (arr_shape data) c)
      = py_index (arr_data data) (ravel (arr_shape data) c).
Proof.
  set (ma := match mcaAxis with None => -1 | Some a => a end).
  set (ms := match mcaSlice with None => slice_all | Some s => s end).
  set (shape := arr_shape data).
  set (ma' := norm_axis (Z.of_nat (List.length shape)) ma).
  pose proof Hwf as [Hshape _]. fold shape in Hshape.
  destruct (writable_view_run cast_in cast_out garbage consumer
              consumer_length data mask nMca mcaAxis mcaSlice axesOrder
              keyType Hwf Hvalid Hmask Hfit)
    as (v & v' & ys & chunks & ca & ao & nb & Hinit & Hplan & Hrun & _ & _
        & Hframe).
  pose proof (plan_channel_index shape nMca mcaAxis mcaSlice axesOrder mask
                chunks ca ao nb Hshape Hvalid Hmask Hplan) as Hidx.
  fold ma ms ma' in Hidx.
  assert (Hma : axis_in_range (Z.of_nat (List.length shape)) ma).
  { pose proof (va_chunk_range _ _ Hvalid) as H. cbn in H.
    inversion H; subst. assumption. }
  destruct (py_index_in_range shape ma Hma) as (n2 & Hn2 & Hin2).
  assert (Hn2' : py_index shape ma' = Ok n2)
    by (unfold ma'; rewrite py_index_norm_axis; assumption).
  assert (Hma' : 0 <= ma' < Z.of_nat (List.length shape)).
  { unfold ma', norm_axis. unfold axis_in_range in Hma.
    destruct (ma <? 0) eqn:E; zbool; lia. }
  assert (Hn2pos : 0 <= n2)
    by (rewrite Forall_forall in Hshape; apply Hshape; assumption).
  assert (Hstep : slice_step ms <> Some 0).
  { pose proof (va_slices _ _ Hvalid) as H. cbn in H.
    subst ms. destruct mcaSlice as [s|]; [|discriminate].
    destruct H as [_ H]. inversion H; subst. assumption. }
  destruct (expand_ok ms n2 Hstep Hn2pos) as (start & stop & step & _ & Hl).
  exists v, v', ys, n2, (py_range start stop step).
  split; [exact Hinit|]. split; [exact Hrun|]. split; [exact Hn2|].
  split; [exact Hl|].
  intros c Hc Hout.
  pose proof (ravel_bound _ _ Hc) as Hb.
  rewrite !py_index_nonneg by lia.
  rewrite Hframe; [reflexivity|].
  intros ch rshape sel Hch Hsel Hq. rewrite Z2Nat.id in Hq by lia.
  rewrite Forall_forall in Hidx. destruct (Hidx ch Hch) as [Hlen Hsl].
  rewrite py_index_nonneg in Hsl by lia.
  rewrite py_index_nonneg in Hn2' by lia.
  destruct (nth_error (fst (fst ch)) (Z.to_nat ma')) as [e|] eqn:He;
    [|discriminate].
  injection Hsl as ->.
  destruct (nth_error shape (Z.to_nat ma')) as [n|] eqn:Hn; [|discriminate].
  injection Hn2' as ->.
  destruct (selection_slice_axis shape (fst (fst ch)) rshape sel
              (Z.to_nat ma') n2 ms (py_range start stop step) Hlen Hsel Hn He
              Hl _ Hq)
    as (c' & Hc' & Heq & Hin).
  apply (ravel_inj shape c c' Hc Hc') in Heq. subst c'.
  apply Hout. exact Hin.
Qed.

End OtherChannels.

Lemma writable_view_keeps_other_channels_witness :
  exists (v v' : @View Z Z) yielded nChanOrg channels,
    MaskedView_init data_20_10 None (Some 7) None
                    (Some (mkSlice (Some 2) (Some 8) (Some 3))) None false
      = Ok v /\
    items_run int8_cast (fun x => x) 0 KeyAll
              (fun _ value => map (fun _ => 0) (arr_data value)) v
      = Ok (v', yielded) /\
    py_index (arr_shape data_20_10) (-1) = Ok nChanOrg /\
    expand (mkSlice (Some 2) (Some 8) (Some 3)) nChanOrg = Ok channels /\
    forall c,
      valid_coord (arr_shape data_20_10) c ->
      ~ In (nth (Z.to_nat
                   (norm_axis (Z.of_nat (List.length (arr_shape data_20_10)))
                      (-1)))
                c 0) channels ->
      py_index (arr_data (v_data v')) (ravel (arr_shape data_20_10) c)
      = py_index (arr_data data_20_10) (ravel (arr_shape data_20_10) c).
Proof.
  apply (writable_view_keeps_other_channels int8_cast (fun x => x) 0
           (fun _ value => map (fun _ => 0) (arr_data value))
           (fun _ value => length_map (fun _ => 0) (arr_data value))
           data_20_10 None 7 None
           (Some (mkSlice (Some 2) (Some 8) (Some 3))) None KeyAll).
  - split; [|reflexivity]. repeat (constructor; [lia|]). constructor.
  - constructor; cbn.
    + constructor; [unfold axis_in_range; cbn; lia|constructor].
    + constructor; [intros []|constructor].
    + split; [reflexivity|]. constructor; [discriminate|constructor].
    + exact I.
  - exact I.
  - intros mk H. discriminate.
Defined.

(** ** Spectra outside the mask *)

Lemma lookup_axis_app_notin (a : Z) (l1 l2 : list (Z * Z)) :
  ~ In a (map fst l1) -> lookup_axis a (l1 ++ l2) = lookup_axis a l2.
Proof.
  induction l1 as [|[b x] l1 IH]; cbn [map fst app lookup_axis];
    intros H; [reflexivity|].
  destruct (a =? b) eqn:E; zbool.
  - exfalso. apply H. left. congruence.
  - apply IH. intros Hin. apply H. right. assumption.
Qed.

Lemma lookup_axis_app_in (a : Z) (l1 l2 : list (Z * Z)) :
  In a (map fst l1) -> lookup_axis a (l1 ++ l2) = lookup_axis a l1.
Proof.
  induction l1 as [|[b x] l1 IH]; cbn [map fst app lookup_axis];
    intros H; [contradiction|].
  destruct (a =? b) eqn:E; zbool; [reflexivity|].
  apply IH. destruct H as [H|H]; [congruence|assumption].
Qed.

Lemma lookup_axis_map {X} (f : Z * X -> Z) (l : list (Z * X)) (s : Z * X) :
  NoDup (map fst l) -> In s l ->
  lookup_axis (fst s) (map (fun s => (fst s, f s)) l) = f s.
Proof.
  induction l as [|s' l IH]; cbn [map fst lookup_axis]; intros Hnd Hin;
    [contradiction|].
  inversion Hnd as [|? ? Hnotin Hnd']; subst.
  destruct (fst s =? fst s') eqn:E; zbool.
  - destruct Hin as [->|Hin]; [reflexivity|].
    exfalso. apply Hnotin. rewrite <- E. apply in_map. assumption.
  - destruct Hin as [->|Hin]; [congruence|]. apply IH; assumption.
Qed.

Lemma NoDup_map_filter {X Y} (f : X -> Y) (g : X -> bool) (l : list X) :
  NoDup (map f l) -> NoDup (map f (filter g l)).
Proof.
  induction l as [|x l IH]; cbn [map filter]; intros H; [constructor|].
  inversion H as [|? ? Hnotin Hnd]; subst.
  destruct (g x); [|apply IH; assumption].
  cbn [map]. constructor; [|apply IH; assumption].
  intros Hin. apply Hnotin. apply in_map_iff in Hin.
  destruct Hin as (y & Hy & Hyin). apply filter_In in Hyin.
  apply in_map_iff. exists y. split; [assumption|apply Hyin].
Qed.

(** Integer lists of one length are read together: every item of the
    result takes, on all the axes indexed by a list, the entries the lists
    hold at one and the same rank. *)
Lemma result_dims_rows (sels : list (Z * axis_sel))
    (dims : list (list (list (Z * Z)))) (cnt : nat) :
  NoDup (map fst sels) ->
  (forall a p, In (a, SelList p) sels -> List.length p = cnt) ->
  result_dims sels = Ok dims ->
  forall t, In t (product dims) ->
    exists r, forall a p, In (a, SelList p) sels ->
      (r < cnt)%nat /\ lookup_axis a (List.concat t) = nth r p 0.
Proof.
  intros Hnd Hcnt Hd t Ht.
  set (sliced_dim := fun s : Z * axis_sel =>
         map (fun x => [(fst s, x)]) (sel_positions (snd s))).
  unfold result_dims in Hd. fold sliced_dim in Hd.
  destruct (filter is_sel_list sels) as [|[a0 s0] adv'] eqn:Eadv.
  - exists 0%nat. intros a p Hin. exfalso.
    assert (H : In (a, SelList p) (filter is_sel_list sels))
      by (apply filter_In; split; [assumption|reflexivity]).
    rewrite Eadv in H. exact H.
  - assert (Hne : filter is_sel_list sels <> []) by (rewrite Eadv; discriminate).
    rewrite <- Eadv in Hd.
    set (adv := filter is_sel_list sels) in *.
    assert (Hadv : forall s, In s adv ->
              List.length (sel_positions (snd s)) = cnt).
    { intros [a s] Hs. apply filter_In in Hs. destruct Hs as [Hs Hl].
      destruct s as [p|p]; [discriminate|]. apply (Hcnt a p Hs). }
    rewrite (fold_max_const _ adv cnt Hne Hadv) in Hd.
    destruct (forallb _ adv) eqn:Eall; cbn [negb] in Hd; [|discriminate].
    set (adv_dim := map (fun r => map _ adv) (seq 0 cnt)) in *.
    set (is_sliced := fun d : list (list (Z * Z)) =>
           exists s, In s sels /\ is_sel_list s = false /\ d = sliced_dim s).
    assert (K : forall D1 D2,
              Forall is_sliced D1 -> Forall is_sliced D2 ->
              In t (product (D1 ++ adv_dim :: D2)) ->
              exists r, forall a p, In (a, SelList p) sels ->
                (r < cnt)%nat /\ lookup_axis a (List.concat t) = nth r p 0).
    { intros D1 D2 HD1 HD2 Hin. apply product_In in Hin.
      apply Forall2_app_inv_r in Hin.
      destruct Hin as (t1 & t2' & Ht1 & Ht2 & ->).
      inversion Ht2 as [|asg ? t2 ? Hasg _]; subst.
      unfold adv_dim in Hasg. apply in_map_iff in Hasg.
      destruct Hasg as (r & <- & Hr). apply in_seq in Hr.
      exists r. intros a p Hap. split; [lia|].
      rewrite concat_app. cbn [List.concat].
      rewrite lookup_axis_app_notin.
      - assert (Hin : In (a, SelList p) adv)
          by (apply filter_In; split; [assumption|reflexivity]).
        rewrite lookup_axis_app_in.
        + rewrite (lookup_axis_map _ adv (a, SelList p)
                     (NoDup_map_filter _ _ _ Hnd) Hin).
          cbn [snd sel_positions]. rewrite (Hcnt a p Hap), Nat.eqb_refl.
          reflexivity.
        + rewrite map_map. cbn [fst]. apply in_map_iff.
          exists (a, SelList p). split; [reflexivity|assumption].
      - intros Hin. apply in_map_iff in Hin.
        destruct Hin as ([a' x] & Ha' & Hin). cbn [fst] in Ha'. subst a'.
        apply in_concat in Hin. destruct Hin as (asg1 & Hasg1 & Hin1).
        destruct (Forall2_In_l _ _ _ _ Ht1 Hasg1) as (d & Hdin & Hind).
        rewrite Forall_forall in HD1.
        destruct (HD1 d Hdin) as ([b s] & Hs & Hns & ->).
        unfold sliced_dim in Hind. cbn [fst snd] in Hind.
        apply in_map_iff in Hind. destruct Hind as (y & <- & _).
        destruct Hin1 as [Heq|[]]. injection Heq as -> _.
        rewrite (NoDup_map_fst_eq _ _ _ _ Hnd Hs Hap) in Hns.
        discriminate. }
    assert (Hbase : forall s,
              In s (filter (fun s => negb (is_sel_list s)) sels) ->
              is_sliced (sliced_dim s)).
    { intros s Hs. apply filter_In in Hs. destruct Hs as [Hs Hn].
      exists s. split; [assumption|]. split; [|reflexivity].
      apply negb_true_iff. assumption. }
    assert (Hsl : forall f,
              Forall is_sliced
                (map sliced_dim
                   (filter f (filter (fun s => negb (is_sel_list s)) sels)))).
    { intros f. apply Forall_forall. intros d Hdin.
      apply in_map_iff in Hdin. destruct Hdin as (s & <- & Hs).
      apply filter_In in Hs. apply Hbase. apply Hs. }
    destruct (all_diff_one (map fst adv)); injection Hd as <-.
    + apply (K _ _ (Hsl _) (Hsl _) Ht).
    + refine (K [] _ (Forall_nil _) _ Ht).
      apply Forall_forall. intros d Hdin.
      apply in_map_iff in Hdin. destruct Hdin as (s & <- & Hs).
      apply Hbase. assumption.
Qed.

Lemma index_select_list_nth (ks p : list Z) (n : Z) (r : nat) (x : Z) :
  index_select (IList ks) n = Ok p -> nth_error ks r = Some x ->
  nth_error p r = Some (norm_axis n x).
Proof.
  cbn [index_select]. intros H Hx. apply mapM_Forall2 in H.
  destruct (Forall2_nth_error_l _ _ _ _ _ H Hx) as (y & Hy & Hf).
  rewrite Hy. f_equal. unfold norm_axis.
  destruct (_ && _); [|discriminate]. congruence.
Qed.

(** The items an index selects lie, on the axes it indexes by integer
    lists of one length, at the entries the lists hold at one rank. *)
Lemma selection_list_rows (shape : list Z) (idx : list index)
    (rshape sel : list Z) (cnt : nat) :
  List.length idx = List.length shape ->
  selection shape idx = Ok (rshape, sel) ->
  (forall k ks, nth_error idx k = Some (IList ks) -> List.length ks = cnt) ->
  forall p, In p sel ->
    exists c r,
      valid_coord shape c /\ p = ravel shape c /\
      forall k n ks,
        nth_error shape k = Some n -> nth_error idx k = Some (IList ks) ->
        exists x, nth_error ks r = Some x /\ nth k c 0 = norm_axis n x.
Proof.
  intros Hlen Hsel Hcnt p Hp. unfold selection in Hsel.
  destruct (resolve_index shape idx) as [sels|] eqn:Hr; [|discriminate].
  cbn [bind] in Hsel.
  destruct (result_dims sels) as [dims|] eqn:Hd; [|discriminate].
  cbn [bind] in Hsel. injection Hsel as _ <-.
  apply in_map_iff in Hp. destruct Hp as (t & <- & Ht).
  pose proof (resolve_index_ok _ _ _ Hr) as Hok.
  destruct (result_dims_ok _ _ _ Hok Hd) as [Hv Hc].
  pose proof (selection_coords_valid shape dims t Hv Hc Ht) as Hvalid.
  destruct (resolve_index_nth shape idx sels Hlen Hr) as (Hls & Hnth).
  assert (Hnd : NoDup (map fst sels))
    by (rewrite (proj1 Hok); apply py_range_0_n_NoDup).
  assert (Hlists : forall a q, In (a, SelList q) sels -> List.length q = cnt).
  { intros a q Hin. apply In_nth_error in Hin. destruct Hin as (k & Hk).
    assert (Hkl : (k < List.length shape)%nat)
      by (rewrite <- Hls; apply nth_error_Some; congruence).
    destruct (nth_error shape k) as [n|] eqn:Hn;
      [|apply nth_error_None in Hn; lia].
    destruct (nth_error idx k) as [e|] eqn:He;
      [|apply nth_error_None in He; lia].
    destruct (Hnth k n e Hn He) as (sel0 & Hsel0 & Hcase).
    rewrite Hk in Hsel0. injection Hsel0 as _ <-.
    destruct e as [|s|ks]; [contradiction| |].
    - destruct Hcase as (l & _ & Heq). discriminate.
    - destruct Hcase as (q' & Hq' & Heq). injection Heq as <-.
      cbn [index_select] in Hq'. rewrite (mapM_length _ _ _ Hq').
      apply (Hcnt k ks He). }
  destruct (result_dims_rows sels dims cnt Hnd Hlists Hd t Ht) as (r & Hrow).
  eexists. exists r. split; [exact Hvalid|]. split; [reflexivity|].
  intros k n ks Hn Hk.
  assert (Hkl : (k < List.length shape)%nat)
    by (apply nth_error_Some; congruence).
  rewrite py_range_0_n, Nat2Z.id, map_map.
  rewrite (nth_indep _ 0 ((fun x => lookup_axis (Z.of_nat x) (List.concat t)) k))
    by (rewrite length_map, length_seq; assumption).
  rewrite (map_nth (fun x => lookup_axis (Z.of_nat x) (List.concat t))).
  rewrite seq_nth by assumption. cbn [Nat.add].
  destruct (Hnth k n (IList ks) Hn Hk) as (sel0 & Hsel0 & q & Hq & ->).
  destruct (Hrow (Z.of_nat k) q (nth_error_In _ _ Hsel0)) as [Hrc Hlook].
  rewrite Hlook.
  assert (Hlk : List.length ks = cnt) by (apply (Hcnt k ks Hk)).
  destruct (nth_error ks r) as [x|] eqn:Hx;
    [|apply nth_error_None in Hx; lia].
  exists x. split; [reflexivity|].
  apply nth_error_nth. apply (index_select_list_nth ks q n r x Hq Hx).
Qed.

Lemma nth_error_firstn_skipn {X} (l : list X) (a b r : nat) (x : X) :
  nth_error (firstn b (skipn a l)) r = Some x ->
  nth_error l (a + r) = Some x.
Proof.
  intros H. rewrite nth_error_firstn in H.
  destruct (r <? b)%nat; [|discriminate].
  rewrite nth_error_skipn in H. exact H.
Qed.

(** The chunks of a masked view: every index has one entry per dimension;
    its integer lists have one length, and the list of an order axis is a
    run of the index list the mask gives for that axis, the same run for
    all order axes. *)
Lemma masked_plan_rows (shape : list Z) (nMca : Z) (mcaAxis : option Z)
    (mcaSlice : option slice) (axesOrder : option (list Z)) (mk : Mask)
    (chunks : list Chunk) (ca ao : list Z) (nb : Z) :
  Forall (fun n => 0 <= n) shape ->
  valid_axes shape (view_kwargs mcaAxis mcaSlice axesOrder) ->
  mask_accepted shape (view_kwargs mcaAxis mcaSlice axesOrder) (Some mk) ->
  mask_fits shape nMca (view_kwargs mcaAxis mcaSlice axesOrder) mk ->
  maskedChunkIndex shape nMca (Some mk)
                   (view_kwargs mcaAxis mcaSlice axesOrder)
    = Ok (map Some chunks, ca, ao, nb) ->
  Forall (fun ch : Chunk =>
            List.length (fst (fst ch)) = List.length shape /\
            exists off cnt : nat,
              (forall k ks, nth_error (fst (fst ch)) k = Some (IList ks) ->
                 List.length ks = cnt) /\
              (forall a ind, In (a, ind) (combine ao (mask_index mk)) ->
                 0 <= a /\
                 nth_error (fst (fst ch)) (Z.to_nat a)
                 = Some (IList (firstn cnt (skipn off ind))))) chunks.
Proof.
  intros Hshape Hvalid (Hndim & Hpos & Hne) Hfit Hres.
  set (kw := view_kwargs mcaAxis mcaSlice axesOrder) in *.
  set (ma := match mcaAxis with None => -1 | Some a => a end).
  set (ms := match mcaSlice with None => slice_all | Some s => s end).
  set (ma' := norm_axis (Z.of_nat (List.length shape)) ma).
  assert (Hmi : exists first others, mask_index mk = first :: others).
  { destruct (mask_index mk) as [|first others]; [contradiction|].
    exists first, others. reflexivity. }
  destruct Hmi as (first & others & Hmi).
  destruct (maskedChunkIndex_plan_full shape nMca kw mk first others Hshape
              Hvalid Hndim Hmi Hpos)
    as (ca0 & ao0 & sl & idxAxis0 & chunkShape0 & la & chunks0 & Hpar & Hpa
        & Hlao & Hl0 & Hidx0 & Hres0 & Hchunks & Hla & Hla1
        & _ & Hperm & Hca & Hsl).
  cbn in Hca, Hsl. fold ma in Hca. fold ms in Hsl. subst ca0 sl.
  fold ma' in Hpar, Hpa, Hidx0, Hperm.
  rewrite Hres0 in Hres. injection Hres as Heq _ <- _.
  apply map_Some_inj in Heq. subst chunks0.
  destruct Hfit as (c & ca' & ao' & sl' & m & Hpar' & Hf2 & Hsame).
  fold kw in Hpar'. rewrite Hpar in Hpar'. injection Hpar' as <- <- <- <-.
  assert (Hm : List.length first = m).
  { rewrite Forall_forall in Hsame. apply Hsame. rewrite Hmi. left.
    reflexivity. }
  subst m.
  pose proof (pa_chunk_range _ _ _ _ Hpa) as Hcr.
  inversion Hcr as [|? ? Hma' _]; subst.
  pose proof (pa_order_range _ _ _ _ Hpa) as Hor.
  assert (Hin : forall x, In x ao0 <->
                  0 <= x < Z.of_nat (List.length shape) /\ x <> ma').
  { intros x. split.
    - intros Hx. apply (Permutation_in _ Hperm) in Hx.
      apply other_axes_In in Hx. destruct Hx as [Hr Hn].
      split; [assumption|]. intros ->. apply Hn. left. reflexivity.
    - intros [Hr Hn]. apply (Permutation_in _ (Permutation_sym Hperm)).
      apply other_axes_In. split; [assumption|]. intros [H|[]]. congruence. }
  apply Forall_forall. intros ch Hch.
  destruct (Forall2_In_r _ _ _ _ Hchunks Hch) as (p & Hp & Hof).
  apply in_map_iff in Hp. destruct Hp as (k & <- & Hk). apply in_seq in Hk.
  destruct Hof as (_ & Hlen & Hlists & Hkeep & _).
  unfold gen_piece in Hlists. cbn [fst snd] in Hlists.
  assert (Hc : 0 < Z.max nMca 1) by lia.
  pose proof (gen_count_lt _ _ _ Hc (proj2 Hk)) as Ha.
  set (a := Z.of_nat k * Z.max nMca 1) in *.
  set (b := Z.min (a + Z.max nMca 1) (Z.of_nat (List.length first))) in *.
  assert (Hab : 0 <= a <= b /\ b <= Z.of_nat (List.length first))
    by (subst a b; nia).
  assert (Hsub : forall axis ind,
            In (axis, ind) (combine ao0 (mask_index mk)) ->
            py_index (fst (fst ch)) axis
            = Ok (IList (firstn (Z.to_nat (b - a)) (skipn (Z.to_nat a) ind)))).
  { intros axis ind Hc0. destruct (Hlists _ _ Hc0) as (sub & Hsub & Hisub).
    rewrite Forall_forall in Hsame.
    pose proof (Hsame ind (in_combine_r _ _ _ _ Hc0)) as Hlind.
    rewrite py_getslice_unit in Hsub by lia. injection Hsub as <-.
    exact Hisub. }
  split; [congruence|].
  exists (Z.to_nat a), (Z.to_nat (b - a)). split.
  - intros k0 ks Hk0.
    assert (Hk0l : (k0 < List.length shape)%nat)
      by (rewrite <- Hl0, <- Hlen; apply nth_error_Some; congruence).
    destruct (Z.eq_dec (Z.of_nat k0) ma') as [E|E].
    + assert (H : py_index (fst (fst ch)) (Z.of_nat k0) = Ok (ISlice ms)).
      { rewrite E, Hkeep; [apply Hidx0; left; reflexivity|lia|].
        intros H. apply Hin in H. lia. }
      apply py_index_nth_error in H. congruence.
    + assert (Hi : In (Z.of_nat k0) ao0) by (apply Hin; lia).
      apply In_nth_error in Hi. destruct Hi as (j & Hj).
      destruct (Forall2_nth_error_l _ _ _ _ _ Hf2 Hj) as (ind & Hind & _).
      pose proof (nth_error_In _ _
                    (nth_error_combine_Some _ _ _ _ _ Hj Hind)) as Hcomb.
      pose proof (Hsub _ _ Hcomb) as H. apply py_index_nth_error in H.
      rewrite Hk0 in H. injection H as ->.
      rewrite Forall_forall in Hsame.
      pose proof (Hsame ind (nth_error_In _ _ Hind)) as Hlind.
      rewrite length_firstn, length_skipn. lia.
  - intros axis ind Hc0.
    assert (Hax : 0 <= axis).
    { rewrite Forall_forall in Hor.
      apply (Hor axis (in_combine_l _ _ _ _ Hc0)). }
    split; [assumption|].
    apply py_index_nth_error. rewrite Z2Nat.id by lia.
    apply (Hsub _ _ Hc0).
Qed.

Section OtherSpectra.

Context {A B : Type}.
Variable cast_in : A -> B.
Variable cast_out : B -> A.
Variable garbage : B.
Variable consumer : Key -> ndarray B -> list B.
Hypothesis consumer_length :
  forall key value,
    List.length (consumer key value) = List.length (arr_data value).

(** X18: a writable masked view never touches a spectrum outside its
    mask.  For a mask whose index lists fit the array (a boolean mask is
    read through [nonzero]), any buffer type and any consumer that keeps
    the size of the yielded buffer views: after the iteration, the item at
    coordinates [c] is the one the source held before, unless some rank [r]
    of the index lists addresses the spectrum of [c], that is, unless on
    every order axis [c] has the position the list of that axis holds at
    [r]. *)
Theorem writable_masked_view_keeps_other_spectra (data : ndarray A)
    (mk : Mask) (nMca : Z) (mcaAxis : option Z)
    (mcaSlice : option slice) (axesOrder : option (list Z))
    (keyType : KeyType)
    (Hwf : wf_array data)
    (Hvalid : valid_axes (arr_shape data)
                         (view_kwargs mcaAxis mcaSlice axesOrder))
    (Hmask : mask_accepted (arr_shape data)
                           (view_kwargs mcaAxis mcaSlice axesOrder) (Some mk))
    (Hfit : mask_fits (arr_shape data) nMca
                      (view_kwargs mcaAxis mcaSlice axesOrder) mk) :
  exists (v v' : @View A B) yielded chunks chunkAxes order nBuffer,
    MaskedView_init data (Some mk) (Some nMca) mcaAxis mcaSlice axesOrder
                    false
      = Ok v /\
    maskedChunkIndex (arr_shape data) nMca (Some mk)
                     (view_kwargs mcaAxis mcaSlice axesOrder)
      = Ok (map Some chunks, chunkAxes, order, nBuffer) /\
    items_run cast_in cast_out garbage keyType consumer v
      = Ok (v', yielded) /\
    forall c,
      valid_coord (arr_shape data) c ->
      (forall r, ~ mask_row (arr_shape data) order (mask_index mk) r c) ->
      py_index (arr_data (v_data v')) (ravel (arr_shape data) c)
      = py_index (arr_data data) (ravel (arr_shape data) c).
Proof.
  set (shape := arr_shape data).
  pose proof Hwf as [Hshape _]. fold shape in Hshape.
  assert (Hfit' : forall mk', Some mk = Some mk' ->
            mask_fits (arr_shape data) nMca
                      (view_kwargs mcaAxis mcaSlice axesOrder) mk')
    by (intros mk' [= <-]; exact Hfit).
  destruct (writable_view_run cast_in cast_out garbage consumer
              consumer_length data (Some mk) nMca mcaAxis mcaSlice axesOrder
              keyType Hwf Hvalid Hmask Hfit')
    as (v & v' & ys & chunks & ca & ao & nb & Hinit & Hplan & Hrun & _ & _
        & Hframe).
  pose proof (masked_plan_rows shape nMca mcaAxis mcaSlice axesOrder mk
                chunks ca ao nb Hshape Hvalid Hmask Hfit Hplan) as Hrows.
  exists v, v', ys, chunks, ca, ao, nb.
  split; [exact Hinit|]. split; [exact Hplan|]. split; [exact Hrun|].
  intros c Hc Hout.
  pose proof (ravel_bound _ _ Hc) as Hb.
  rewrite !py_index_nonneg by lia.
  rewrite Hframe; [reflexivity|].
  intros ch rshape sel Hch Hsel Hq. rewrite Z2Nat.id in Hq by lia.
  rewrite Forall_forall in Hrows.
  destruct (Hrows ch Hch) as (Hlen & off & cnt & Hl & Hao).
  destruct (selection_list_rows shape (fst (fst ch)) rshape sel cnt Hlen Hsel
              Hl _ Hq)
    as (c' & r & Hc' & Heq & Hrow).
  apply (ravel_inj shape c c' Hc Hc') in Heq. subst c'.
  apply (Hout (off + r)%nat). intros a ind Hin.
  destruct (Hao a ind Hin) as [Ha Hidx].
  assert (Hal : (Z.to_nat a < List.length shape)%nat)
    by (rewrite <- Hlen; apply nth_error_Some; congruence).
  destruct (nth_error shape (Z.to_nat a)) as [n|] eqn:Hn;
    [|apply nth_error_None in Hn; lia].
  destruct (Hrow (Z.to_nat a) n _ Hn Hidx) as (x & Hx & Hcx).
  exists x, n. split; [apply (nth_error_firstn_skipn _ _ _ _ _ Hx)|].
  split; [|exact Hcx].
  rewrite py_index_nonneg by lia. fold shape. rewrite Hn. reflexivity.
Qed.

End OtherSpectra.

Lemma writable_masked_view_keeps_other_spectra_witness :
  exists (v v' : @View Z Z) yielded chunks chunkAxes order nBuffer,
    MaskedView_init data_20_10 (Some mask_7_of_20) (Some 3) None None None
                    false
      = Ok v /\
    maskedChunkIndex (arr_shape data_20_10) 3 (Some mask_7_of_20)
                     (view_kwargs None None None)
      = Ok (map Some chunks, chunkAxes, order, nBuffer) /\
    items_run int8_cast (fun x => x) 0 KeySelect
              (fun _ value => map (fun _ => 0) (arr_data value)) v
      = Ok (v', yielded) /\
    forall c,
      valid_coord (arr_shape data_20_10) c ->
      (forall r, ~ mask_row (arr_shape data_20_10) order
                            (mask_index mask_7_of_20) r c) ->
      py_index (arr_data (v_data v')) (ravel (arr_shape data_20_10) c)
      = py_index (arr_data data_20_10) (ravel (arr_shape data_20_10) c).
Proof.
  apply (writable_masked_view_keeps_other_spectra int8_cast (fun x => x) 0
           (fun _ value => map (fun _ => 0) (arr_data value))
           (fun _ value => length_map (fun _ => 0) (arr_data value))
           data_20_10 mask_7_of_20 3 None None None KeySelect).
  - split; [|reflexivity]. repeat (constructor; [lia|]). constructor.
  - apply (valid_kwargs_last_axis [20; 10]). discriminate.
  - split; [reflexivity|]. split; [cbn; lia|discriminate].
  - exists 3, [1], [0], [slice_all], 7%nat.
    split; [reflexivity|]. split.
    + change (mask_index mask_7_of_20) with [[0; 3; 4; 8; 11; 15; 19]].
      constructor; [|constructor]. exists 20. split; [reflexivity|].
      repeat (constructor; [lia|]). constructor.
    + constructor; [reflexivity|constructor].
Defined.

(** ** What the full index of a view selects *)

Lemma Forall2_In_product {X} (Ls : list (list X)) (t : list X) :
  Forall2 (fun x l => In x l) t Ls -> In t (product Ls).
Proof.
  induction 1 as [|x l t Ls Hx _ IH]; cbn [product]; [left; reflexivity|].
  apply in_flat_map. exists x. split; [assumption|].
  apply in_map. assumption.
Qed.

Lemma Forall2_map_In {X Y Z'} (g : X -> Y) (h : X -> Z') (R : Y -> Z' -> Prop)
    (l : list X) :
  (forall x, In x l -> R (g x) (h x)) -> Forall2 R (map g l) (map h l).
Proof.
  induction l as [|x l IH]; cbn [map]; intros H; constructor.
  - apply H. left. reflexivity.
  - apply IH. intros y Hy. apply H. right. assumption.
Qed.

(** Conversely to [result_dims_positions] and [result_dims_rows]: positions
    [f a] that every slice selects on its axis and that the integer lists
    hold together at one rank [r] are the coordinates of an item of the
    result. *)
Lemma result_dims_complete (sels : list (Z * axis_sel))
    (dims : list (list (list (Z * Z)))) (f : Z -> Z) (r cnt : nat) :
  result_dims sels = Ok dims ->
  (forall a l, In (a, SelSlice l) sels -> In (f a) l) ->
  (forall a p, In (a, SelList p) sels ->
     List.length p = cnt /\ nth_error p r = Some (f a)) ->
  exists t, In t (product dims) /\
            forall b y, In (b, y) (List.concat t) -> y = f b.
Proof.
  intros Hd Hsl Hli.
  set (sliced_dim := fun s : Z * axis_sel =>
         map (fun x => [(fst s, x)]) (sel_positions (snd s))).
  set (g := fun s : Z * axis_sel => [(fst s, f (fst s))]).
  assert (Hg : forall S, (forall s, In s S -> In s sels /\ is_sel_list s = false) ->
             Forall2 (fun x l => In x l) (map g S) (map sliced_dim S) /\
             forall b y, In (b, y) (List.concat (map g S)) -> y = f b).
  { intros S HS. split.
    - apply Forall2_map_In. intros [a s] Hs. destruct (HS _ Hs) as [Hin Hn].
      destruct s as [l|p]; [|discriminate].
      unfold g, sliced_dim. cbn [fst snd sel_positions].
      apply in_map_iff. exists (f a). split; [reflexivity|].
      apply (Hsl a l Hin).
    - intros b y Hby. apply in_concat in Hby.
      destruct Hby as (asg & Hasg & Hin). apply in_map_iff in Hasg.
      destruct Hasg as (s & <- & _). destruct Hin as [Heq|[]].
      injection Heq as <- <-. reflexivity. }
  unfold result_dims in Hd. fold sliced_dim in Hd.
  destruct (filter is_sel_list sels) as [|[a0 s0] adv'] eqn:Eadv.
  - injection Hd as <-.
    destruct (Hg sels) as [H1 H2].
    { intros s Hs. split; [assumption|].
      destruct (is_sel_list s) eqn:E; [|reflexivity].
      assert (H : In s (filter is_sel_list sels))
        by (apply filter_In; split; assumption).
      rewrite Eadv in H. contradiction. }
    exists (map g sels). split; [apply Forall2_In_product; exact H1|exact H2].
  - assert (Hne : filter is_sel_list sels <> []) by (rewrite Eadv; discriminate).
    assert (Ha0 : In (a0, s0) (filter is_sel_list sels))
      by (rewrite Eadv; left; reflexivity).
    rewrite <- Eadv in Hd.
    set (adv := filter is_sel_list sels) in *.
    assert (Hadv : forall a s, In (a, s) adv ->
              exists p, s = SelList p /\ In (a, SelList p) sels).
    { intros a s Hs. apply filter_In in Hs. destruct Hs as [Hs Hl].
      destruct s as [p|p]; [discriminate|]. exists p.
      split; [reflexivity|assumption]. }
    assert (Hlen : forall s, In s adv ->
              List.length (sel_positions (snd s)) = cnt).
    { intros [a s] Hs. destruct (Hadv a s Hs) as (p & -> & Hin).
      apply (Hli a p Hin). }
    rewrite (fold_max_const _ adv cnt Hne Hlen) in Hd.
    destruct (forallb _ adv) eqn:Eall; cbn [negb] in Hd; [|discriminate].
    set (adv_dim := map (fun r => map _ adv) (seq 0 cnt)) in *.
    assert (Hr : (r < cnt)%nat).
    { destruct (Hadv a0 s0 Ha0) as (p & _ & Hin).
      destruct (Hli a0 p Hin) as [<- Hnth].
      apply nth_error_Some. congruence. }
    set (asg := map (fun s : Z * axis_sel =>
                       (fst s,
                        nth (if (List.length (sel_positions (snd s)) =? cnt)%nat
                             then r else 0%nat)
                            (sel_positions (snd s)) 0)) adv).
    assert (Hasg : In asg adv_dim).
    { unfold adv_dim. apply in_map_iff. exists r.
      split; [reflexivity|]. apply in_seq. lia. }
    assert (Hent : forall b y, In (b, y) asg -> y = f b).
    { intros b y Hby. unfold asg in Hby. apply in_map_iff in Hby.
      destruct Hby as ([a s] & Heq & Hs). cbn [fst snd] in Heq.
      injection Heq as <- <-.
      destruct (Hadv a s Hs) as (p & -> & Hin).
      destruct (Hli a p Hin) as [Hlp Hnth]. cbn [sel_positions].
      rewrite Hlp, Nat.eqb_refl. apply nth_error_nth. assumption. }
    assert (K : forall S1 S2,
              (forall s, In s S1 -> In s sels /\ is_sel_list s = false) ->
              (forall s, In s S2 -> In s sels /\ is_sel_list s = false) ->
              exists t,
                In t (product (map sliced_dim S1 ++ adv_dim :: map sliced_dim S2))
                /\ forall b y, In (b, y) (List.concat t) -> y = f b).
    { intros S1 S2 HS1 HS2.
      destruct (Hg S1 HS1) as [H1 E1]. destruct (Hg S2 HS2) as [H2 E2].
      exists (map g S1 ++ asg :: map g S2). split.
      - apply Forall2_In_product. apply Forall2_app; [assumption|].
        constructor; assumption.
      - intros b y Hby. rewrite concat_app in Hby. cbn [List.concat] in Hby.
        apply in_app_or in Hby. destruct Hby as [Hby|Hby];
          [apply E1; assumption|].
        apply in_app_or in Hby. destruct Hby as [Hby|Hby];
          [apply Hent; assumption|apply E2; assumption]. }
    assert (Hbase : forall s,
              In s (filter (fun s => negb (is_sel_list s)) sels) ->
              In s sels /\ is_sel_list s = false).
    { intros s Hs. apply filter_In in Hs. destruct Hs as [Hs Hn].
      split; [assumption|]. apply negb_true_iff. assumption. }
    destruct (all_diff_one (map fst adv)); injection Hd as <-.
    + apply K; intros s Hs; apply filter_In in Hs; apply Hbase; apply Hs.
    + apply (K [] _); [intros s []|exact Hbase].
Qed.

Lemma map_nth_range (c : list Z) :
  map (fun a => nth (Z.to_nat a) c 0)
      (py_range 0 (Z.of_nat (List.length c)) 1) = c.
Proof.
  rewrite py_range_0_n, Nat2Z.id, map_map.
  rewrite (map_ext _ (fun k => nth k c 0))
    by (intros k; rewrite Nat2Z.id; reflexivity).
  induction c as [|x c IH]; [reflexivity|].
  cbn [List.length seq map nth]. f_equal.
  rewrite <- seq_shift, map_map. exact IH.
Qed.

(** An item is selected when its coordinates are, on every sliced axis, a
    position of the slice and, on the axes indexed by integer lists, the
    entries the lists hold at one rank. *)
Lemma selection_complete (shape : list Z) (idx : list index)
    (rshape sel c : list Z) (r cnt : nat) :
  List.length idx = List.length shape ->
  selection shape idx = Ok (rshape, sel) ->
  valid_coord shape c ->
  (forall k n s,
     nth_error shape k = Some n -> nth_error idx k = Some (ISlice s) ->
     exists l, expand s n = Ok l /\ In (nth k c 0) l) ->
  (forall k n ks,
     nth_error shape k = Some n -> nth_error idx k = Some (IList ks) ->
     List.length ks = cnt /\
     exists x, nth_error ks r = Some x /\ nth k c 0 = norm_axis n x) ->
  In (ravel shape c) sel.
Proof.
  intros Hlen Hsel Hc Hslices Hlists. unfold selection in Hsel.
  destruct (resolve_index shape idx) as [sels|] eqn:Hr; [|discriminate].
  cbn [bind] in Hsel.
  destruct (result_dims sels) as [dims|] eqn:Hd; [|discriminate].
  cbn [bind] in Hsel. injection Hsel as _ <-.
  pose proof (resolve_index_ok _ _ _ Hr) as Hok.
  destruct (result_dims_ok _ _ _ Hok Hd) as [_ Hcov].
  destruct (resolve_index_nth shape idx sels Hlen Hr) as (Hls & Hnth).
  assert (Hentry : forall a sel0, In (a, sel0) sels ->
            exists k n e,
              a = Z.of_nat k /\ nth_error shape k = Some n /\
              nth_error idx k = Some e /\
              match e with
              | ISlice s => exists l, expand s n = Ok l /\ sel0 = SelSlice l
              | IList ks => exists p, index_select (IList ks) n = Ok p /\
                                      sel0 = SelList p
              | INone => False
              end).
  { intros a sel0 Hin. apply In_nth_error in Hin. destruct Hin as (k & Hk).
    assert (Hkl : (k < List.length shape)%nat)
      by (rewrite <- Hls; apply nth_error_Some; congruence).
    destruct (nth_error shape k) as [n|] eqn:Hn;
      [|apply nth_error_None in Hn; lia].
    destruct (nth_error idx k) as [e|] eqn:He;
      [|apply nth_error_None in He; lia].
    destruct (Hnth k n e Hn He) as (sel1 & Hsel1 & Hcase).
    rewrite Hk in Hsel1. injection Hsel1 as -> <-.
    exists k, n, e. repeat split; assumption. }
  destruct (result_dims_complete sels dims (fun a => nth (Z.to_nat a) c 0)
              r cnt Hd) as (t & Ht & Hent).
  - intros a l Hin.
    destruct (Hentry a _ Hin) as (k & n & e & -> & Hn & He & Hcase).
    rewrite Nat2Z.id.
    destruct e as [|s|ks]; [contradiction| |].
    + destruct Hcase as (l0 & Hl0 & Heq). injection Heq as <-.
      destruct (Hslices k n s Hn He) as (l' & Hl' & Hin').
      congruence.
    + destruct Hcase as (p & _ & Heq). discriminate.
  - intros a p Hin.
    destruct (Hentry a _ Hin) as (k & n & e & -> & Hn & He & Hcase).
    rewrite Nat2Z.id.
    destruct e as [|s|ks]; [contradiction| |].
    + destruct Hcase as (l0 & _ & Heq). discriminate.
    + destruct Hcase as (p0 & Hp0 & Heq). injection Heq as <-.
      destruct (Hlists k n ks Hn He) as (Hlk & x & Hx & Hcx).
      split.
      * cbn [index_select] in Hp0. rewrite (mapM_length _ _ _ Hp0).
        assumption.
      * rewrite Hcx. apply (index_select_list_nth ks p n r x Hp0 Hx).
  - apply in_map_iff. exists t. split; [|assumption]. f_equal.
    assert (Hlc : List.length c = List.length shape).
    { unfold valid_coord in Hc. symmetry. apply (Forall2_length Hc). }
    transitivity (map (fun a => nth (Z.to_nat a) c 0)
                      (py_range 0 (Z.of_nat (List.length shape)) 1));
      [|rewrite <- Hlc; apply map_nth_range].
    apply map_ext_in. intros a Ha. apply py_range_0_n_In in Ha.
    destruct (Hcov a Ha) as (d & Hdin & Hall).
    pose proof (product_In _ _ Ht) as Ht2.
    destruct (Forall2_In_r _ _ _ _ Ht2 Hdin) as (asg & Hasg & Hin).
    assert (Hfst : In a (map fst (List.concat t))).
    { specialize (Hall _ Hin). apply in_map_iff in Hall.
      destruct Hall as (e & He & Hine). apply in_map_iff. exists e.
      split; [assumption|]. apply in_concat. exists asg. split; assumption. }
    apply lookup_axis_In in Hfst. apply (Hent _ _ Hfst).
Qed.

Lemma py_setitem_norm {X} (l : list X) (i : Z) (v : X) :
  axis_in_range (Z.of_nat (List.length l)) i ->
  py_setitem l i v
  = Ok (set_nth l (Z.to_nat (norm_axis (Z.of_nat (List.length l)) i)) v).
Proof.
  unfold axis_in_range, norm_axis, py_setitem. intros Hi.
  destruct (i <? 0) eqn:E; zbool.
  - replace ((0 <=? i + Z.of_nat (List.length l))
             && (i + Z.of_nat (List.length l) <? Z.of_nat (List.length l)))
      with true; [reflexivity|].
    symmetry. rewrite andb_true_iff, Z.leb_le, Z.ltb_lt. lia.
  - replace ((0 <=? i) && (i <? Z.of_nat (List.length l))) with true;
      [reflexivity|].
    symmetry. rewrite andb_true_iff, Z.leb_le, Z.ltb_lt. lia.
Qed.

Lemma foldM_set_lists (ao : list Z) :
  forall (mi : list (list Z)) (idx0 : list index),
    NoDup ao ->
    Forall (fun a => 0 <= a < Z.of_nat (List.length idx0)) ao ->
    exists idx',
      foldM (fun idx '(axis, ind) => py_setitem idx axis (IList ind))
            (combine ao mi) idx0 = Ok idx' /\
      List.length idx' = List.length idx0 /\
      (forall axis ind, In (axis, ind) (combine ao mi) ->
         nth_error idx' (Z.to_nat axis) = Some (IList ind)) /\
      (forall k, ~ In (Z.of_nat k) ao -> nth_error idx' k = nth_error idx0 k).
Proof.
  induction ao as [|a0 ao IH]; intros mi idx0 Hnd Hr.
  - exists idx0. cbn [combine foldM].
    split; [reflexivity|]. split; [reflexivity|].
    split; [intros ? ? []|reflexivity].
  - destruct mi as [|ind0 mi].
    + exists idx0. cbn [combine foldM].
      split; [reflexivity|]. split; [reflexivity|].
      split; [intros ? ? []|reflexivity].
    + inversion Hnd as [|? ? Hnotin Hnd']; subst.
      inversion Hr as [|? ? Ha0 Hr']; subst.
      cbn [combine foldM]. rewrite py_setitem_ok by lia. cbn [bind].
      set (idx1 := set_nth idx0 (Z.to_nat a0) (IList ind0)).
      destruct (IH mi idx1 Hnd') as (idx' & Hfold & Hlen & Hget & Hkeep).
      * subst idx1. rewrite set_nth_length. assumption.
      * exists idx'. rewrite Hfold. subst idx1.
        rewrite set_nth_length in Hlen.
        split; [reflexivity|]. split; [assumption|]. split.
        -- intros axis ind [Heq|Hin].
           ++ injection Heq as <- <-.
              rewrite (Hkeep (Z.to_nat a0))
                by (rewrite Z2Nat.id by lia; assumption).
              apply nth_error_set_nth_eq. lia.
           ++ apply Hget. assumption.
        -- intros k Hnot.
           rewrite (Hkeep k ltac:(intros H; apply Hnot; right; exact H)).
           apply nth_error_set_nth_neq. intros ->. apply Hnot. left. lia.
Qed.

Lemma getitem_selection {X} (a g : ndarray X) (idx : list index) :
  getitem a idx = Ok g ->
  exists sel, selection (arr_shape a) idx = Ok (arr_shape g, sel).
Proof.
  unfold getitem. intros Hg.
  destruct (selection (arr_shape a) idx) as [[rs sel]|]; [|discriminate].
  cbn [bind] in Hg.
  destruct (mapM (py_index (arr_data a)) sel); [|discriminate].
  cbn [bind] in Hg. injection Hg as <-. exists sel. reflexivity.
Qed.

Lemma selection_slices_ok (shape : list Z) (idx : list index) :
  List.length idx = List.length shape ->
  (forall k n, nth_error shape k = Some n ->
     exists s l, nth_error idx k = Some (ISlice s) /\ expand s n = Ok l) ->
  exists rshape sel, selection shape idx = Ok (rshape, sel).
Proof.
  intros Hli Hax.
  destruct (resolve_index_total shape idx Hli) as (sels & Hres).
  { intros k n e Hn He. destruct (Hax k n Hn) as (s & l & Hs & Hl).
    rewrite Hs in He. injection He as <-. cbn [index_select].
    rewrite Hl. reflexivity. }
  destruct (resolve_index_nth _ _ _ Hli Hres) as [Hlen Hnth].
  unfold selection. rewrite Hres. cbn [bind].
  unfold result_dims. rewrite filter_nil.
  - cbn [bind]. eexists _, _. reflexivity.
  - intros s Hs. apply In_nth_error in Hs. destruct Hs as (k & Hk).
    assert (Hlt : (k < List.length shape)%nat)
      by (rewrite <- Hlen; apply nth_error_Some; congruence).
    destruct (nth_error shape k) as [n|] eqn:En;
      [|apply nth_error_None in En; lia].
    destruct (Hax k n En) as (s0 & l & Hs0 & Hl).
    destruct (Hnth k n _ En Hs0) as (sel & Hsel & l' & _ & ->).
    rewrite Hsel in Hk. injection Hk as <-. reflexivity.
Qed.

(** The fields [MaskedView.__init__] sets. *)
Lemma MaskedView_init_fields {A B} (data : ndarray A) (mask : option Mask)
    (nMca : Z) (mcaAxis : option Z) (mcaSlice : option slice)
    (axesOrder : option (list Z)) (readonly : bool) (v : @View A B)
    (ci : list (option Chunk)) (ca ao : list Z) (nb : Z) :
  MaskedView_init data mask (Some nMca) mcaAxis mcaSlice axesOrder readonly
    = Ok v ->
  maskedChunkIndex (arr_shape data) nMca mask
                   (view_kwargs mcaAxis mcaSlice axesOrder)
    = Ok (ci, ca, ao, nb) ->
  v_data v = data /\
  v_mcaAxis v = match mcaAxis with None => -1 | Some a => a end /\
  v_mcaSlice v = match mcaSlice with None => slice_all | Some s => s end /\
  v_mask v = mask /\
  v_masked v = match mask with None => false | Some _ => true end /\
  v_axesOrder v = ao.
Proof.
  set (ma := match mcaAxis with None => -1 | Some a => a end).
  set (ms := match mcaSlice with None => slice_all | Some s => s end).
  assert (Hkw : view_kwargs (Some ma) (Some ms) axesOrder
                = view_kwargs mcaAxis mcaSlice axesOrder) by reflexivity.
  unfold MaskedView_init. cbn [bind]. fold ma ms. rewrite Hkw.
  intros Hinit Hplan. destruct mask as [mk|].
  - rewrite Hplan in Hinit. cbn [bind] in Hinit.
    destruct (py_index (arr_shape data) ma) as [n2|]; [|discriminate].
    cbn [bind] in Hinit.
    destruct (sliceLen ms n2); [|discriminate]. cbn [bind] in Hinit.
    injection Hinit as <-. cbn. repeat split; reflexivity.
  - unfold maskedChunkIndex in Hplan.
    destruct (fullChunkIndex _ _ _) as [[[[ci0 ca0] ao0] nb0]|];
      [|discriminate].
    cbn [bind] in Hplan, Hinit.
    destruct (chunkIndexProduct ci0 ca0 ao0); [|discriminate].
    cbn [bind] in Hplan. injection Hplan as _ _ <- _.
    destruct (py_index (arr_shape data) ma) as [n2|]; [|discriminate].
    cbn [bind] in Hinit.
    destruct (sliceLen ms n2); [|discriminate]. cbn [bind] in Hinit.
    injection Hinit as <-. cbn. repeat split; reflexivity.
Qed.

Lemma nth_error_combine_inv {X Y} (l : list X) (r : list Y) (k : nat)
    (x : X) (y : Y) :
  nth_error (combine l r) k = Some (x, y) ->
  nth_error l k = Some x /\ nth_error r k = Some y.
Proof.
  revert r k. induction l as [|a l IH]; intros [|b r] [|k] H; cbn in *;
    try discriminate.
  - injection H as -> ->. split; reflexivity.
  - apply IH. assumption.
Qed.

(** The entries of [idxFull]: the channel slice on the MCA axis; on the
    other axes a full slice for a dense view, the index list the mask gives
    for that axis for a masked one. *)
Lemma idxFull_entries {A B} (data : ndarray A) (mask : option Mask)
    (nMca : Z) (mcaAxis : option Z) (mcaSlice : option slice)
    (axesOrder : option (list Z)) (readonly : bool) (v : @View A B)
    (chunks : list Chunk) (ca ao : list Z) (nb : Z) :
  wf_array data ->
  valid_axes (arr_shape data) (view_kwargs mcaAxis mcaSlice axesOrder) ->
  mask_accepted (arr_shape data) (view_kwargs mcaAxis mcaSlice axesOrder)
                mask ->
  (forall mk, mask = Some mk ->
     mask_fits (arr_shape data) nMca
               (view_kwargs mcaAxis mcaSlice axesOrder) mk) ->
  MaskedView_init data mask (Some nMca) mcaAxis mcaSlice axesOrder readonly
    = Ok v ->
  maskedChunkIndex (arr_shape data) nMca mask
                   (view_kwargs mcaAxis mcaSlice axesOrder)
    = Ok (map Some chunks, ca, ao, nb) ->
  let ndim := List.length (arr_shape data) in
  let ma' := norm_axis (Z.of_nat ndim)
               (match mcaAxis with None => -1 | Some a => a end) in
  0 <= ma' < Z.of_nat ndim /\
  exists idx,
    MaskedView_idxFull v = Ok idx /\ List.length idx = ndim /\
    nth_error idx (Z.to_nat ma')
    = Some (ISlice (match mcaSlice with None => slice_all | Some s => s end))
    /\
    match mask with
    | None =>
        forall k, (k < ndim)%nat -> Z.of_nat k <> ma' ->
          nth_error idx k = Some (ISlice slice_all)
    | Some mk =>
        (2 <= ndim)%nat /\
        (forall k, (k < ndim)%nat -> Z.of_nat k <> ma' ->
           exists ind, In (Z.of_nat k, ind) (combine ao (mask_index mk))) /\
        exists m : nat,
          forall a ind, In (a, ind) (combine ao (mask_index mk)) ->
            0 <= a < Z.of_nat ndim /\ a <> ma' /\
            nth_error idx (Z.to_nat a) = Some (IList ind) /\
            List.length ind = m /\
            exists n, py_index (arr_shape data) a = Ok n /\
                      Forall (fun x => - n <= x < n) ind
    end.
Proof.
  intros Hwf Hvalid Hmask Hfit Hinit Hplan. cbv zeta.
  pose proof Hwf as [Hshape _].
  set (kw := view_kwargs mcaAxis mcaSlice axesOrder) in *.
  set (ma := match mcaAxis with None => -1 | Some a => a end).
  set (ms := match mcaSlice with None => slice_all | Some s => s end).
  set (shape := arr_shape data) in *.
  set (ma' := norm_axis (Z.of_nat (List.length shape)) ma).
  destruct (MaskedView_init_fields data mask nMca mcaAxis mcaSlice axesOrder
              readonly v (map Some chunks) ca ao nb Hinit Hplan)
    as (Hvd & Hva & Hvs & Hvm & Hvmd & Hvo).
  fold ma in Hva. fold ms in Hvs.
  assert (Hma : axis_in_range (Z.of_nat (List.length shape)) ma).
  { pose proof (va_chunk_range _ _ Hvalid) as H. cbn in H.
    inversion H; subst. assumption. }
  assert (Hma' : 0 <= ma' < Z.of_nat (List.length shape)).
  { unfold ma', norm_axis. unfold axis_in_range in Hma.
    destruct (ma <? 0) eqn:E; zbool; lia. }
  split; [exact Hma'|].
  set (idx0 := set_nth (repeat (ISlice slice_all) (List.length shape))
                       (Z.to_nat ma') (ISlice ms)).
  assert (Hfull0 : ChunkedView_idxFull v = Ok idx0).
  { unfold ChunkedView_idxFull. rewrite Hvd, Hva, Hvs. fold shape.
    rewrite py_setitem_norm by (rewrite repeat_length; exact Hma).
    rewrite repeat_length. reflexivity. }
  assert (Hl0 : List.length idx0 = List.length shape)
    by (unfold idx0; rewrite set_nth_length, repeat_length; reflexivity).
  assert (Hms0 : nth_error idx0 (Z.to_nat ma') = Some (ISlice ms)).
  { unfold idx0. apply nth_error_set_nth_eq. rewrite repeat_length. lia. }
  unfold MaskedView_idxFull. rewrite Hfull0, Hvmd, Hvm, Hvo. cbn [bind].
  destruct mask as [mk|].
  - destruct Hmask as (Hndim & Hpos & Hne).
    assert (Hmi : exists first others, mask_index mk = first :: others).
    { destruct (mask_index mk) as [|first others]; [contradiction|].
      exists first, others. reflexivity. }
    destruct Hmi as (first & others & Hmi).
    destruct (maskedChunkIndex_plan_full shape nMca kw mk first others Hshape
                Hvalid Hndim Hmi Hpos)
      as (ca0 & ao0 & sl & idxAxis0 & chunkShape0 & la & chunks0 & Hpar & Hpa
          & Hlao & _ & _ & Hres0 & _ & _ & _ & _ & Hperm & Hca & Hsl).
    cbn in Hca, Hsl. fold ma in Hca. fold ms in Hsl. subst ca0 sl.
    fold ma' in Hpar, Hpa, Hperm.
    rewrite Hres0 in Hplan. injection Hplan as _ _ <- _.
    destruct (Hfit mk eq_refl) as (c & ca' & ao' & sl' & m & Hpar' & Hf2
                                   & Hsame).
    fold kw shape in Hpar'. rewrite Hpar in Hpar'.
    injection Hpar' as <- <- <- <-. fold shape in Hf2.
    pose proof (pa_order_range _ _ _ _ Hpa) as Hor.
    pose proof (pa_nodup _ _ _ _ Hpa) as Hnd. cbn [app] in Hnd.
    apply NoDup_cons_iff in Hnd. destruct Hnd as [Hnotin Hnd'].
    pose proof (pa_all _ _ _ _ Hpa) as Hall. cbn [List.length Nat.add] in Hall.
    assert (Hin : forall x, In x ao0 <->
                    0 <= x < Z.of_nat (List.length shape) /\ x <> ma').
    { intros x. split.
      - intros Hx. apply (Permutation_in _ Hperm) in Hx.
        apply other_axes_In in Hx. destruct Hx as [Hr Hn].
        split; [assumption|]. intros ->. apply Hn. left. reflexivity.
      - intros [Hr Hn]. apply (Permutation_in _ (Permutation_sym Hperm)).
        apply other_axes_In. split; [assumption|]. intros [H|[]].
        congruence. }
    destruct (foldM_set_lists ao0 (mask_index mk) idx0 Hnd')
      as (idx & Hfold & Hlen & Hget & Hkeep).
    { rewrite Hl0. exact Hor. }
    exists idx. unfold idxFullMask. split; [exact Hfold|].
    split; [congruence|]. split.
    { rewrite Hkeep; [exact Hms0|]. rewrite Z2Nat.id by lia. exact Hnotin. }
    split; [lia|]. split.
    + intros k Hk Hne'. assert (Hi : In (Z.of_nat k) ao0) by (apply Hin; lia).
      apply In_nth_error in Hi. destruct Hi as (j & Hj).
      destruct (Forall2_nth_error_l _ _ _ _ _ Hf2 Hj) as (ind & Hind & _).
      exists ind.
      apply (nth_error_In _ _ (nth_error_combine_Some _ _ _ _ _ Hj Hind)).
    + exists m. intros a ind Hc0.
      pose proof (in_combine_l _ _ _ _ Hc0) as Ha.
      apply Hin in Ha. destruct Ha as [Ha Hne'].
      split; [assumption|]. split; [assumption|].
      split; [apply (Hget _ _ Hc0)|].
      rewrite Forall_forall in Hsame.
      split; [apply Hsame; apply (in_combine_r _ _ _ _ Hc0)|].
      apply In_nth_error in Hc0. destruct Hc0 as (j & Hj).
      destruct (nth_error_combine_inv _ _ _ _ _ Hj) as [Hj1 Hj2].
      destruct (Forall2_nth_error_l _ _ _ _ _ Hf2 Hj1) as (ind' & Hind' & Hb).
      rewrite Hj2 in Hind'. injection Hind' as <-. exact Hb.
  - exists idx0. split; [reflexivity|]. split; [exact Hl0|].
    split; [exact Hms0|].
    intros k Hk Hne'. unfold idx0.
    rewrite nth_error_set_nth_neq by lia.
    apply nth_error_repeat. assumption.
Qed.

Lemma valid_coord_nth (shape c : list Z) (k : nat) (n : Z) :
  valid_coord shape c -> nth_error shape k = Some n -> 0 <= nth k c 0 < n.
Proof.
  unfold valid_coord. intros H. revert k.
  induction H as [|n0 x s c Hx _ IH]; intros [|k] Hk; cbn in Hk |- *;
    try discriminate.
  - injection Hk as <-. exact Hx.
  - apply IH. assumption.
Qed.

(** Where the items a planned chunk selects lie: on the MCA axis at a
    position of the channel slice and, for a masked view, on a spectrum
    the mask addresses. *)
Lemma chunk_selected_coords (shape : list Z) (mask : option Mask)
    (nMca : Z) (mcaAxis : option Z) (mcaSlice : option slice)
    (axesOrder : option (list Z)) (chunks : list Chunk) (ca ao : list Z)
    (nb n2 : Z) (channels : list Z) :
  Forall (fun n => 0 <= n) shape ->
  valid_axes shape (view_kwargs mcaAxis mcaSlice axesOrder) ->
  mask_accepted shape (view_kwargs mcaAxis mcaSlice axesOrder) mask ->
  (forall mk, mask = Some mk ->
     mask_fits shape nMca (view_kwargs mcaAxis mcaSlice axesOrder) mk) ->
  maskedChunkIndex shape nMca mask (view_kwargs mcaAxis mcaSlice axesOrder)
    = Ok (map Some chunks, ca, ao, nb) ->
  let ma' := norm_axis (Z.of_nat (List.length shape))
               (match mcaAxis with None => -1 | Some a => a end) in
  0 <= ma' ->
  nth_error shape (Z.to_nat ma') = Some n2 ->
  expand (match mcaSlice with None => slice_all | Some s => s end) n2
    = Ok channels ->
  forall ch rshape sel c,
    In ch chunks ->
    selection shape (fst (fst ch)) = Ok (rshape, sel) ->
    valid_coord shape c -> In (ravel shape c) sel ->
    In (nth (Z.to_nat ma') c 0) channels /\
    match mask with
    | None => True
    | Some mk => exists r, mask_row shape ao (mask_index mk) r c
    end.
Proof.
  intros Hshape Hvalid Hmask Hfit Hplan ma' Hma' Hn2 Hl ch rshape sel c Hch
    Hsel Hc Hq.
  pose proof (plan_channel_index shape nMca mcaAxis mcaSlice axesOrder mask
                chunks ca ao nb Hshape Hvalid Hmask Hplan) as Hidx.
  rewrite Forall_forall in Hidx. destruct (Hidx ch Hch) as [Hlen Hsl].
  fold ma' in Hsl. rewrite py_index_nonneg in Hsl by lia.
  destruct (nth_error (fst (fst ch)) (Z.to_nat ma')) as [e|] eqn:He;
    [|discriminate].
  injection Hsl as ->. split.
  - destruct (selection_slice_axis shape (fst (fst ch)) rshape sel
                (Z.to_nat ma') n2 _ channels Hlen Hsel Hn2 He Hl _ Hq)
      as (c' & Hc' & Heq & Hin).
    apply (ravel_inj shape c c' Hc Hc') in Heq. subst c'. exact Hin.
  - destruct mask as [mk|]; [|exact I].
    pose proof (masked_plan_rows shape nMca mcaAxis mcaSlice axesOrder mk
                  chunks ca ao nb Hshape Hvalid Hmask (Hfit mk eq_refl)
                  Hplan) as Hrows.
    rewrite Forall_forall in Hrows.
    destruct (Hrows ch Hch) as (_ & off & cnt & Hlk & Hao).
    destruct (selection_list_rows shape (fst (fst ch)) rshape sel cnt Hlen
                Hsel Hlk _ Hq)
      as (c' & r & Hc' & Heq & Hrow).
    apply (ravel_inj shape c c' Hc Hc') in Heq. subst c'.
    exists (off + r)%nat. intros a ind Hin.
    destruct (Hao a ind Hin) as [Ha Hix].
    assert (Hal : (Z.to_nat a < List.length shape)%nat)
      by (rewrite <- Hlen; apply nth_error_Some; congruence).
    destruct (nth_error shape (Z.to_nat a)) as [n|] eqn:Hn;
      [|apply nth_error_None in Hn; lia].
    destruct (Hrow (Z.to_nat a) n _ Hn Hix) as (x & Hx & Hcx).
    exists x, n. split; [apply (nth_error_firstn_skipn _ _ _ _ _ Hx)|].
    split; [|exact Hcx].
    rewrite py_index_nonneg by lia. rewrite Hn. reflexivity.
Qed.

(** [data[idxFull]] exists, and it holds every item that lies on the MCA
    axis at a position of the channel slice and, for a masked view, on a
    spectrum the mask addresses. *)
Lemma idxFull_selects {A B} (data : ndarray A) (mask : option Mask)
    (nMca : Z) (mcaAxis : option Z) (mcaSlice : option slice)
    (axesOrder : option (list Z)) (readonly : bool) (v : @View A B)
    (chunks : list Chunk) (ca ao : list Z) (nb : Z) :
  wf_array data ->
  valid_axes (arr_shape data) (view_kwargs mcaAxis mcaSlice axesOrder) ->
  mask_accepted (arr_shape data) (view_kwargs mcaAxis mcaSlice axesOrder)
                mask ->
  (forall mk, mask = Some mk ->
     mask_fits (arr_shape data) nMca
               (view_kwargs mcaAxis mcaSlice axesOrder) mk) ->
  MaskedView_init data mask (Some nMca) mcaAxis mcaSlice axesOrder readonly
    = Ok v ->
  maskedChunkIndex (arr_shape data) nMca mask
                   (view_kwargs mcaAxis mcaSlice axesOrder)
    = Ok (map Some chunks, ca, ao, nb) ->
  let ma' := norm_axis (Z.of_nat (List.length (arr_shape data)))
               (match mcaAxis with None => -1 | Some a => a end) in
  exists idx rshape full n2 channels,
    MaskedView_idxFull v = Ok idx /\
    List.length idx = List.length (arr_shape data) /\
    selection (arr_shape data) idx = Ok (rshape, full) /\
    0 <= ma' /\
    nth_error (arr_shape data) (Z.to_nat ma') = Some n2 /\
    expand (match mcaSlice with None => slice_all | Some s => s end) n2
      = Ok channels /\
    forall c,
      valid_coord (arr_shape data) c ->
      In (nth (Z.to_nat ma') c 0) channels ->
      match mask with
      | None => True
      | Some mk => exists r, mask_row (arr_shape data) ao (mask_index mk) r c
      end ->
      In (ravel (arr_shape data) c) full.
Proof.
  intros Hwf Hvalid Hmask Hfit Hinit Hplan.
  destruct (idxFull_entries data mask nMca mcaAxis mcaSlice axesOrder
              readonly v chunks ca ao nb Hwf Hvalid Hmask Hfit Hinit Hplan)
    as (Hma' & idx & Hfull & Hlen & Hms & Hrest).
  cbv zeta.
  pose proof Hwf as [Hshape _].
  set (ms := match mcaSlice with None => slice_all | Some s => s end) in *.
  set (shape := arr_shape data) in *.
  set (ma' := norm_axis (Z.of_nat (List.length shape))
                (match mcaAxis with None => -1 | Some a => a end)) in *.
  destruct (nth_error shape (Z.to_nat ma')) as [n2|] eqn:Hn2;
    [|apply nth_error_None in Hn2; lia].
  assert (Hn2pos : 0 <= n2).
  { rewrite Forall_forall in Hshape. apply Hshape.
    apply (nth_error_In _ _ Hn2). }
  assert (Hstep : slice_step ms <> Some 0).
  { pose proof (va_slices _ _ Hvalid) as H. cbn in H.
    subst ms. destruct mcaSlice as [s|]; [|discriminate].
    destruct H as [_ H]. inversion H; subst. assumption. }
  destruct (expand_ok ms n2 Hstep Hn2pos) as (start & stop & step & _ & Hl).
  set (channels := py_range start stop step) in *.
  assert (Hsel : exists rshape full, selection shape idx = Ok (rshape, full)).
  { destruct mask as [mk|].
    - destruct Hrest as (Hdim & Hcov & m & Hent).
      destruct (getitem_one_slice data idx ma' (List.length channels) m Hwf)
        as (g & Hg & _); try assumption.
      + fold shape. intros k n Hn.
        destruct (Z.of_nat k =? ma') eqn:E; zbool.
        * exists (ISlice ms). rewrite <- E, Nat2Z.id in Hms, Hn2.
          split; [exact Hms|]. exists ms, channels.
          split; [reflexivity|]. split; [|reflexivity]. congruence.
        * assert (Hk : (k < List.length shape)%nat)
            by (apply nth_error_Some; congruence).
          destruct (Hcov k Hk E) as (ind & Hin).
          destruct (Hent _ _ Hin) as (_ & _ & Hix & Hlm & n' & Hn' & Hb).
          rewrite Nat2Z.id in Hix. exists (IList ind).
          split; [exact Hix|]. exists ind. split; [reflexivity|].
          split; [exact Hlm|].
          apply py_index_nth_error in Hn'. fold shape in Hn'.
          rewrite Hn in Hn'. injection Hn' as <-. exact Hb.
      + destruct (getitem_selection data g idx Hg) as (full & Hs).
        exists (arr_shape g), full. exact Hs.
    - apply selection_slices_ok; [exact Hlen|].
      intros k n Hn. destruct (Z.eq_dec (Z.of_nat k) ma') as [E|E].
      + exists ms, channels. rewrite <- E, Nat2Z.id in Hms, Hn2.
        split; [exact Hms|]. congruence.
      + assert (Hk : (k < List.length shape)%nat)
          by (apply nth_error_Some; congruence).
        exists slice_all, (py_range 0 n 1). split; [apply Hrest; assumption|].
        apply expand_slice_all. rewrite Forall_forall in Hshape.
        apply Hshape. apply (nth_error_In _ _ Hn). }
  destruct Hsel as (rshape & full & Hsel).
  exists idx, rshape, full, n2, channels.
  split; [exact Hfull|]. split; [exact Hlen|]. split; [exact Hsel|].
  split; [lia|]. split; [reflexivity|]. split; [exact Hl|].
  intros c Hc Hchan Hrow.
  destruct mask as [mk|].
  - destruct Hrest as (Hdim & Hcov & m & Hent). destruct Hrow as (r & Hrow).
    apply (selection_complete shape idx rshape full c r m Hlen Hsel Hc).
    + intros k n s Hn Hk. destruct (Z.eq_dec (Z.of_nat k) ma') as [E|E].
      * rewrite <- E, Nat2Z.id in Hms, Hn2, Hchan.
        rewrite Hms in Hk. injection Hk as <-.
        rewrite Hn in Hn2. injection Hn2 as ->.
        exists channels. split; assumption.
      * assert (Hkl : (k < List.length shape)%nat)
          by (apply nth_error_Some; congruence).
        destruct (Hcov k Hkl E) as (ind & Hin).
        destruct (Hent _ _ Hin) as (_ & _ & Hix & _).
        rewrite Nat2Z.id in Hix. congruence.
    + intros k n ks Hn Hk. destruct (Z.eq_dec (Z.of_nat k) ma') as [E|E].
      * rewrite <- E, Nat2Z.id in Hms. congruence.
      * assert (Hkl : (k < List.length shape)%nat)
          by (apply nth_error_Some; congruence).
        destruct (Hcov k Hkl E) as (ind & Hin).
        destruct (Hent _ _ Hin) as (_ & _ & Hix & Hlm & _).
        rewrite Nat2Z.id in Hix. rewrite Hix in Hk. injection Hk as <-.
        split; [exact Hlm|].
        destruct (Hrow _ _ Hin) as (x & n' & Hx & Hn' & Hcx).
        apply py_index_nth_error in Hn'. fold shape in Hn'.
        rewrite Hn in Hn'. injection Hn' as <-.
        rewrite Nat2Z.id in Hcx. exists x. split; assumption.
  - apply (selection_complete shape idx rshape full c 0%nat 0%nat Hlen Hsel
             Hc).
    + intros k n s Hn Hk. destruct (Z.eq_dec (Z.of_nat k) ma') as [E|E].
      * rewrite <- E, Nat2Z.id in Hms, Hn2, Hchan.
        rewrite Hms in Hk. injection Hk as <-.
        rewrite Hn in Hn2. injection Hn2 as ->.
        exists channels. split; assumption.
      * assert (Hkl : (k < List.length shape)%nat)
          by (apply nth_error_Some; congruence).
        rewrite (Hrest k Hkl E) in Hk. injection Hk as <-.
        exists (py_range 0 n 1). split.
        -- apply expand_slice_all. rewrite Forall_forall in Hshape.
           apply Hshape. apply (nth_error_In _ _ Hn).
        -- apply py_range_0_n_In. apply (valid_coord_nth shape c k n Hc Hn).
    + intros k n ks Hn Hk. exfalso.
      destruct (Z.eq_dec (Z.of_nat k) ma') as [E|E].
      * rewrite <- E, Nat2Z.id in Hms. congruence.
      * assert (Hkl : (k < List.length shape)%nat)
          by (apply nth_error_Some; congruence).
        rewrite (Hrest k Hkl E) in Hk. discriminate.
Qed.

Section InsideFullIndex.

Context {A B : Type}.
Variable cast_in : A -> B.
Variable cast_out : B -> A.
Variable garbage : B.
Variable consumer : Key -> ndarray B -> list B.
Hypothesis consumer_length :
  forall key value,
    List.length (consumer key value) = List.length (arr_data value).

(** X19: a writable view writes only inside [data[view.idxFull]].  For a
    view over an in-memory array, dense or masked by index lists that fit
    the array: [idxFull] has one entry per dimension, [data[idxFull]]
    exists, and after the iteration (any buffer type, any consumer that
    keeps the size of the buffer views) every item whose position
    [idxFull] does not select is the item the source held before. *)
Theorem writable_view_writes_inside_idxFull (data : ndarray A)
    (mask : option Mask) (nMca : Z) (mcaAxis : option Z)
    (mcaSlice : option slice) (axesOrder : option (list Z))
    (keyType : KeyType)
    (Hwf : wf_array data)
    (Hvalid : valid_axes (arr_shape data)
                         (view_kwargs mcaAxis mcaSlice axesOrder))
    (Hmask : mask_accepted (arr_shape data)
                           (view_kwargs mcaAxis mcaSlice axesOrder) mask)
    (Hfit : forall mk, mask = Some mk ->
              mask_fits (arr_shape data) nMca
                        (view_kwargs mcaAxis mcaSlice axesOrder) mk) :
  exists (v v' : @View A B) yielded idx rshape full,
    MaskedView_init data mask (Some nMca) mcaAxis mcaSlice axesOrder false
      = Ok v /\
    items_run cast_in cast_out garbage keyType consumer v
      = Ok (v', yielded) /\
    MaskedView_idxFull v = Ok idx /\
    List.length idx = List.length (arr_shape data) /\
    selection (arr_shape data) idx = Ok (rshape, full) /\
    forall c,
      valid_coord (arr_shape data) c ->
      ~ In (ravel (arr_shape data) c) full ->
      py_index (arr_data (v_data v')) (ravel (arr_shape data) c)
      = py_index (arr_data data) (ravel (arr_shape data) c).
Proof.
  pose proof Hwf as [Hshape _].
  destruct (writable_view_run cast_in cast_out garbage consumer
              consumer_length data mask nMca mcaAxis mcaSlice axesOrder
              keyType Hwf Hvalid Hmask Hfit)
    as (v & v' & ys & chunks & ca & ao & nb & Hinit & Hplan & Hrun & _ & _
        & Hframe).
  destruct (idxFull_selects data mask nMca mcaAxis mcaSlice axesOrder false v
              chunks ca ao nb Hwf Hvalid Hmask Hfit Hinit Hplan)
    as (idx & rshape & full & n2 & channels & Hfull & Hlen & Hsel & Hma'
        & Hn2 & Hl & Hin).
  exists v, v', ys, idx, rshape, full.
  split; [exact Hinit|]. split; [exact Hrun|]. split; [exact Hfull|].
  split; [exact Hlen|]. split; [exact Hsel|].
  intros c Hc Hout.
  pose proof (ravel_bound _ _ Hc) as Hb.
  rewrite !py_index_nonneg by lia.
  rewrite Hframe; [reflexivity|].
  intros ch rs sel Hch Hs Hq. rewrite Z2Nat.id in Hq by lia.
  destruct (chunk_selected_coords (arr_shape data) mask nMca mcaAxis mcaSlice
              axesOrder chunks ca ao nb n2 channels Hshape Hvalid Hmask Hfit
              Hplan Hma' Hn2 Hl ch rs sel c Hch Hs Hc Hq) as [H1 H2].
  apply Hout. apply (Hin c Hc H1 H2).
Qed.

End InsideFullIndex.

Lemma writable_view_writes_inside_idxFull_witness :
  exists (v v' : @View Z Z) yielded idx rshape full,
    MaskedView_init data_20_10 (Some mask_7_of_20) (Some 3) None
                    (Some (mkSlice (Some 2) (Some 8) (Some 3))) None false
      = Ok v /\
    items_run int8_cast (fun x => x) 0 KeySelect
              (fun _ value => map (fun _ => 0) (arr_data value)) v
      = Ok (v', yielded) /\
    MaskedView_idxFull v = Ok idx /\
    List.length idx = List.length (arr_shape data_20_10) /\
    selection (arr_shape data_20_10) idx = Ok (rshape, full) /\
    forall c,
      valid_coord (arr_shape data_20_10) c ->
      ~ In (ravel (arr_shape data_20_10) c) full ->
      py_index (arr_data (v_data v')) (ravel (arr_shape data_20_10) c)
      = py_index (arr_data data_20_10) (ravel (arr_shape data_20_10) c).
Proof.
  apply (writable_view_writes_inside_idxFull int8_cast (fun x => x) 0
           (fun _ value => map (fun _ => 0) (arr_data value))
           (fun _ value => length_map (fun _ => 0) (arr_data value))
           data_20_10 (Some mask_7_of_20) 3 None
           (Some (mkSlice (Some 2) (Some 8) (Some 3))) None KeySelect).
  - split; [|reflexivity]. repeat (constructor; [lia|]). constructor.
  - constructor; cbn.
    + constructor; [unfold axis_in_range; cbn; lia|constructor].
    + constructor; [intros []|constructor].
    + split; [reflexivity|]. constructor; [discriminate|constructor].
    + exact I.
  - split; [reflexivity|]. split; [cbn; lia|discriminate].
  - intros mk Hmk. injection Hmk as <-.
    exists 3, [1], [0], [mkSlice (Some 2) (Some 8) (Some 3)], 7%nat.
    split; [reflexivity|]. split.
    + change (mask_index mask_7_of_20) with [[0; 3; 4; 8; 11; 15; 19]].
      constructor; [|constructor]. exists 20. split; [reflexivity|].
      repeat (constructor; [lia|]). constructor.
    + constructor; [reflexivity|constructor].
Defined.

(** ** The chunks of a view and its full index *)

Lemma In_combine_map {X Y} (f : X -> Y) (l : list X) (x : X) :
  In x l -> In (x, f x) (combine l (map f l)).
Proof.
  induction l as [|y l IH]; cbn [map combine]; intros H; [contradiction|].
  destruct H as [->|H]; [left; reflexivity|right; apply IH; assumption].
Qed.

(** The index of every planned chunk can be read on the array. *)
Lemma plan_chunk_selection {X} (data : ndarray X) (mask : option Mask)
    (nMca : Z) (mcaAxis : option Z) (mcaSlice : option slice)
    (axesOrder : option (list Z)) (chunks : list Chunk) (ca ao : list Z)
    (nb : Z) :
  wf_array data ->
  valid_axes (arr_shape data) (view_kwargs mcaAxis mcaSlice axesOrder) ->
  mask_accepted (arr_shape data) (view_kwargs mcaAxis mcaSlice axesOrder)
                mask ->
  (forall mk, mask = Some mk ->
     mask_fits (arr_shape data) nMca
               (view_kwargs mcaAxis mcaSlice axesOrder) mk) ->
  maskedChunkIndex (arr_shape data) nMca mask
                   (view_kwargs mcaAxis mcaSlice axesOrder)
    = Ok (map Some chunks, ca, ao, nb) ->
  forall ch, In ch chunks ->
    exists rshape sel,
      selection (arr_shape data) (fst (fst ch)) = Ok (rshape, sel).
Proof.
  intros Hwf Hvalid Hmask Hfit Hplan ch Hch.
  assert (Hg : exists g, getitem data (fst (fst ch)) = Ok g).
  { destruct mask as [mk|].
    - destruct (masked_view_chunks data nMca mcaAxis mcaSlice axesOrder mk
                  Hwf Hvalid Hmask (Hfit mk eq_refl))
        as (chunks0 & ca0 & ao0 & nChan & n2 & Hres & _ & _ & _ & Hall).
      rewrite Hres in Hplan. injection Hplan as Heq _ _ _.
      apply map_Some_inj in Heq. subst chunks0.
      rewrite Forall_forall in Hall.
      destruct (co_get _ _ _ _ _ _ _ (Hall ch Hch)) as (g & Hg & _).
      exists g. exact Hg.
    - destruct (dense_view_chunks data nMca mcaAxis mcaSlice axesOrder Hwf
                  Hvalid)
        as (ci & ca0 & ao0 & nb0 & chunks0 & nChan & n2 & Hfull & Hprod & _
            & _ & _ & _ & Hall).
      unfold maskedChunkIndex in Hplan. rewrite Hfull in Hplan.
      cbn [bind] in Hplan. rewrite Hprod in Hplan. cbn [bind] in Hplan.
      injection Hplan as Heq _ _ _. apply map_Some_inj in Heq. subst chunks0.
      rewrite Forall_forall in Hall.
      destruct (co_get _ _ _ _ _ _ _ (Hall ch Hch)) as (g & Hg & _).
      exists g. exact Hg. }
  destruct Hg as (g & Hg).
  destruct (getitem_selection data g _ Hg) as (sel & Hs).
  exists (arr_shape g), sel. exact Hs.
Qed.

(** The chunks of a dense view: every index entry is a slice, the order
    axes are all the axes but the MCA axis, and every coordinate tuple is
    covered by a chunk on all order axes. *)
Lemma dense_plan_cover (shape : list Z) (nMca : Z) (mcaAxis : option Z)
    (mcaSlice : option slice) (axesOrder : option (list Z))
    (chunks : list Chunk) (ca ao : list Z) (nb : Z) :
  Forall (fun n => 0 <= n) shape ->
  valid_axes shape (view_kwargs mcaAxis mcaSlice axesOrder) ->
  maskedChunkIndex shape nMca None (view_kwargs mcaAxis mcaSlice axesOrder)
    = Ok (map Some chunks, ca, ao, nb) ->
  let ma' := norm_axis (Z.of_nat (List.length shape))
               (match mcaAxis with None => -1 | Some a => a end) in
  (forall ch k, In ch chunks -> (k < List.length shape)%nat ->
     exists s, nth_error (fst (fst ch)) k = Some (ISlice s)) /\
  (forall k, (k < List.length shape)%nat -> Z.of_nat k <> ma' ->
     In (Z.of_nat k) ao) /\
  (forall c, valid_coord shape c ->
     exists ch, In ch chunks /\
       forall a, In a ao ->
         chunk_selects shape (fst (fst ch)) a (nth (Z.to_nat a) c 0) = true).
Proof.
  intros Hshape Hvalid Hplan. cbv zeta.
  set (kw := view_kwargs mcaAxis mcaSlice axesOrder) in *.
  set (ma := match mcaAxis with None => -1 | Some a => a end).
  set (ma' := norm_axis (Z.of_nat (List.length shape)) ma).
  destruct (fullChunkIndex_plan shape nMca kw Hshape Hvalid)
    as (ca0 & ao0 & sl & ci1 & nm & piecesL & chunks0 & Hpar & Hpa & Hci1
        & Hsz & Hparts & _ & _ & Hfull & Hprod & Hchunks).
  destruct (chunkIndexParameters_ok shape nMca kw Hvalid)
    as (ca' & ao' & sl' & Hpar' & Hca & Hsl & Hperm & _).
  rewrite Hpar in Hpar'. injection Hpar' as <- <- <-.
  cbn in Hca. fold ma in Hca. fold ma' in Hca.
  destruct (dense_planner_summary shape nMca kw Hshape Hvalid)
    as (ci' & ca' & ao' & nb' & chunks' & sizes & Hfull' & Hprod' & _ & Hcov
        & _).
  rewrite Hfull in Hfull'. injection Hfull' as <- <- <- <-.
  assert (Heq0 : Ok chunks0 = Ok chunks') by (rewrite <- Hprod; exact Hprod').
  injection Heq0 as <-.
  unfold maskedChunkIndex in Hplan. rewrite Hfull in Hplan.
  cbn [bind] in Hplan. rewrite Hprod in Hplan. cbn [bind] in Hplan.
  injection Hplan as Heq _ Hao _. apply map_Some_inj in Heq.
  subst chunks0 ao0.
  pose proof (planned_axes_perm _ _ _ _ Hpa) as Hall.
  pose proof (pa_order_range _ _ _ _ Hpa) as Hor.
  assert (Hlt : forall t, In t (product (ci1 ++ rev piecesL)) ->
            List.length t = List.length (ca0 ++ rev ao)).
  { intros t Ht. apply product_In in Ht. rewrite (Forall2_length Ht).
    rewrite !length_app, !length_rev.
    rewrite <- (Forall2_length Hci1), length_combine.
    rewrite (pa_slices_len _ _ _ _ Hpa), Nat.min_id.
    rewrite <- (Forall2_length Hparts).
    pose proof (mapM_length _ _ _ Hsz) as Hl. rewrite length_map in Hl.
    unfold order_sizes in Hsz. lia. }
  split; [|split].
  - intros ch k Hch Hk.
    destruct (Forall2_In_r _ _ _ _ Hchunks Hch)
      as (t & Ht & (Hlen & _ & Hidx & _)).
    assert (Hin : In (Z.of_nat k) (ca0 ++ rev ao)).
    { apply in_app_iff.
      assert (H : In (Z.of_nat k) (ca0 ++ ao)).
      { apply (Permutation_in _ (Permutation_sym Hall)).
        apply py_range_0_n_In. lia. }
      apply in_app_iff in H. destruct H as [H|H]; [left; assumption|].
      right. apply in_rev in H. exact H. }
    apply In_nth_error in Hin. destruct Hin as (j & Hj).
    assert (Hjl : (j < List.length t)%nat)
      by (rewrite (Hlt t Ht); apply nth_error_Some; congruence).
    destruct (nth_error t j) as [p|] eqn:Hp;
      [|apply nth_error_None in Hp; lia].
    destruct (Hidx (Z.of_nat k) p) as [H _].
    { apply (nth_error_In _ j).
      apply nth_error_combine_Some; assumption. }
    exists (fst p). apply py_index_nth_error. exact H.
  - intros k Hk Hne. apply (Permutation_in _ (Permutation_sym Hperm)).
    apply other_axes_In. split; [lia|]. rewrite Hca.
    intros [H|[]]. congruence.
  - intros c Hc.
    set (co := map (fun a => nth (Z.to_nat a) c 0) ao).
    assert (Hspace : in_order_space shape ao co).
    { unfold in_order_space, co.
      apply Forall2_flip. rewrite <- (map_id ao) at 2.
      apply Forall2_map_In. intros a Ha.
      rewrite Forall_forall in Hor. pose proof (Hor a Ha) as Hr.
      assert (Hal : (Z.to_nat a < List.length shape)%nat) by lia.
      destruct (nth_error shape (Z.to_nat a)) as [n|] eqn:Hn;
        [|apply nth_error_None in Hn; lia].
      exists n. split.
      - rewrite py_index_nonneg by lia. rewrite Hn. reflexivity.
      - apply (valid_coord_nth shape c _ n Hc Hn). }
    pose proof (Hcov co Hspace) as H1.
    destruct (filter (dense_chunk_covers shape ao co) chunks) as [|ch rest]
      eqn:Ef; [discriminate|].
    assert (Hch : In ch (filter (dense_chunk_covers shape ao co) chunks))
      by (rewrite Ef; left; reflexivity).
    apply filter_In in Hch. destruct Hch as [Hch Hcover].
    exists ch. split; [exact Hch|].
    intros a Ha. unfold dense_chunk_covers in Hcover.
    apply andb_true_iff in Hcover. destruct Hcover as [_ Hcover].
    rewrite forallb_forall in Hcover.
    apply (Hcover (a, nth (Z.to_nat a) c 0)).
    unfold co. apply (In_combine_map (fun a => nth (Z.to_nat a) c 0)).
    exact Ha.
Qed.

Lemma nth_error_firstn_skipn_lt {X} (l : list X) (a b r : nat) :
  (r < b)%nat ->
  nth_error (firstn b (skipn a l)) r = nth_error l (a + r).
Proof.
  intros H. rewrite nth_error_firstn. apply Nat.ltb_lt in H. rewrite H.
  apply nth_error_skipn.
Qed.

(** The chunk of a masked view that holds rank [r] of the mask's index
    lists: its lists are the run [off, off + cnt) of the mask's, with
    [off <= r < off + cnt]. *)
Lemma masked_plan_row_chunk (shape : list Z) (nMca : Z) (mcaAxis : option Z)
    (mcaSlice : option slice) (axesOrder : option (list Z)) (mk : Mask)
    (chunks : list Chunk) (ca ao : list Z) (nb : Z) (r : nat) :
  Forall (fun n => 0 <= n) shape ->
  valid_axes shape (view_kwargs mcaAxis mcaSlice axesOrder) ->
  mask_accepted shape (view_kwargs mcaAxis mcaSlice axesOrder) (Some mk) ->
  mask_fits shape nMca (view_kwargs mcaAxis mcaSlice axesOrder) mk ->
  maskedChunkIndex shape nMca (Some mk)
                   (view_kwargs mcaAxis mcaSlice axesOrder)
    = Ok (map Some chunks, ca, ao, nb) ->
  (forall ind, In ind (mask_index mk) -> (r < List.length ind)%nat) ->
  exists ch (off cnt : nat),
    In ch chunks /\ (off <= r < off + cnt)%nat /\
    (forall k ks, nth_error (fst (fst ch)) k = Some (IList ks) ->
       List.length ks = cnt) /\
    (forall a ind, In (a, ind) (combine ao (mask_index mk)) ->
       0 <= a /\
       nth_error (fst (fst ch)) (Z.to_nat a)
       = Some (IList (firstn cnt (skipn off ind)))).
Proof.
  intros Hshape Hvalid (Hndim & Hpos & Hne) Hfit Hres Hr.
  set (kw := view_kwargs mcaAxis mcaSlice axesOrder) in *.
  set (ma := match mcaAxis with None => -1 | Some a => a end).
  set (ms := match mcaSlice with None => slice_all | Some s => s end).
  set (ma' := norm_axis (Z.of_nat (List.length shape)) ma).
  assert (Hmi : exists first others, mask_index mk = first :: others).
  { destruct (mask_index mk) as [|first others]; [contradiction|].
    exists first, others. reflexivity. }
  destruct Hmi as (first & others & Hmi).
  destruct (maskedChunkIndex_plan_full shape nMca kw mk first others Hshape
              Hvalid Hndim Hmi Hpos)
    as (ca0 & ao0 & sl & idxAxis0 & chunkShape0 & la & chunks0 & Hpar & Hpa
        & Hlao & Hl0 & Hidx0 & Hres0 & Hchunks & Hla & Hla1
        & _ & Hperm & Hca & Hsl).
  cbn in Hca, Hsl. fold ma in Hca. fold ms in Hsl. subst ca0 sl.
  fold ma' in Hpar, Hpa, Hidx0, Hperm.
  rewrite Hres0 in Hres. injection Hres as Heq _ <- _.
  apply map_Some_inj in Heq. subst chunks0.
  destruct Hfit as (c & ca' & ao' & sl' & m & Hpar' & Hf2 & Hsame).
  fold kw in Hpar'. rewrite Hpar in Hpar'. injection Hpar' as <- <- <- <-.
  assert (Hm : List.length first = m).
  { rewrite Forall_forall in Hsame. apply Hsame. rewrite Hmi. left.
    reflexivity. }
  subst m.
  assert (Hrm : (r < List.length first)%nat)
    by (apply Hr; rewrite Hmi; left; reflexivity).
  pose proof (pa_chunk_range _ _ _ _ Hpa) as Hcr.
  apply Forall_inv in Hcr. rename Hcr into Hma'.
  pose proof (pa_order_range _ _ _ _ Hpa) as Hor.
  assert (Hin : forall x, In x ao0 <->
                  0 <= x < Z.of_nat (List.length shape) /\ x <> ma').
  { intros x. split.
    - intros Hx. apply (Permutation_in _ Hperm) in Hx.
      apply other_axes_In in Hx. destruct Hx as [Hr0 Hn].
      split; [assumption|]. intros ->. apply Hn. left. reflexivity.
    - intros [Hr0 Hn]. apply (Permutation_in _ (Permutation_sym Hperm)).
      apply other_axes_In. split; [assumption|]. intros [H|[]]. congruence. }
  set (cap := Z.max nMca 1) in *.
  assert (Hc : 0 < cap) by (subst cap; lia).
  set (kz := Z.of_nat r / cap).
  assert (Hkz : 0 <= kz /\ kz * cap <= Z.of_nat r < kz * cap + cap).
  { subst kz. pose proof (Z.mul_div_le (Z.of_nat r) cap Hc).
    pose proof (Z.mul_succ_div_gt (Z.of_nat r) cap Hc).
    split; [apply Z.div_pos; lia|]. lia. }
  set (k := Z.to_nat kz).
  assert (Hk : (k < gen_count (Z.of_nat (List.length first)) cap)%nat).
  { unfold gen_count, k.
    assert (kz + 1 <= (Z.of_nat (List.length first) + cap - 1) / cap)
      by (apply Z.div_le_lower_bound; nia).
    lia. }
  assert (Hpk : nth_error
                  (map (gen_piece (Z.of_nat (List.length first)) cap)
                       (seq 0 (gen_count (Z.of_nat (List.length first)) cap)))
                  k
                = Some (gen_piece (Z.of_nat (List.length first)) cap k)).
  { rewrite nth_error_map, nth_error_seq.
    apply Nat.ltb_lt in Hk. rewrite Hk. reflexivity. }
  destruct (Forall2_nth_error_l _ _ _ _ _ Hchunks Hpk) as (ch & Hch & Hof).
  destruct Hof as (_ & Hlen & Hlists & Hkeep & _).
  unfold gen_piece in Hlists. cbn [fst snd] in Hlists.
  set (a := Z.of_nat k * cap) in *.
  set (b := Z.min (a + cap) (Z.of_nat (List.length first))) in *.
  assert (Hab : 0 <= a <= b /\ b <= Z.of_nat (List.length first) /\
                a <= Z.of_nat r < b)
    by (subst a b k; rewrite Z2Nat.id by lia; lia).
  assert (Hsub : forall axis ind,
            In (axis, ind) (combine ao0 (mask_index mk)) ->
            py_index (fst (fst ch)) axis
            = Ok (IList (firstn (Z.to_nat (b - a)) (skipn (Z.to_nat a) ind)))).
  { intros axis ind Hc0. destruct (Hlists _ _ Hc0) as (sub & Hsub & Hisub).
    rewrite Forall_forall in Hsame.
    pose proof (Hsame ind (in_combine_r _ _ _ _ Hc0)) as Hlind.
    rewrite py_getslice_unit in Hsub by lia. injection Hsub as <-.
    exact Hisub. }
  exists ch, (Z.to_nat a), (Z.to_nat (b - a)).
  split; [apply (nth_error_In _ _ Hch)|]. split; [lia|]. split.
  - intros k0 ks Hk0.
    assert (Hk0l : (k0 < List.length shape)%nat)
      by (rewrite <- Hl0, <- Hlen; apply nth_error_Some; congruence).
    destruct (Z.eq_dec (Z.of_nat k0) ma') as [E|E].
    + assert (H : py_index (fst (fst ch)) (Z.of_nat k0) = Ok (ISlice ms)).
      { rewrite E, Hkeep; [apply Hidx0; left; reflexivity|lia|].
        intros H. apply Hin in H. lia. }
      apply py_index_nth_error in H. congruence.
    + assert (Hi : In (Z.of_nat k0) ao0) by (apply Hin; lia).
      apply In_nth_error in Hi. destruct Hi as (j & Hj).
      destruct (Forall2_nth_error_l _ _ _ _ _ Hf2 Hj) as (ind & Hind & _).
      pose proof (nth_error_In _ _
                    (nth_error_combine_Some _ _ _ _ _ Hj Hind)) as Hcomb.
      pose proof (Hsub _ _ Hcomb) as H. apply py_index_nth_error in H.
      rewrite Hk0 in H. injection H as ->.
      rewrite Forall_forall in Hsame.
      pose proof (Hsame ind (nth_error_In _ _ Hind)) as Hlind.
      rewrite length_firstn, length_skipn. lia.
  - intros axis ind Hc0.
    assert (Hax : 0 <= axis).
    { rewrite Forall_forall in Hor.
      apply (Hor axis (in_combine_l _ _ _ _ Hc0)). }
    split; [assumption|].
    apply py_index_nth_error. rewrite Z2Nat.id by lia.
    apply (Hsub _ _ Hc0).
Qed.

Lemma MaskedView_init_plan {A B} (data : ndarray A) (mask : option Mask)
    (nMca : Z) (mcaAxis : option Z) (mcaSlice : option slice)
    (axesOrder : option (list Z)) (readonly : bool) :
  wf_array data ->
  valid_axes (arr_shape data) (view_kwargs mcaAxis mcaSlice axesOrder) ->
  mask_accepted (arr_shape data) (view_kwargs mcaAxis mcaSlice axesOrder)
                mask ->
  (forall mk, mask = Some mk ->
     mask_fits (arr_shape data) nMca
               (view_kwargs mcaAxis mcaSlice axesOrder) mk) ->
  exists (v : @View A B) chunks ca ao nb,
    MaskedView_init data mask (Some nMca) mcaAxis mcaSlice axesOrder readonly
      = Ok v /\
    maskedChunkIndex (arr_shape data) nMca mask
                     (view_kwargs mcaAxis mcaSlice axesOrder)
      = Ok (map Some chunks, ca, ao, nb).
Proof.
  intros Hwf Hvalid Hmask Hfit.
  set (ma := match mcaAxis with None => -1 | Some a => a end).
  set (ms := match mcaSlice with None => slice_all | Some s => s end).
  assert (Hkw : view_kwargs (Some ma) (Some ms) axesOrder
                = view_kwargs mcaAxis mcaSlice axesOrder) by reflexivity.
  destruct mask as [mk|].
  - destruct (masked_view_chunks data nMca mcaAxis mcaSlice axesOrder mk Hwf
                Hvalid Hmask (Hfit mk eq_refl))
      as (chunks & ca & ao & nChan & n2 & Hres & Hn2 & HnChan & _).
    fold ma in Hn2. fold ms in HnChan.
    eexists _, chunks, ca, ao, _. split; [|exact Hres].
    unfold MaskedView_init. cbn [bind]. fold ma ms. rewrite Hkw, Hres.
    cbn [bind]. rewrite Hn2. cbn [bind]. rewrite HnChan. reflexivity.
  - destruct (dense_view_chunks data nMca mcaAxis mcaSlice axesOrder Hwf
                Hvalid)
      as (ci & ca & ao & nb & chunks & nChan & n2 & Hfull & Hprod & Hn2
          & HnChan & _).
    fold ma in Hn2. fold ms in HnChan.
    eexists _, chunks, ca, ao, nb. split.
    + unfold MaskedView_init. cbn [bind]. fold ma ms. rewrite Hkw, Hfull.
      cbn [bind]. rewrite Hn2. cbn [bind]. rewrite HnChan. reflexivity.
    + unfold maskedChunkIndex. rewrite Hfull. cbn [bind]. rewrite Hprod.
      reflexivity.
Qed.

(** X20: the chunks of a view select together exactly the items of
    [data[view.idxFull]].  For a view over an in-memory array, dense or
    masked by index lists that fit the array, a position of the array is
    selected by [idxFull] if and only if the index of some planned chunk
    selects it: iterating the chunks visits all of [data[idxFull]] and
    nothing else. *)
Theorem view_chunks_select_idxFull {A B} (data : ndarray A)
    (mask : option Mask) (nMca : Z) (mcaAxis : option Z)
    (mcaSlice : option slice) (axesOrder : option (list Z))
    (readonly : bool)
    (Hwf : wf_array data)
    (Hvalid : valid_axes (arr_shape data)
                         (view_kwargs mcaAxis mcaSlice axesOrder))
    (Hmask : mask_accepted (arr_shape data)
                           (view_kwargs mcaAxis mcaSlice axesOrder) mask)
    (Hfit : forall mk, mask = Some mk ->
              mask_fits (arr_shape data) nMca
                        (view_kwargs mcaAxis mcaSlice axesOrder) mk) :
  exists (v : @View A B) chunks chunkAxes order nBuffer idx rshape full,
    MaskedView_init data mask (Some nMca) mcaAxis mcaSlice axesOrder readonly
      = Ok v /\
    maskedChunkIndex (arr_shape data) nMca mask
                     (view_kwargs mcaAxis mcaSlice axesOrder)
      = Ok (map Some chunks, chunkAxes, order, nBuffer) /\
    MaskedView_idxFull v = Ok idx /\
    selection (arr_shape data) idx = Ok (rshape, full) /\
    forall p,
      In p full <->
      exists ch rs sel,
        In ch chunks /\
        selection (arr_shape data) (fst (fst ch)) = Ok (rs, sel) /\
        In p sel.
Proof.
  pose proof Hwf as [Hshape _].
  destruct (MaskedView_init_plan (B:=B) data mask nMca mcaAxis mcaSlice
              axesOrder readonly Hwf Hvalid Hmask Hfit)
    as (v & chunks & ca & ao & nb & Hinit & Hplan).
  destruct (idxFull_selects data mask nMca mcaAxis mcaSlice axesOrder
              readonly v chunks ca ao nb Hwf Hvalid Hmask Hfit Hinit Hplan)
    as (idx & rshape & full & n2 & channels & Hfull & Hlen & Hsel & Hma'
        & Hn2 & Hl & Hin).
  destruct (idxFull_entries data mask nMca mcaAxis mcaSlice axesOrder
              readonly v chunks ca ao nb Hwf Hvalid Hmask Hfit Hinit Hplan)
    as (Hma2 & idx' & Hfull' & _ & Hms & Hrest).
  rewrite Hfull in Hfull'. injection Hfull' as <-.
  pose proof (plan_channel_index (arr_shape data) nMca mcaAxis mcaSlice
                axesOrder mask chunks ca ao nb Hshape Hvalid Hmask Hplan)
    as Hchan.
  rewrite Forall_forall in Hchan.
  set (shape := arr_shape data) in *.
  set (ms := match mcaSlice with None => slice_all | Some s => s end) in *.
  set (ma' := norm_axis (Z.of_nat (List.length shape))
                (match mcaAxis with None => -1 | Some a => a end)) in *.
  exists v, chunks, ca, ao, nb, idx, rshape, full.
  split; [exact Hinit|]. split; [exact Hplan|]. split; [exact Hfull|].
  split; [exact Hsel|].
  intros p. split.
  - intros Hp.
    destruct (selection_slice_axis shape idx rshape full (Z.to_nat ma') n2 ms
                channels Hlen Hsel Hn2 Hms Hl p Hp)
      as (c & Hc & -> & Hcin).
    destruct mask as [mk|].
    + destruct Hrest as (Hdim & Hcov & m & Hent).
      destruct (selection_list_rows shape idx rshape full m Hlen Hsel)
        with (p := ravel shape c) as (c' & r & Hc' & Heq & Hrow);
        [|exact Hp|].
      { intros k ks Hk. destruct (Z.eq_dec (Z.of_nat k) ma') as [E|E].
        - rewrite <- E, Nat2Z.id in Hms. congruence.
        - assert (Hkl : (k < List.length shape)%nat)
            by (rewrite <- Hlen; apply nth_error_Some; congruence).
          destruct (Hcov k Hkl E) as (ind & Hi).
          destruct (Hent _ _ Hi) as (_ & _ & Hix & Hlm & _).
          rewrite Nat2Z.id in Hix. congruence. }
      apply (ravel_inj shape c c' Hc Hc') in Heq. subst c'.
      assert (Hidxl : forall k ind, In (Z.of_nat k, ind)
                                       (combine ao (mask_index mk)) ->
                nth_error idx k = Some (IList ind) /\
                List.length ind = m /\
                exists n x, nth_error shape k = Some n /\
                            nth_error ind r = Some x /\
                            nth k c 0 = norm_axis n x).
      { intros k ind Hi.
        destruct (Hent _ _ Hi) as (Hr0 & _ & Hix & Hlm & _).
        rewrite Nat2Z.id in Hix. split; [exact Hix|]. split; [exact Hlm|].
        assert (Hkl : (k < List.length shape)%nat) by lia.
        destruct (nth_error shape k) as [n|] eqn:Hn;
          [|apply nth_error_None in Hn; lia].
        destruct (Hrow k n ind Hn Hix) as (x & Hx & Hcx).
        exists n, x. repeat split; assumption. }
      assert (Hrall : forall ind, In ind (mask_index mk) ->
                (r < List.length ind)%nat).
      { destruct (Hfit mk eq_refl) as (_ & _ & _ & _ & m' & _ & _ & Hsame).
        rewrite Forall_forall in Hsame.
        set (k0 := if Z.eq_dec ma' 0 then 1%nat else 0%nat).
        assert (Hk0 : (k0 < List.length shape)%nat /\ Z.of_nat k0 <> ma')
          by (subst k0; destruct (Z.eq_dec ma' 0); split; lia).
        destruct (Hcov k0 (proj1 Hk0) (proj2 Hk0)) as (ind0 & Hi0).
        destruct (Hidxl k0 ind0 Hi0) as (_ & _ & n & x & _ & Hx & _).
        assert (Hr0 : (r < List.length ind0)%nat)
          by (apply nth_error_Some; congruence).
        rewrite (Hsame ind0 (in_combine_r _ _ _ _ Hi0)) in Hr0.
        intros ind Hind. rewrite (Hsame ind Hind). exact Hr0. }
      destruct (masked_plan_row_chunk shape nMca mcaAxis mcaSlice axesOrder
                  mk chunks ca ao nb r Hshape Hvalid Hmask (Hfit mk eq_refl)
                  Hplan Hrall)
        as (ch & off & cnt & Hch & Hoff & Hlk & Hao).
      destruct (plan_chunk_selection data (Some mk) nMca mcaAxis mcaSlice
                  axesOrder chunks ca ao nb Hwf Hvalid Hmask Hfit Hplan ch
                  Hch) as (rs & sel & Hs).
      destruct (Hchan ch Hch) as [Hlc Hsl].
      fold ma' ms in Hsl. rewrite py_index_nonneg in Hsl by lia.
      destruct (nth_error (fst (fst ch)) (Z.to_nat ma')) as [e|] eqn:He;
        [|discriminate].
      injection Hsl as ->.
      exists ch, rs, sel. split; [exact Hch|]. split; [exact Hs|].
      apply (selection_complete shape (fst (fst ch)) rs sel c (r - off) cnt
               Hlc Hs Hc).
      * intros k n s Hn Hk. destruct (Z.eq_dec (Z.of_nat k) ma') as [E|E].
        -- rewrite <- E, Nat2Z.id in He, Hn2, Hcin.
           rewrite He in Hk. injection Hk as <-.
           rewrite Hn in Hn2. injection Hn2 as ->.
           exists channels. split; assumption.
        -- assert (Hkl : (k < List.length shape)%nat)
             by (apply nth_error_Some; congruence).
           destruct (Hcov k Hkl E) as (ind & Hi).
           destruct (Hao _ _ Hi) as [_ Hix]. rewrite Nat2Z.id in Hix.
           congruence.
      * intros k n ks Hn Hk. split; [apply (Hlk k ks Hk)|].
        destruct (Z.eq_dec (Z.of_nat k) ma') as [E|E].
        -- rewrite <- E, Nat2Z.id in He. congruence.
        -- assert (Hkl : (k < List.length shape)%nat)
             by (apply nth_error_Some; congruence).
           destruct (Hcov k Hkl E) as (ind & Hi).
           destruct (Hao _ _ Hi) as [_ Hix]. rewrite Nat2Z.id in Hix.
           rewrite Hix in Hk. injection Hk as <-.
           destruct (Hidxl k ind Hi) as (_ & _ & n' & x & Hn' & Hx & Hcx).
           rewrite Hn in Hn'. injection Hn' as <-.
           exists x. split; [|exact Hcx].
           rewrite nth_error_firstn_skipn_lt by lia.
           replace (off + (r - off))%nat with r by lia. exact Hx.
    + destruct (dense_plan_cover shape nMca mcaAxis mcaSlice axesOrder chunks
                  ca ao nb Hshape Hvalid Hplan) as (Hslices & Hord & Hcover).
      fold ma' in Hord.
      destruct (Hcover c Hc) as (ch & Hch & Hcs).
      destruct (plan_chunk_selection data None nMca mcaAxis mcaSlice
                  axesOrder chunks ca ao nb Hwf Hvalid Hmask Hfit Hplan ch
                  Hch) as (rs & sel & Hs).
      destruct (Hchan ch Hch) as [Hlc Hsl].
      fold ma' ms in Hsl. rewrite py_index_nonneg in Hsl by lia.
      destruct (nth_error (fst (fst ch)) (Z.to_nat ma')) as [e|] eqn:He;
        [|discriminate].
      injection Hsl as ->.
      exists ch, rs, sel. split; [exact Hch|]. split; [exact Hs|].
      apply (selection_complete shape (fst (fst ch)) rs sel c 0%nat 0%nat
               Hlc Hs Hc).
      * intros k n s Hn Hk. destruct (Z.eq_dec (Z.of_nat k) ma') as [E|E].
        -- rewrite <- E, Nat2Z.id in He, Hn2, Hcin.
           rewrite He in Hk. injection Hk as <-.
           rewrite Hn in Hn2. injection Hn2 as ->.
           exists channels. split; assumption.
        -- assert (Hkl : (k < List.length shape)%nat)
             by (apply nth_error_Some; congruence).
           pose proof (Hcs _ (Hord k Hkl E)) as Hcsk.
           unfold chunk_selects in Hcsk.
           rewrite (nth_error_py_index _ _ _ Hk) in Hcsk.
           rewrite (nth_error_py_index _ _ _ Hn) in Hcsk.
           cbn [index_select] in Hcsk.
           destruct (expand s n) as [l|]; [|discriminate].
           exists l. split; [reflexivity|].
           rewrite Nat2Z.id in Hcsk. apply py_in_In. exact Hcsk.
      * intros k n ks Hn Hk. exfalso.
        assert (Hkl : (k < List.length shape)%nat)
          by (apply nth_error_Some; congruence).
        destruct (Hslices ch k Hch Hkl) as (s & Hks). congruence.
  - intros (ch & rs & sel & Hch & Hs & Hp).
    destruct (Hchan ch Hch) as [Hlc Hsl].
    fold ma' ms in Hsl. rewrite py_index_nonneg in Hsl by lia.
    destruct (nth_error (fst (fst ch)) (Z.to_nat ma')) as [e|] eqn:He;
      [|discriminate].
    injection Hsl as ->.
    destruct (selection_slice_axis shape (fst (fst ch)) rs sel (Z.to_nat ma')
                n2 ms channels Hlc Hs Hn2 He Hl p Hp)
      as (c & Hc & -> & _).
    destruct (chunk_selected_coords shape mask nMca mcaAxis mcaSlice
                axesOrder chunks ca ao nb n2 channels Hshape Hvalid Hmask
                Hfit Hplan Hma' Hn2 Hl ch rs sel c Hch Hs Hc Hp) as [H1 H2].
    apply (Hin c Hc H1 H2).
Qed.

Lemma view_chunks_select_idxFull_witness :
  exists (v : @View Z Z) chunks chunkAxes order nBuffer idx rshape full,
    MaskedView_init data_20_10 (Some mask_7_of_20) (Some 3) None
                    (Some (mkSlice (Some 2) (Some 8) (Some 3))) None true
      = Ok v /\
    maskedChunkIndex (arr_shape data_20_10) 3 (Some mask_7_of_20)
                     (view_kwargs None
                        (Some (mkSlice (Some 2) (Some 8) (Some 3))) None)
      = Ok (map Some chunks, chunkAxes, order, nBuffer) /\
    MaskedView_idxFull v = Ok idx /\
    selection (arr_shape data_20_10) idx = Ok (rshape, full) /\
    forall p,
      In p full <->
      exists ch rs sel,
        In ch chunks /\
        selection (arr_shape data_20_10) (fst (fst ch)) = Ok (rs, sel) /\
        In p sel.
Proof.
  apply (view_chunks_select_idxFull data_20_10 (Some mask_7_of_20) 3 None
           (Some (mkSlice (Some 2) (Some 8) (Some 3))) None true).
  - split; [|reflexivity]. repeat (constructor; [lia|]). constructor.
  - constructor; cbn.
    + constructor; [unfold axis_in_range; cbn; lia|constructor].
    + constructor; [intros []|constructor].
    + split; [reflexivity|]. constructor; [discriminate|constructor].
    + exact I.
  - split; [reflexivity|]. split; [cbn; lia|discriminate].
  - intros mk Hmk. injection Hmk as <-.
    exists 3, [1], [0], [mkSlice (Some 2) (Some 8) (Some 3)], 7%nat.
    split; [reflexivity|]. split.
    + change (mask_index mask_7_of_20) with [[0; 3; 4; 8; 11; 15; 19]].
      constructor; [|constructor]. exists 20. split; [reflexivity|].
      repeat (constructor; [lia|]). constructor.
    + constructor; [reflexivity|constructor].
Defined.

(** ** The complement of the full index *)

(** One integer list, slices everywhere else: the index is accepted. *)
Lemma selection_one_list_ok (shape : list Z) (idx : list index) (ma : nat)
    (ks : list Z) :
  List.length idx = List.length shape ->
  nth_error idx ma = Some (IList ks) ->
  (forall n, nth_error shape ma = Some n ->
     Forall (fun x => - n <= x < n) ks) ->
  (forall k n, nth_error shape k = Some n -> k <> ma ->
     exists s l, nth_error idx k = Some (ISlice s) /\ expand s n = Ok l) ->
  exists rshape sel, selection shape idx = Ok (rshape, sel).
Proof.
  intros Hli Hma Hks Hax.
  destruct (resolve_index_total shape idx Hli) as (sels & Hres).
  { intros k n e Hn He. destruct (Nat.eq_dec k ma) as [->|E].
    - rewrite Hma in He. injection He as <-.
      destruct (index_select_list_ok ks n (Hks n Hn)) as (p & Hp & _).
      rewrite Hp. reflexivity.
    - destruct (Hax k n Hn E) as (s & l & Hs & Hl).
      rewrite Hs in He. injection He as <-. cbn [index_select].
      rewrite Hl. reflexivity. }
  destruct (resolve_index_nth _ _ _ Hli Hres) as [Hlen Hnth].
  pose proof (resolve_index_ok _ _ _ Hres) as Hok.
  assert (Hnd : NoDup (map fst sels))
    by (rewrite (proj1 Hok); apply py_range_0_n_NoDup).
  assert (Hmal : (ma < List.length shape)%nat)
    by (rewrite <- Hli; apply nth_error_Some; congruence).
  destruct (nth_error shape ma) as [n0|] eqn:Hn0;
    [|apply nth_error_None in Hn0; lia].
  destruct (Hnth ma n0 _ Hn0 Hma) as (sel0 & Hsel0 & p & Hp & ->).
  assert (Hadv : filter is_sel_list sels = [(Z.of_nat ma, SelList p)]).
  { rewrite <- (filter_fst_single sels (Z.of_nat ma) (SelList p) Hnd
                  (nth_error_In _ _ Hsel0)).
    apply filter_ext_in. intros s Hs.
    apply In_nth_error in Hs. destruct Hs as (k & Hk).
    assert (Hlt : (k < List.length shape)%nat)
      by (rewrite <- Hlen; apply nth_error_Some; congruence).
    destruct (nth_error shape k) as [n|] eqn:En;
      [|apply nth_error_None in En; lia].
    destruct (Nat.eq_dec k ma) as [->|E].
    - rewrite Hsel0 in Hk. injection Hk as <-. cbn [fst].
      rewrite Z.eqb_refl. reflexivity.
    - destruct (Hax k n En E) as (s0 & l & Hs0 & Hl).
      destruct (Hnth k n _ En Hs0) as (sel & Hsel & l' & _ & ->).
      rewrite Hsel in Hk. injection Hk as <-. cbn [fst].
      symmetry. apply Z.eqb_neq. lia. }
  unfold selection. rewrite Hres. cbn [bind].
  unfold result_dims. rewrite Hadv.
  cbn [map fold_right forallb snd sel_positions].
  rewrite Nat.max_0_r, Nat.eqb_refl. cbn [orb andb negb].
  destruct (all_diff_one _); cbn [bind]; eexists _, _; reflexivity.
Qed.

Lemma sliceComplement_In (slc : slice) (n : Z) (l comp : list Z) (x : Z) :
  expand slc n = Ok l -> sliceComplement slc n = Ok comp ->
  (In x comp <-> 0 <= x < n /\ ~ In x l).
Proof.
  unfold expand, sliceComplement. intros Hl Hc. rewrite Hl in Hc.
  cbn [bind] in Hc. injection Hc as <-.
  rewrite filter_In, py_range_0_n_In, negb_true_iff, py_in_false.
  reflexivity.
Qed.

(** X21: for a view without mask, [idxFull] and the index of
    [ChunkedView.idxFullComplement] (the one index such a view yields as
    its complement) split the array.  Both indices can be read on the
    array; [data[idxFull]] holds exactly the items whose position on the
    MCA axis is one the channel slice selects, the complement exactly the
    items whose position on the MCA axis is none of them; so every item
    lies in exactly one of the two selections. *)
Theorem idxFull_and_complement_split {A B} (data : ndarray A)
    (nMca : Z) (mcaAxis : option Z) (mcaSlice : option slice)
    (axesOrder : option (list Z)) (readonly : bool)
    (Hwf : wf_array data)
    (Hvalid : valid_axes (arr_shape data)
                         (view_kwargs mcaAxis mcaSlice axesOrder)) :
  exists (v : @View A B) idx idxc rshape full cshape comp nChanOrg channels,
    MaskedView_init data None (Some nMca) mcaAxis mcaSlice axesOrder readonly
      = Ok v /\
    MaskedView_idxFull v = Ok idx /\
    ChunkedView_idxFullComplement v = Ok idxc /\
    selection (arr_shape data) idx = Ok (rshape, full) /\
    selection (arr_shape data) idxc = Ok (cshape, comp) /\
    py_index (arr_shape data)
             (match mcaAxis with None => -1 | Some a => a end)
      = Ok nChanOrg /\
    expand (match mcaSlice with None => slice_all | Some s => s end) nChanOrg
      = Ok channels /\
    forall c,
      valid_coord (arr_shape data) c ->
      let x := nth (Z.to_nat
                      (norm_axis (Z.of_nat (List.length (arr_shape data)))
                         (match mcaAxis with None => -1 | Some a => a end)))
                   c 0 in
      (In (ravel (arr_shape data) c) full <-> In x channels) /\
      (In (ravel (arr_shape data) c) comp <-> ~ In x channels) /\
      (In (ravel (arr_shape data) c) full <->
       ~ In (ravel (arr_shape data) c) comp).
Proof.
  pose proof Hwf as [Hshape _].
  assert (Hfit : forall mk, @None Mask = Some mk ->
            mask_fits (arr_shape data) nMca
                      (view_kwargs mcaAxis mcaSlice axesOrder) mk)
    by (intros mk H; discriminate).
  destruct (MaskedView_init_plan (B:=B) data None nMca mcaAxis mcaSlice
              axesOrder readonly Hwf Hvalid I Hfit)
    as (v & chunks & ca & ao & nb & Hinit & Hplan).
  destruct (idxFull_selects data None nMca mcaAxis mcaSlice axesOrder
              readonly v chunks ca ao nb Hwf Hvalid I Hfit Hinit Hplan)
    as (idx & rshape & full & n2 & channels & Hfull & Hlen & Hsel & Hma'
        & Hn2 & Hl & Hin).
  destruct (idxFull_entries data None nMca mcaAxis mcaSlice axesOrder
              readonly v chunks ca ao nb Hwf Hvalid I Hfit Hinit Hplan)
    as (Hma2 & idx' & Hfull' & _ & Hms & _).
  rewrite Hfull in Hfull'. injection Hfull' as <-.
  destruct (MaskedView_init_fields data None nMca mcaAxis mcaSlice axesOrder
              readonly v (map Some chunks) ca ao nb Hinit Hplan)
    as (Hvd & Hva & Hvs & _).
  set (shape := arr_shape data) in *.
  set (ma := match mcaAxis with None => -1 | Some a => a end) in *.
  set (ms := match mcaSlice with None => slice_all | Some s => s end) in *.
  set (ma' := norm_axis (Z.of_nat (List.length shape)) ma) in *.
  assert (Hma : axis_in_range (Z.of_nat (List.length shape)) ma).
  { pose proof (va_chunk_range _ _ Hvalid) as H. cbn in H.
    inversion H; subst. assumption. }
  assert (Hn2' : py_index shape ma = Ok n2).
  { rewrite <- (py_index_norm_axis shape ma Hma). fold ma'.
    rewrite py_index_nonneg by lia. rewrite Hn2. reflexivity. }
  assert (Hcomp : exists compl, sliceComplement ms n2 = Ok compl).
  { unfold sliceComplement. unfold expand in Hl. rewrite Hl. cbn [bind].
    eexists. reflexivity. }
  destruct Hcomp as (compl & Hcompl).
  pose proof (fun x => sliceComplement_In ms n2 channels compl x Hl Hcompl)
    as Hcin.
  set (idxc := set_nth (repeat (ISlice slice_all) (List.length shape))
                       (Z.to_nat ma') (IList compl)).
  assert (Hidxc : ChunkedView_idxFullComplement v = Ok idxc).
  { unfold ChunkedView_idxFullComplement. rewrite Hvd, Hva, Hvs.
    fold shape. rewrite Hn2'. cbn [bind]. rewrite Hcompl. cbn [bind].
    rewrite py_setitem_norm by (rewrite repeat_length; exact Hma).
    rewrite repeat_length. reflexivity. }
  assert (Hlc : List.length idxc = List.length shape)
    by (unfold idxc; rewrite set_nth_length, repeat_length; reflexivity).
  assert (Hmc : nth_error idxc (Z.to_nat ma') = Some (IList compl)).
  { unfold idxc. apply nth_error_set_nth_eq. rewrite repeat_length. lia. }
  assert (Hoc : forall k, (k < List.length shape)%nat -> k <> Z.to_nat ma' ->
            nth_error idxc k = Some (ISlice slice_all)).
  { intros k Hk Hne. unfold idxc. rewrite nth_error_set_nth_neq by lia.
    apply nth_error_repeat. assumption. }
  assert (Hpos : forall k n, nth_error shape k = Some n -> 0 <= n).
  { intros k n Hn. rewrite Forall_forall in Hshape. apply Hshape.
    apply (nth_error_In _ _ Hn). }
  destruct (selection_one_list_ok shape idxc (Z.to_nat ma') compl Hlc Hmc)
    as (cshape & comp & Hselc).
  { intros n Hn. rewrite Hn2 in Hn. injection Hn as <-.
    apply Forall_forall. intros x Hx. apply Hcin in Hx. lia. }
  { intros k n Hn Hne. exists slice_all, (py_range 0 n 1).
    split; [apply Hoc; [apply nth_error_Some; congruence|assumption]|].
    apply expand_slice_all. apply (Hpos k n Hn). }
  exists v, idx, idxc, rshape, full, cshape, comp, n2, channels.
  split; [exact Hinit|]. split; [exact Hfull|]. split; [exact Hidxc|].
  split; [exact Hsel|]. split; [exact Hselc|].
  split; [exact Hn2'|]. split; [exact Hl|].
  intros c Hc. cbv zeta.
  pose proof (valid_coord_nth shape c _ n2 Hc Hn2) as Hcr.
  assert (Hfull_iff : In (ravel shape c) full
                      <-> In (nth (Z.to_nat ma') c 0) channels).
  { split.
    - intros Hp.
      destruct (selection_slice_axis shape idx rshape full (Z.to_nat ma') n2
                  ms channels Hlen Hsel Hn2 Hms Hl _ Hp)
        as (c' & Hc' & Heq & Hi).
      apply (ravel_inj shape c c' Hc Hc') in Heq. subst c'. exact Hi.
    - intros Hi. apply (Hin c Hc Hi I). }
  assert (Hcomp_iff : In (ravel shape c) comp
                      <-> In (nth (Z.to_nat ma') c 0) compl).
  { split.
    - intros Hp.
      destruct (selection_list_rows shape idxc cshape comp
                  (List.length compl) Hlc Hselc)
        with (p := ravel shape c) as (c' & r & Hc' & Heq & Hrow);
        [|exact Hp|].
      { intros k ks Hk. destruct (Nat.eq_dec k (Z.to_nat ma')) as [->|E].
        - rewrite Hmc in Hk. injection Hk as <-. reflexivity.
        - rewrite Hoc in Hk; [discriminate| |assumption].
          rewrite <- Hlc. apply nth_error_Some. congruence. }
      apply (ravel_inj shape c c' Hc Hc') in Heq. subst c'.
      destruct (Hrow _ n2 compl Hn2 Hmc) as (x & Hx & Hcx).
      pose proof (nth_error_In _ _ Hx) as Hxi.
      pose proof (proj1 (Hcin x) Hxi) as [Hxr _].
      unfold norm_axis in Hcx.
      destruct (x <? 0) eqn:E; zbool; [lia|]. rewrite Hcx. exact Hxi.
    - intros Hi. apply In_nth_error in Hi. destruct Hi as (r & Hr).
      apply (selection_complete shape idxc cshape comp c r
               (List.length compl) Hlc Hselc Hc).
      + intros k n s Hn Hk. destruct (Nat.eq_dec k (Z.to_nat ma')) as [->|E].
        * rewrite Hmc in Hk. discriminate.
        * rewrite Hoc in Hk;
            [|apply nth_error_Some; congruence|assumption].
          injection Hk as <-. exists (py_range 0 n 1). split.
          -- apply expand_slice_all. apply (Hpos k n Hn).
          -- apply py_range_0_n_In. apply (valid_coord_nth shape c k n Hc Hn).
      + intros k n ks Hn Hk. destruct (Nat.eq_dec k (Z.to_nat ma')) as [->|E].
        * rewrite Hmc in Hk. injection Hk as <-. split; [reflexivity|].
          exists (nth (Z.to_nat ma') c 0). split; [exact Hr|].
          unfold norm_axis.
          destruct (_ <? 0) eqn:E; zbool; [lia|reflexivity].
        * rewrite Hoc in Hk;
            [discriminate|apply nth_error_Some; congruence|assumption]. }
  split; [exact Hfull_iff|]. split.
  { rewrite Hcomp_iff, Hcin. split; [intros [_ Hn]; exact Hn|].
    intros Hn. split; [lia|exact Hn]. }
  rewrite Hfull_iff, Hcomp_iff, Hcin. split.
  - intros Hi [_ Hn]. apply Hn. exact Hi.
  - intros Hn. destruct (in_dec Z.eq_dec (nth (Z.to_nat ma') c 0) channels)
      as [Hi|Hi]; [exact Hi|].
    exfalso. apply Hn. split; [lia|exact Hi].
Qed.

Lemma idxFull_and_complement_split_witness :
  exists (v : @View Z Z) idx idxc rshape full cshape comp nChanOrg channels,
    MaskedView_init data_20_10 None (Some 7) None
                    (Some (mkSlice (Some 2) (Some 8) (Some 3))) None true
      = Ok v /\
    MaskedView_idxFull v = Ok idx /\
    ChunkedView_idxFullComplement v = Ok idxc /\
    selection (arr_shape data_20_10) idx = Ok (rshape, full) /\
    selection (arr_shape data_20_10) idxc = Ok (cshape, comp) /\
    py_index (arr_shape data_20_10) (-1) = Ok nChanOrg /\
    expand (mkSlice (Some 2) (Some 8) (Some 3)) nChanOrg = Ok channels /\
    forall c,
      valid_coord (arr_shape data_20_10) c ->
      let x := nth (Z.to_nat
                      (norm_axis
                         (Z.of_nat (List.length (arr_shape data_20_10)))
                         (-1)))
                   c 0 in
      (In (ravel (arr_shape data_20_10) c) full <-> In x channels) /\
      (In (ravel (arr_shape data_20_10) c) comp <-> ~ In x channels) /\
      (In (ravel (arr_shape data_20_10) c) full <->
       ~ In (ravel (arr_shape data_20_10) c) comp).
Proof.
  apply (idxFull_and_complement_split data_20_10 7 None
           (Some (mkSlice (Some 2) (Some 8) (Some 3))) None true).
  - split; [|reflexivity]. repeat (constructor; [lia|]). constructor.
  - constructor; cbn.
    + constructor; [unfold axis_in_range; cbn; lia|constructor].
    + constructor; [intros []|constructor].
    + split; [reflexivity|]. constructor; [discriminate|constructor].
    + exact I.
Defined.
